(* ===== verification/_CoqProject ===== *)
-Q . S2P
Prelude.v
JsString.v
JsDate.v
Curves.v
RiskZone.v
TreatmentZone.v
Followup.v
Results.v
Chart.v
ChartOptions.v
Input.v
Display.v
Table.v
TableHtml.v
ImageCopy.v
