(* ===== verification/Prelude.v ===== *)
(** * Biligram threshold engine: a verification development

    Biligram ([src/biligram.js], one file) plots a newborn's bilirubin
    levels on the Bhutani risk-zone nomogram and against the AAP
    phototherapy and exchange-transfusion thresholds, and prints a table of
    results with follow-up recommendations.  Its parts and how they
    interact:

    - [riskZone] (lines 32-98), an object literal: the Bhutani curves
      sampled every 4 h from 12 h of life, and [riskZone.exceeds(hours,
      level)], which interpolates each interior curve at [hours] and
      returns the zone index (0 high, 1 high-intermediate, 2
      low-intermediate, 3 low, -2 undefined).
    - [treatmentZone] (lines 108-200): phototherapy and transfusion lines
      sampled every 12 h from birth, [treatmentZone.exceeds(hours, level,
      ga)] returning the index of the highest line exceeded in each family,
      and two flags [phototherapyVisible] / [transfusiontherapyVisible]
      that it sets as a side effect and [renderChart] reads.
    - [getBiliResults] (lines 251-755): reads the DOM, merges and sorts the
      serum, POC and transcutaneous results, emits the warnings, then
      walks the results newest first, calls both [exceeds] (threading the
      flags), and appends a table row (with [addRiskToTableRow] and the
      texts of [followupRecommendations], lines 217-246 and 494-545) and a
      chart point per result.
    - [renderChart] and [addXCoordinates*] (lines 776-1005) turn the tables
      and the flags into Highcharts series.
    - [convertSVGtoPNG2], [copyGraphToPNG3], [copyGraphToPNG] (the
      handler of the legend's copy button), [copyGraphToPNG4] and
      [$.fn.toImage] (lines 1023-1220) copy the drawn SVG into an image
      through a canvas or a Blob.
    - The show/hide controls of the table (lines 700-748) and the entry
      point (lines 757-767), which calls [getBiliResults()] and then,
      depending on the page's path, [renderChart()].

    ** Files, in dependency order
    - [Prelude] (this file): JavaScript numbers as [num] ([Fin q],
      [PosInf], [NegInf] or [NaN]; [NaN] also stands for [undefined],
      which behaves the same under [+ - * /] and [>=]), their operations
      with the IEEE rules for infinities, array reads [js_get] with
      JavaScript's out-of-range [undefined], generic list lemmas, the hint
      database [js] and the tactic [js_simpl].
    - [JsString]: the library conversions the code calls, from
      ECMA-262: [parseInt], [parseFloat], StringToNumber (what a
      comparison of a text with a number applies), [split] on one
      character, [Number::toString] ([numberText] for integers,
      [numberToString] with the decimal and exponent layouts) and
      [toFixed(1)] as text ([toFixed1Text]), with their lemmas on decimal
      texts: an integer's text is its decimal digits, a [toFixed(1)] text
      reads back as its signed tenths, every value [parseFloat] returns
      is a terminating decimal whose [Number::toString] text [parseFloat]
      reads back exactly, [parseFloat] reads such a literal the same when
      a space and more text follow it ([readsAs_parseFloat]), and no
      number's text holds [<].
    - [JsDate]: the time values of ECMA-262 (section 21.4.1) behind the
      [Date] getters the table calls: [Day], [DayFromYear],
      [YearFromTime] (computed from an estimate by climbing at most three
      years), [MonthFromTime], [DateFromTime], [HourFromTime],
      [MinFromTime] and [MakeDay].
    - [Curves]: what both tables share, in Sections over the interval and
      the thresholds: the left sample ([leftIndex] = [x1Index], [leftX] =
      [x1]), the point-slope formula ([threshold], [interpolate]) and the
      early-exit loop over curves ([scan]); the boolean table checks
      [ordered_family] and [uniform_length]; the interface
      [SampledTable] of a table, with [RiskZone.riskZone_table],
      [TreatmentZone.phototherapy_table] and
      [TreatmentZone.transfusion_table] as its instances.
    - [RiskZone]: Module [RiskZone] = [riskZone]: the data, the constants,
      [exceeds]; the abstract zone [zone_spec].
    - [TreatmentZone]: Module [TreatmentZone] = [treatmentZone]: the data,
      the flags as a [state] record, [exceeds] as a function
      [state -> hours -> level -> ga -> result * state]; [tier_spec].
    - [Followup]: Module [Followup]: [followupRecommendations] as nested
      records, the table cells, [addRiskToTableRow].
    - [Results]: Module [Results]: [addMethod2], the sort
      ([Array.prototype.sort] modelled as a stable insertion sort), the
      [toFixed(1)] ages, the warnings, the loop body split into
      [processResult] (flags) and [classify] (point and cells), the index
      loop [resultsLoop] and [getBiliResults]; the abstract [rowsOf].
    - [Chart]: Module [Chart]: [addXCoordinates],
      [addXCoordinatesWithRange] and the series list of [renderChart]
      with its visibility from the flags; [page] = [getBiliResults] then
      [renderChart].
    - [ChartOptions]: Module [ChartOptions]: the rest of [chartOptions]
      (chart, axes, legend, tooltip, [plotOptions.series], each series'
      own options) and Highcharts' documented rules for defaults and for
      [linkedTo].
    - [Input]: Module [Input]: [translateData], [translatePhotoTherapy],
      [stickAColonInIt], [convertWholePlusFrac] and [readPage], the
      composition of lines 400-432 that builds the input [Results] reads.
    - [Display]: Module [Display]: what the table shows as a [state], the
      two [change] handlers, user clicks, the entry point, and the
      inductive [reachable] of the states a page can reach.
    - [Table]: Module [Table]: the two header rows of the result table
      with their [colspan], the columns a result row fills, and the
      draw-time text [drawtimeAbbreviated] of line 562 on the local time
      [t + LocalTZA(t)], with [LocalTZA] a Section variable.
    - [TableHtml]: Module [Html], the browser's reading of markup (the
      tokenizer of the HTML standard as a state machine [step] folded by
      [scan] for the tags and by [lex] for the tags and the characters,
      the text of each table cell ([cellTexts]), the width of each table
      row from its cells' [colspan], and the nesting of elements), and
      Module [TableHtml], the text
      [getBiliResults] appends to [#resultTable]: the alerts (lines 412
      and 421), the header literal (465-471), the validity banners
      (474-480), the markup of each cell and row (567, 645-690, 694) with
      the age string [hoursText] (557) and [Number::toString] of the
      level, and the closing tags (697, 700).
    - [ImageCopy]: Module [ImageCopy]: the five image-copy functions as
      computations of a state and exception monad [M] (notation
      [do x <- m ; k]) over a [world] (canvases by reference, Image
      objects with their [onload], [#copyImage] with its load handlers,
      the chart container, the queue of load events), the browser's
      calls modelled by their effect, and [settle], the load events run
      after the script.

    ** What the theorems show (claim ids in PROJECT.json)
    - Refinements: [RiskZone.exceeds] equals "low minus the number of
      interior curves reached" on its domain; each treatment family's tier
      equals "n minus the number of lines reached" on [0,144) h; the flag-
      threading index loop of [getBiliResults] equals the pure
      classification of the results newest first.  The curve orderings
      these rest on are checked on the tables by computation.
    - Agreement with the chart: at every sample age but the last, both
      classifiers compare the level with the tabulated values themselves,
      the values [renderChart] plots at that age ([num_eq], numbers up to
      the value of their rationals, is the setoid these statements are
      proved in).
    - Invariants: both classifiers are monotone in the level; the flags are
      raised exactly when a line is reached, over one call and over a page;
      every reachable display shows the rows its checked radio names and
      offers exactly one control to change it (rule induction).
    - Liveness and termination: from every reachable display each view is
      at most two clicks away; the results loop run as written on an
      integer index stops after exactly [length + 1] tests of its guard.
    - Equivalence: [addXCoordinatesWithRange] is [addXCoordinates] of the
      two bounds, paired point by point.
    - Chart options: each series' effective type fits its data; only the
      results series tracks the mouse and shows markers, so the tooltip
      formatter only reads result points; the linked treatment lines
      share the colour and visibility of their family's legend item.
    - The markup of the table: on every row, the text of the age cell
      (read by [parseFloat]), the string [hours] both classifiers
      receive (read by StringToNumber) and the age the classifier model
      compares are one number of tenths, within three minutes of the
      exact age (so the model may pass numbers); every result row is one [<tr>]
      with one [<td>] per cell, whatever the texts; the row widths read
      from the whole table's markup are the header's 7 and 7, 5 per
      validity banner and [Table.rowWidth] per result row, so the
      structured rows are what the browser lays out.
    - Order and content of the table and the chart: rows and chart points
      in descending draw time (the points in the order Highcharts rejects,
      as a comment says), a permutation of the tagged input, the first
      row's class; three columns per known zone, one per treatment
      family reached, against seven columns of header.
    - Round trips: on every page [readPage] reads, the text of each
      result row's level cell reads back with [parseFloat] as the row's
      level; the
      draw-time text [M/D H:MM] reads back, with [split]
      and [parseInt], as the local month, day, hour and minute, the
      minutes on two digits; [YearFromTime] is the largest year starting
      at or before the time value, and [MakeDay] of the year, month and
      date read off a time value gives back its day.
    - Safety: gestational age 38+ never selects the high-risk line.
    - Image copy: every function keeps the page well formed (the
      invariant [wf], proved compositionally through [bind]);
      [copyGraphToPNG] copies its canvas before the [onload] that draws
      on it has run; [copyGraphToPNG4] always throws; [$.fn.toImage] on
      several svgs leaves one image, in place of the last.
    - Input: [convertWholePlusFrac] computes [w + n/d] on decimal texts
      and keeps a text without a space (converted later by
      StringToNumber); [readPage] throws exactly on a short table row or
      an unreadable draw time; [translateData] skips two rows;
      [stickAColonInIt] is idempotent and its colon can be removed again.
    - Defects, proved as the code behaves: from 148 h every level is "low";
      from 144 h (and before birth) no treatment line is reported; a
      gestational age of exactly 38 weeks gets "Not applicable under 35
      weeks"; the under-35-weeks banner is unreachable; a point before 12 h
      reaching a line gets a tooltip starting with "undefined"; a
      gestational age written with a leading space or a unit ("37 weeks")
      is [NaN], which shows the "not validated" banner and makes every
      follow-up "Not applicable", and a zero denominator gives
      [Infinity]; the entry point's test for a table-only page is always
      true, so such a page draws the chart and shows only the latest
      row; a result reaching both a phototherapy and a transfusion line
      gets eight cells under the seven columns of the header, and before
      12 h a treatment note stands under "Risk level"; the note of a
      sick-infant treatment tier ends with [</span>], closing an element
      it never opened, so exactly those rows are malformed markup.

    ** Modelling choices and bounds
    - Numbers are exact rationals: binary floating point is not modelled,
      so a level equal to an interpolated threshold up to rounding, or an
      age exactly halfway between two tenths, may come out differently in
      the browser.  Ages are whole tenths of hours, as [toFixed(1)] gives.
    - Infinities arise only from [convertWholePlusFrac] (a zero
      denominator) and from [parseFloat] of "Infinity"; the sign of zero
      is not modelled (a text "-0" gives [+0], which differs from [-0]
      only as a divisor).  Draw times are milliseconds as [Z]; a birth
      time Date.js cannot parse is [null], which subtraction reads as 0.
      Strings are Rocq strings of 8-bit characters.
    - Every loop runs over a list or a bounded index and is modelled by
      structural recursion; the results loop is also modelled as written,
      on an integer index with fuel ([Results.forDown]), and [length + 1]
      units of fuel are shown to be enough and necessary.  [YearFromTime]
      climbs at most three years from one below its estimate, and the
      year is shown to be within one year of the estimate; the decimal text of an
      integer takes at most [1 + log2 n] digits of fuel, and
      [decimalForm] strips at most [1 + log2 d] factors 2 and 5 from a
      denominator [d] and as many trailing zeros from its digits.  The
      two-character minutes text of 0..59 is checked once by computation
      ([forallb_range]).
    - Markup is read with the tokenizer states a tag goes through (tag
      name, attribute name and value, quoted or not, self-closing);
      character references, comments other than bogus ones and the tree
      builder's implied tags (other than a cell's implied row) are not
      modelled: the texts the program writes use none of them.  The
      tooltip markup is kept as structured parts, not as text.
    - Not modelled: the jQuery selections themselves (a table is given as
      its rows' cell texts, a textarea as its text), Date.js's
      [Date.parse] (a Section variable), the slide animations (only where
      they end),
      Highcharts' drawing (its options are modelled, with the rules it
      documents for defaults and links), and the images of the
      image-copy functions
      as pixels: an image is the value it was made from (the layers of
      a canvas, an SVG text, a Blob URL), so [btoa]'s exception on a
      character beyond Latin-1 and the rendering itself are outside the
      model (strings are 8-bit here).

    ** What is left
    - An interface (a record of operations with their laws) for the two
      classifiers that [getBiliResults] calls, so that the loop's
      theorems are proved against it rather than the tables.
    - The text of the chart point tooltips (kept as structured parts).
    - Binary floating point: interpolated thresholds and [toFixed(1)]
      halves computed in doubles rather than exact rationals.
*)

From Stdlib Require Export QArith Qround ZArith List Lia Lqa Bool Sorted Permutation.
Export ListNotations.

(** ** JavaScript numbers *)

(** A JavaScript number: a finite value, an infinity, or [NaN].  Reading
    an array out of range yields [undefined], which every operation the
    engine applies to it ([+], [-], [*], [/], [>=]) treats as [NaN].  The
    sign of zero is not modelled: a zero is [+0]. *)
Inductive num : Type :=
| Fin (q : Q)
| PosInf
| NegInf
| NaN.

Declare Scope js_scope.
Delimit Scope js_scope with js.

(** Unary [-]. *)
Definition js_neg (a : num) : num :=
  match a with Fin x => Fin (- x) | PosInf => NegInf | NegInf => PosInf | NaN => NaN end.

Definition js_add (a b : num) : num :=
  match a, b with
  | Fin x, Fin y => Fin (x + y)
  | NaN, _ | _, NaN => NaN
  | PosInf, NegInf | NegInf, PosInf => NaN
  | PosInf, _ | _, PosInf => PosInf
  | NegInf, _ | _, NegInf => NegInf
  end.

Definition js_sub (a b : num) : num := js_add a (js_neg b).

(** An infinity times a finite [x]: [NaN] for zero, else signed by [x]. *)
Definition scale_inf (x : Q) (inf : num) : num :=
  match Qcompare x 0 with Eq => NaN | Gt => inf | Lt => js_neg inf end.

Definition js_mul (a b : num) : num :=
  match a, b with
  | Fin x, Fin y => Fin (x * y)
  | NaN, _ | _, NaN => NaN
  | Fin x, _ => scale_inf x b
  | _, Fin y => scale_inf y a
  | PosInf, PosInf | NegInf, NegInf => PosInf
  | _, _ => NegInf
  end.

Definition js_div (a b : num) : num :=
  match a, b with
  | NaN, _ | _, NaN => NaN
  | Fin x, Fin y =>
      match Qcompare y 0 with
      | Eq => match Qcompare x 0 with Eq => NaN | Gt => PosInf | Lt => NegInf end
      | _ => Fin (x / y)
      end
  | Fin _, _ => Fin 0
  | _, Fin y => match Qcompare y 0 with Lt => js_neg a | _ => a end
  | _, _ => NaN
  end.

(** [a >= b]: false as soon as one side is [NaN]. *)
Definition js_ge (a b : num) : bool :=
  match a, b with
  | NaN, _ | _, NaN => false
  | Fin x, Fin y => Qle_bool y x
  | PosInf, _ | _, NegInf => true
  | _, _ => false
  end.

(** [a < b]: false as soon as one side is [NaN]. *)
Definition js_lt (a b : num) : bool :=
  match a, b with
  | NaN, _ | _, NaN => false
  | _, _ => negb (js_ge a b)
  end.

Infix "+" := js_add : js_scope.
Infix "-" := js_sub : js_scope.
Infix "*" := js_mul : js_scope.
Infix "/" := js_div : js_scope.
Infix ">=?" := js_ge (at level 70) : js_scope.

(** [Number(b)] for a boolean, as in [length - (gaBirth >= 38)]. *)
Definition bool_to_Z (b : bool) : Z := if b then 1%Z else 0%Z.

(** [a[i]] for an array of numbers and an integer index. *)
Definition js_get (l : list Q) (i : Z) : num :=
  if (i <? 0)%Z then NaN
  else match nth_error l (Z.to_nat i) with Some q => Fin q | None => NaN end.

(** [Math.floor] on a finite number. *)
Definition js_floor (q : Q) : Z := Qfloor q.

(** Order on numbers used by the ordering hypotheses: both finite. *)
Definition num_le (a b : num) : Prop :=
  match a, b with Fin x, Fin y => x <= y | _, _ => False end.

(** Pointwise order of two sampled curves, as a boolean check. *)
Fixpoint pointwise_le (l1 l2 : list Q) : bool :=
  match l1, l2 with
  | x :: l1', y :: l2' => Qle_bool x y && pointwise_le l1' l2'
  | [], [] => true
  | _, _ => false
  end.

(** Whether a loop that searches for an index found one. *)
Definition is_some {A : Type} (o : option A) : bool :=
  match o with Some _ => true | None => false end.

(** ** Generic lemmas *)

Lemma js_ge_Fin (x y : Q) : js_ge (Fin x) (Fin y) = true <-> y <= x.
Proof. simpl. apply Qle_bool_iff. Qed.

Lemma js_ge_NaN_l (b : num) : js_ge NaN b = false.
Proof. reflexivity. Qed.

Lemma js_ge_NaN_r (a : num) : js_ge a NaN = false.
Proof. destruct a; reflexivity. Qed.

(** [NaN] absorbs [+] and [/]. *)
Lemma js_add_NaN_r (a : num) : js_add a NaN = NaN.
Proof. destruct a; reflexivity. Qed.

Lemma js_div_NaN_r (a : num) : js_div a NaN = NaN.
Proof. destruct a; reflexivity. Qed.

(** [a < b] and [a >= b] exclude each other. *)
Lemma js_lt_ge (a b : num) : js_lt a b = true -> js_ge a b = false.
Proof. destruct a, b; simpl; try easy; intros H; now apply negb_true_iff. Qed.

(** Raising the level keeps a threshold reached. *)
Lemma js_ge_level_mono (l l' : Q) (t : num) :
  l <= l' -> js_ge (Fin l) t = true -> js_ge (Fin l') t = true.
Proof.
  destruct t as [y| | |]; try discriminate; [|reflexivity].
  rewrite !js_ge_Fin. intros; lra.
Qed.

(** A level that reaches a threshold reaches every lower one. *)
Lemma js_ge_num_le (a t t' : num) :
  num_le t' t -> js_ge a t = true -> js_ge a t' = true.
Proof.
  destruct a as [x| | |], t as [y| | |], t' as [y'| | |]; simpl; try easy.
  rewrite !Qle_bool_iff. intros; lra.
Qed.

Lemma js_get_neg (l : list Q) (i : Z) : (i < 0)%Z -> js_get l i = NaN.
Proof. intros H. unfold js_get. now replace (i <? 0)%Z with true by lia. Qed.

Lemma js_get_past_end (l : list Q) (i : Z) :
  (Z.of_nat (length l) <= i)%Z -> js_get l i = NaN.
Proof.
  intros H. unfold js_get. replace (i <? 0)%Z with false by lia.
  rewrite (proj2 (nth_error_None l (Z.to_nat i))); [reflexivity | lia].
Qed.

Lemma js_get_in_range (l : list Q) (i : Z) :
  (0 <= i < Z.of_nat (length l))%Z ->
  exists q, js_get l i = Fin q /\ nth_error l (Z.to_nat i) = Some q.
Proof.
  intros H. unfold js_get. replace (i <? 0)%Z with false by lia.
  destruct (nth_error l (Z.to_nat i)) eqn:E.
  - eauto.
  - apply nth_error_None in E. lia.
Qed.

(** Two pointwise ordered curves give ordered reads at every index. *)
Lemma pointwise_le_get (l1 l2 : list Q) (i : Z) :
  pointwise_le l1 l2 = true -> (0 <= i < Z.of_nat (length l1))%Z ->
  num_le (js_get l1 i) (js_get l2 i).
Proof.
  unfold js_get. intros Hpw Hi. replace (i <? 0)%Z with false by lia.
  assert (Hn : (Z.to_nat i < length l1)%nat) by lia. clear Hi.
  revert l2 Hpw Hn. generalize (Z.to_nat i) as n. clear i.
  induction l1 as [|x l1 IH]; intros n l2 Hpw Hn; [simpl in Hn; lia|].
  destruct l2 as [|y l2]; [discriminate|].
  simpl in Hpw. apply andb_prop in Hpw as [Hxy Hrest].
  destruct n as [|n]; simpl.
  - now apply Qle_bool_iff.
  - apply IH; [exact Hrest | simpl in Hn; lia].
Qed.

Lemma pointwise_le_length (l1 l2 : list Q) :
  pointwise_le l1 l2 = true -> length l1 = length l2.
Proof.
  revert l2. induction l1 as [|x l1 IH]; intros [|y l2]; simpl; try easy.
  intros H. apply andb_prop in H as [_ H]. now rewrite (IH _ H).
Qed.

(** Taking one more element of a list appends its [nth]. *)
Lemma firstn_snoc {A : Type} (l : list A) (i : nat) (d : A) :
  (i < length l)%nat -> firstn (S i) l = firstn i l ++ [nth i l d].
Proof.
  revert i. induction l as [|a l IH]; intros [|i] H; simpl in *; try lia; auto.
  f_equal. apply IH. lia.
Qed.

(** A list sorted for [R] is sorted for the converse relation once
    reversed. *)
Lemma StronglySorted_rev {A : Type} (R : A -> A -> Prop) (l : list A) :
  StronglySorted R l -> StronglySorted (fun a b => R b a) (rev l).
Proof.
  induction l as [|a l IH]; intros H; simpl; [constructor|].
  inversion H as [|? ? Hl Hall]; subst.
  assert (Hgen : forall m, StronglySorted (fun a b => R b a) m ->
                 (forall y, In y m -> R a y) ->
                 StronglySorted (fun a b => R b a) (m ++ [a])).
  { induction m as [|b m IHm]; intros Hm Hy; simpl; [repeat constructor|].
    inversion Hm; subst. constructor.
    - apply IHm; auto. intros z Hz. apply Hy. now right.
    - apply Forall_app. split; [assumption|]. constructor; [apply Hy; now left | constructor]. }
  apply Hgen; [now apply IH|]. intros y Hy. apply in_rev in Hy.
  rewrite Forall_forall in Hall. now apply Hall.
Qed.

(** Strong sortedness of a mapped list, read on the list itself. *)
Lemma StronglySorted_map_inv {A B : Type} (R : B -> B -> Prop) (f : A -> B) (l : list A) :
  StronglySorted R (map f l) -> StronglySorted (fun a b => R (f a) (f b)) l.
Proof.
  induction l as [|a l IH]; simpl; intros H; [constructor|].
  inversion H as [|? ? Hl Hall]; subst. constructor; [now apply IH|].
  apply Forall_forall. intros b Hb. rewrite Forall_forall in Hall.
  apply Hall. now apply in_map.
Qed.

Lemma StronglySorted_weaken {A : Type} (R R' : A -> A -> Prop) (l : list A) :
  (forall a b, R a b -> R' a b) -> StronglySorted R l -> StronglySorted R' l.
Proof.
  intros HR. induction l as [|a l IH]; intros H; [constructor|].
  inversion H as [|? ? Hl Hall]; subst. constructor; [now apply IH|].
  eapply Forall_impl; [apply HR | exact Hall].
Qed.

Lemma StronglySorted_map {A B : Type} (R : B -> B -> Prop) (f : A -> B) (l : list A) :
  StronglySorted (fun a b => R (f a) (f b)) l -> StronglySorted R (map f l).
Proof.
  induction l as [|a l IH]; simpl; intros H; [constructor|].
  inversion H as [|? ? Hl Hall]; subst. constructor; [now apply IH|].
  apply Forall_map. exact Hall.
Qed.

Lemma existsb_perm {A : Type} (f : A -> bool) (l l' : list A) :
  Permutation l l' -> existsb f l = existsb f l'.
Proof.
  induction 1; simpl; try congruence.
  now rewrite !orb_assoc, (orb_comm (f y)).
Qed.

(** A boolean check of every integer of [0, k), computed once, holds of
    each of them. *)
Lemma forallb_range (f : Z -> bool) (k : nat) :
  forallb f (map Z.of_nat (seq 0 k)) = true -> forall n, (0 <= n < Z.of_nat k)%Z -> f n = true.
Proof.
  intros H n Hn. rewrite forallb_forall in H. apply H, in_map_iff.
  exists (Z.to_nat n). split; [lia | apply in_seq; lia].
Qed.

(** ** Numbers up to the value of their rationals *)

(** [Fin x] and [Fin y] are the same JavaScript number when [x == y];
    every comparison the engine makes respects this. *)
Definition num_eq (a b : num) : Prop :=
  match a, b with Fin x, Fin y => x == y | _, _ => a = b end.

#[export] Instance num_eq_equiv : Equivalence num_eq.
Proof.
  split.
  - intros [x| | |]; simpl; reflexivity.
  - intros [x| | |] [y| | |]; simpl; intros H; try discriminate; try reflexivity; now symmetry.
  - intros [x| | |] [y| | |] [z| | |]; simpl; intros H1 H2; try discriminate; try reflexivity.
    now transitivity y.
Qed.

#[export] Instance Fin_proper : Proper (Qeq ==> num_eq) Fin.
Proof. intros x y H. exact H. Qed.

#[export] Instance js_ge_proper : Proper (num_eq ==> num_eq ==> eq) js_ge.
Proof.
  intros [x| | |] [x'| | |] Hx [y| | |] [y'| | |] Hy; simpl in *;
    try discriminate; try reflexivity.
  apply eq_true_iff_eq. rewrite !Qle_bool_iff, Hx, Hy. reflexivity.
Qed.

Create HintDb js discriminated.
Create Rewrite HintDb js.
#[export] Hint Rewrite js_ge_NaN_l js_ge_NaN_r js_add_NaN_r js_div_NaN_r : js.
#[export] Hint Resolve js_ge_level_mono js_ge_num_le : js.

(** Unfold the JavaScript arithmetic and comparisons and drop the [NaN]
    comparisons. *)
Ltac js_simpl :=
  cbn [js_add js_sub js_neg js_mul js_div js_ge js_lt scale_inf] in *;
  autorewrite with js in *.
