(* ===== verification/JsString.v ===== *)
(** * JsString: the string conversions of the JavaScript library that
      the code calls

    The input code of [getBiliResults] calls [String.prototype.split],
    [parseInt], [parseFloat], and compares a string with a number (which
    converts the string by the abstract operation StringToNumber); the
    table prints numbers with [Number::toString] and the age with
    [toFixed(1)].  These are the library's, not the repository's: this
    file models them from ECMA-262 (sections 19.2.4 [parseFloat], 19.2.5
    [parseInt], 7.1.4.1.1 StringToNumber, 22.1.3.23 [split] with a
    one-character separator, 6.1.6.1.20 Number::toString, 21.1.3.3
    [toFixed] with one digit) on
    strings of 8-bit characters, so that the input code can be run and
    reasoned about on concrete texts.  Values are exact rationals (the
    rounding to a double is not modelled) and a zero is [+0]: [parseInt]
    and [parseFloat] of a text starting with "-0" give [-0] in the
    browser and [0] here, which differ only as a divisor.  White space is
    the 8-bit part of StrWhiteSpaceChar: TAB, LF, VT, FF, CR, SP and NBSP. *)

From S2P Require Import Prelude.
From Stdlib Require Import String Ascii Qpower.

Module JsString.

Local Open Scope char_scope.

(** ** Characters *)

Definition is_ws (c : ascii) : bool :=
  let n := nat_of_ascii c in
  ((9 <=? n) && (n <=? 13) || (n =? 32) || (n =? 160))%nat.

Fixpoint trimStart (s : list ascii) : list ascii :=
  match s with
  | c :: t => if is_ws c then trimStart t else s
  | [] => []
  end.

Definition trim (s : list ascii) : list ascii := rev (trimStart (rev (trimStart s))).

(** The value of [c] as a digit of [radix] ([0-9], then [a-z] or [A-Z]
    for 10 to 35), if it is one. *)
Definition digitValue (radix : Z) (c : ascii) : option Z :=
  let n := Z.of_nat (nat_of_ascii c) in
  let v := (if (48 <=? n) && (n <=? 57) then n - 48
            else if (97 <=? n) && (n <=? 122) then n - 87
            else if (65 <=? n) && (n <=? 90) then n - 55
            else radix)%Z in
  if (v <? radix)%Z then Some v else None.

(** The longest prefix of digits of [radix], as values, and the rest. *)
Fixpoint digits (radix : Z) (s : list ascii) : list Z * list ascii :=
  match s with
  | c :: t =>
      match digitValue radix c with
      | Some v => let '(ds, r) := digits radix t in (v :: ds, r)
      | None => ([], s)
      end
  | [] => ([], [])
  end.

(** The integer a list of digit values denotes, most significant first. *)
Definition digitsValue (radix : Z) (ds : list Z) : Z :=
  fold_left (fun acc d => acc * radix + d)%Z ds 0%Z.

(** ** [parseInt(string)] with [radix] undefined *)

(** An optional sign: [true] for ['-']. *)
Definition sign (s : list ascii) : bool * list ascii :=
  match s with
  | c :: t => if Ascii.eqb c "-" then (true, t) else if Ascii.eqb c "+" then (false, t) else (false, s)
  | [] => (false, [])
  end.

(** The radix with [stripPrefix]: a leading [0x] or [0X] selects 16. *)
Definition radixPrefix (s : list ascii) : Z * list ascii :=
  match s with
  | z :: x :: t => if Ascii.eqb z "0" && (Ascii.eqb x "x" || Ascii.eqb x "X") then (16%Z, t) else (10%Z, s)
  | _ => (10%Z, s)
  end.

Definition parseInt (str : string) : num :=
  let '(neg, s) := sign (trimStart (list_ascii_of_string str)) in
  let '(radix, s) := radixPrefix s in
  match digits radix s with
  | ([], _) => NaN
  | (ds, _) => let v := digitsValue radix ds in Fin (inject_Z (if neg then - v else v)%Z)
  end.

(** ** StrDecimalLiteral, [parseFloat] and StringToNumber *)

(** An ExponentPart, if one starts [s]: its value and the rest. *)
Definition exponentPart (s : list ascii) : Z * list ascii :=
  match s with
  | c :: t =>
      if Ascii.eqb c "e" || Ascii.eqb c "E" then
        let '(neg, t') := sign t in
        match digits 10%Z t' with
        | ([], _) => (0%Z, s)
        | (ds, r) => let v := digitsValue 10%Z ds in (if neg then - v else v, r)
        end%Z
      else (0%Z, s)
  | [] => (0%Z, [])
  end.

(** The longest StrUnsignedDecimalLiteral other than [Infinity] at the
    start of [s]: [digits (. digits?)? exponent?] or [. digits exponent?]. *)
Definition unsignedDecimal (s : list ascii) : option (Q * list ascii) :=
  let '(intDs, r1) := digits 10%Z s in
  let '(fracDs, r2) :=
    match r1 with
    | c :: t => if Ascii.eqb c "." then digits 10%Z t else ([], r1)
    | [] => ([], [])
    end in
  match intDs ++ fracDs with
  | [] => None
  | ds =>
      let '(e, r3) := exponentPart r2 in
      Some (inject_Z (digitsValue 10%Z ds) * 10%Q ^ (e - Z.of_nat (List.length fracDs))%Z, r3)
  end.

Definition infinity : list ascii := list_ascii_of_string "Infinity".

Fixpoint isPrefix (p s : list ascii) : bool :=
  match p, s with
  | [], _ => true
  | a :: p', b :: s' => Ascii.eqb a b && isPrefix p' s'
  | _, _ => false
  end.

(** The longest StrDecimalLiteral at the start of [s]. *)
Definition strDecimalLiteral (s : list ascii) : option (num * list ascii) :=
  let '(neg, s1) := sign s in
  if isPrefix infinity s1 then Some (if neg then NegInf else PosInf, skipn 8%nat s1)
  else
    match unsignedDecimal s1 with
    | Some (q, r) => Some (Fin (if neg then - q else q), r)
    | None => None
    end.

Definition parseFloat (str : string) : num :=
  match strDecimalLiteral (trimStart (list_ascii_of_string str)) with
  | Some (v, _) => v
  | None => NaN
  end.

(** A NonDecimalIntegerLiteral ([0b], [0o], [0x] and at least one digit)
    making up all of [s]. *)
Definition nonDecimal (s : list ascii) : option Q :=
  match s with
  | z :: x :: t =>
      let radix := if Ascii.eqb x "b" || Ascii.eqb x "B" then 2%Z
                   else if Ascii.eqb x "o" || Ascii.eqb x "O" then 8%Z
                   else if Ascii.eqb x "x" || Ascii.eqb x "X" then 16%Z else 0%Z in
      if Ascii.eqb z "0" && negb (radix =? 0)%Z then
        match digits radix t with
        | ((_ :: _) as ds, []) => Some (inject_Z (digitsValue radix ds))
        | _ => None
        end
      else None
  | _ => None
  end.

(** StringToNumber: the conversion a comparison applies to a string. *)
Definition stringToNumber (str : string) : num :=
  match trim (list_ascii_of_string str) with
  | [] => Fin 0
  | s =>
      match nonDecimal s with
      | Some q => Fin q
      | None =>
          match strDecimalLiteral s with
          | Some (v, []) => v
          | _ => NaN
          end
      end
  end.

(** ** [Number::toString] of an integer *)

(** The decimal digits of [n >= 0] in front of [acc], for at most [fuel]
    digits. *)
Fixpoint digitChars (fuel : nat) (n : Z) (acc : list ascii) : list ascii :=
  match fuel with
  | O => acc
  | S f =>
      let acc' := ascii_of_nat (48 + Z.to_nat (n mod 10)) :: acc in
      if (n <? 10)%Z then acc' else digitChars f (n / 10) acc'
  end.

(** The text of an integer: its decimal digits, with a minus sign when
    negative; [1 + log2 n] digits of fuel are enough. *)
Definition numberText (n : Z) : string :=
  let digitsOf m := string_of_list_ascii (digitChars (S (Z.to_nat (Z.log2 m))) m []) in
  if (n <? 0)%Z then String "-" (digitsOf (- n)%Z) else digitsOf n.

(** ** [Number::toString] *)

(** The character of a digit [0 <= d < 10]. *)
Definition digitChar (d : Z) : ascii := ascii_of_nat (48 + Z.to_nat d).

(** [n] zeros. *)
Definition zeros (n : nat) : string := string_of_list_ascii (repeat "0" n).

(** Count and remove the factors [p] of [d], at most [fuel] of them. *)
Fixpoint stripFactor (fuel : nat) (p d : Z) : nat * Z :=
  match fuel with
  | O => (O, d)
  | S f =>
      if (d mod p =? 0)%Z then let '(k, r) := stripFactor f p (d / p) in (S k, r) else (O, d)
  end.

(** Remove the trailing zeros of [s], counting them in the exponent. *)
Fixpoint dropZeros (fuel : nat) (s e : Z) : Z * Z :=
  match fuel with
  | O => (s, e)
  | S f => if (s mod 10 =? 0)%Z then dropZeros f (s / 10) (e + 1) else (s, e)
  end.

(** The digits [s] and exponent [e] of a positive [q] that is a
    terminating decimal: [q = s * 10^e], [s] not a multiple of 10. *)
Definition decimalForm (q : Q) : option (Z * Z) :=
  let d := Zpos (Qden q) in
  let fuel := S (Z.to_nat (Z.log2 d)) in
  let '(a, r) := stripFactor fuel 2 d in
  let '(b, r') := stripFactor fuel 5 r in
  if (r' =? 1)%Z then
    let k := Z.of_nat (Nat.max a b) in
    let m := (Qnum q * 10 ^ k / d)%Z in
    Some (dropZeros (S (Z.to_nat (Z.log2 m))) m (- k))
  else None.

(** Number::toString for [s * 10^e] (ECMA-262 6.1.6.1.20): with [k]
    digits and [n = k + e], the digits and [n - k] zeros when
    [k <= n <= 21], a point after [n] digits when [0 < n <= 21],
    ["0."] and [-n] zeros before the digits when [-6 < n <= 0], else
    the exponent form. *)
Definition layout (s e : Z) : string :=
  let ds := numberText s in
  let k := Z.of_nat (String.length ds) in
  let n := (k + e)%Z in
  let expText := String "e" (String (if (n - 1 <? 0)%Z then "-" else "+") (numberText (Z.abs (n - 1)))) in
  if (k <=? n)%Z && (n <=? 21)%Z then append ds (zeros (Z.to_nat (n - k)))
  else if (0 <? n)%Z && (n <=? 21)%Z then
    append (substring 0 (Z.to_nat n) ds) (String "." (substring (Z.to_nat n) (Z.to_nat (k - n)) ds))
  else if (-6 <? n)%Z && (n <=? 0)%Z then String "0" (String "." (append (zeros (Z.to_nat (- n))) ds))
  else if (k =? 1)%Z then append ds expText
  else append (substring 0 1 ds) (String "." (append (substring 1 (Z.to_nat (k - 1)) ds) expText)).

(** The text of a positive rational.  A value [parseFloat] gives is a
    terminating decimal; any other rational (which the program never
    prints) is shown by its first 20 decimals, where JavaScript would
    print the double nearest to it. *)
Definition positiveText (q : Q) : string :=
  match decimalForm q with
  | Some (s, e) => layout s e
  | None =>
      let m := (Qnum q * 10 ^ 20 / Zpos (Qden q))%Z in
      if (m =? 0)%Z then String "0" EmptyString
      else let '(s, e) := dropZeros (S (Z.to_nat (Z.log2 m))) m (-20) in layout s e
  end.

(** [Number::toString(x)]. *)
Definition numberToString (x : num) : string :=
  match x with
  | NaN => "NaN"%string
  | PosInf => "Infinity"%string
  | NegInf => "-Infinity"%string
  | Fin q =>
      if Qeq_bool q 0 then String "0" EmptyString
      else if (Qnum q <? 0)%Z then String "-" (positiveText (- q))
      else positiveText q
  end.

(** [(n / d).toFixed(1)] for [d > 0] (ECMA-262 21.1.3.3): a minus sign
    when [n / d < 0]; for [|n / d| >= 10^21] the Number::toString text;
    else the integer [t] nearest to [10 |n / d|] (the larger on a tie),
    written [t / 10], a point, [t mod 10]. *)
Definition toFixed1Text (n d : Z) : string :=
  let a := Z.abs n in
  let sgn := if (n <? 0)%Z then String "-" EmptyString else EmptyString in
  if (10 ^ 21 * d <=? a)%Z then append sgn (numberToString (Fin (Qmake a (Z.to_pos d))))
  else
    let t := ((20 * a + d) / (2 * d))%Z in
    append sgn (append (numberText (t / 10)) (String "." (String (digitChar (t mod 10)) EmptyString))).

(** ** [str.split(sep)] for a one-character separator *)

Fixpoint splitOn (sep : ascii) (s : string) : list string :=
  match s with
  | EmptyString => [EmptyString]
  | String c t =>
      let rest := splitOn sep t in
      if Ascii.eqb c sep then EmptyString :: rest
      else match rest with
           | r :: rs => String c r :: rs
           | [] => [String c EmptyString]
           end
  end.

(** ** Predicates on texts *)

(** [s] contains the character [c]. *)
Definition hasChar (c : ascii) (s : string) : bool :=
  existsb (fun x => Ascii.eqb x c) (list_ascii_of_string s).

(** [s] is made of decimal digits only. *)
Definition isDecimal (s : string) : bool :=
  forallb (fun c => is_some (digitValue 10 c)) (list_ascii_of_string s).

(** The integer a text of decimal digits denotes. *)
Definition decimalValue (s : string) : Z :=
  digitsValue 10 (map (fun c => Z.of_nat (nat_of_ascii c) - 48)%Z (list_ascii_of_string s)).

(** ** Lemmas *)

(** What a decimal digit is not: checked on the 256 characters. *)
Lemma decimal_digit_facts (c : ascii) :
  is_some (digitValue 10 c) = true ->
  is_ws c = false /\ Ascii.eqb c "-" = false /\ Ascii.eqb c "+" = false /\
  Ascii.eqb c "x" = false /\ Ascii.eqb c "X" = false /\ Ascii.eqb c "I" = false /\
  Ascii.eqb c "." = false /\ Ascii.eqb c "e" = false /\ Ascii.eqb c "E" = false /\
  Ascii.eqb c " " = false /\ Ascii.eqb c "/" = false /\
  digitValue 10 c = Some (Z.of_nat (nat_of_ascii c) - 48)%Z.
Proof.
  destruct c as [[] [] [] [] [] [] [] []]; vm_compute; intros H;
    first [discriminate H | repeat split].
Qed.

Lemma digits_decimal (l r : list ascii) :
  forallb (fun c => is_some (digitValue 10 c)) l = true -> digits 10 r = ([], r) ->
  digits 10 (l ++ r) = (map (fun c => Z.of_nat (nat_of_ascii c) - 48)%Z l, r).
Proof.
  intros Hl Hr. induction l as [|c l IH]; [exact Hr|].
  apply andb_prop in Hl as [Hc Hl]. cbn [app digits map].
  destruct (decimal_digit_facts c Hc) as (_ & _ & _ & _ & _ & _ & _ & _ & _ & _ & _ & ->).
  now rewrite (IH Hl).
Qed.

Lemma hasChar_app (c : ascii) (a b : string) :
  hasChar c (a ++ b) = hasChar c a || hasChar c b.
Proof.
  unfold hasChar. induction a as [|x a IH]; [reflexivity|].
  cbn [append list_ascii_of_string existsb]. rewrite IH. apply orb_assoc.
Qed.

Lemma hasChar_cons (c x : ascii) (s : string) :
  hasChar c (String x s) = Ascii.eqb x c || hasChar c s.
Proof. reflexivity. Qed.

Lemma splitOn_nonempty (sep : ascii) (s : string) : splitOn sep s <> [].
Proof.
  destruct s as [|c t]; cbn [splitOn]; [discriminate|].
  destruct (Ascii.eqb c sep), (splitOn sep t); discriminate.
Qed.

Lemma splitOn_nosep (sep : ascii) (s : string) :
  hasChar sep s = false -> splitOn sep s = [s].
Proof.
  induction s as [|c s IH]; [reflexivity|].
  rewrite hasChar_cons. intros H. apply orb_false_iff in H as [Hc H].
  cbn [splitOn]. now rewrite IH, Hc.
Qed.

Lemma splitOn_app (sep : ascii) (a b : string) :
  hasChar sep a = false -> splitOn sep (a ++ String sep b) = a :: splitOn sep b.
Proof.
  induction a as [|c a IH]; intros H.
  - cbn [append splitOn]. now rewrite Ascii.eqb_refl.
  - rewrite hasChar_cons in H. apply orb_false_iff in H as [Hc H].
    cbn [append splitOn]. now rewrite IH, Hc.
Qed.

Lemma parseInt_decimal (s : string) :
  isDecimal s = true -> s <> EmptyString -> parseInt s = Fin (inject_Z (decimalValue s)).
Proof.
  unfold isDecimal, decimalValue, parseInt. intros H Hne.
  destruct s as [|c t]; [contradiction|]. cbn [list_ascii_of_string] in *.
  pose proof H as H'. apply andb_prop in H' as [Hc Ht].
  destruct (decimal_digit_facts c Hc) as (Hws & Hm & Hp & _).
  cbn [trimStart sign]. rewrite Hws. cbn [trimStart sign]. rewrite Hm, Hp.
  assert (R : radixPrefix (c :: list_ascii_of_string t) = (10%Z, c :: list_ascii_of_string t)).
  { destruct t as [|x t]; [reflexivity|]. cbn [list_ascii_of_string forallb] in Ht.
    apply andb_prop in Ht as [Hx _].
    destruct (decimal_digit_facts x Hx) as (_ & _ & _ & Hx1 & Hx2 & _).
    cbn [list_ascii_of_string radixPrefix]. now rewrite Hx1, Hx2, andb_false_r. }
  rewrite R. rewrite <- (app_nil_r (c :: _)), digits_decimal by (exact H || reflexivity).
  rewrite app_nil_r. reflexivity.
Qed.

(** A decimal text contains no character that is not a digit. *)
Lemma isDecimal_hasChar (c : ascii) (s : string) :
  is_some (digitValue 10 c) = false -> isDecimal s = true -> hasChar c s = false.
Proof.
  intros Hc. unfold isDecimal. induction s as [|x t IH]; [reflexivity|].
  cbn [list_ascii_of_string forallb]. intros H. apply andb_prop in H as [Hx Ht].
  rewrite hasChar_cons, (IH Ht), orb_false_r.
  destruct (Ascii.eqb_spec x c) as [->|]; [congruence | reflexivity].
Qed.

(** A decimal text has no space and no slash. *)
Lemma isDecimal_noChar (s : string) :
  isDecimal s = true -> hasChar " " s = false /\ hasChar "/" s = false.
Proof. intros H. split; now apply isDecimal_hasChar. Qed.

(** ** Digit lists and the text of an integer *)

(** The value of a digit character. *)
Definition digitOf (c : ascii) : Z := (Z.of_nat (nat_of_ascii c) - 48)%Z.

Lemma digitsValue_acc (r : Z) (l : list Z) (a : Z) :
  fold_left (fun acc d => acc * r + d)%Z l a = (a * r ^ Z.of_nat (List.length l) + digitsValue r l)%Z.
Proof.
  unfold digitsValue. revert a. induction l as [|x l IH]; intros a; cbn [fold_left List.length].
  - cbn. lia.
  - rewrite (IH (a * r + x)%Z), (IH (0 * r + x)%Z). rewrite Nat2Z.inj_succ, Z.pow_succ_r by lia.
    ring.
Qed.

Lemma digitsValue_app (r : Z) (l1 l2 : list Z) :
  digitsValue r (l1 ++ l2) = (digitsValue r l1 * r ^ Z.of_nat (List.length l2) + digitsValue r l2)%Z.
Proof. unfold digitsValue at 1. now rewrite fold_left_app, digitsValue_acc. Qed.

(** The character of a digit [0 <= d < 10] is a digit of value [d]. *)
Lemma digit_char (d : Z) :
  (0 <= d < 10)%Z ->
  is_some (digitValue 10 (ascii_of_nat (48 + Z.to_nat d))) = true /\
  digitOf (ascii_of_nat (48 + Z.to_nat d)) = d.
Proof.
  intros H. assert (d = 0 \/ d = 1 \/ d = 2 \/ d = 3 \/ d = 4 \/ d = 5 \/ d = 6 \/ d = 7 \/ d = 8 \/ d = 9)%Z
    as E by lia.
  repeat destruct E as [-> | E]; [..| subst]; split; reflexivity.
Qed.

(** [digitChars] puts the digits of [n] in front of [acc] when [n] has
    at most [1 + fuel] digits. *)
Lemma digitChars_spec (f : nat) (n : Z) (acc : list ascii) :
  (0 <= n < 10 ^ Z.of_nat (S f))%Z ->
  exists ds, digitChars (S f) n acc = ds ++ acc /\ ds <> [] /\
             forallb (fun c => is_some (digitValue 10 c)) ds = true /\
             digitsValue 10 (map digitOf ds) = n.
Proof.
  revert n acc. induction f as [|f IH]; intros n acc H; cbn [digitChars];
    destruct (digit_char (n mod 10)) as [D1 D2]; try (apply Z.mod_pos_bound; lia).
  all: destruct (Z.ltb_spec n 10).
  1, 3: exists [ascii_of_nat (48 + Z.to_nat (n mod 10))]; cbn [forallb map]; rewrite D1, D2;
        repeat split; [discriminate | unfold digitsValue; cbn [fold_left]; rewrite Z.mod_small by lia; ring].
  - change (Z.of_nat 1) with 1%Z in H. rewrite Z.pow_1_r in H. lia.
  - destruct (IH (n / 10)%Z (ascii_of_nat (48 + Z.to_nat (n mod 10)) :: acc)) as (ds & E & N & F & V).
    + rewrite Nat2Z.inj_succ, Z.pow_succ_r in H by lia. split; [apply Z.div_pos; lia|].
      apply Z.div_lt_upper_bound; lia.
    + exists (ds ++ [ascii_of_nat (48 + Z.to_nat (n mod 10))]). rewrite <- app_assoc. repeat split.
      * exact E.
      * intros Hc. apply app_eq_nil in Hc as [_ Hc]. discriminate.
      * rewrite forallb_app, F. cbn [forallb]. now rewrite D1.
      * rewrite map_app, digitsValue_app, V. cbn [map List.length]. rewrite D2.
        unfold digitsValue. cbn [fold_left]. change (Z.of_nat 1) with 1%Z.
        rewrite Z.pow_1_r. pose proof (Z.div_mod n 10). lia.
Qed.

Lemma numberText_fuel (n : Z) : (0 <= n)%Z -> (n < 10 ^ Z.of_nat (S (Z.to_nat (Z.log2 n))))%Z.
Proof.
  intros H. rewrite Nat2Z.inj_succ, Z2Nat.id by apply Z.log2_nonneg.
  destruct (Z.eq_dec n 0) as [->|N]; [reflexivity|].
  apply Z.lt_le_trans with (2 ^ Z.succ (Z.log2 n))%Z.
  - apply Z.log2_spec. lia.
  - apply Z.pow_le_mono_l. pose proof (Z.log2_nonneg n). lia.
Qed.

(** The text of [n >= 0] is a nonempty decimal text of value [n]. *)
Lemma numberText_decimal (n : Z) :
  (0 <= n)%Z -> isDecimal (numberText n) = true /\ numberText n <> EmptyString /\
                decimalValue (numberText n) = n.
Proof.
  intros H. unfold numberText. destruct (Z.ltb_spec n 0); [lia|].
  destruct (digitChars_spec (Z.to_nat (Z.log2 n)) n [] (conj H (numberText_fuel n H)))
    as (ds & -> & N & F & V).
  rewrite app_nil_r. unfold isDecimal, decimalValue.
  rewrite list_ascii_of_string_of_list_ascii. repeat split; [exact F | | exact V].
  destruct ds; [contradiction | discriminate].
Qed.

(** ** Reading back a [toFixed(1)] text *)

Lemma digit_not_radix (c : ascii) :
  is_some (digitValue 10 c) = true ->
  Ascii.eqb c "b" = false /\ Ascii.eqb c "B" = false /\ Ascii.eqb c "o" = false /\
  Ascii.eqb c "O" = false /\ Ascii.eqb c "0" && false = false.
Proof.
  destruct c as [[] [] [] [] [] [] [] []]; vm_compute; intros H; first [discriminate H | repeat split].
Qed.

Lemma list_ascii_app (a b : string) :
  list_ascii_of_string (append a b) = list_ascii_of_string a ++ list_ascii_of_string b.
Proof. induction a as [|c a IH]; cbn; [reflexivity | now rewrite IH]. Qed.

(** [D.c], for a nonempty decimal text [D] and a digit [c], is the
    decimal literal of [(10 D + c) / 10], with nothing left over. *)
Lemma unsignedDecimal_fixed1 (ds : list ascii) (c : ascii) :
  forallb (fun c => is_some (digitValue 10 c)) ds = true -> ds <> [] ->
  is_some (digitValue 10 c) = true ->
  unsignedDecimal (ds ++ ["."; c]) =
    Some (inject_Z (digitsValue 10 (map digitOf ds) * 10 + digitOf c) * 10 ^ (-1), []).
Proof.
  intros D N C. unfold unsignedDecimal, digitOf.
  rewrite digits_decimal by (exact D || reflexivity).
  rewrite Ascii.eqb_refl. change [c] with ([c] ++ []).
  rewrite (digits_decimal [c] []) by (cbn [forallb]; rewrite ?C; reflexivity).
  cbn [map].
  destruct (map _ ds ++ _) as [|z l] eqn:E.
  - apply app_eq_nil in E as [E _]. apply map_eq_nil in E. contradiction.
  - cbn [exponentPart List.length]. rewrite <- E, digitsValue_app.
    change (Z.of_nat 1) with 1%Z. rewrite Z.pow_1_r. reflexivity.
Qed.

(** The characters of [[-]D.c]: no white space at either end, no
    [0x]-style prefix, and the decimal literal [+-(10 D + c) / 10]. *)
Lemma fixed1_literal (neg : bool) (ds : list ascii) (c : ascii) :
  forallb (fun c => is_some (digitValue 10 c)) ds = true -> ds <> [] ->
  is_some (digitValue 10 c) = true ->
  let L := (if neg then ["-"%char] else []) ++ ds ++ ["."; c] in
  let v := (inject_Z (digitsValue 10 (map digitOf ds) * 10 + digitOf c) * 10 ^ (-1))%Q in
  trimStart L = L /\ trim L = L /\ nonDecimal L = None /\
  strDecimalLiteral L = Some (Fin (if neg then - v else v), []).
Proof.
  intros D N C L v. destruct ds as [|d1 ds]; [contradiction|].
  cbn [forallb] in D. apply andb_prop in D as [D1 D].
  destruct (decimal_digit_facts d1 D1) as (W1 & M1 & P1 & X1 & X1' & I1 & _).
  destruct (decimal_digit_facts c C) as (Wc & _).
  assert (T : trimStart L = L) by (unfold L; destruct neg; cbn; [reflexivity | now rewrite W1]).
  assert (R : trimStart (rev L) = rev L).
  { unfold L. rewrite !rev_app_distr. cbn [rev app]. rewrite <- app_assoc. cbn. now rewrite Wc. }
  split; [exact T|]. split; [unfold trim; now rewrite T, R, rev_involutive|].
  assert (I : isPrefix infinity ((d1 :: ds) ++ ["."; c]) = false).
  { cbn [infinity list_ascii_of_string isPrefix app]. now rewrite Ascii.eqb_sym, I1. }
  assert (U : unsignedDecimal ((d1 :: ds) ++ ["."; c]) = Some (v, [])).
  { apply unsignedDecimal_fixed1; [cbn [forallb]; now rewrite D1, D | discriminate | exact C]. }
  destruct neg; cbn [app] in *; split.
  - reflexivity.
  - unfold L, strDecimalLiteral. cbn [sign]. change ("-" =? "-")%char with true. cbv iota.
    now rewrite I, U.
  - unfold L. destruct ds as [|d2 ds]; cbn [app nonDecimal].
    + cbn -[digits]. now destruct (d1 =? "0")%char.
    + cbn [forallb] in D. apply andb_prop in D as [D2 _].
      destruct (decimal_digit_facts d2 D2) as (_ & _ & _ & X2 & X2' & _).
      destruct (digit_not_radix d2 D2) as (B2 & B2' & O2 & O2' & _).
      rewrite B2, B2', O2, O2', X2, X2'. cbn. now destruct (Ascii.eqb d1 "0").
  - unfold L, strDecimalLiteral. cbn [sign]. rewrite M1, P1. now rewrite I, U.
Qed.

Lemma stringToNumber_literal (str : string) (x : num) :
  trim (list_ascii_of_string str) = list_ascii_of_string str -> list_ascii_of_string str <> [] ->
  nonDecimal (list_ascii_of_string str) = None ->
  strDecimalLiteral (list_ascii_of_string str) = Some (x, []) -> stringToNumber str = x.
Proof.
  intros H1 H2 H3 H4. unfold stringToNumber. rewrite H1.
  destruct (list_ascii_of_string str); [contradiction|]. now rewrite H3, H4.
Qed.

Lemma parseFloat_literal (str : string) (x : num) (rest : list ascii) :
  trimStart (list_ascii_of_string str) = list_ascii_of_string str ->
  strDecimalLiteral (list_ascii_of_string str) = Some (x, rest) -> parseFloat str = x.
Proof. intros H1 H2. unfold parseFloat. now rewrite H1, H2. Qed.

(** ** [parseFloat] reads the longest literal

    A StrDecimalLiteral followed by a character that cannot continue
    it (a space, a letter other than [e]) is read up to that
    character: [parseFloat("12.2 (Serum)")] is [12.2]. *)

(** Text that cannot continue a literal: nothing, or a first character
    that is not a digit, [.], [e] or [E]. *)
Definition stops (r : list ascii) : bool :=
  match r with
  | [] => true
  | c :: _ => negb (is_some (digitValue 10 c)) && negb (Ascii.eqb c ".") &&
              negb (Ascii.eqb c "e" || Ascii.eqb c "E")
  end.

Lemma stops_digits (r : list ascii) : stops r = true -> digits 10 r = ([], r).
Proof.
  destruct r as [|c r]; [reflexivity|]. cbn [stops digits].
  destruct (digitValue 10 c); [discriminate | reflexivity].
Qed.

Lemma digits_app (s r : list ascii) :
  digits 10 r = ([], r) -> digits 10 (s ++ r) = (fst (digits 10 s), snd (digits 10 s) ++ r).
Proof.
  intros Hr. induction s as [|c s IH]; [exact Hr|]. cbn [app digits].
  destruct (digitValue 10 c); [|reflexivity]. rewrite IH. now destruct (digits 10 s).
Qed.

Lemma sign_app (s r : list ascii) : s <> [] -> sign (s ++ r) = (fst (sign s), snd (sign s) ++ r).
Proof.
  destruct s as [|c s]; [contradiction|]. intros _. cbn [app sign].
  destruct (Ascii.eqb c "-"); [reflexivity|]. now destruct (Ascii.eqb c "+").
Qed.

Lemma exponentPart_app (s r : list ascii) (e : Z) :
  exponentPart s = (e, []) -> stops r = true -> exponentPart (s ++ r) = (e, r).
Proof.
  intros H Hr. destruct s as [|c s].
  - injection H as <-. destruct r as [|c r]; [reflexivity|]. cbn [app exponentPart]. cbn [stops] in Hr.
    destruct (Ascii.eqb c "e" || Ascii.eqb c "E"); [|reflexivity].
    rewrite andb_false_r in Hr. discriminate.
  - cbn [app exponentPart] in H |- *. destruct (Ascii.eqb c "e" || Ascii.eqb c "E"); [|discriminate].
    destruct s as [|c' s]; [discriminate|].
    rewrite (sign_app (c' :: s) r) by discriminate. destruct (sign (c' :: s)) as [neg t]. cbn [fst snd].
    rewrite digits_app by (now apply stops_digits). destruct (digits 10 t) as [[|d ds] rest]; [discriminate|].
    cbn [fst snd] in H |- *. injection H as He ->. now rewrite He.
Qed.

Lemma unsignedDecimal_app (s r : list ascii) (q : Q) :
  unsignedDecimal s = Some (q, []) -> stops r = true -> unsignedDecimal (s ++ r) = Some (q, r).
Proof.
  intros H Hr. unfold unsignedDecimal in *. pose proof (stops_digits r Hr) as Dr.
  rewrite (digits_app s r Dr). destruct (digits 10 s) as [I r1]. cbn [fst snd].
  assert (F : (match r1 ++ r with
               | c :: t => if Ascii.eqb c "." then digits 10 t else ([], r1 ++ r)
               | [] => ([], [])
               end) =
              (fst (match r1 with
                    | c :: t => if Ascii.eqb c "." then digits 10 t else ([], r1)
                    | [] => ([], [])
                    end),
               snd (match r1 with
                    | c :: t => if Ascii.eqb c "." then digits 10 t else ([], r1)
                    | [] => ([], [])
                    end) ++ r)).
  { destruct r1 as [|c t].
    - destruct r as [|c r]; [reflexivity|]. cbn [app stops] in Hr |- *.
      destruct (Ascii.eqb c "."); [|reflexivity]. rewrite andb_false_r, andb_false_l in Hr. discriminate.
    - cbn [app]. destruct (Ascii.eqb c "."); [exact (digits_app t r Dr) | reflexivity]. }
  rewrite F. destruct (match r1 with
                       | c :: t => if Ascii.eqb c "." then digits 10 t else ([], r1)
                       | [] => ([], [])
                       end) as [Fr r2]. cbn [fst snd].
  destruct (I ++ Fr) as [|z l]; [discriminate|].
  destruct (exponentPart r2) as [e r3] eqn:X. injection H as Hq ->.
  now rewrite (exponentPart_app _ _ _ X Hr), Hq.
Qed.

Lemma unsignedDecimal_head (s : list ascii) (q : Q) (r : list ascii) :
  unsignedDecimal s = Some (q, r) ->
  exists c t, s = c :: t /\ (is_some (digitValue 10 c) = true \/ c = "."%char).
Proof.
  unfold unsignedDecimal. destruct s as [|c t]; [discriminate|]. intros H. exists c, t. split; [reflexivity|].
  cbn [digits] in H. destruct (digitValue 10 c); [now left|]. right.
  destruct (Ascii.eqb c ".") eqn:E; [now apply Ascii.eqb_eq | discriminate].
Qed.

Lemma isPrefix_app (p s r : list ascii) :
  isPrefix p s = true ->
  isPrefix p (s ++ r) = true /\ skipn (List.length p) (s ++ r) = skipn (List.length p) s ++ r.
Proof.
  revert s. induction p as [|a p IH]; intros [|b s] H; cbn [isPrefix] in H; try discriminate.
  - split; reflexivity.
  - split; reflexivity.
  - apply andb_prop in H as [H1 H2]. cbn [app isPrefix List.length skipn]. rewrite H1.
    exact (IH s H2).
Qed.

(** A literal that ends a string is read the same when text that cannot
    continue it follows. *)
Lemma strDecimalLiteral_app (s r : list ascii) (x : num) :
  s <> [] -> strDecimalLiteral s = Some (x, []) -> stops r = true ->
  strDecimalLiteral (s ++ r) = Some (x, r).
Proof.
  intros Hs H Hr. unfold strDecimalLiteral in *. rewrite (sign_app s r Hs).
  destruct (sign s) as [neg s1]. cbn [fst snd]. destruct (isPrefix infinity s1) eqn:P.
  - destruct (isPrefix_app _ _ r P) as [A B]. change (List.length infinity) with 8%nat in B.
    rewrite A, B. destruct (skipn 8 s1); [now injection H as <- | discriminate].
  - destruct (unsignedDecimal s1) as [[q r1]|] eqn:U; [|discriminate]. injection H as <- ->.
    destruct (unsignedDecimal_head _ _ _ U) as (c & t & -> & Hc).
    replace (isPrefix infinity ((c :: t) ++ r)) with false.
    + now rewrite (unsignedDecimal_app _ _ _ U Hr).
    + symmetry. cbn [infinity list_ascii_of_string isPrefix app]. destruct Hc as [Hc | ->]; [|reflexivity].
      destruct (decimal_digit_facts c Hc) as (_ & _ & _ & _ & _ & I1 & _). now rewrite Ascii.eqb_sym, I1.
Qed.

Lemma trimStart_length (l : list ascii) : (List.length (trimStart l) <= List.length l)%nat.
Proof. induction l as [|c l IH]; [reflexivity|]. cbn [trimStart]. destruct (is_ws c); cbn; lia. Qed.

Lemma trimStart_app (s r : list ascii) : s <> [] -> trimStart s = s -> trimStart (s ++ r) = s ++ r.
Proof.
  destruct s as [|c s]; [contradiction|]. intros _ H. cbn [trimStart app] in *.
  destruct (is_ws c); [|reflexivity]. pose proof (trimStart_length s) as L. rewrite H in L. cbn in L. lia.
Qed.

(** [s] is a whole StrDecimalLiteral, with no leading space, denoting
    [x]. *)
Definition readsAs (s : string) (x : num) : Prop :=
  list_ascii_of_string s <> [] /\ trimStart (list_ascii_of_string s) = list_ascii_of_string s /\
  exists y, strDecimalLiteral (list_ascii_of_string s) = Some (y, []) /\ num_eq y x.

Lemma readsAs_parseFloat (s r : string) (x : num) :
  readsAs s x -> stops (list_ascii_of_string r) = true -> num_eq (parseFloat (s ++ r)) x.
Proof.
  intros (N & T & y & S & E) Hr. unfold parseFloat. rewrite list_ascii_app, trimStart_app by assumption.
  now rewrite (strDecimalLiteral_app _ _ _ N S Hr).
Qed.

(** A [toFixed(1)] text below [10^21] is a decimal literal of its
    signed tenths, with no space around it. *)
Lemma toFixed1Text_literal (n d : Z) :
  (0 < d)%Z -> (Z.abs n < 10 ^ 21 * d)%Z ->
  let t := ((20 * Z.abs n + d) / (2 * d))%Z in
  let L := list_ascii_of_string (toFixed1Text n d) in
  L <> [] /\ trimStart L = L /\ trim L = L /\ nonDecimal L = None /\
  strDecimalLiteral L =
    Some (Fin (if (n <? 0)%Z then - (inject_Z t * 10 ^ (-1)) else inject_Z t * 10 ^ (-1))%Q, []).
Proof.
  intros Hd Hn t L.
  assert (Ht : (0 <= t)%Z) by (apply Z.div_pos; lia).
  destruct (numberText_decimal (t / 10) (Z.div_pos t 10 Ht ltac:(lia))) as (D & N & V).
  destruct (digit_char (t mod 10) (Z.mod_pos_bound t 10 ltac:(lia))) as [C1 C2].
  assert (Hds : list_ascii_of_string (numberText (t / 10)) <> []).
  { destruct (numberText (t / 10)); [contradiction | discriminate]. }
  pose proof (fixed1_literal (n <? 0)%Z _ _ D Hds C1) as P. cbv zeta in P.
  destruct P as (T & Tr & ND & S).
  assert (E : L = (if (n <? 0)%Z then ["-"%char] else []) ++ list_ascii_of_string (numberText (t / 10)) ++
                  ["."; digitChar (t mod 10)]).
  { unfold L, toFixed1Text. replace (10 ^ 21 * d <=? Z.abs n)%Z with false by (symmetry; apply Z.leb_gt; lia).
    fold t. rewrite !list_ascii_app. now destruct (n <? 0)%Z. }
  unfold decimalValue in V. fold digitOf in V. unfold digitChar in E. rewrite V, C2 in S.
  replace (t / 10 * 10 + t mod 10)%Z with t in S by (pose proof (Z.div_mod t 10); lia).
  rewrite <- E in T, Tr, ND, S. split; [|tauto].
  rewrite E. intros Hc. apply app_eq_nil in Hc as [_ Hc]. apply app_eq_nil in Hc as [Hc _]. contradiction.
Qed.

(** A [toFixed(1)] text below [10^21] reads back, by StringToNumber and by
    [parseFloat], as the signed tenths it was made from. *)
Lemma toFixed1Text_read (n d : Z) :
  (0 < d)%Z -> (Z.abs n < 10 ^ 21 * d)%Z ->
  let t := ((20 * Z.abs n + d) / (2 * d))%Z in
  let v := Fin (inject_Z (if (n <? 0)%Z then - t else t) * 10 ^ (-1))%Q in
  num_eq (stringToNumber (toFixed1Text n d)) v /\ readsAs (toFixed1Text n d) v.
Proof.
  intros Hd Hn t v. destruct (toFixed1Text_literal n d Hd Hn) as (Hne & T & Tr & ND & S). fold t in S.
  assert (Ev : num_eq (Fin (if (n <? 0)%Z then - (inject_Z t * 10 ^ (-1)) else inject_Z t * 10 ^ (-1))%Q) v)
    by (unfold v, num_eq; destruct (n <? 0)%Z; [rewrite inject_Z_opp|]; ring).
  split.
  - now rewrite (stringToNumber_literal (toFixed1Text n d) _ Tr Hne ND S).
  - exact (conj Hne (conj T (ex_intro _ _ (conj S Ev)))).
Qed.

(** ** Characters a number's text never holds *)

(** [c] does not occur in [s]. *)
Definition noChar (c : ascii) (s : string) : bool :=
  forallb (fun x => negb (x =? c)) (list_ascii_of_string s).

Lemma noChar_append (c : ascii) (a b : string) :
  noChar c (append a b) = noChar c a && noChar c b.
Proof. unfold noChar. now rewrite list_ascii_app, forallb_app. Qed.

Lemma noChar_String (c x : ascii) (s : string) :
  noChar c (String x s) = negb (x =? c) && noChar c s.
Proof. reflexivity. Qed.

Lemma noChar_substring (c : ascii) (n m : nat) (s : string) :
  noChar c s = true -> noChar c (substring n m s) = true.
Proof.
  revert n m. induction s as [|x s IH]; intros [|n] [|m] H; try exact H; try reflexivity.
  - cbn [substring]. unfold noChar in *. cbn [list_ascii_of_string forallb] in *.
    apply andb_prop in H as [H1 H2]. rewrite H1. apply (IH 0%nat m H2).
  - cbn [substring]. unfold noChar in H. cbn [list_ascii_of_string forallb] in H.
    apply andb_prop in H as [_ H2]. now apply IH.
  - cbn [substring]. unfold noChar in H. cbn [list_ascii_of_string forallb] in H.
    apply andb_prop in H as [_ H2]. now apply IH.
Qed.

Lemma noChar_zeros (n : nat) : noChar "<" (zeros n) = true.
Proof.
  unfold noChar, zeros. rewrite list_ascii_of_string_of_list_ascii.
  induction n as [|n IH]; [reflexivity | exact IH].
Qed.

Lemma noChar_decimal (c : ascii) (s : string) :
  is_some (digitValue 10 c) = false -> isDecimal s = true -> noChar c s = true.
Proof.
  intros Hc H. unfold isDecimal, noChar in *. rewrite forallb_forall in *. intros x Hx.
  specialize (H x Hx). destruct (Ascii.eqb_spec x c) as [->|]; [congruence | reflexivity].
Qed.

Lemma numberText_neg (n : Z) : (n < 0)%Z -> numberText n = String "-" (numberText (- n)).
Proof.
  intros H. unfold numberText. rewrite (proj2 (Z.ltb_lt n 0) H).
  now replace (- n <? 0)%Z with false by (symmetry; apply Z.ltb_ge; lia).
Qed.

Lemma numberText_noLt (n : Z) : noChar "<" (numberText n) = true.
Proof.
  assert (D : forall m, (0 <= m)%Z -> noChar "<" (numberText m) = true)
    by (intros m Hm; apply noChar_decimal; [reflexivity | apply (numberText_decimal m Hm)]).
  destruct (Z.ltb_spec n 0) as [H|H]; [|now apply D].
  rewrite (numberText_neg n H). cbn [noChar list_ascii_of_string forallb].
  apply D. lia.
Qed.

Lemma digitChar_noLt (d : Z) : (0 <= d < 10)%Z -> (digitChar d =? "<") = false.
Proof.
  intros H. destruct (digit_char d H) as [C _]. unfold digitChar.
  destruct (Ascii.eqb_spec (ascii_of_nat (48 + Z.to_nat d)) "<") as [E|]; [|reflexivity].
  now rewrite E in C.
Qed.

Create Rewrite HintDb noLt.
#[global] Hint Rewrite noChar_append noChar_String noChar_zeros numberText_noLt : noLt.

Lemma layout_noLt (s e : Z) : noChar "<" (layout s e) = true.
Proof.
  assert (Sub : forall n m, noChar "<" (substring n m (numberText s)) = true)
    by (intros; apply noChar_substring, numberText_noLt).
  unfold layout.
  repeat match goal with |- context [if ?b then _ else _] => destruct b end;
    autorewrite with noLt; rewrite ?Sub; reflexivity.
Qed.

Lemma numberToString_noLt (x : num) : noChar "<" (numberToString x) = true.
Proof.
  assert (P : forall q, noChar "<" (positiveText q) = true).
  { intros q. unfold positiveText. destruct (decimalForm q) as [[s e]|]; [apply layout_noLt|].
    destruct (_ =? 0)%Z; [reflexivity|]. destruct (dropZeros _ _ _). apply layout_noLt. }
  destruct x as [q| | |]; try reflexivity. unfold numberToString.
  destruct (Qeq_bool q 0); [reflexivity|]. destruct (Qnum q <? 0)%Z; [|apply P].
  rewrite noChar_String, P. reflexivity.
Qed.

Lemma toFixed1Text_noLt (n d : Z) : noChar "<" (toFixed1Text n d) = true.
Proof.
  unfold toFixed1Text.
  destruct (n <? 0)%Z, (10 ^ 21 * d <=? Z.abs n)%Z; autorewrite with noLt;
    rewrite ?numberToString_noLt, ?digitChar_noLt by (apply Z.mod_pos_bound; lia); reflexivity.
Qed.

#[global] Hint Rewrite layout_noLt numberToString_noLt toFixed1Text_noLt : noLt.

(** ** Reading a number's text back *)

(** What [stripFactor] removed: [d = r * p^n]. *)
Lemma stripFactor_spec (f : nat) (p d : Z) (n : nat) (r : Z) :
  (1 < p)%Z -> stripFactor f p d = (n, r) -> d = (r * p ^ Z.of_nat n)%Z.
Proof.
  revert d n r. induction f as [|f IH]; intros d n r Hp H; cbn [stripFactor] in H.
  - injection H as <- <-. cbn. lia.
  - destruct (Z.eqb_spec (d mod p) 0) as [E|E].
    + destruct (stripFactor f p (d / p)) as [k r0] eqn:S. injection H as <- <-.
      apply IH in S; [|exact Hp]. rewrite (Z.div_mod d p) by lia. rewrite E, S.
      rewrite Nat2Z.inj_succ, Z.pow_succ_r by lia. ring.
    + injection H as <- <-. cbn. lia.
Qed.

Lemma pow10_succ (e : Z) : (10 ^ (e + 1) == 10 * 10 ^ e)%Q.
Proof. rewrite Qpower_plus by discriminate. change (10 ^ 1)%Q with 10%Q. ring. Qed.

Lemma dropZeros_spec (f : nat) (s e s' e' : Z) :
  dropZeros f s e = (s', e') ->
  (inject_Z s * 10 ^ e == inject_Z s' * 10 ^ e')%Q /\ ((0 < s)%Z -> (0 < s')%Z).
Proof.
  revert s e. induction f as [|f IH]; intros s e H; cbn [dropZeros] in H.
  - injection H as <- <-. split; [reflexivity | auto].
  - destruct (Z.eqb_spec (s mod 10) 0) as [E|E]; [|injection H as <- <-; split; [reflexivity | auto]].
    destruct (IH _ _ H) as [V P]. split.
    + rewrite <- V, pow10_succ. rewrite (Z.div_mod s 10) at 1 by lia. rewrite E, Z.add_0_r.
      rewrite inject_Z_mult. change (inject_Z 10) with 10%Q. ring.
    + intros Hs. apply P. pose proof (Z.div_mod s 10 ltac:(lia)). apply Z.div_str_pos. 
      pose proof (Z.mod_pos_bound s 10 ltac:(lia)). lia.
Qed.

Lemma pow10_neg (k : Z) : (0 <= k)%Z -> (10 ^ (- k) == / inject_Z (10 ^ k))%Q.
Proof. intros Hk. rewrite Qpower_opp, Zpower_Qpower by exact Hk. reflexivity. Qed.

Lemma inject_Z_nonzero (z : Z) : z <> 0%Z -> ~ (inject_Z z == 0)%Q.
Proof. intros H E. unfold Qeq in E. cbn in E. lia. Qed.

(** [decimalForm] gives the value: positive digits times a power of ten. *)
Lemma decimalForm_spec (q : Q) (s e : Z) :
  decimalForm q = Some (s, e) -> (0 < Qnum q)%Z -> (0 < s)%Z /\ (q == inject_Z s * 10 ^ e)%Q.
Proof.
  destruct q as [n dq]. unfold decimalForm. cbn [Qnum Qden].
  set (fuel := S (Z.to_nat (Z.log2 (Zpos dq)))).
  destruct (stripFactor fuel 2 (Zpos dq)) as [a r] eqn:S2. destruct (stripFactor fuel 5 r) as [b r'] eqn:S5.
  destruct (Z.eqb_spec r' 1) as [R|]; [|discriminate]. subst r'. intros H Hn.
  apply stripFactor_spec in S2; [|lia]. apply stripFactor_spec in S5; [|lia]. rewrite Z.mul_1_l in S5.
  set (k := Z.of_nat (Nat.max a b)) in H. set (m := (n * 10 ^ k / Zpos dq)%Z) in H.
  set (c := (2 ^ (k - Z.of_nat a) * 5 ^ (k - Z.of_nat b))%Z).
  assert (Cp : (0 < c)%Z) by (unfold c; apply Z.mul_pos_pos; apply Z.pow_pos_nonneg; lia).
  assert (C : (10 ^ k = Zpos dq * c)%Z).
  { assert (P2 : (2 ^ k = 2 ^ Z.of_nat a * 2 ^ (k - Z.of_nat a))%Z)
      by (rewrite <- Z.pow_add_r by lia; f_equal; lia).
    assert (P5 : (5 ^ k = 5 ^ Z.of_nat b * 5 ^ (k - Z.of_nat b))%Z)
      by (rewrite <- Z.pow_add_r by lia; f_equal; lia).
    change 10%Z with (2 * 5)%Z. rewrite Z.pow_mul_l, P2, P5, S2, S5. unfold c. ring. }
  assert (M : m = (n * c)%Z).
  { unfold m. rewrite C, (Z.mul_comm (Zpos dq) c), Z.mul_assoc. apply Z.div_mul. lia. }
  assert (H' : dropZeros (S (Z.to_nat (Z.log2 m))) m (- k) = (s, e)) by congruence.
  destruct (dropZeros_spec _ _ _ _ _ H') as [V P]. split.
  - apply P. rewrite M. lia.
  - rewrite <- V, M, pow10_neg by lia. rewrite C, !inject_Z_mult, Qmake_Qdiv.
    pose proof (inject_Z_nonzero (Zpos dq) ltac:(lia)). pose proof (inject_Z_nonzero c ltac:(lia)).
    field. auto.
Qed.



Definition allDigits (l : list ascii) : bool := forallb (fun c => is_some (digitValue 10 c)) l.

(** The value of a decimal literal [I (. F)? (e[+-]X)?]. *)
Definition exponentText (ex : option bool) (X : list ascii) : list ascii :=
  match ex with None => [] | Some neg => "e" :: (if neg then "-" else "+") :: X end.

Lemma digits_stop (c : ascii) (l : list ascii) :
  (c = "." \/ c = "e") -> digits 10 (c :: l) = ([], c :: l).
Proof. intros [-> | ->]; reflexivity. Qed.

Lemma unsignedDecimal_shape (I F X : list ascii) (pt : bool) (ex : option bool) :
  allDigits I = true -> allDigits F = true -> allDigits X = true -> I <> [] ->
  (pt = false -> F = []) -> (ex <> None -> X <> []) ->
  let v := digitsValue 10 (map digitOf X) in
  unsignedDecimal (I ++ (if pt then "." :: F else []) ++ exponentText ex X) =
    Some (inject_Z (digitsValue 10 (map digitOf (I ++ F))) *
          10 ^ (match ex with None => 0 | Some neg => if neg then - v else v end
                - Z.of_nat (List.length F)), [])%Q.
Proof.
  intros HI HF HX NI PF EX v. unfold unsignedDecimal.
  assert (E0 : digits 10 (exponentText ex X) = ([], exponentText ex X)) by (destruct ex; [apply digits_stop|]; auto).
  assert (EP : exponentPart (exponentText ex X) =
                 (match ex with None => 0 | Some neg => if neg then - v else v end, [])%Z).
  { destruct ex as [neg|]; [|reflexivity]. cbn [exponentText exponentPart].
    replace (("e" =? "e") || ("e" =? "E")) with true by reflexivity. assert (Sg : sign ((if neg then "-" else "+") :: X) = (neg, X)) by (destruct neg; reflexivity).
    rewrite Sg. rewrite <- (app_nil_r X), digits_decimal by (exact HX || reflexivity).
    rewrite app_nil_r. destruct X as [|x X]; [now destruct (EX ltac:(discriminate))|]. reflexivity. }
  destruct pt.
  - rewrite digits_decimal by (exact HI || reflexivity). cbn [app].
    replace ("." =? ".") with true by reflexivity.
    rewrite digits_decimal by (exact HF || exact E0). rewrite EP.
    unfold digitOf. rewrite <- map_app.
    destruct (map _ (I ++ F)) eqn:M; [apply map_eq_nil, app_eq_nil in M as [M _]; contradiction|].
    now rewrite length_map.
  - rewrite (PF eq_refl). cbn [app]. rewrite digits_decimal by (exact HI || exact E0).
    destruct ex as [neg|].
    + cbn [exponentText] in EP |- *. replace ("e" =? ".") with false by reflexivity. rewrite EP.
      unfold digitOf. rewrite app_nil_r.
      destruct (map _ I) eqn:M; [apply map_eq_nil in M; contradiction|]. now rewrite app_nil_r, M.
    + cbn [exponentText]. unfold digitOf. rewrite app_nil_r.
      destruct (map _ I) eqn:M; [apply map_eq_nil in M; contradiction|]. now rewrite app_nil_r, M.
Qed.

Lemma shape_reads (str : string) (neg : bool) (I F X : list ascii) (pt : bool) (ex : option bool) :
  allDigits I = true -> allDigits F = true -> allDigits X = true -> I <> [] ->
  (pt = false -> F = []) -> (ex <> None -> X <> []) ->
  list_ascii_of_string str =
    (if neg then ["-"] else []) ++ I ++ (if pt then "." :: F else []) ++ exponentText ex X ->
  let v := digitsValue 10 (map digitOf X) in
  let q := (inject_Z (digitsValue 10 (map digitOf (I ++ F))) *
            10 ^ (match ex with None => 0 | Some neg => if neg then - v else v end
                  - Z.of_nat (List.length F)))%Q in
  readsAs str (Fin (if neg then - q else q)).
Proof.
  intros HI HF HX NI PF EX H v q.
  pose proof (unsignedDecimal_shape I F X pt ex HI HF HX NI PF EX) as U. cbv zeta in U. fold v q in U.
  destruct I as [|d I']; [contradiction|]. unfold allDigits in HI. cbn [forallb] in HI.
  apply andb_prop in HI as [D _].
  destruct (decimal_digit_facts d D) as (W & M & P & _ & _ & I1 & _).
  assert (Inf : isPrefix infinity ((d :: I') ++ (if pt then "." :: F else []) ++ exponentText ex X) = false).
  { cbn [infinity list_ascii_of_string isPrefix app]. now rewrite Ascii.eqb_sym, I1. }
  unfold readsAs. rewrite H. split; [|split].
  - destruct neg; discriminate.
  - destruct neg; cbn [app trimStart]; [|now rewrite W]. now replace (is_ws "-") with false by reflexivity.
  - exists (Fin (if neg then - q else q)). split; [|reflexivity]. unfold strDecimalLiteral.
    destruct neg; cbn [app sign].
    + replace ("-" =? "-") with true by reflexivity. cbv iota.
      cbn [app] in Inf, U. rewrite Inf, U. reflexivity.
    + rewrite M, P. cbn [app] in Inf, U. rewrite Inf, U. reflexivity.
Qed.

Definition literalValue (I F X : list ascii) (ex : option bool) : Q :=
  let v := digitsValue 10 (map digitOf X) in
  (inject_Z (digitsValue 10 (map digitOf (I ++ F))) *
   10 ^ (match ex with None => 0 | Some neg => if neg then - v else v end - Z.of_nat (List.length F)))%Q.

Lemma substring_list (n m : nat) (s : string) :
  list_ascii_of_string (substring n m s) = firstn m (skipn n (list_ascii_of_string s)).
Proof.
  revert n m. induction s as [|c s IH]; intros [|n] [|m]; cbn; rewrite ?IH; cbn; reflexivity.
Qed.

Lemma length_list (s : string) : String.length s = List.length (list_ascii_of_string s).
Proof. induction s as [|c s IH]; cbn; congruence. Qed.

Lemma zeros_list (n : nat) : list_ascii_of_string (zeros n) = repeat "0" n.
Proof. apply list_ascii_of_string_of_list_ascii. Qed.

Lemma allDigits_app (a b : list ascii) : allDigits (a ++ b) = allDigits a && allDigits b.
Proof. apply forallb_app. Qed.

Lemma allDigits_repeat (n : nat) : allDigits (repeat "0" n) = true.
Proof. induction n; [reflexivity | exact IHn]. Qed.

Lemma allDigits_split (n : nat) (l : list ascii) :
  allDigits l = true -> allDigits (firstn n l) = true /\ allDigits (skipn n l) = true.
Proof. intros H. rewrite <- (firstn_skipn n l), allDigits_app in H. now apply andb_prop in H. Qed.

Lemma numberText_digits (s : Z) : (0 <= s)%Z ->
  allDigits (list_ascii_of_string (numberText s)) = true /\ list_ascii_of_string (numberText s) <> [] /\
  digitsValue 10 (map digitOf (list_ascii_of_string (numberText s))) = s.
Proof.
  intros H. destruct (numberText_decimal s H) as (D & N & V). split; [exact D|].
  split; [destruct (numberText s); [contradiction | discriminate] | exact V].
Qed.

Lemma digitsValue_zeros (n : nat) (l : list ascii) :
  digitsValue 10 (map digitOf (repeat "0" n ++ l)) = digitsValue 10 (map digitOf l).
Proof.
  induction n as [|n IH]; [reflexivity|]. cbn [repeat app map].
  change (digitOf "0" :: ?t) with ([digitOf "0"] ++ t). rewrite digitsValue_app, IH.
  change (digitsValue 10 [digitOf "0"]) with 0%Z. lia.
Qed.

Lemma q_scale (a j x e : Z) : (0 <= j)%Z -> (j + x = e)%Z ->
  (inject_Z (a * 10 ^ j) * 10 ^ x == inject_Z a * 10 ^ e)%Q.
Proof.
  intros Hj <-. rewrite inject_Z_mult, Zpower_Qpower by exact Hj.
  rewrite Qpower_plus by discriminate. change (inject_Z 10) with 10%Q. ring.
Qed.

Lemma exp_sign (x : Z) : (if (x <? 0)%Z then - Z.abs x else Z.abs x)%Z = x.
Proof. destruct (Z.ltb_spec x 0); lia. Qed.

(** Every [layout] text has the shape of a decimal literal, of the value it was made from. *)
Lemma layout_shape (s e : Z) : (0 < s)%Z ->
  exists I F X pt ex,
    allDigits I = true /\ allDigits F = true /\ allDigits X = true /\ I <> [] /\
    (pt = false -> F = []) /\ (ex <> None -> X <> []) /\
    list_ascii_of_string (layout s e) = I ++ (if pt then "." :: F else []) ++ exponentText ex X /\
    (literalValue I F X ex == inject_Z s * 10 ^ e)%Q.
Proof.
  intros Hs. destruct (numberText_digits s ltac:(lia)) as (DD & DN & DV).
  unfold layout. cbv zeta. rewrite length_list.
  set (D := list_ascii_of_string (numberText s)) in *.
  assert (Dk : (1 <= List.length D)%nat) by (destruct D; [contradiction | cbn; lia]).
  set (k := Z.of_nat (List.length D)). set (n := (k + e)%Z).
  assert (Ek : k = Z.of_nat (List.length D)) by reflexivity. assert (En : n = (k + e)%Z) by reflexivity.
  destruct (numberText_digits (Z.abs (n - 1)) ltac:(lia)) as (XD & XN & XV).
  set (X := list_ascii_of_string (numberText (Z.abs (n - 1)))) in *.
  destruct ((k <=? n) && (n <=? 21))%Z eqn:C1.
  { apply andb_prop in C1 as [C1 _]. apply Z.leb_le in C1.
    exists (D ++ repeat "0" (Z.to_nat (n - k))), [], [], false, None.
    split; [now rewrite allDigits_app, DD, allDigits_repeat|].
    split; [reflexivity|]. split; [reflexivity|].
    split; [intros Hc; apply app_eq_nil in Hc as [Hc _]; contradiction|].
    split; [reflexivity|]. split; [intros []; reflexivity|]. split.
    - rewrite list_ascii_app, zeros_list. cbn [exponentText]. now rewrite !app_nil_r.
    - unfold literalValue. cbn [exponentText List.length]. rewrite app_nil_r, map_app, digitsValue_app, DV.
      rewrite length_map, repeat_length. 
      replace (digitsValue 10 (map digitOf (repeat "0" (Z.to_nat (n - k)))))
        with (digitsValue 10 (map digitOf (repeat "0" (Z.to_nat (n - k)) ++ []))) by now rewrite app_nil_r.
      rewrite digitsValue_zeros. change (digitsValue 10 (map digitOf [])) with 0%Z.
      rewrite Z.add_0_r. apply q_scale; lia. }
  assert (Hk1 : (1 <= k)%Z) by lia.
  assert (SX : forall b, b = (n - 1 <? 0)%Z ->
           list_ascii_of_string (String "e" (String (if b then "-" else "+") (numberText (Z.abs (n - 1))))) =
           exponentText (Some b) X) by (intros b _; reflexivity).
  assert (EV : (if (n - 1 <? 0)%Z then - digitsValue 10 (map digitOf X)
                else digitsValue 10 (map digitOf X))%Z = (n - 1)%Z)
    by (rewrite XV; apply exp_sign).
  destruct ((0 <? n) && (n <=? 21))%Z eqn:C2.
  { apply andb_prop in C2 as [C2 C2']. apply Z.ltb_lt in C2. apply Z.leb_le in C2'.
    apply andb_false_iff in C1 as [C1|C1]; [apply Z.leb_gt in C1 | apply Z.leb_gt in C1; lia].
    destruct (allDigits_split (Z.to_nat n) D DD) as [A1 A2].
    exists (firstn (Z.to_nat n) D), (skipn (Z.to_nat n) D), [], true, None.
    split; [exact A1|]. split; [exact A2|]. split; [reflexivity|].
    split; [intros Hc; apply (f_equal (@List.length ascii)) in Hc; rewrite length_firstn, Nat.min_l in Hc by lia; cbn in Hc; lia|].
    split; [discriminate|]. split; [intros []; reflexivity|]. split.
    - rewrite list_ascii_app. cbn [list_ascii_of_string]. rewrite !substring_list. fold D. cbn [skipn exponentText].
      rewrite (firstn_all2 (n := Z.to_nat (k - n))) by (rewrite length_skipn; lia).
      now rewrite app_nil_r.
    - unfold literalValue. rewrite firstn_skipn, DV, length_skipn.
      replace (0 - Z.of_nat (List.length D - Z.to_nat n))%Z with e by lia. reflexivity. }
  destruct ((-6 <? n) && (n <=? 0))%Z eqn:C3.
  { apply andb_prop in C3 as [_ C3]. apply Z.leb_le in C3.
    exists ["0"], (repeat "0" (Z.to_nat (- n)) ++ D), [], true, None.
    split; [reflexivity|]. split; [now rewrite allDigits_app, allDigits_repeat, DD|].
    split; [reflexivity|]. split; [discriminate|]. split; [discriminate|].
    split; [intros []; reflexivity|]. split.
    - cbn [list_ascii_of_string]. rewrite list_ascii_app, zeros_list. cbn [exponentText app].
      now rewrite app_nil_r.
    - unfold literalValue. change (["0"] ++ ?l) with (repeat "0" 1 ++ l).
      rewrite !digitsValue_zeros, DV, length_app, repeat_length.
      replace (0 - Z.of_nat (Z.to_nat (- n) + List.length D))%Z with e by lia. reflexivity. }
  destruct (k =? 1)%Z eqn:C4.
  - apply Z.eqb_eq in C4.
    exists D, [], X, false, (Some (n - 1 <? 0)%Z).
    split; [exact DD|]. split; [reflexivity|]. split; [exact XD|]. split; [exact DN|].
    split; [reflexivity|]. split; [intros _; exact XN|]. split.
    + rewrite list_ascii_app. cbn [app exponentText]. reflexivity.
    + unfold literalValue. cbv zeta. cbn beta iota. rewrite app_nil_r, DV, EV. cbn [List.length].
      replace (n - 1 - Z.of_nat 0)%Z with e by lia. reflexivity.
  - apply Z.eqb_neq in C4.
    destruct (allDigits_split 1 D DD) as [A1 A2].
    exists (firstn 1 D), (skipn 1 D), X, true, (Some (n - 1 <? 0)%Z).
    split; [exact A1|]. split; [exact A2|]. split; [exact XD|].
    split; [destruct D; [contradiction | discriminate]|].
    split; [discriminate|]. split; [intros _; exact XN|]. split.
    + rewrite list_ascii_app. cbn [list_ascii_of_string]. rewrite list_ascii_app, !substring_list. fold D.
      change (skipn 0 D) with D. cbn [app]. rewrite (firstn_all2 (n := Z.to_nat (k - 1))) by (rewrite length_skipn; lia).
      reflexivity.
    + unfold literalValue. cbv zeta. cbn beta iota. rewrite firstn_skipn, DV, EV, length_skipn.
      replace (n - 1 - Z.of_nat (List.length D - 1))%Z with e by lia. reflexivity.
Qed.

Lemma layout_reads (neg : bool) (s e : Z) : (0 < s)%Z ->
  readsAs (if neg then String "-" (layout s e) else layout s e)
          (Fin (if neg then - (inject_Z s * 10 ^ e) else inject_Z s * 10 ^ e)).
Proof.
  intros Hs. destruct (layout_shape s e Hs) as (I & F & X & pt & ex & HI & HF & HX & NI & PF & EX & L & V).
  pose proof (shape_reads (if neg then String "-" (layout s e) else layout s e) neg I F X pt ex
                HI HF HX NI PF EX ltac:(destruct neg; cbn [list_ascii_of_string app]; now rewrite L)) as R.
  destruct R as (N & T & y & S & E). refine (conj N (conj T (ex_intro _ y (conj S _)))).
  rewrite E. unfold num_eq. fold (literalValue I F X ex). destruct neg; [now rewrite V | exact V].
Qed.

Lemma decimalForm_opp (q : Q) : decimalForm (- q) = None <-> decimalForm q = None.
Proof.
  destruct q as [n d]. unfold decimalForm. cbn [Qopp Qnum Qden].
  destruct (stripFactor _ 2 _) as [a r]. destruct (stripFactor _ 5 r) as [b r'].
  destruct (r' =? 1)%Z; split; discriminate || reflexivity.
Qed.

(** A number with a terminating decimal expansion (or not finite). *)
Definition decimalNum (x : num) : bool :=
  match x with Fin q => match decimalForm q with Some _ => true | None => false end | _ => true end.

(** [readsAs] of a closed literal, by computation. *)
Ltac reads_literal :=
  unfold readsAs; vm_compute; split; [discriminate | split; [reflexivity | eexists; split; reflexivity]].

Lemma readsAs_num_eq (s : string) (x x' : num) : readsAs s x -> num_eq x x' -> readsAs s x'.
Proof.
  intros (N & T & y & S & E) E'. refine (conj N (conj T (ex_intro _ y (conj S _)))).
  now rewrite E.
Qed.

Lemma append_EmptyString (s : string) : (s ++ "")%string = s.
Proof. induction s as [|c s IH]; [reflexivity | cbn; now rewrite IH]. Qed.

Lemma numberToString_reads (x : num) :
  decimalNum x = true -> x <> NaN -> readsAs (numberToString x) x.
Proof.
  destruct x as [q| | |]; intros H Hx; [| reads_literal | reads_literal | contradiction].
  unfold numberToString. destruct (Qeq_bool q 0) eqn:Z0.
  - apply Qeq_bool_eq in Z0. apply (readsAs_num_eq _ (Fin 0)); [reads_literal|].
    unfold num_eq. symmetry. exact Z0.
  - assert (Nq : Qnum q <> 0%Z).
    { intros E. apply Qeq_bool_neq in Z0. apply Z0. destruct q as [n d]. cbn in E. subst n. reflexivity. }
    cbn [decimalNum] in H. destruct (Z.ltb_spec (Qnum q) 0) as [Hn|Hn].
    + destruct (decimalForm (- q)) as [[s e]|] eqn:D;
        [|apply (proj1 (decimalForm_opp q)) in D; rewrite D in H; discriminate].
      destruct (decimalForm_spec (- q) s e D ltac:(destruct q; cbn in *; lia)) as [Ps Vq].
      unfold positiveText. rewrite D. apply (readsAs_num_eq _ _ _ (layout_reads true s e Ps)).
      unfold num_eq. rewrite <- Vq. ring.
    + destruct (decimalForm q) as [[s e]|] eqn:D; [|discriminate].
      destruct (decimalForm_spec q s e D ltac:(lia)) as [Ps Vq].
      unfold positiveText. rewrite D. apply (readsAs_num_eq _ _ _ (layout_reads false s e Ps)).
      unfold num_eq. now rewrite <- Vq.
Qed.

(** [Number::toString] of a terminating decimal (or of a non-finite
    number) reads back with [parseFloat] as the number. *)
Lemma numberToString_read (x : num) :
  decimalNum x = true -> num_eq (parseFloat (numberToString x)) x.
Proof.
  intros H. assert (Hx : x = NaN \/ x <> NaN) by (destruct x; [right | right | right | left]; congruence).
  destruct Hx as [-> | Hx]; [reflexivity|].
  rewrite <- (append_EmptyString (numberToString x)).
  exact (readsAs_parseFloat _ "" _ (numberToString_reads x H Hx) eq_refl).
Qed.

Lemma stripFactor_exact (p r : Z) (a f : nat) :
  (1 < p)%Z -> (r mod p <> 0)%Z -> (a < f)%nat -> stripFactor f p (p ^ Z.of_nat a * r) = (a, r).
Proof.
  intros Hp Hr. revert f. induction a as [|a IH]; intros [|f] Hf; try lia; cbn [stripFactor].
  - rewrite Z.pow_0_r, Z.mul_1_l. apply Z.eqb_neq in Hr. now rewrite Hr.
  - rewrite Nat2Z.inj_succ, Z.pow_succ_r by lia.
    replace (p * p ^ Z.of_nat a * r)%Z with (p ^ Z.of_nat a * r * p)%Z by ring.
    rewrite Z.mod_mul, Z.eqb_refl, Z.div_mul by lia. rewrite IH by lia. reflexivity.
Qed.

Lemma pow5_odd (n : nat) : ((5 ^ Z.of_nat n) mod 2 = 1)%Z.
Proof.
  induction n as [|n IH]; [reflexivity|]. rewrite Nat2Z.inj_succ, Z.pow_succ_r by lia.
  rewrite Z.mul_mod, IH by lia. reflexivity.
Qed.

(** A denominator [2^a 5^b] has a decimal form. *)
Lemma decimalForm_some (q : Q) (a b : nat) :
  Zpos (Qden q) = (2 ^ Z.of_nat a * 5 ^ Z.of_nat b)%Z -> decimalForm q <> None.
Proof.
  intros H. unfold decimalForm. rewrite H.
  assert (P2 : (1 <= 2 ^ Z.of_nat a)%Z) by (pose proof (Z.pow_pos_nonneg 2 (Z.of_nat a)); lia).
  assert (P5 : (1 <= 5 ^ Z.of_nat b)%Z) by (pose proof (Z.pow_pos_nonneg 5 (Z.of_nat b)); lia).
  assert (B : (2 ^ Z.of_nat b <= 5 ^ Z.of_nat b)%Z) by (apply Z.pow_le_mono_l; lia).
  assert (La : (Z.of_nat a <= Z.log2 (2 ^ Z.of_nat a * 5 ^ Z.of_nat b))%Z).
  { rewrite <- (Z.log2_pow2 (Z.of_nat a)) at 1 by lia. apply Z.log2_le_mono. nia. }
  assert (Lb : (Z.of_nat b <= Z.log2 (2 ^ Z.of_nat a * 5 ^ Z.of_nat b))%Z).
  { rewrite <- (Z.log2_pow2 (Z.of_nat b)) at 1 by lia. apply Z.log2_le_mono. nia. }
  rewrite stripFactor_exact by (lia || (rewrite pow5_odd; discriminate)).
  rewrite <- (Z.mul_1_r (5 ^ Z.of_nat b)) at 2.
  rewrite stripFactor_exact by (lia || discriminate). rewrite Z.eqb_refl. discriminate.
Qed.

Lemma pow10_den (x : Z) : exists a b : nat, Zpos (Qden (10 ^ x)%Q) = (2 ^ Z.of_nat a * 5 ^ Z.of_nat b)%Z.
Proof.
  destruct x as [|p|p].
  - exists 0%nat, 0%nat. reflexivity.
  - exists 0%nat, 0%nat. cbn [Qpower]. change 10%Q with (10 # 1)%Q.
    rewrite Qpower_decomp_positive. cbn [Qden]. rewrite Pos2Z.inj_pow, Z.pow_1_l by lia. reflexivity.
  - exists (Pos.to_nat p), (Pos.to_nat p). cbn [Qpower]. change 10%Q with (10 # 1)%Q.
    rewrite Qpower_decomp_positive, <- (Pos2Z.inj_pow 10 p). cbn [Qinv Qden Qnum].
    rewrite positive_nat_Z, Pos2Z.inj_pow. change 10%Z with (2 * 5)%Z. apply Z.pow_mul_l.
Qed.

Lemma unsignedDecimal_form (s : list ascii) (q : Q) (r : list ascii) :
  unsignedDecimal s = Some (q, r) -> exists v x, q = (inject_Z v * 10 ^ x)%Q.
Proof.
  unfold unsignedDecimal. destruct (digits 10 s) as [intDs r1].
  destruct (match r1 with
            | c :: t => if Ascii.eqb c "." then digits 10 t else ([], r1)
            | [] => ([], [])
            end) as [fracDs r2].
  destruct (intDs ++ fracDs) as [|z l]; [discriminate|].
  destruct (exponentPart r2) as [x r3]. intros H. injection H as <- _. eauto.
Qed.

(** Every value [parseFloat] returns is a terminating decimal. *)
Lemma parseFloat_decimal (str : string) : decimalNum (parseFloat str) = true.
Proof.
  unfold parseFloat, strDecimalLiteral.
  destruct (sign (trimStart (list_ascii_of_string str))) as [neg s1].
  destruct (isPrefix infinity s1); [destruct neg; reflexivity|].
  destruct (unsignedDecimal s1) as [[q r]|] eqn:U; [|reflexivity].
  destruct (unsignedDecimal_form _ _ _ U) as (v & x & ->).
  destruct (pow10_den x) as (a & b & E).
  assert (Dq : decimalForm (inject_Z v * 10 ^ x)%Q <> None) by (apply (decimalForm_some _ a b); exact E).
  cbn [decimalNum]. destruct neg.
  - destruct (decimalForm (- _)) eqn:D; [reflexivity|].
    apply (proj1 (decimalForm_opp _)) in D. contradiction.
  - destruct (decimalForm _); [reflexivity | contradiction].
Qed.

End JsString.
