(* ===== verification/JsDate.v ===== *)
(** * JsDate: the time values of the JavaScript library

    The result table shows each draw time as [M/D H:MM] through
    [Date.prototype.getMonth], [getDate], [getHours] and [getMinutes].
    These are the library's: this file models them from ECMA-262, section
    21.4.1 (time values and the abstract operations [Day],
    [DayFromYear], [YearFromTime], [InLeapYear], [DayWithinYear],
    [MonthFromTime], [DateFromTime], [HourFromTime], [MinFromTime],
    [MakeDay]), on time values in milliseconds as [Z] (a draw time here is
    never [NaN]).  [YearFromTime] is specified as "the largest integral
    [y] such that [TimeFromYear(y) <= t]"; [yearFromDay] computes it from
    the estimate [1970 + floor(400 d / 146097)] by climbing at most three
    years; [YearFromTime_spec] proves that this is that largest [y], and
    [MakeDay_roundtrip] that the year, month and date read off a time
    value give back its day.
    The local time zone ([LocalTZA]) is implementation-defined and is a
    parameter of the users of this file.  The proofs eliminate [/] and
    [mod] by constants into quotient-remainder equations
    ([Z.div_mod_to_equations]) and close them with [lia]. *)

From S2P Require Import Prelude.

Module JsDate.

Local Open Scope Z_scope.

Definition msPerDay : Z := 86400000.
Definition msPerHour : Z := 3600000.
Definition msPerMinute : Z := 60000.

(** [Day(t) = floor(t / msPerDay)] *)
Definition Day (t : Z) : Z := t / msPerDay.

Definition DaysInYear (y : Z) : Z :=
  if negb (y mod 4 =? 0) then 365
  else if negb (y mod 100 =? 0) then 366
  else if negb (y mod 400 =? 0) then 365
  else 366.

Definition DayFromYear (y : Z) : Z :=
  365 * (y - 1970) + (y - 1969) / 4 - (y - 1901) / 100 + (y - 1601) / 400.

Definition TimeFromYear (y : Z) : Z := msPerDay * DayFromYear y.

(** The largest year whose first day is at most [d], climbing from [y]
    for at most [fuel] years. *)
Fixpoint climb (fuel : nat) (d y : Z) : Z :=
  match fuel with
  | O => y
  | S f => if DayFromYear (y + 1) <=? d then climb f d (y + 1) else y
  end.

Definition yearFromDay (d : Z) : Z := climb 3 d (1970 + 400 * d / 146097 - 1).

Definition YearFromTime (t : Z) : Z := yearFromDay (Day t).

Definition InLeapYear (t : Z) : Z := if DaysInYear (YearFromTime t) =? 366 then 1 else 0.

Definition DayWithinYear (t : Z) : Z := Day t - DayFromYear (YearFromTime t).

Definition MonthFromTime (t : Z) : Z :=
  let d := DayWithinYear t in
  let l := InLeapYear t in
  if d <? 31 then 0
  else if d <? 59 + l then 1
  else if d <? 90 + l then 2
  else if d <? 120 + l then 3
  else if d <? 151 + l then 4
  else if d <? 181 + l then 5
  else if d <? 212 + l then 6
  else if d <? 243 + l then 7
  else if d <? 273 + l then 8
  else if d <? 304 + l then 9
  else if d <? 334 + l then 10
  else 11.

(** The day of the year on which month [m] starts, in a year with
    [l] = 1 when leap. *)
Definition monthStart (l m : Z) : Z :=
  match m with
  | 0 => 0 | 1 => 31 | 2 => 59 + l | 3 => 90 + l | 4 => 120 + l | 5 => 151 + l
  | 6 => 181 + l | 7 => 212 + l | 8 => 243 + l | 9 => 273 + l | 10 => 304 + l
  | _ => 334 + l
  end.

Definition DateFromTime (t : Z) : Z :=
  let d := DayWithinYear t in
  let l := InLeapYear t in
  match MonthFromTime t with
  | 0 => d + 1 | 1 => d - 30 | 2 => d - 58 - l | 3 => d - 89 - l | 4 => d - 119 - l
  | 5 => d - 150 - l | 6 => d - 180 - l | 7 => d - 211 - l | 8 => d - 242 - l
  | 9 => d - 272 - l | 10 => d - 303 - l
  | _ => d - 333 - l
  end.

Definition HourFromTime (t : Z) : Z := (t / msPerHour) mod 24.

Definition MinFromTime (t : Z) : Z := (t / msPerMinute) mod 60.

(** [MakeDay(year, month, date)] for [month] in 0..11: the day number of
    the first day of that month of that year, plus [date - 1]. *)
Definition MakeDay (year month date : Z) : Z :=
  let l := if DaysInYear year =? 366 then 1 else 0 in
  DayFromYear year + monthStart l month + date - 1.

(** ** Years *)

(** A year has [DaysInYear] days. *)
Lemma DayFromYear_succ (y : Z) : DayFromYear (y + 1) = DayFromYear y + DaysInYear y.
Proof.
  unfold DayFromYear, DaysInYear.
  destruct (Z.eqb_spec (y mod 4) 0), (Z.eqb_spec (y mod 100) 0), (Z.eqb_spec (y mod 400) 0);
    simpl negb; cbv iota; Z.div_mod_to_equations; lia.
Qed.

Lemma DaysInYear_range (y : Z) : 365 <= DaysInYear y <= 366.
Proof. unfold DaysInYear. repeat destruct (negb _); lia. Qed.

Lemma DayFromYear_mono (y y' : Z) : y < y' -> DayFromYear y < DayFromYear y'.
Proof. intros H. unfold DayFromYear. Z.div_mod_to_equations. lia. Qed.

(** The year of day [d] is within one year of the estimate. *)
Lemma yearFromDay_estimate (d : Z) :
  DayFromYear (1970 + 400 * d / 146097 - 1) <= d < DayFromYear (1970 + 400 * d / 146097 + 2).
Proof. unfold DayFromYear. Z.div_mod_to_equations. lia. Qed.

Lemma climb_spec (fuel : nat) (d y : Z) :
  DayFromYear y <= d -> d < DayFromYear (y + Z.of_nat fuel) ->
  DayFromYear (climb fuel d y) <= d < DayFromYear (climb fuel d y + 1).
Proof.
  revert y. induction fuel as [|f IH]; intros y H1 H2; cbn [climb].
  - rewrite Z.add_0_r in H2. lia.
  - destruct (Z.leb_spec (DayFromYear (y + 1)) d).
    + apply IH; [assumption|]. now replace (y + 1 + Z.of_nat f) with (y + Z.of_nat (S f)) by lia.
    + lia.
Qed.

(** [yearFromDay d] is the year of day [d]: its first day is at most
    [d] and the next year's first day is after [d]. *)
Lemma yearFromDay_bounds (d : Z) :
  DayFromYear (yearFromDay d) <= d < DayFromYear (yearFromDay d + 1).
Proof.
  unfold yearFromDay. pose proof (yearFromDay_estimate d).
  apply climb_spec; [lia|]. now replace (1970 + 400 * d / 146097 - 1 + Z.of_nat 3)
                                   with (1970 + 400 * d / 146097 + 2) by lia.
Qed.

Lemma TimeFromYear_le (y t : Z) : TimeFromYear y <= t <-> DayFromYear y <= Day t.
Proof.
  unfold TimeFromYear, Day, msPerDay. split; intros H.
  - apply Z.div_le_lower_bound; lia.
  - pose proof (Z.mul_div_le t 86400000 ltac:(lia)). lia.
Qed.

(** The day within the year is in [0, DaysInYear). *)
Lemma DayWithinYear_range (t : Z) :
  0 <= DayWithinYear t < 365 + InLeapYear t.
Proof.
  unfold DayWithinYear, InLeapYear.
  pose proof (yearFromDay_bounds (Day t)) as B. fold (YearFromTime t) in B.
  rewrite DayFromYear_succ in B. pose proof (DaysInYear_range (YearFromTime t)).
  destruct (Z.eqb_spec (DaysInYear (YearFromTime t)) 366); lia.
Qed.

Lemma InLeapYear_range (t : Z) : 0 <= InLeapYear t <= 1.
Proof. unfold InLeapYear. destruct (_ =? _); lia. Qed.

(** Split the month table on the day within the year. *)
Ltac month_cases :=
  repeat match goal with
         | |- context [?a <? ?b] => destruct (Z.ltb_spec a b); cbn [monthStart]
         end.

(** ** Properties *)

(** ECMA-262's year: [YearFromTime t] is, as the standard defines
    it, the largest integer [y] such that [TimeFromYear(y) <= t]. *)
Theorem YearFromTime_spec (t : Z) :
  TimeFromYear (YearFromTime t) <= t /\
  (forall y, TimeFromYear y <= t -> y <= YearFromTime t).
Proof.
  pose proof (yearFromDay_bounds (Day t)) as [B1 B2]. fold (YearFromTime t) in B1, B2.
  split; [now apply TimeFromYear_le|].
  intros y H. apply TimeFromYear_le in H.
  destruct (Z.le_gt_cases y (YearFromTime t)) as [L|L]; [exact L|].
  assert (M : DayFromYear (YearFromTime t + 1) <= DayFromYear y).
  { destruct (Z.eq_dec y (YearFromTime t + 1)) as [->|N]; [lia|].
    apply Z.lt_le_incl, DayFromYear_mono. lia. }
  lia.
Qed.

(** Date fields round trip: the year, month and date the library
    reads off a time value give back its day: [MakeDay(YearFromTime(t),
    MonthFromTime(t), DateFromTime(t)) = Day(t)]. *)
Theorem MakeDay_roundtrip (t : Z) :
  MakeDay (YearFromTime t) (MonthFromTime t) (DateFromTime t) = Day t.
Proof.
  pose proof (DayWithinYear_range t) as R. pose proof (InLeapYear_range t).
  unfold MakeDay, DateFromTime, MonthFromTime.
  fold (InLeapYear t).
  replace (Day t) with (DayFromYear (YearFromTime t) + DayWithinYear t) by (unfold DayWithinYear; lia).
  set (d := DayWithinYear t) in *. set (l := InLeapYear t) in *.
  month_cases; lia.
Qed.

(** The fields the result table shows are in their ranges. *)
Lemma fields_range (t : Z) :
  0 <= MonthFromTime t <= 11 /\ 1 <= DateFromTime t <= 31 /\
  0 <= HourFromTime t < 24 /\ 0 <= MinFromTime t < 60.
Proof.
  pose proof (DayWithinYear_range t) as R. pose proof (InLeapYear_range t).
  split; [|split; [|split]].
  - unfold MonthFromTime. set (d := DayWithinYear t) in *. set (l := InLeapYear t) in *.
    month_cases; lia.
  - unfold DateFromTime, MonthFromTime. set (d := DayWithinYear t) in *. set (l := InLeapYear t) in *.
    month_cases; lia.
  - apply Z.mod_pos_bound. lia.
  - apply Z.mod_pos_bound. lia.
Qed.

End JsDate.
