(* ===== verification/Curves.v ===== *)
(** * Curves: what [riskZone.exceeds] and [treatmentZone.exceeds] share

    Both functions of [src/biligram.js] locate the sample to the left of the
    age ([x1Index], [x1]), interpolate each curve by the point-slope formula
    ([threshold]), and scan the curves in array order, stopping at the first
    one whose threshold the level reaches ([scan]).  This file models those
    three steps once, in Sections over the table's [interval] and over the
    thresholds, and proves what the two tables' theorems rely on: the
    position of the age inside its interval, the interpolated threshold
    staying between its samples and growing with them, and the scan's
    characterisation, monotonicity and count refinement.  The class
    [SampledTable] is the interface a table offers the interpolation (a
    positive interval, a start on its grid, curves of a common length);
    [table_sample], proved against it, gives the tabulated value at every
    sample age but the last, and the tables discharge it as instances. *)

From S2P Require Import Prelude.

Open Scope Q_scope.

Section Grid.
Variables interval startsAt : Q.

(** [x1Index = Math.floor((hours - this.startsAt)/this.interval)] *)
Definition leftIndex (hours : Q) : Z :=
  js_floor ((hours - startsAt) / interval).

(** [x1 = Math.floor(hours/this.interval) * this.interval]: absolute,
    not relative to [startsAt]. *)
Definition leftX (hours : Q) : Q :=
  inject_Z (js_floor (hours / interval)) * interval.

(** [threshold = y1 + (xDistance * ((y2 - y1)/this.interval))] *)
Definition threshold (y1 y2 : num) (xDistance : Q) : num :=
  (y1 + Fin xDistance * ((y2 - y1) / Fin interval))%js.

(** The body of one loop iteration up to the comparison:
    [y1 = curve[x1Index]], [y2 = curve[x1Index + 1]] when
    [x1Index < len] (the length of the table's first curve) and [y1]
    otherwise, [xDistance = hours - x1]. *)
Definition interpolate (len : Z) (curve : list Q) (x1Index : Z) (hours x1 : Q) : num :=
  let y1 := js_get curve x1Index in
  let y2 := if (x1Index <? len)%Z then js_get curve (x1Index + 1) else y1 in
  threshold y1 y2 (hours - x1).
End Grid.

Section Scan.
(** [thr i] is the threshold of curve [i] at the age being classified. *)
Variable thr : nat -> num.

(** [for (i = start; n more iterations; i++) { if (level >= thr(i)) return i; }]
    The loop runs [n] iterations from index [i] and returns the first
    index whose threshold the level reaches. *)
Fixpoint scan (level : num) (i n : nat) : option nat :=
  match n with
  | O => None
  | S n' => if js_ge level (thr i) then Some i else scan level (S i) n'
  end.
End Scan.

(** The thresholds [thr i .. thr (i+n-1)] decrease with the index. *)
Definition descending (thr : nat -> num) (i n : nat) : Prop :=
  forall j j', (i <= j /\ j <= j' /\ j' < i + n)%nat -> num_le (thr j') (thr j).

(** The curves [i .. i+n-1] of a table decrease sample by sample
    ([series[j'] <= series[j]] for [j <= j']), as a boolean check. *)
Definition ordered_family (series : list (list Q)) (i n : nat) : bool :=
  forallb (fun j => forallb (fun j' => pointwise_le (nth j' series []) (nth j series []))
                            (seq j (i + n - j)))
          (seq i n).

(** The curves [i .. i+n-1] all have [m] samples. *)
Definition uniform_length (series : list (list Q)) (i n m : nat) : bool :=
  forallb (fun j => Nat.eqb (length (nth j series [])) m) (seq i n).

(** Position of a scan's result, [dflt] when the loop ran to its end. *)
Definition rank (o : option nat) (dflt : nat) : nat :=
  match o with Some k => k | None => dflt end.

(** How many of the curves [i .. i+n-1] the level reaches. *)
Definition count_exceeded (thr : nat -> num) (level : num) (i n : nat) : nat :=
  length (filter (fun j => js_ge level (thr j)) (seq i n)).

(** ** Floor and interval arithmetic *)

Lemma Qfloor_unique (x : Q) (z : Z) :
  inject_Z z <= x -> x < inject_Z z + 1 -> Qfloor x = z.
Proof.
  intros H1 H2.
  assert (Hle : (z <= Qfloor x)%Z).
  { rewrite <- (Qfloor_Z z) at 1. now apply Qfloor_resp_le. }
  assert (Hlt : (Qfloor x < z + 1)%Z).
  { rewrite Zlt_Qlt, inject_Z_plus. change (inject_Z 1) with 1.
    pose proof (Qfloor_le x). lra. }
  lia.
Qed.

(** [Math.floor] of a value between two integers lies between them. *)
Lemma Qfloor_bounds (x : Q) (a b : Z) :
  inject_Z a <= x -> x < inject_Z b -> (a <= Qfloor x < b)%Z.
Proof.
  intros Ha Hb. split.
  - rewrite <- (Qfloor_Z a). now apply Qfloor_resp_le.
  - rewrite Zlt_Qlt. pose proof (Qfloor_le x). lra.
Qed.

Section Interval.
Variable interval : Q.
Hypothesis interval_pos : 0 < interval.

Lemma div_mul_cancel (h : Q) : h / interval * interval == h.
Proof. field. lra. Qed.

(** [xDistance = hours - x1] lies in [[0, interval)]. *)
Lemma leftX_distance (hours : Q) :
  0 <= hours - leftX interval hours < interval.
Proof.
  unfold leftX, js_floor.
  pose proof (Qfloor_le (hours / interval)) as H1.
  pose proof (Qlt_floor (hours / interval)) as H2.
  rewrite inject_Z_plus in H2. change (inject_Z 1) with 1 in H2.
  pose proof (div_mul_cancel hours) as E.
  set (f := inject_Z (Qfloor (hours / interval))) in *.
  set (r := hours / interval) in *.
  assert (0 <= (r - f) * interval) by (apply Qmult_le_0_compat; lra).
  assert (0 < (f + 1 - r) * interval) by (apply Qmult_lt_0_compat; lra).
  split; lra.
Qed.

(** When [startsAt] is a multiple of the interval, the absolute [x1] of
    the source agrees with the sample [x1Index] reads. *)
Lemma leftX_leftIndex (k : Z) (hours : Q) :
  leftX interval hours ==
    inject_Z k * interval + inject_Z (leftIndex interval (inject_Z k * interval) hours) * interval.
Proof.
  unfold leftX, leftIndex, js_floor.
  assert (E : (hours - inject_Z k * interval) / interval == hours / interval - inject_Z k)
    by (field; lra).
  rewrite (Qfloor_comp _ _ E).
  assert (F : Qfloor (hours / interval - inject_Z k) = (Qfloor (hours / interval) - k)%Z).
  { apply Qfloor_unique; unfold Zminus; rewrite inject_Z_plus, inject_Z_opp;
      pose proof (Qfloor_le (hours / interval));
      pose proof (Qlt_floor (hours / interval)) as G; rewrite inject_Z_plus in G;
      change (inject_Z 1) with 1 in G; lra. }
  rewrite F. unfold Zminus. rewrite inject_Z_plus, inject_Z_opp. ring.
Qed.

Lemma threshold_Fin (a b xd : Q) :
  threshold interval (Fin a) (Fin b) xd = Fin (a + xd * ((b - a) / interval)).
Proof.
  unfold threshold. cbn [js_add js_sub js_neg js_mul js_div].
  now replace (interval ?= 0) with Gt by (symmetry; now apply Qgt_alt).
Qed.

Lemma threshold_NaN_l (y2 : num) (xd : Q) : threshold interval NaN y2 xd = NaN.
Proof. reflexivity. Qed.

Lemma threshold_NaN_r (y1 : num) (xd : Q) : threshold interval y1 NaN xd = NaN.
Proof. destruct y1; reflexivity. Qed.

Lemma slope_rewrite (a b xd : Q) :
  a + xd * ((b - a) / interval) == a + (xd / interval) * (b - a).
Proof. field. lra. Qed.

Lemma ratio_bounds (xd : Q) :
  0 <= xd <= interval -> 0 <= xd / interval <= 1.
Proof.
  intros [H0 H1]. split.
  - apply Qle_shift_div_l; lra.
  - apply Qle_shift_div_r; lra.
Qed.

(** The interpolated threshold lies between its two samples. *)
Lemma threshold_between (a b xd : Q) :
  0 <= xd <= interval -> a <= b ->
  a <= a + xd * ((b - a) / interval) /\ a + xd * ((b - a) / interval) <= b.
Proof.
  intros Hxd Hab. rewrite slope_rewrite.
  pose proof (ratio_bounds xd Hxd).
  set (s := xd / interval) in *. split; nra.
Qed.

Lemma threshold_between_desc (a b xd : Q) :
  0 <= xd <= interval -> b <= a ->
  b <= a + xd * ((b - a) / interval) /\ a + xd * ((b - a) / interval) <= a.
Proof.
  intros Hxd Hab. rewrite slope_rewrite.
  pose proof (ratio_bounds xd Hxd).
  set (s := xd / interval) in *. split; nra.
Qed.

(** The interpolated threshold grows with both samples. *)
Lemma threshold_mono (a b a' b' xd : Q) :
  0 <= xd <= interval -> a <= a' -> b <= b' ->
  a + xd * ((b - a) / interval) <= a' + xd * ((b' - a') / interval).
Proof.
  intros Hxd Ha Hb. rewrite !slope_rewrite.
  pose proof (ratio_bounds xd Hxd).
  set (s := xd / interval) in *. nra.
Qed.

Lemma interpolate_mono (len : Z) (c c' : list Q) (x1Index : Z) (hours x1 : Q) :
  0 <= hours - x1 <= interval ->
  num_le (js_get c x1Index) (js_get c' x1Index) ->
  num_le (js_get c (x1Index + 1)) (js_get c' (x1Index + 1)) ->
  num_le (interpolate interval len c x1Index hours x1)
         (interpolate interval len c' x1Index hours x1).
Proof.
  unfold interpolate. intros Hxd H0 H1.
  destruct (js_get c x1Index) as [a| | |], (js_get c' x1Index) as [a'| | |]; try contradiction.
  destruct (x1Index <? len)%Z.
  - destruct (js_get c (x1Index + 1)) as [b| | |], (js_get c' (x1Index + 1)) as [b'| | |];
      try contradiction.
    rewrite !threshold_Fin. simpl. now apply threshold_mono.
  - rewrite !threshold_Fin. simpl. now apply threshold_mono.
Qed.
(** At a sample age [startsAt + k * interval] the left index is [k]. *)
Lemma leftIndex_sample (s : Q) (k : Z) :
  leftIndex interval s (s + inject_Z k * interval) = k.
Proof.
  unfold leftIndex, js_floor.
  rewrite (Qfloor_comp _ (inject_Z k)) by (field; lra). apply Qfloor_Z.
Qed.

(** When [startsAt] is a multiple of [interval], [x1] at a sample age is
    the age itself. *)
Lemma leftX_sample (m k : Z) :
  leftX interval (inject_Z m * interval + inject_Z k * interval) ==
    inject_Z m * interval + inject_Z k * interval.
Proof. rewrite (leftX_leftIndex m). now rewrite leftIndex_sample. Qed.

(** At [x1] itself the interpolated threshold is the sample [curve[k]]. *)
Lemma interpolate_sample (len : Z) (curve : list Q) (k : Z) (hours x1 : Q) :
  (0 <= k)%Z -> (k + 1 < Z.of_nat (length curve))%Z -> (k < len)%Z -> hours == x1 ->
  num_eq (interpolate interval len curve k hours x1) (Fin (nth (Z.to_nat k) curve 0)).
Proof.
  intros Hk Hl Hlen Hx. unfold interpolate. replace (k <? len)%Z with true by lia.
  destruct (js_get_in_range curve k) as (a & Ha & Na); [lia|].
  destruct (js_get_in_range curve (k + 1)) as (b & Hb & _); [lia|].
  rewrite Ha, Hb, threshold_Fin, (nth_error_nth _ _ _ Na). simpl.
  assert (D : hours - x1 == 0) by (rewrite Hx; ring). rewrite D. ring.
Qed.
End Interval.

#[export] Hint Rewrite threshold_Fin threshold_NaN_l threshold_NaN_r : js.

Lemma ordered_family_spec (series : list (list Q)) (i n j j' : nat) :
  ordered_family series i n = true -> (i <= j /\ j <= j' /\ j' < i + n)%nat ->
  pointwise_le (nth j' series []) (nth j series []) = true.
Proof.
  unfold ordered_family. rewrite forallb_forall. intros H Hj.
  specialize (H j ltac:(apply in_seq; lia)). rewrite forallb_forall in H.
  apply H. apply in_seq. lia.
Qed.

Lemma uniform_length_spec (series : list (list Q)) (i n m j : nat) :
  uniform_length series i n m = true -> (i <= j < i + n)%nat ->
  length (nth j series []) = m.
Proof.
  unfold uniform_length. rewrite forallb_forall. intros H Hj.
  apply Nat.eqb_eq, H, in_seq. lia.
Qed.

(** Interpolating the curves of an ordered table at a sample inside the
    table gives thresholds that decrease with the curve index. *)
Lemma interpolate_desc (interval : Q) (series : list (list Q)) (len x1Index : Z)
    (hours x1 : Q) (i n m : nat) :
  0 < interval -> 0 <= hours - x1 <= interval ->
  (0 <= x1Index /\ x1Index + 1 < Z.of_nat m)%Z ->
  ordered_family series i n = true -> uniform_length series i n m = true ->
  descending (fun j => interpolate interval len (nth j series []) x1Index hours x1) i n.
Proof.
  intros Hpos Hd Hx Hord Hlen j j' Hj.
  pose proof (ordered_family_spec series i n j j' Hord Hj) as Hpw.
  pose proof (uniform_length_spec series i n m j' Hlen ltac:(lia)) as Hm.
  apply interpolate_mono; auto;
    (apply pointwise_le_get; [exact Hpw | rewrite Hm; lia]).
Qed.

(** ** The scan *)

Section ScanFacts.
Variable thr : nat -> num.

(** [scan] returns the first index of the range whose threshold is reached. *)
Lemma scan_Some (level : num) (n i k : nat) :
  scan thr level i n = Some k ->
  (i <= k < i + n)%nat /\ js_ge level (thr k) = true /\
  (forall j, (i <= j < k)%nat -> js_ge level (thr j) = false).
Proof.
  revert i. induction n as [|n IH]; intros i; simpl; [discriminate|].
  destruct (js_ge level (thr i)) eqn:E.
  - intros [= <-]. split; [lia | split; [exact E | intros j Hj; lia]].
  - intros H. destruct (IH _ H) as (Hk & Hge & Hbefore).
    split; [lia | split; [exact Hge |]].
    intros j Hj. destruct (Nat.eq_dec j i) as [->|]; auto. apply Hbefore. lia.
Qed.

(** [scan] runs to its end only when no threshold of the range is reached. *)
Lemma scan_None (level : num) (n i : nat) :
  scan thr level i n = None ->
  forall j, (i <= j < i + n)%nat -> js_ge level (thr j) = false.
Proof.
  revert i. induction n as [|n IH]; intros i; simpl; [intros; lia|].
  destruct (js_ge level (thr i)) eqn:E; [discriminate|].
  intros H j Hj. destruct (Nat.eq_dec j i) as [->|]; auto. apply (IH _ H). lia.
Qed.

Lemma scan_NaN (n i : nat) : scan thr NaN i n = None.
Proof. revert i. induction n; intros i; simpl; auto. Qed.

Lemma scan_all_false (level : num) (n i : nat) :
  (forall j, (i <= j < i + n)%nat -> js_ge level (thr j) = false) ->
  scan thr level i n = None.
Proof.
  revert i. induction n as [|n IH]; intros i H; simpl; auto.
  rewrite H by lia. apply IH. intros j Hj. apply H. lia.
Qed.

Lemma rank_scan_bounds (level : num) (n i : nat) :
  (i <= rank (scan thr level i n) (i + n) <= i + n)%nat.
Proof.
  destruct (scan thr level i n) eqn:E; simpl; [|lia].
  apply scan_Some in E. lia.
Qed.

(** A higher level stops the scan no later. *)
Lemma scan_mono (l l' : Q) (n i : nat) :
  l <= l' ->
  (rank (scan thr (Fin l') i n) (i + n) <= rank (scan thr (Fin l) i n) (i + n))%nat.
Proof.
  intros Hl. revert i. induction n as [|n IH]; intros i; cbn [scan rank]; [lia|].
  destruct (js_ge (Fin l) (thr i)) eqn:E.
  - rewrite (js_ge_level_mono l l' _ Hl E). cbn [rank]. lia.
  - destruct (js_ge (Fin l') (thr i)) eqn:E'; cbn [rank].
    + pose proof (rank_scan_bounds (Fin l) n (S i)).
      rewrite Nat.add_succ_r. simpl in *. lia.
    + specialize (IH (S i)). rewrite Nat.add_succ_r in *. exact IH.
Qed.

Lemma count_exceeded_S (level : num) (n i : nat) :
  count_exceeded thr level i (S n) =
    ((if js_ge level (thr i) then 1 else 0) + count_exceeded thr level (S i) n)%nat.
Proof. unfold count_exceeded. simpl. destruct (js_ge level (thr i)); reflexivity. Qed.

Lemma count_exceeded_all (level : num) (n i : nat) :
  (forall j, (i <= j < i + n)%nat -> js_ge level (thr j) = true) ->
  count_exceeded thr level i n = n.
Proof.
  revert i. induction n as [|n IH]; intros i H; [reflexivity|].
  rewrite count_exceeded_S, H by lia. rewrite IH; [reflexivity|].
  intros j Hj. apply H. lia.
Qed.

Lemma count_exceeded_le (level : num) (n i : nat) :
  (count_exceeded thr level i n <= n)%nat.
Proof.
  unfold count_exceeded. rewrite <- (length_seq n i) at 2. apply filter_length_le.
Qed.

(** Refinement: on curves that decrease with the index, the early-exit
    scan stops at [i + n - c], where [c] counts the curves reached. *)
Lemma scan_count (level : num) (n i : nat) :
  descending thr i n ->
  rank (scan thr level i n) (i + n) = (i + n - count_exceeded thr level i n)%nat.
Proof.
  revert i. induction n as [|n IH]; intros i Hdesc; [cbn; lia|].
  rewrite count_exceeded_S. cbn [scan].
  destruct (js_ge level (thr i)) eqn:E; cbn [rank].
  - rewrite count_exceeded_all; [lia|].
    intros j Hj. apply (js_ge_num_le _ (thr i)); [apply Hdesc; lia | exact E].
  - rewrite Nat.add_succ_r, <- Nat.add_succ_l, IH; [lia|].
    intros j j' Hj. apply Hdesc. lia.
Qed.
End ScanFacts.

Lemma count_exceeded_ext (thr thr' : nat -> num) (level : num) (n i : nat) :
  (forall j, (i <= j < i + n)%nat -> js_ge level (thr j) = js_ge level (thr' j)) ->
  count_exceeded thr level i n = count_exceeded thr' level i n.
Proof.
  intros H. unfold count_exceeded. f_equal. apply filter_ext_in.
  intros j Hj. apply in_seq in Hj. now apply H.
Qed.

Lemma scan_ext (thr thr' : nat -> num) (level : num) (n i : nat) :
  (forall j, (i <= j < i + n)%nat -> thr j = thr' j) ->
  scan thr level i n = scan thr' level i n.
Proof.
  revert i. induction n as [|n IH]; intros i H; simpl; [reflexivity|].
  rewrite H by lia. rewrite IH; [reflexivity|]. intros j Hj. apply H. lia.
Qed.

(** ** The interface of a sampled table *)

(** What a threshold table of the program promises the code that
    interpolates it: a positive interval, a first sample on the grid of
    the interval, and [curves] curves of [samples] values each.  [RiskZone]
    and both families of [TreatmentZone] are instances. *)
Class SampledTable (interval startsAt : Q) (series : list (list Q)) (curves samples : nat) : Prop := {
  table_interval_pos : 0 < interval;
  table_grid : exists m : Z, startsAt = inject_Z m * interval;
  table_uniform : uniform_length series 0 curves samples = true
}.

Section SampledTables.
Context (interval startsAt : Q) (series : list (list Q)) (curves samples : nat)
  `{SampledTable interval startsAt series curves samples}.

(** At the sample age of index [k], left of the last sample, the
    threshold of curve [i] interpolated as both [exceeds] do it (with the
    first curve's length as the guard's bound) is its tabulated value. *)
Lemma table_sample (k i : nat) :
  (k + 1 < samples)%nat -> (i < curves)%nat ->
  let hours := startsAt + inject_Z (Z.of_nat k) * interval in
  num_eq (interpolate interval (Z.of_nat (length (nth 0 series []))) (nth i series [])
            (leftIndex interval startsAt hours) hours (leftX interval hours))
         (Fin (nth k (nth i series []) 0)).
Proof.
  intros Hk Hi hours. destruct table_grid as [m Hm]. unfold hours.
  rewrite leftIndex_sample by exact table_interval_pos.
  replace (nth k (nth i series []) 0) with (nth (Z.to_nat (Z.of_nat k)) (nth i series []) 0)
    by now rewrite Nat2Z.id.
  rewrite (uniform_length_spec series 0 curves samples 0) by (exact table_uniform || lia).
  apply interpolate_sample; [exact table_interval_pos | lia | | lia |].
  - rewrite (uniform_length_spec series 0 curves samples i) by (exact table_uniform || lia). lia.
  - rewrite Hm. symmetry. apply leftX_sample, table_interval_pos.
Qed.
End SampledTables.
