(* ===== verification/RiskZone.v ===== *)
(** * RiskZone: the Bhutani risk zones ([riskZone], src/biligram.js 32-98)

    Module [RiskZone] holds the object literal's data (five curves sampled
    every 4 h from 12 h of life, highest first) and its method [exceeds],
    built from [Curves]: the left sample, the clamp at the right edge, and
    the early-exit scan over the three interior curves that returns
    [i - 1] for the first curve [i] reached.  The theorems: undefined
    before 12 h, the result is one of the zone constants, monotone in the
    level, refinement by counting the curves reached on [12,148), the
    agreement with the tabulated values at the sample ages [12 + 4k]
    ([k < 34]), and the right edge from 148 h on, where the guard reads
    past the array. *)

From S2P Require Import Prelude Curves.

Open Scope Q_scope.

Module RiskZone.

(** [interval: 4], [startsAt: 12] *)
Definition interval : Q := 4.
Definition startsAt : Q := 12.

(** [series]: the high-zone ceiling (25), the 95th, 75th and 40th
    percentile curves, and the zero floor. *)
Definition series : list (list Q) := [
  [25; 25; 25; 25; 25; 25; 25; 25; 25; 25; 25; 25; 25; 25; 25; 25; 25; 25; 25; 25; 25; 25; 25; 25; 25; 25; 25; 25; 25; 25; 25; 25; 25; 25; 25];
  [7.1; 7.2; 7.4; 7.8; 8.9; 10.0; 11.1; 12.2; 12.5; 13.2; 13.8; 14.4; 15.2; 15.4; 15.6; 15.9; 16.2; 16.4; 16.7; 17.0; 17.2; 17.4; 17.4; 17.5; 17.5; 17.5; 17.6; 17.7; 17.6; 17.5; 17.4; 17.4; 17.3; 17.3; 17.4];
  [5.1; 5.5; 5.9; 6.1; 7.0; 8.0; 8.9; 9.9; 10.3; 10.8; 11.3; 12.0; 12.6; 12.9; 13.1; 13.4; 13.8; 14.3; 14.7; 14.7; 15.0; 15.2; 15.3; 15.4; 15.5; 15.6; 15.7; 15.8; 15.7; 15.6; 15.5; 15.4; 15.3; 15.2; 15.3];
  [3.9; 4.3; 4.7; 4.9; 5.5; 6.3; 7.0; 7.8; 8.1; 8.6; 9.0; 9.3; 9.6; 10.2; 10.7; 11.2; 11.3; 11.4; 11.6; 11.8; 12.2; 12.3; 12.5; 12.7; 12.8; 13.0; 13.1; 13.2; 13.2; 13.2; 13.2; 13.2; 13.2; 13.2; 13];
  [0; 0; 0; 0; 0; 0; 0; 0; 0; 0; 0; 0; 0; 0; 0; 0; 0; 0; 0; 0; 0; 0; 0; 0; 0; 0; 0; 0; 0; 0; 0; 0; 0; 0; 0]
].

(** The zone constants: an index into [series] for the chart, and the
    value [exceeds] returns. *)
Definition zero : Z := 4.
Definition low : Z := 3.
Definition lowIntermediate : Z := 2.
Definition highIntermediate : Z := 1.
Definition high : Z := 0.
Definition undefined : Z := -2.

(** [this.series[0].length] *)
Definition len0 : Z := Z.of_nat (length (nth 0 series [])).

(** [exceeds: function (hours, level)]: before [startsAt] the zone is
    undefined; past the last sample [x1Index] is clamped to the last
    index; then the loop [for (i = 1; i < series.length - 1; i++)]
    returns [i - 1] at the first curve whose interpolated value the
    level reaches, and [this.low] when none is reached. *)
Definition exceeds (hours : Q) (level : num) : Z :=
  let x1Index := leftIndex interval startsAt hours in
  let x1 := leftX interval hours in
  if negb (Qle_bool startsAt hours) then undefined
  else
    let x1Index := if (len0 <=? x1Index)%Z then (len0 - 1)%Z else x1Index in
    match scan (fun i => interpolate interval len0 (nth i series []) x1Index hours x1)
               level 1 (length series - 2) with
    | Some i => (Z.of_nat i - 1)%Z
    | None => low
    end.

(** The threshold of interior curve [i] at [hours] on the table's
    domain, where [exceeds] does not clamp. *)
Definition curve_threshold (hours : Q) (i : nat) : num :=
  interpolate interval len0 (nth i series []) (leftIndex interval startsAt hours)
    hours (leftX interval hours).

(** Abstract zone: undefined before [startsAt]; otherwise [low] minus
    the number of interior curves (95th, 75th, 40th percentile) whose
    value at [hours] the level reaches. *)
Definition zone_spec (hours : Q) (level : num) : Z :=
  if negb (Qle_bool startsAt hours) then undefined
  else (low - Z.of_nat (count_exceeded (curve_threshold hours) level 1 3))%Z.

(** [x1Index] after the right-edge clamp of [exceeds]. *)
Definition clamped (hours : Q) : Z :=
  let x1Index := leftIndex interval startsAt hours in
  if (len0 <=? x1Index)%Z then (len0 - 1)%Z else x1Index.

(** ** The table *)

Lemma len0_value : len0 = 35%Z.
Proof. reflexivity. Qed.


(** The interior curves lie each below the previous one, sample by
    sample, and have 35 samples each. *)
Lemma series_ordered : ordered_family series 1 3 = true.
Proof. vm_compute. reflexivity. Qed.

Lemma series_uniform : uniform_length series 0 5 35 = true.
Proof. vm_compute. reflexivity. Qed.

Lemma rz_series_length (i : nat) : (i < 5)%nat -> length (nth i series []) = 35%nat.
Proof. intros H. apply (uniform_length_spec _ 0 5); [exact series_uniform | lia]. Qed.

Lemma rz_interval_pos : 0 < interval.
Proof. reflexivity. Qed.

(** The risk-zone table: five curves of 35 samples from 12 h = 3 * 4 h. *)
#[export] Instance riskZone_table : SampledTable interval startsAt series 5 35.
Proof. split; [exact rz_interval_pos | exists 3%Z; reflexivity | exact series_uniform]. Qed.

(** On [12, 148) the left sample and the one after it are in the table. *)
Lemma rz_leftIndex_domain (hours : Q) :
  startsAt <= hours -> hours < 148 ->
  (0 <= leftIndex interval startsAt hours < 34)%Z.
Proof.
  intros H1 H2. unfold leftIndex, js_floor. apply Qfloor_bounds.
  - apply Qle_shift_div_l; [reflexivity|]. unfold startsAt, interval in *. unfold inject_Z. lra.
  - apply Qlt_shift_div_r; [reflexivity|]. unfold startsAt, interval in *. unfold inject_Z. lra.
Qed.

Lemma leftIndex_right_edge (hours : Q) :
  148 <= hours -> (34 <= leftIndex interval startsAt hours)%Z.
Proof.
  intros H. unfold leftIndex, js_floor. rewrite <- (Qfloor_Z 34).
  apply Qfloor_resp_le. apply Qle_shift_div_l; [reflexivity|].
  unfold startsAt, interval. unfold inject_Z. lra.
Qed.

Lemma curve_threshold_desc (hours : Q) :
  startsAt <= hours -> hours < 148 -> descending (curve_threshold hours) 1 3.
Proof.
  intros H1 H2. pose proof (rz_leftIndex_domain hours H1 H2).
  apply (interpolate_desc _ _ _ _ _ _ _ _ 35); try reflexivity.
  - pose proof (leftX_distance interval rz_interval_pos hours). lra.
  - lia.
Qed.

(** The switch on the scan's result, through [rank]. *)
Lemma zone_of_scan (o : option nat) :
  match o with Some i => (Z.of_nat i - 1)%Z | None => low end =
    (Z.of_nat (rank o 4) - 1)%Z.
Proof. destruct o; reflexivity. Qed.

(** [exceeds] from [startsAt] on: the scan over curves 1..3 at the
    clamped index, read through [rank]. *)
Lemma zone_unfold (hours : Q) (level : num) :
  startsAt <= hours ->
  exceeds hours level =
    (Z.of_nat (rank (scan (fun i => interpolate interval len0 (nth i series [])
                                      (clamped hours) hours (leftX interval hours))
                          level 1 3) 4) - 1)%Z.
Proof.
  intros H. unfold exceeds, clamped. rewrite (proj2 (Qle_bool_iff _ _) H).
  cbv zeta. apply zone_of_scan.
Qed.

Lemma rz_clamped_domain (hours : Q) :
  startsAt <= hours -> hours < 148 -> clamped hours = leftIndex interval startsAt hours.
Proof.
  intros H1 H2. pose proof (rz_leftIndex_domain hours H1 H2). unfold clamped.
  rewrite len0_value. destruct (35 <=? leftIndex interval startsAt hours)%Z eqn:E; lia.
Qed.

Lemma clamped_right_edge (hours : Q) : 148 <= hours -> clamped hours = 34%Z.
Proof.
  intros H. pose proof (leftIndex_right_edge hours H). unfold clamped.
  rewrite len0_value. destruct (35 <=? leftIndex interval startsAt hours)%Z eqn:E; lia.
Qed.

(** ** Properties of [exceeds] *)

(** On [12,148) h the scan counts the interior curves reached. *)
Lemma zone_count (hours : Q) (level : num) :
  startsAt <= hours -> hours < 148 ->
  exceeds hours level = (low - Z.of_nat (count_exceeded (curve_threshold hours) level 1 3))%Z.
Proof.
  intros E H. rewrite zone_unfold, rz_clamped_domain by assumption.
  fold (curve_threshold hours).
  pose proof (scan_count _ level 3 1 (curve_threshold_desc hours E H)) as C.
  change (1 + 3)%nat with 4%nat in C. rewrite C.
  pose proof (count_exceeded_le (curve_threshold hours) level 3 1). unfold low. lia.
Qed.

(** At the sample age of index [k < 34] a curve's threshold is its
    tabulated value. *)
Lemma curve_threshold_sample (k i : nat) :
  (k < 34)%nat -> (i < 5)%nat ->
  num_eq (curve_threshold (startsAt + inject_Z (Z.of_nat k) * interval) i)
         (Fin (nth k (nth i series []) 0)).
Proof. intros Hk Hi. apply (table_sample _ _ _ 5 35); lia. Qed.

(** C1 (refinement): on the table's domain (every age below 148 h), the
    early-exit scan of [exceeds] computes the abstract zone: undefined
    before 12 h, else [low] minus the number of interior curves reached. *)
Theorem zone_refines_count (hours : Q) (level : num) :
  hours < 148 -> exceeds hours level = zone_spec hours level.
Proof.
  intros H. unfold zone_spec.
  destruct (Qle_bool startsAt hours) eqn:E; simpl negb; cbv iota.
  - apply Qle_bool_iff in E. now apply zone_count.
  - unfold exceeds. now rewrite E.
Qed.

Lemma zone_refines_count_witness :
  29 < 148 /\ exceeds 29 (Fin 12.2) = zone_spec 29 (Fin 12.2).
Proof. split; [reflexivity | apply zone_refines_count; reflexivity]. Defined.

(** C2 (monotonicity): for a fixed age, a higher bilirubin level never
    yields a less severe zone (zone indices decrease with severity). *)
Theorem zone_mono (hours l l' : Q) :
  l <= l' -> (exceeds hours (Fin l') <= exceeds hours (Fin l))%Z.
Proof.
  intros Hl. destruct (Qle_bool startsAt hours) eqn:E.
  - apply Qle_bool_iff in E. rewrite !zone_unfold by assumption.
    pose proof (scan_mono (fun i => interpolate interval len0 (nth i series [])
                                      (clamped hours) hours (leftX interval hours))
                          l l' 3 1 Hl).
    change (1 + 3)%nat with 4%nat in *. lia.
  - unfold exceeds. rewrite E. cbn [negb]. lia.
Qed.

Lemma zone_mono_witness :
  9.1 <= 9.2 /\ (exceeds 29 (Fin 9.2) <= exceeds 29 (Fin 9.1))%Z.
Proof.
  split; [apply Qle_bool_iff; reflexivity |].
  apply zone_mono. apply Qle_bool_iff. reflexivity.
Defined.

(** C3 (right edge, a defect): from 148 h of life on, every level,
    however high, is classified [low]: the clamped index is 34, the
    guard [x1Index < series[0].length] still holds there, and [y2] reads
    [series[i][35]], which is [undefined], so every threshold is [NaN]. *)
Theorem zone_right_edge (hours : Q) (level : num) :
  148 <= hours -> exceeds hours level = low.
Proof.
  intros H. rewrite zone_unfold by (unfold startsAt; lra).
  rewrite clamped_right_edge by assumption.
  rewrite scan_all_false; [reflexivity|].
  intros j Hj. unfold interpolate. rewrite len0_value. cbv zeta. simpl Z.ltb. cbv iota.
  rewrite (js_get_past_end _ (34 + 1)) by (rewrite rz_series_length by lia; lia).
  now rewrite threshold_NaN_r, js_ge_NaN_r.
Qed.

Lemma zone_right_edge_witness :
  148 <= 160 /\ exceeds 160 (Fin 30) = low.
Proof.
  split; [apply Qle_bool_iff; reflexivity |].
  apply zone_right_edge. apply Qle_bool_iff. reflexivity.
Defined.

(** C21 (sample ages): at each sample age [12 + 4k] of the table but the
    last ([k < 34]), [exceeds] is [low] minus the number of interior
    curves whose tabulated value [series[i][k]] the level reaches: the
    classifier agrees with the curves the chart draws at those ages. *)
Theorem zone_at_samples (k : nat) (level : num) :
  (k < 34)%nat ->
  exceeds (startsAt + inject_Z (Z.of_nat k) * interval) level =
    (low - Z.of_nat (count_exceeded (fun i => Fin (nth k (nth i series []) 0%Q)) level 1 3))%Z.
Proof.
  intros Hk.
  assert (B : 0 <= inject_Z (Z.of_nat k) <= 33) by (unfold Qle; simpl; lia).
  rewrite zone_count by (unfold startsAt, interval; lra).
  do 2 f_equal. apply count_exceeded_ext. intros j Hj.
  apply js_ge_proper; [reflexivity | apply curve_threshold_sample; lia].
Qed.

Lemma zone_at_samples_witness :
  (4 < 34)%nat /\
  exceeds (startsAt + inject_Z (Z.of_nat 4) * interval) (Fin 12.2) =
    (low - Z.of_nat (count_exceeded (fun i => Fin (nth 4 (nth i series []) 0%Q)) (Fin 12.2) 1 3))%Z.
Proof. split; [lia | apply zone_at_samples; lia]. Defined.

(** Undefined before the table: before 12 h of life the zone is
    [undefined], whatever the level. *)
Theorem zone_undefined (hours : Q) (level : num) :
  hours < startsAt -> exceeds hours level = undefined.
Proof.
  intros H. unfold exceeds.
  replace (Qle_bool startsAt hours) with false; [reflexivity|].
  symmetry. apply not_true_iff_false. rewrite Qle_bool_iff. lra.
Qed.

Lemma zone_undefined_witness : 0 < startsAt /\ exceeds 0 (Fin 20) = undefined.
Proof. split; [reflexivity | apply zone_undefined; reflexivity]. Defined.

(** From 12 h on, the zone is one of the four of the caller's [switch]. *)
Lemma zone_known (hours : Q) (level : num) :
  startsAt <= hours -> (high <= exceeds hours level <= low)%Z.
Proof.
  intros H. rewrite zone_unfold by assumption.
  match goal with |- context[scan ?t ?l 1 3] => pose proof (rank_scan_bounds t l 3 1) end.
  change (1 + 3)%nat with 4%nat in *. unfold high, low. lia.
Qed.

(** Range: [exceeds] returns [undefined] or one of the four zones
    [high .. low] that the caller's [switch] handles. *)
Theorem zone_range (hours : Q) (level : num) :
  exceeds hours level = undefined \/ (high <= exceeds hours level <= low)%Z.
Proof.
  destruct (Qle_bool startsAt hours) eqn:E.
  - apply Qle_bool_iff in E. right. now apply zone_known.
  - left. unfold exceeds. now rewrite E.
Qed.

(** C34 (unreadable level): a level that does not parse ([NaN]) is
    classified [low] from 12 h on: no comparison with [NaN] succeeds. *)
Theorem zone_NaN (hours : Q) :
  startsAt <= hours -> exceeds hours NaN = low.
Proof.
  intros H. rewrite zone_unfold by assumption. now rewrite scan_NaN.
Qed.

Lemma zone_NaN_witness : startsAt <= 30 /\ exceeds 30 NaN = low.
Proof.
  split; [apply Qle_bool_iff; reflexivity |].
  apply zone_NaN. apply Qle_bool_iff. reflexivity.
Defined.

(** The spec's scenario at 29 h, level 12.2: the 95th percentile curve
    is 8.9 + 1 * (10.0 - 8.9) / 4 = 9.175 there, so the zone is [high]. *)
Example zone_29h : exceeds 29 (Fin 12.2) = high.
Proof. vm_compute. reflexivity. Qed.

End RiskZone.
