(* ===== verification/TreatmentZone.v ===== *)
(** * TreatmentZone: phototherapy and exchange-transfusion thresholds
      ([treatmentZone], src/biligram.js 108-200)

    Module [TreatmentZone] holds the object literal's data (three
    phototherapy and three transfusion lines sampled every 12 h from
    birth, highest line first), its two mutable flags as a [state] record,
    and its method [exceeds] as a function from a state to a result and
    the next state.  Each family is scanned by the same loop
    ([family_scan]), which skips the last (lowest, high-risk) line when the
    gestational age is 38 weeks or more.  The theorems: 38+ weeks never
    selects the high-risk line, the scan refines a count of the lines
    reached on [0,144) and, at the 12-hour marks, a count of the
    tabulated values reached; the flags record exactly the exceedances;
    from 144 h on (and before birth) nothing is exceeded. *)

From S2P Require Import Prelude Curves.

Open Scope Q_scope.

Module TreatmentZone.

(** [interval: 12], [startsAt: 0] *)
Definition interval : Q := 12.
Definition startsAt : Q := 0.

(** [phototherapySeries]: lines for infants at low, medium and high risk. *)
Definition phototherapySeries : list (list Q) := [
  [6.7; 9; 11.5; 13.5; 15.2; 16.4; 17.6; 18.8; 19.8; 20.3; 21; 21; 21];
  [5; 7.6; 9.8; 11.7; 13.1; 14.5; 15.4; 16.4; 17.2; 18; 18; 18; 18];
  [3.8; 6.0; 7.8; 9.5; 11.1; 12.4; 13.4; 14; 14.5; 14.9; 15; 15; 15]
].

(** [transfusionSeries]: the same three risk groups. *)
Definition transfusionSeries : list (list Q) := [
  [16; 17.7; 19; 20.8; 22.1; 23; 23.9; 24.4; 24.9; 24.9; 24.9; 24.9; 24.9];
  [13.8; 15.1; 16.5; 17.9; 19.1; 20.1; 21.2; 22; 22.4; 22.4; 22.4; 22.4; 22.4];
  [12; 13.5; 15; 16; 17.1; 18; 18.5; 18.8; 19; 19; 19; 19; 19]
].

(** [high: 2, medium: 1, low: 0, none: -1, undefined: -2] *)
Definition high : Z := 2.
Definition medium : Z := 1.
Definition low : Z := 0.
Definition none : Z := -1.
Definition undefined : Z := -2.

(** The two properties [exceeds] writes: [phototherapyVisible] and
    [transfusiontherapyVisible], both [false] in the literal. *)
Record state : Type := mkState {
  phototherapyVisible : bool;
  transfusiontherapyVisible : bool
}.

Definition initial : state := mkState false false.

(** [returnValue = { phototherapy: ..., transfusion: ... }] *)
Record result : Type := mkResult {
  phototherapy : Z;
  transfusion : Z
}.

(** [series.length - (gaBirth >= 38)]: the loop bound. *)
Definition bound (series : list (list Q)) (gaBirth : num) : nat :=
  Z.to_nat (Z.of_nat (length series) - bool_to_Z (js_ge gaBirth (Fin 38))).

(** One of the two loops of [exceeds]:
    [for (i = 0; i < series.length - (gaBirth >= 38); i++)], comparing the
    level with each line interpolated at [hours], the right-edge guard
    reading [series[0].length]. *)
Definition family_scan (series : list (list Q)) (x1Index : Z) (hours x1 : Q)
    (level gaBirth : num) : option nat :=
  let len := Z.of_nat (length (nth 0 series [])) in
  scan (fun i => interpolate interval len (nth i series []) x1Index hours x1)
    level 0 (bound series gaBirth).

(** [exceeds: function (hours, level, gaBirth)]: the clamp uses [>], then
    the phototherapy loop, then the transfusion loop; the first line
    reached gives the tier and sets that family's flag. *)
Definition exceeds (st : state) (hours : Q) (level gaBirth : num) : result * state :=
  let x1Index := leftIndex interval startsAt hours in
  let x1 := leftX interval hours in
  let len := Z.of_nat (length (nth 0 phototherapySeries [])) in
  let x1Index := if (len <? x1Index)%Z then (len - 1)%Z else x1Index in
  let (photo, st1) :=
    match family_scan phototherapySeries x1Index hours x1 level gaBirth with
    | Some i => (Z.of_nat i, mkState true (transfusiontherapyVisible st))
    | None => (none, st)
    end in
  let (transf, st2) :=
    match family_scan transfusionSeries x1Index hours x1 level gaBirth with
    | Some i => (Z.of_nat i, mkState (phototherapyVisible st1) true)
    | None => (none, st1)
    end in
  (mkResult photo transf, st2).

(** [x1Index] after the clamp. *)
Definition clamped (hours : Q) : Z :=
  let x1Index := leftIndex interval startsAt hours in
  if (13 <? x1Index)%Z then 12%Z else x1Index.

(** Severity of a tier: [none] is 0, the lowest line (index 2) is 1, the
    highest line (index 0) is 3. *)
Definition severity (t : Z) : Z := if (t <? 0)%Z then 0%Z else (3 - t)%Z.

(** A family's tier from its scan: the index reached, or [none]. *)
Definition tier (o : option nat) : Z :=
  match o with Some i => Z.of_nat i | None => none end.

(** The line of [series] with index [i] interpolated at [hours]. *)
Definition line_threshold (series : list (list Q)) (hours : Q) (i : nat) : num :=
  interpolate interval (Z.of_nat (length (nth 0 series []))) (nth i series [])
    (leftIndex interval startsAt hours) hours (leftX interval hours).

(** Abstract tier: with [n] lines in play and [c] of them reached, the
    highest line reached is [n - c]; [none] when [c = 0]. *)
Definition tier_spec (series : list (list Q)) (hours : Q) (level gaBirth : num) : Z :=
  let n := bound series gaBirth in
  let c := count_exceeded (line_threshold series hours) level 0 n in
  if (c =? 0)%nat then none else Z.of_nat (n - c).

(** A family's tier read off column [k] of its table. *)
Definition sample_tier (series : list (list Q)) (k : nat) (level gaBirth : num) : Z :=
  let n := bound series gaBirth in
  let c := count_exceeded (fun i => Fin (nth k (nth i series []) 0%Q)) level 0 n in
  if (c =? 0)%nat then none else Z.of_nat (n - c).

(** ** Shape of [exceeds] *)

Lemma tz_interval_pos : 0 < interval.
Proof. reflexivity. Qed.

Lemma bound_value (series : list (list Q)) (gaBirth : num) :
  length series = 3%nat ->
  bound series gaBirth = (if js_ge gaBirth (Fin 38) then 2 else 3)%nat.
Proof. intros H. unfold bound. rewrite H. now destruct (js_ge gaBirth (Fin 38)). Qed.

(** [exceeds] reads both families at the clamped index; the result is
    each family's tier, and a flag is raised when its family's scan stops. *)
Lemma tiers_eq (st : state) (hours : Q) (level gaBirth : num) :
  let p := family_scan phototherapySeries (clamped hours) hours (leftX interval hours) level gaBirth in
  let t := family_scan transfusionSeries (clamped hours) hours (leftX interval hours) level gaBirth in
  exceeds st hours level gaBirth =
    (mkResult (tier p) (tier t),
     mkState (phototherapyVisible st || is_some p) (transfusiontherapyVisible st || is_some t)).
Proof.
  cbv zeta. unfold exceeds, clamped. cbv zeta.
  change (Z.of_nat (length (nth 0 phototherapySeries []))) with 13%Z.
  change (13 - 1)%Z with 12%Z.
  destruct (family_scan phototherapySeries _ _ _ _ _);
    destruct (family_scan transfusionSeries _ _ _ _ _);
    destruct st; simpl; rewrite ?orb_true_r, ?orb_false_r; reflexivity.
Qed.

(** The tiers do not depend on the flags the call starts from. *)
Lemma tiers_state_independent (st st' : state) (hours : Q) (level gaBirth : num) :
  fst (exceeds st hours level gaBirth) = fst (exceeds st' hours level gaBirth).
Proof. rewrite !tiers_eq. reflexivity. Qed.

(** Both families are ordered and have 13 samples per line. *)
Lemma families_ordered :
  ordered_family phototherapySeries 0 3 = true /\ ordered_family transfusionSeries 0 3 = true.
Proof. split; vm_compute; reflexivity. Qed.

Lemma families_uniform :
  uniform_length phototherapySeries 0 3 13 = true /\ uniform_length transfusionSeries 0 3 13 = true.
Proof. split; vm_compute; reflexivity. Qed.

(** Both families: three lines of 13 samples from birth. *)
#[export] Instance phototherapy_table : SampledTable interval startsAt phototherapySeries 3 13.
Proof. split; [exact tz_interval_pos | exists 0%Z; reflexivity | exact (proj1 families_uniform)]. Qed.

#[export] Instance transfusion_table : SampledTable interval startsAt transfusionSeries 3 13.
Proof. split; [exact tz_interval_pos | exists 0%Z; reflexivity | exact (proj2 families_uniform)]. Qed.

Lemma tz_leftIndex_domain (hours : Q) :
  0 <= hours -> hours < 144 -> (0 <= leftIndex interval startsAt hours < 12)%Z.
Proof.
  intros H1 H2. unfold leftIndex, js_floor. apply Qfloor_bounds.
  - apply Qle_shift_div_l; [reflexivity|]. unfold startsAt, interval. unfold inject_Z. lra.
  - apply Qlt_shift_div_r; [reflexivity|]. unfold startsAt, interval. unfold inject_Z. lra.
Qed.

Lemma tz_clamped_domain (hours : Q) :
  0 <= hours -> hours < 144 -> clamped hours = leftIndex interval startsAt hours.
Proof.
  intros H1 H2. pose proof (tz_leftIndex_domain hours H1 H2). unfold clamped.
  destruct (13 <? leftIndex interval startsAt hours)%Z eqn:E; lia.
Qed.

(** From 144 h on the clamped index is 12 or 13; before birth it is negative. *)
Lemma tz_clamped_outside (hours : Q) :
  144 <= hours \/ hours < 0 ->
  clamped hours = 12%Z \/ clamped hours = 13%Z \/ (clamped hours < 0)%Z.
Proof.
  intros H. unfold clamped, leftIndex, js_floor.
  destruct H as [H|H].
  - assert (12 <= Qfloor ((hours - startsAt) / interval))%Z.
    { rewrite <- (Qfloor_Z 12). apply Qfloor_resp_le. apply Qle_shift_div_l; [reflexivity|].
      unfold startsAt, interval, inject_Z. lra. }
    destruct (13 <? Qfloor ((hours - startsAt) / interval))%Z eqn:E; lia.
  - assert (Qfloor ((hours - startsAt) / interval) < 0)%Z.
    { apply Z.lt_le_trans with (m := 0%Z); [|lia].
      pose proof (Qfloor_le ((hours - startsAt) / interval)).
      assert ((hours - startsAt) / interval < 0).
      { apply Qlt_shift_div_r; [reflexivity|]. unfold startsAt, interval. lra. }
      rewrite Zlt_Qlt. unfold inject_Z at 2. lra. }
    destruct (13 <? Qfloor ((hours - startsAt) / interval))%Z eqn:E; lia.
Qed.

(** A family's scan at an index where every line reads [NaN] stops nowhere. *)
Lemma family_scan_outside (series : list (list Q)) (x1Index : Z) (hours x1 : Q) (level gaBirth : num) :
  length (nth 0 series []) = 13%nat -> uniform_length series 0 3 13 = true ->
  length series = 3%nat ->
  (x1Index = 12 \/ x1Index = 13 \/ x1Index < 0)%Z ->
  family_scan series x1Index hours x1 level gaBirth = None.
Proof.
  intros H0 Hu H3 Hx. unfold family_scan. apply scan_all_false.
  intros j Hj. rewrite bound_value in Hj by assumption.
  assert (Hl : length (nth j series []) = 13%nat)
    by (apply (uniform_length_spec _ 0 3); [assumption | destruct (js_ge gaBirth (Fin 38)); lia]).
  unfold interpolate. rewrite H0. cbv zeta.
  destruct Hx as [->|[->|Hx]].
  - simpl Z.ltb. cbv iota. rewrite (js_get_past_end _ (12 + 1)) by (rewrite Hl; lia).
    now rewrite threshold_NaN_r, js_ge_NaN_r.
  - rewrite (js_get_past_end _ 13) by (rewrite Hl; lia).
    now rewrite threshold_NaN_l, js_ge_NaN_r.
  - rewrite (js_get_neg _ _ Hx). now rewrite threshold_NaN_l, js_ge_NaN_r.
Qed.

(** A family's tier from a scan over decreasing thresholds. *)
Lemma tier_scan_count (thr : nat -> num) (level : num) (n : nat) :
  descending thr 0 n ->
  tier (scan thr level 0 n) =
    (if (count_exceeded thr level 0 n =? 0)%nat then none
     else Z.of_nat (n - count_exceeded thr level 0 n)).
Proof.
  intros Hd. pose proof (scan_count thr level n 0 Hd) as C.
  pose proof (count_exceeded_le thr level n 0).
  destruct (scan thr level 0 n) as [k|] eqn:E; simpl in C |- *.
  - apply scan_Some in E. destruct (Nat.eqb_spec (count_exceeded thr level 0 n) 0); [lia|].
    f_equal. lia.
  - destruct (Nat.eqb_spec (count_exceeded thr level 0 n) 0); [reflexivity | lia].
Qed.

Lemma family_scan_range (series : list (list Q)) (x1Index : Z) (hours x1 : Q) (level gaBirth : num) :
  (none <= tier (family_scan series x1Index hours x1 level gaBirth) < Z.of_nat (bound series gaBirth))%Z
  \/ tier (family_scan series x1Index hours x1 level gaBirth) = none.
Proof.
  unfold family_scan. destruct (scan _ _ _ _) eqn:E; [left | right; reflexivity].
  apply scan_Some in E. simpl. unfold none. lia.
Qed.

Lemma bound_le (series : list (list Q)) (gaBirth : num) : (bound series gaBirth <= length series)%nat.
Proof. unfold bound. destruct (js_ge gaBirth (Fin 38)); simpl; lia. Qed.

(** Each tier is [none] or the index of one of the three lines of its
    family. *)
Lemma tiers_range (st : state) (hours : Q) (level gaBirth : num) :
  (none <= phototherapy (fst (exceeds st hours level gaBirth)) <= high)%Z /\
  (none <= transfusion (fst (exceeds st hours level gaBirth)) <= high)%Z.
Proof.
  rewrite tiers_eq. cbn [fst phototherapy transfusion].
  pose proof (bound_le phototherapySeries gaBirth). pose proof (bound_le transfusionSeries gaBirth).
  split; match goal with
         | |- context [tier (family_scan ?s ?i ?h ?x ?l ?g)] =>
             destruct (family_scan_range s i h x l g) as [R|R]; [|rewrite R]
         end; simpl length in *; unfold none, high in *; lia.
Qed.

(** A family's scan on the table's domain counts its lines. *)
Lemma family_scan_domain (series : list (list Q)) (hours : Q) (level gaBirth : num) :
  0 <= hours -> hours < 144 ->
  ordered_family series 0 3 = true -> uniform_length series 0 3 13 = true ->
  length series = 3%nat ->
  tier (family_scan series (leftIndex interval startsAt hours) hours (leftX interval hours) level gaBirth)
  = tier_spec series hours level gaBirth.
Proof.
  intros H1 H2 Hord Hu H3. unfold family_scan, tier_spec. fold (line_threshold series hours).
  apply tier_scan_count.
  pose proof (tz_leftIndex_domain hours H1 H2).
  pose proof (leftX_distance interval tz_interval_pos hours).
  rewrite bound_value by assumption.
  apply (interpolate_desc _ _ _ _ _ _ _ _ 13); [exact tz_interval_pos | lra | lia | |];
    destruct (js_ge gaBirth (Fin 38)); [| assumption | | assumption];
    unfold ordered_family, uniform_length in *; simpl in *;
    repeat rewrite andb_true_iff in *; tauto.
Qed.

(** The severity of a scan's tier only grows when the scan stops earlier. *)
Lemma severity_tier_mono (o o' : option nat) (n : nat) :
  (n <= 3)%nat -> (forall k, o = Some k -> k < n)%nat -> (forall k, o' = Some k -> k < n)%nat ->
  (rank o' n <= rank o n)%nat -> (severity (tier o) <= severity (tier o'))%Z.
Proof.
  intros Hn Ho Ho' Hr. unfold severity, tier, none.
  destruct o as [k|], o' as [k'|]; simpl in Hr;
    [specialize (Ho k eq_refl); specialize (Ho' k' eq_refl) | specialize (Ho k eq_refl)
    | specialize (Ho' k' eq_refl) | ];
    repeat match goal with |- context[(?a <? ?b)%Z] => destruct (Z.ltb_spec a b) end; lia.
Qed.

(** ** Properties of [exceeds] *)

(** C4 (gestational-age conditioning): for a gestational age of 38 weeks
    or more, neither family ever reports the high-risk line (index 2,
    reserved for 35-37w6d infants with risk factors): both tiers lie
    between [none] and [medium]. *)
Theorem tiers_ga38 (st : state) (hours g : Q) (level : num) :
  38 <= g ->
  (none <= phototherapy (fst (exceeds st hours level (Fin g))) <= medium)%Z /\
  (none <= transfusion (fst (exceeds st hours level (Fin g))) <= medium)%Z.
Proof.
  intros Hg. rewrite tiers_eq. simpl fst. cbn [phototherapy transfusion].
  assert (Hb : forall series, length series = 3%nat -> bound series (Fin g) = 2%nat).
  { intros series Hs. rewrite bound_value by exact Hs.
    now replace (js_ge (Fin g) (Fin 38)) with true by (symmetry; now apply js_ge_Fin). }
  split; match goal with |- context[tier (family_scan ?s ?x ?h ?x1 ?l ?ga)] =>
    destruct (family_scan_range s x h x1 l ga) as [R|R];
    [rewrite Hb in R by reflexivity | rewrite R]; unfold none, medium in *; lia end.
Qed.

Lemma tiers_ga38_witness :
  38 <= 39 /\
  (none <= phototherapy (fst (exceeds initial 24 (Fin 4) (Fin 39))) <= medium)%Z /\
  (none <= transfusion (fst (exceeds initial 24 (Fin 4) (Fin 39))) <= medium)%Z.
Proof.
  split; [apply Qle_bool_iff; reflexivity |].
  apply tiers_ga38. apply Qle_bool_iff. reflexivity.
Defined.

(** C5 (refinement): on [0, 144) h, each family's tier is the abstract
    tier: [none] when no line is reached, else the index [n - c] of the
    highest line reached ([n] lines in play, [c] reached). *)
Theorem tiers_refine_count (st : state) (hours : Q) (level gaBirth : num) :
  0 <= hours -> hours < 144 ->
  fst (exceeds st hours level gaBirth) =
    mkResult (tier_spec phototherapySeries hours level gaBirth)
             (tier_spec transfusionSeries hours level gaBirth).
Proof.
  intros H1 H2. rewrite tiers_eq. simpl fst. rewrite tz_clamped_domain by assumption.
  destruct families_ordered, families_uniform.
  rewrite !family_scan_domain by (assumption || reflexivity). reflexivity.
Qed.

Lemma tiers_refine_count_witness :
  0 <= 30 /\ 30 < 144 /\
  fst (exceeds initial 30 (Fin 12) (Fin 36)) =
    mkResult (tier_spec phototherapySeries 30 (Fin 12) (Fin 36))
             (tier_spec transfusionSeries 30 (Fin 12) (Fin 36)).
Proof.
  split; [apply Qle_bool_iff; reflexivity | split; [reflexivity |]].
  apply tiers_refine_count; [apply Qle_bool_iff; reflexivity | reflexivity].
Defined.

(** C6 (flags): [exceeds] raises [phototherapyVisible] exactly when it
    reports a phototherapy tier, [transfusiontherapyVisible] exactly when
    it reports a transfusion tier, and never lowers either flag. *)
Theorem tiers_flags (st : state) (hours : Q) (level gaBirth : num) :
  phototherapyVisible (snd (exceeds st hours level gaBirth)) =
    phototherapyVisible st || (0 <=? phototherapy (fst (exceeds st hours level gaBirth)))%Z /\
  transfusiontherapyVisible (snd (exceeds st hours level gaBirth)) =
    transfusiontherapyVisible st || (0 <=? transfusion (fst (exceeds st hours level gaBirth)))%Z.
Proof.
  rewrite tiers_eq. simpl.
  destruct (family_scan phototherapySeries _ _ _ _ _), (family_scan transfusionSeries _ _ _ _ _);
    simpl; split; f_equal; unfold none; try reflexivity; symmetry; apply Z.leb_le; lia.
Qed.

(** C13 (outside the table): from 144 h of life on, and for a draw
    before birth, no line of either family is reached, whatever the
    level, and the flags are unchanged.  At 144 h the guard [x1Index <
    length] lets [y2] read past the array; at 156 h to 168 h [x1Index = 13]
    escapes the [>] clamp and [y1] reads past it. *)
Theorem tiers_outside (st : state) (hours : Q) (level gaBirth : num) :
  144 <= hours \/ hours < 0 ->
  exceeds st hours level gaBirth = (mkResult none none, st).
Proof.
  intros H. rewrite tiers_eq. destruct families_uniform.
  pose proof (tz_clamped_outside hours H) as Hc.
  rewrite !family_scan_outside by (assumption || reflexivity).
  destruct st. simpl. rewrite !orb_false_r. reflexivity.
Qed.

Lemma tiers_outside_witness :
  (144 <= 160 \/ 160 < 0) /\ exceeds initial 160 (Fin 30) (Fin 36) = (mkResult none none, initial).
Proof.
  split; [left; apply Qle_bool_iff; reflexivity |].
  apply tiers_outside. left. apply Qle_bool_iff. reflexivity.
Defined.

(** Unreadable level: a [NaN] level exceeds nothing and leaves the
    flags unchanged. *)
Theorem tiers_NaN (st : state) (hours : Q) (gaBirth : num) :
  exceeds st hours NaN gaBirth = (mkResult none none, st).
Proof.
  rewrite tiers_eq. unfold family_scan. rewrite !scan_NaN.
  destruct st. simpl. rewrite !orb_false_r. reflexivity.
Qed.

(** At the sample age of index [k < 12] a line's threshold is its
    tabulated value. *)
Lemma line_threshold_sample (series : list (list Q)) `{SampledTable interval startsAt series 3 13}
    (k i : nat) :
  (k < 12)%nat -> (i < 3)%nat ->
  num_eq (line_threshold series (startsAt + inject_Z (Z.of_nat k) * interval) i)
         (Fin (nth k (nth i series []) 0)).
Proof. intros Hk Hi. apply (table_sample _ _ _ 3 13); lia. Qed.

Lemma tier_spec_sample (series : list (list Q)) `{SampledTable interval startsAt series 3 13}
    (k : nat) (level gaBirth : num) :
  length series = 3%nat -> (k < 12)%nat ->
  tier_spec series (startsAt + inject_Z (Z.of_nat k) * interval) level gaBirth =
    sample_tier series k level gaBirth.
Proof.
  intros H3 Hk. unfold tier_spec, sample_tier. cbv zeta.
  rewrite (count_exceeded_ext _ (fun i => Fin (nth k (nth i series []) 0%Q))); [reflexivity|].
  intros j Hj. apply js_ge_proper; [reflexivity|]. apply line_threshold_sample; try assumption.
  rewrite bound_value in Hj by assumption. destruct (js_ge gaBirth (Fin 38)); lia.
Qed.

(** C22 (sample ages): at each 12-hour mark [12k] before 144 h, each
    family's tier is read off column [k] of its table (the values the
    chart draws there): [none] when the level reaches no line in play,
    else the number of lines in play minus the number reached. *)
Theorem tiers_at_samples (st : state) (k : nat) (level gaBirth : num) :
  (k < 12)%nat ->
  fst (exceeds st (startsAt + inject_Z (Z.of_nat k) * interval) level gaBirth) =
    mkResult (sample_tier phototherapySeries k level gaBirth)
             (sample_tier transfusionSeries k level gaBirth).
Proof.
  intros Hk. assert (B : 0 <= inject_Z (Z.of_nat k) <= 11) by (unfold Qle; simpl; lia).
  rewrite tiers_eq. simpl fst. rewrite tz_clamped_domain by (unfold startsAt, interval; lra).
  destruct families_ordered, families_uniform.
  rewrite !family_scan_domain by (assumption || reflexivity || (unfold startsAt, interval; lra)).
  rewrite !tier_spec_sample by (exact _ || assumption || reflexivity). reflexivity.
Qed.

Lemma tiers_at_samples_witness :
  (2 < 12)%nat /\
  fst (exceeds initial (startsAt + inject_Z (Z.of_nat 2) * interval) (Fin 12) (Fin 36)) =
    mkResult (sample_tier phototherapySeries 2 (Fin 12) (Fin 36))
             (sample_tier transfusionSeries 2 (Fin 12) (Fin 36)).
Proof. split; [lia | apply tiers_at_samples; lia]. Defined.

(** Monotonicity: for a fixed age and gestational age, a higher
    level never lowers the severity of either family's tier. *)
Theorem tiers_mono (st : state) (hours l l' : Q) (gaBirth : num) :
  l <= l' ->
  (severity (phototherapy (fst (exceeds st hours (Fin l) gaBirth)))
     <= severity (phototherapy (fst (exceeds st hours (Fin l') gaBirth))))%Z /\
  (severity (transfusion (fst (exceeds st hours (Fin l) gaBirth)))
     <= severity (transfusion (fst (exceeds st hours (Fin l') gaBirth))))%Z.
Proof.
  intros Hl. rewrite !tiers_eq. simpl fst. cbn [phototherapy transfusion].
  split; unfold family_scan; rewrite bound_value by reflexivity;
    apply (severity_tier_mono _ _ (if js_ge gaBirth (Fin 38) then 2 else 3)%nat);
    try (destruct (js_ge gaBirth (Fin 38)); lia);
    try (intros k E; apply scan_Some in E; lia);
    apply (scan_mono _ l l' _ 0 Hl).
Qed.

Lemma tiers_mono_witness :
  11 <= 20 /\
  (severity (phototherapy (fst (exceeds initial 24 (Fin 11) (Fin 36))))
     <= severity (phototherapy (fst (exceeds initial 24 (Fin 20) (Fin 36)))))%Z /\
  (severity (transfusion (fst (exceeds initial 24 (Fin 11) (Fin 36))))
     <= severity (transfusion (fst (exceeds initial 24 (Fin 20) (Fin 36)))))%Z.
Proof.
  split; [apply Qle_bool_iff; reflexivity |].
  apply tiers_mono. apply Qle_bool_iff. reflexivity.
Defined.

(** The two families are independent: at 24 h a level of 20 reaches the
    highest phototherapy line and the highest transfusion line at once. *)
Example tiers_both_families :
  exceeds initial 24 (Fin 20) (Fin 36) = (mkResult low low, mkState true true).
Proof. vm_compute. reflexivity. Qed.

End TreatmentZone.
