(* ===== verification/Followup.v ===== *)
(** * Followup: follow-up recommendations and their table cells
      ([followupRecommendations] and [addRiskToTableRow],
      src/biligram.js 217-246 and 494-545)

    Module [Followup] holds the recommendation texts of the 2009
    Pediatrics guideline as nested records (age group, then risk factors,
    then zone), the table cells a result row may hold, and
    [addRiskToTableRow], which appends the zone cell and the two
    recommendation cells chosen by the zone's description and the
    gestational age.  The theorems: every known zone fills exactly the
    three columns of the header, the age bands select the texts as the
    comments say, and a gestational age of exactly 38 weeks falls through
    to "(Not applicable under 35 weeks)". *)

From S2P Require Import Prelude.
From Stdlib Require Import String.

Module Followup.

Local Open Scope string_scope.

(** [{ highRisk, highIntRisk, lowIntRisk, lowRisk }] *)
Record recommendations : Type := mkRecommendations {
  highRisk : string;
  highIntRisk : string;
  lowIntRisk : string;
  lowRisk : string
}.

(** [{ noRiskFactors, withRiskFactors }] *)
Record byRiskFactors : Type := mkByRiskFactors {
  noRiskFactors : recommendations;
  withRiskFactors : recommendations
}.

(** [{ young (35-37w6d), notYoung (38+ weeks) }] *)
Record followups : Type := mkFollowups {
  young : byRiskFactors;
  notYoung : byRiskFactors
}.

Definition followupRecommendations : followups :=
  mkFollowups
    (mkByRiskFactors
      (mkRecommendations
        "Evaluate for phototherapy, TSB in 4-24 h (inpatient or outpatient)"
        "Evaluate for phototherapy, TcB/TSB within 24 h (inpatient or outpatient)"
        "If discharging < 72 h of age, follow up within 2 d"
        "If discharging in < 72 h of age, follow up within 2-3 d")
      (mkRecommendations
        "Evaluate for phototherapy, TSB in 4-8 h (inpatient)"
        "Evaluate for phototherapy, TSB in 4-24 h (inpatient or outpatient)"
        "If discharging < 72 h of age, follow-up within 2 d, consider TSB/TcB at follow-up"
        "If discharging < 72 h of age, follow up within 2 d"))
    (mkByRiskFactors
      (mkRecommendations
        "Evaluate for phototherapy, TSB in 4-24 h (inpatient or outpatient)"
        "Follow up within 2 d, consider TcB/TSB at follow-up"
        "If discharging < 72 h of age, follow up within 2-3 d"
        "If discharging < 72 h of age, time follow-up according to age at discharge or concerns other than jaundice (e.g., breastfeeding)")
      (mkRecommendations
        "Evaluate for phototherapy, TSB in 4-24 h (inpatient or outpatient)"
        "Evaluate for phototherapy, TcB/TSB within 24 h (inpatient or outpatient)"
        "If discharging < 72 h of age, follow up within 2 d"
        "If discharging in < 72 h of age, follow up within 2-3 d")).

(** A cell of the result table, as the HTML the code appends:
    [<td>text</td>], [<td style="background-color:c;">text</td>],
    [<td style="color:c;">text</td>] and [<td colspan="2">text</td>]. *)
Inductive cell : Type :=
| Td (text : string)
| TdBackground (color : string) (text : string)
| TdColor (color : string) (text : string)
| TdSpan2 (text : string).

Definition notApplicable : string := "(Not applicable under 35 weeks)".

(** The two cells of one [case]: the young texts for [35 <= GA < 38], the
    not-young texts for [GA > 38], the colspan cell otherwise. *)
Definition followupCells (pick : recommendations -> string) (birthGA : num) : list cell :=
  if js_ge birthGA (Fin 35) && js_lt birthGA (Fin 38) then
    [Td (pick (noRiskFactors (young followupRecommendations)));
     Td (pick (withRiskFactors (young followupRecommendations)))]
  else if js_lt (Fin 38) birthGA then
    [Td (pick (noRiskFactors (notYoung followupRecommendations)));
     Td (pick (withRiskFactors (notYoung followupRecommendations)))]
  else [TdSpan2 notApplicable].

(** [addRiskToTableRow(color, description, birthGA)]: the zone cell, then
    the [switch (description)]. *)
Definition addRiskToTableRow (color description : string) (birthGA : num) : list cell :=
  TdBackground color description ::
  (if String.eqb description "Low" then followupCells lowRisk birthGA
   else if String.eqb description "Low-intermediate" then followupCells lowIntRisk birthGA
   else if String.eqb description "High-intermediate" then followupCells highIntRisk birthGA
   else if String.eqb description "High" then followupCells highRisk birthGA
   else []).

(** How many header columns a cell fills. *)
Definition colspan (c : cell) : nat :=
  match c with TdSpan2 _ => 2 | _ => 1 end%nat.

Definition width (cs : list cell) : nat := fold_right (fun c n => colspan c + n)%nat 0%nat cs.

(** The four descriptions the caller passes. *)
Definition descriptions : list string := ["Low"; "Low-intermediate"; "High-intermediate"; "High"].

(** The recommendation field that the [case] of a description reads. *)
Definition fieldFor (description : string) : recommendations -> string :=
  if String.eqb description "Low" then lowRisk
  else if String.eqb description "Low-intermediate" then lowIntRisk
  else if String.eqb description "High-intermediate" then highIntRisk
  else highRisk.

(** ** Properties *)

Lemma followupCells_width (pick : recommendations -> string) (birthGA : num) :
  width (followupCells pick birthGA) = 2%nat.
Proof.
  unfold followupCells.
  destruct (js_ge birthGA (Fin 35) && js_lt birthGA (Fin 38)); [reflexivity|].
  destruct (js_lt (Fin 38) birthGA); reflexivity.
Qed.

Lemma width_app (a b : list cell) : width (a ++ b) = (width a + width b)%nat.
Proof. induction a as [|c a IH]; simpl; [reflexivity | rewrite IH; lia]. Qed.

(** Every known description reads its own field. *)
Lemma addRiskToTableRow_known (color description : string) (birthGA : num) :
  In description descriptions ->
  addRiskToTableRow color description birthGA =
    TdBackground color description :: followupCells (fieldFor description) birthGA.
Proof.
  intros H. unfold addRiskToTableRow, fieldFor.
  repeat (destruct H as [<-|H]; [reflexivity|]). destruct H.
Qed.

(** The recommendations for 38+ week infants with risk factors are the
    ones for 35-37w6d infants without, as the comment at line 239 wants. *)
Lemma notYoung_with_is_young_no :
  withRiskFactors (notYoung followupRecommendations) =
    noRiskFactors (young followupRecommendations).
Proof. reflexivity. Qed.

(** Row shape: for each of the four zone descriptions the cells
    [addRiskToTableRow] appends fill exactly the three columns of the
    header (zone, without risk factors, with risk factors). *)
Theorem addRiskToTableRow_width (color description : string) (birthGA : num) :
  In description descriptions -> width (addRiskToTableRow color description birthGA) = 3%nat.
Proof.
  intros H. rewrite addRiskToTableRow_known by exact H.
  cbn [width fold_right colspan]. fold (width (followupCells (fieldFor description) birthGA)).
  now rewrite followupCells_width.
Qed.

Lemma addRiskToTableRow_width_witness :
  In "High" descriptions /\ width (addRiskToTableRow "red" "High" (Fin 36)) = 3%nat.
Proof. split; [simpl; auto | apply addRiskToTableRow_width; simpl; auto]. Defined.

(** C31 (age bands): for [35 <= GA < 38] the two cells are the young
    recommendations of the zone (without, then with risk factors), and for
    [GA > 38] the not-young ones. *)
Theorem addRiskToTableRow_bands (color description : string) (g : Q) :
  In description descriptions ->
  ((35 <= g /\ g < 38)%Q ->
   addRiskToTableRow color description (Fin g) =
     [TdBackground color description;
      Td (fieldFor description (noRiskFactors (young followupRecommendations)));
      Td (fieldFor description (withRiskFactors (young followupRecommendations)))]) /\
  ((38 < g)%Q ->
   addRiskToTableRow color description (Fin g) =
     [TdBackground color description;
      Td (fieldFor description (noRiskFactors (notYoung followupRecommendations)));
      Td (fieldFor description (withRiskFactors (notYoung followupRecommendations)))]).
Proof.
  intros H. rewrite addRiskToTableRow_known by exact H. unfold followupCells. split.
  - intros [H1 H2].
    replace (js_ge (Fin g) (Fin 35) && js_lt (Fin g) (Fin 38)) with true; [reflexivity|].
    symmetry. simpl. apply andb_true_intro. split.
    + now apply Qle_bool_iff.
    + apply negb_true_iff, not_true_iff_false. rewrite Qle_bool_iff. lra.
  - intros H1.
    replace (js_ge (Fin g) (Fin 35) && js_lt (Fin g) (Fin 38)) with false.
    + simpl. replace (negb (Qle_bool g 38)) with true; [reflexivity|].
      symmetry. apply negb_true_iff, not_true_iff_false. rewrite Qle_bool_iff. lra.
    + symmetry. simpl. apply andb_false_intro2.
      apply negb_false_iff. apply Qle_bool_iff. lra.
Qed.

Lemma addRiskToTableRow_bands_witness :
  In "Low" descriptions /\ (35 <= 36 /\ 36 < 38)%Q /\
  addRiskToTableRow "green" "Low" (Fin 36) =
    [TdBackground "green" "Low";
     Td (fieldFor "Low" (noRiskFactors (young followupRecommendations)));
     Td (fieldFor "Low" (withRiskFactors (young followupRecommendations)))].
Proof.
  split; [simpl; auto |]. split; [split; [apply Qle_bool_iff|]; reflexivity |].
  apply (proj1 (addRiskToTableRow_bands "green" "Low" 36 ltac:(simpl; auto))).
  split; [apply Qle_bool_iff|]; reflexivity.
Defined.

(** C14 (38 weeks exactly, a defect): an infant born at exactly 38 weeks
    is neither in [35 <= GA < 38] nor in [GA > 38], so every zone's
    follow-up reads "(Not applicable under 35 weeks)". *)
Theorem addRiskToTableRow_ga38 (color description : string) :
  In description descriptions ->
  addRiskToTableRow color description (Fin 38) =
    [TdBackground color description; TdSpan2 notApplicable].
Proof.
  intros H. rewrite addRiskToTableRow_known by exact H. reflexivity.
Qed.

Lemma addRiskToTableRow_ga38_witness :
  In "High-intermediate" descriptions /\
  addRiskToTableRow "orange" "High-intermediate" (Fin 38) =
    [TdBackground "orange" "High-intermediate"; TdSpan2 notApplicable].
Proof. split; [simpl; auto | apply addRiskToTableRow_ga38; simpl; auto]. Defined.

End Followup.
