(* ===== verification/Results.v ===== *)
(** * Results: the result classifier ([getBiliResults], src/biligram.js 251-755)

    Module [Results] models what [getBiliResults] computes once the DOM has
    been read: the three lists of readings tagged with their method
    ([addMethod2]) and merged in draw-time order ([sortedResults], with
    [Array.prototype.sort] as a stable insertion sort), the warnings, the
    ages in tenths of hours ([toFixed(1)]), and the loop that walks the
    results from the newest to the oldest ([resultsLoop], and as written on
    an integer index with fuel, [forDown]), classifies each
    with [RiskZone.exceeds] and [TreatmentZone.exceeds] (threading the
    treatment flags), and appends one table row and one chart point.  The
    table is kept as rows of structured cells, the chart points as
    records.  The theorems: the rows are the pure classification of the
    results newest first, they are a permutation of the input in
    descending draw-time order, so are the chart points, the flags end up
    raised exactly when some result exceeds a line, the loop stops after
    [length] iterations, and the "under 35 weeks" warning is dead code. *)

From S2P Require Import Prelude Curves RiskZone TreatmentZone Followup.
From Stdlib Require Import String Sorted Permutation.

Module Results.

Import Followup.

Local Open Scope string_scope.
Local Open Scope list_scope.

(** ** Data *)

(** The assay of a result: ['serum'], ['POC'] or ['transcut']. *)
Inductive assay : Type := Serum | POC | Transcut.

Definition assay_eq_dec (a b : assay) : {a = b} + {a <> b}.
Proof. decide equality. Defined.

Definition methodName (m : assay) : string :=
  match m with Serum => "serum" | POC => "POC" | Transcut => "transcut" end.

(** A reading after [convertDateTime]: the draw time as milliseconds since
    the epoch ([Date.parse]), and the level ([parseFloat] of the cell). *)
Record reading : Type := mkReading {
  readingDrawtime : Z;
  readingLevel : num
}.

(** [{ drawtime, level, method }] *)
Record result : Type := mkResult {
  drawtime : Z;
  level : num;
  method : assay
}.

(** [addMethod2(objectArray, method)] *)
Definition addMethod2 (objectArray : list reading) (m : assay) : list result :=
  map (fun e => mkResult (readingDrawtime e) (readingLevel e) m) objectArray.

(** The comparator of line 452: [-1], [1] or [0] by draw time. *)
Definition compareDrawtime (a b : result) : Z :=
  if (drawtime a <? drawtime b)%Z then (-1)%Z
  else if (drawtime b <? drawtime a)%Z then 1%Z
  else 0%Z.

(** [Array.prototype.sort(cmp)] of the JavaScript library: a stable sort
    (ECMAScript 2019), modelled as an insertion sort that places each
    element after every earlier element not greater than it. *)
Fixpoint insertBy (cmp : result -> result -> Z) (x : result) (l : list result) : list result :=
  match l with
  | [] => [x]
  | y :: l' => if (cmp y x <=? 0)%Z then y :: insertBy cmp x l' else x :: l
  end.

Definition arraySort (cmp : result -> result -> Z) (l : list result) : list result :=
  fold_left (fun acc x => insertBy cmp x acc) l [].

(** [results.serum.concat(results.POC, results.TCLab).sort(...)] *)
Definition sortedResults (serum poc tclab : list reading) : list result :=
  arraySort compareDrawtime
    (addMethod2 serum Serum ++ addMethod2 poc POC ++ addMethod2 tclab Transcut).

(** [birthDateTime] is [null] when Date.js cannot parse the birth date;
    [drawtime - null] then counts it as 0. *)
Definition birthValue (birthDateTime : option Z) : Z :=
  match birthDateTime with Some b => b | None => 0%Z end.

(** [(n / d).toFixed(1)] for [d > 0], as a count of tenths: the nearest
    tenth, halves rounded away from zero (toFixed works on the magnitude
    and prefixes the sign). *)
Definition toFixed1 (n d : Z) : Z :=
  if (0 <=? n)%Z then ((20 * n + d) / (2 * d))%Z
  else (- ((20 * (- n) + d) / (2 * d)))%Z.

(** [hours = ((drawtime - birthDateTime) / 3600000).toFixed(1)], in tenths. *)
Definition hoursTenths (birthDateTime : option Z) (t : Z) : Z :=
  toFixed1 (t - birthValue birthDateTime) 3600000.

(** The number the string [hours] stands for when [exceeds] subtracts from it. *)
Definition hoursValue (tenths : Z) : Q := Qmake tenths 10.

(** ** Warnings *)

(** The four warning banners of [getBiliResults], in the order they appear. *)
Inductive warning : Type :=
| BirthTimeUnreadable                       (* line 411 *)
| BirthWeightUnreadable (weight : num)      (* line 420 *)
| RiskZonesNotValidated                     (* line 474 *)
| UndefinedUnder35Weeks.                    (* line 478 *)

(** Lines 410-423: [birthDateTime == null], [results.birthWeight < 0.5]. *)
Definition inputWarnings (birthDateTime : option Z) (birthWeight : num) : list warning :=
  (match birthDateTime with None => [BirthTimeUnreadable] | Some _ => [] end) ++
  (if js_lt birthWeight (Fin 0.5) then [BirthWeightUnreadable birthWeight] else []).

(** Lines 474-481: [!((GA >= 36 && weight > 2) || (GA >= 35 && weight > 2.5))],
    else [GA < 35]. *)
Definition validityWarnings (birthGA birthWeight : num) : list warning :=
  if negb ((js_ge birthGA (Fin 36) && js_lt (Fin 2) birthWeight) ||
           (js_ge birthGA (Fin 35) && js_lt (Fin 2.5) birthWeight))
  then [RiskZonesNotValidated]
  else if js_lt birthGA (Fin 35) then [UndefinedUnder35Weeks]
  else [].

(** ** Rows and chart points *)

(** [customTooltip]: absent until [decorateDataPoint] sets it; the
    treatment branches append to it with [+=], so an absent tooltip first
    turns into the text ["undefined"]. *)
Inductive tooltipPart : Type :=
| UndefinedText
| ZoneLine (hours : Z) (level : num) (m : assay) (color description : string)
| Note (color text : string).

(** The data point of lines 585-606 and what the branches change in it. *)
Record dataPoint : Type := mkPoint {
  x : Z;                          (* hours, in tenths *)
  y : num;
  symbol : string;                (* marker.symbol *)
  lineColor : string;             (* marker.lineColor *)
  fillColor : string;             (* marker.fillColor *)
  radius : option Z;              (* marker.radius, unset at first *)
  customTooltip : option (list tooltipPart);
  riskLabel : string              (* what dataLabels.formatter appends to y *)
}.

(** [switch (method)] of lines 572-582. *)
Definition markerShape (m : assay) : string :=
  match m with Serum => "circle" | POC => "diamond" | Transcut => "square" end.

Definition newDataPoint (hours : Z) (lvl : num) (m : assay) : dataPoint :=
  mkPoint hours lvl (markerShape m) "black" "black" None None "(low risk)".

(** [decorateDataPoint(dataPoint, hours, level, method, color, description)] *)
Definition decorateDataPoint (dp : dataPoint) (hours : Z) (lvl : num) (m : assay)
    (color description : string) : dataPoint :=
  mkPoint (x dp) (y dp) (symbol dp) color (fillColor dp) (radius dp)
    (Some [ZoneLine hours lvl m color description])
    (String.append "(" (String.append description " risk)")).

(** [dataPoint.customTooltip += ...] *)
Definition appendTooltip (t : option (list tooltipPart)) (p : tooltipPart) : option (list tooltipPart) :=
  match t with
  | Some ps => Some (ps ++ [p])
  | None => Some [UndefinedText; p]
  end.

(** A treatment branch: [marker.fillColor], [marker.radius], tooltip note. *)
Definition markTreatment (dp : dataPoint) (color : string) (r : Z) (note : string) : dataPoint :=
  mkPoint (x dp) (y dp) (symbol dp) (lineColor dp) color (Some r)
    (appendTooltip (customTooltip dp) (Note color note)) (riskLabel dp).

(** [switch (riskZonePlacement)] of lines 611-631: color and description. *)
Definition zoneDecoration (placement : Z) : option (string * string) :=
  if (placement =? RiskZone.low)%Z then Some ("green", "Low")
  else if (placement =? RiskZone.lowIntermediate)%Z then Some ("yellow", "Low-intermediate")
  else if (placement =? RiskZone.highIntermediate)%Z then Some ("orange", "High-intermediate")
  else if (placement =? RiskZone.high)%Z then Some ("red", "High")
  else None.

Definition phototherapylineColor : string := "#1016FF".
Definition transfusionLineColor : string := "DarkViolet".

Definition sickKidWarning : string :=
  "with these risk factors: isoimmune disease, G6PD deficiency,<br> asphysxia, lethargy, temp instability, sepis, albumin < 3.0 g/dL (if measured)</span>".

(** Lines 459-462: [youngKidWarning]. *)
Definition youngKidWarning (birthGA : num) : string :=
  if js_lt birthGA (Fin 38) then "for infants 35w-37w6d GA" else EmptyString.

Definition concat3 (a b c : string) : string := String.append a (String.append b c).

(** [switch (treatmentZoneExceeded.phototherapy)] of lines 637-661: the
    tooltip note and the cell text. *)
Definition photoTexts (t : Z) (birthGA : num) : option (string * string) :=
  let forSick := concat3 "Exceeds phototherapy threshold for " (youngKidWarning birthGA)
                         (String.append " " sickKidWarning) in
  let forMedium := String.append "Exceeds phototherapy threshold for 35-37w6d healthy, or 38w+ GA infants "
                                 sickKidWarning in
  let forWell := "Exceeds phototherapy threshold for 38+ infants who are well" in
  if (t =? TreatmentZone.high)%Z then Some (forSick, forSick)
  else if (t =? TreatmentZone.medium)%Z then Some (forMedium, forMedium)
  else if (t =? TreatmentZone.low)%Z then Some (forWell, forWell)
  else None.

(** [switch (treatmentZoneExceeded.transfusion)] of lines 665-693; the
    medium and low tooltips differ from their cells by a word. *)
Definition transfusionTexts (t : Z) (birthGA : num) : option (string * string) :=
  let forSick := concat3 "Exceeds transfusion threshold for " (youngKidWarning birthGA)
                         (String.append " " sickKidWarning) in
  if (t =? TreatmentZone.high)%Z then Some (forSick, forSick)
  else if (t =? TreatmentZone.medium)%Z then
    Some (String.append "Exceeds transfusion threshold for 35-37w6d healthy, or 38w+ GA infants with "
                        sickKidWarning,
          String.append "Exceeds transfusion threshold for 35-37w6d healthy, or 38w+ GA infants "
                        sickKidWarning)
  else if (t =? TreatmentZone.low)%Z then
    Some ("Exceeds transfusion threshold for 38+ GA infants who are well",
          "Exceeds transfusion threshold for 38+ infants who are well")
  else None.

(** One row of the result table: its class, the draw time, age and
    level cells, and the cells of the risk and treatment switches. *)
Record row : Type := mkRow {
  rowClass : string;
  rowDrawtime : Z;
  rowHours : Z;
  rowLevel : num;
  rowMethod : assay;
  rowCells : list cell
}.

(** What the loop carries: [resultTable] as rows, [resultsSeries], the
    treatment flags and [rowClass]. *)
Record loopState : Type := mkLoop {
  table : list row;
  points : list dataPoint;
  zones : TreatmentZone.state;
  nextRowClass : string
}.

(** Lines 563-693 for one result, once [treatmentZone.exceeds] has
    returned: the chart point and the cells of the risk and treatment
    switches. *)
Definition classify (birthGA : num) (hours : Z) (r : result)
    (treatmentZoneExceeded : TreatmentZone.result) : dataPoint * list cell :=
  let riskZonePlacement := RiskZone.exceeds (hoursValue hours) (level r) in
  let dp0 := newDataPoint hours (level r) (method r) in
  let (dp1, riskCells) :=
    match zoneDecoration riskZonePlacement with
    | Some (color, description) =>
        (decorateDataPoint dp0 hours (level r) (method r) color description,
         addRiskToTableRow color description birthGA)
    | None => (dp0, [])
    end in
  let (dp2, photoCells) :=
    match photoTexts (TreatmentZone.phototherapy treatmentZoneExceeded) birthGA with
    | Some (note, text) =>
        (markTreatment dp1 phototherapylineColor 5 note, [TdColor phototherapylineColor text])
    | None => (dp1, [])
    end in
  let (dp3, transfusionCells) :=
    match transfusionTexts (TreatmentZone.transfusion treatmentZoneExceeded) birthGA with
    | Some (note, text) =>
        (markTreatment dp2 transfusionLineColor 6 note, [TdColor transfusionLineColor text])
    | None => (dp2, [])
    end in
  (dp3, riskCells ++ photoCells ++ transfusionCells).

(** The body of the loop of lines 555-696 for one result. *)
Definition processResult (birthGA : num) (birthDateTime : option Z) (r : result)
    (ls : loopState) : loopState :=
  let hours := hoursTenths birthDateTime (drawtime r) in
  let (treatmentZoneExceeded, zones') :=
    TreatmentZone.exceeds (zones ls) (hoursValue hours) (level r) birthGA in
  let (dataPoint, cells) := classify birthGA hours r treatmentZoneExceeded in
  mkLoop (table ls ++ [mkRow (nextRowClass ls) (drawtime r) hours (level r) (method r) cells])
         (points ls ++ [dataPoint]) zones' "result-row".

Definition dummyResult : result := mkResult 0 NaN Serum.

(** [for (var i = results.sortedResults.length - 1; i >= 0; i--)]: [i]
    counts the iterations left, the body reads [sortedResults[i - 1]]. *)
Fixpoint resultsLoop (birthGA : num) (birthDateTime : option Z) (sorted : list result)
    (i : nat) (ls : loopState) : loopState :=
  match i with
  | O => ls
  | S i' => resultsLoop birthGA birthDateTime sorted i'
              (processResult birthGA birthDateTime (nth i' sorted dummyResult) ls)
  end.

(** The same loop as written, [for (var i = length - 1; i >= 0; i--)]:
    an integer index tested against 0 before every iteration, with
    [fuel] bounding the number of tests; [None] when the fuel runs out. *)
Fixpoint forDown (fuel : nat) (birthGA : num) (birthDateTime : option Z) (sorted : list result)
    (i : Z) (ls : loopState) : option loopState :=
  match fuel with
  | O => None
  | S fuel' =>
      if (0 <=? i)%Z then
        forDown fuel' birthGA birthDateTime sorted (i - 1)
          (processResult birthGA birthDateTime (nth (Z.to_nat i) sorted dummyResult) ls)
      else Some ls
  end.

(** What the DOM reads of lines 400-432 deliver. *)
Record input : Type := mkInput {
  serum : list reading;
  poc : list reading;
  tclab : list reading;
  birthDateTime : option Z;
  birthGA : num;
  birthWeight : num
}.

(** What [getBiliResults] leaves behind: the warnings, the table rows,
    [resultsSeries], and the flags of [treatmentZone]. *)
Record output : Type := mkOutput {
  warnings : list warning;
  rows : list row;
  series : list dataPoint;
  flags : TreatmentZone.state
}.

(** [getBiliResults()], from the state of [treatmentZone]'s flags. *)
Definition getBiliResults (zones0 : TreatmentZone.state) (inp : input) : output :=
  let sorted := sortedResults (serum inp) (poc inp) (tclab inp) in
  let ls := resultsLoop (birthGA inp) (birthDateTime inp) sorted (List.length sorted)
              (mkLoop [] [] zones0 "result-row-first") in
  mkOutput (inputWarnings (birthDateTime inp) (birthWeight inp) ++
            validityWarnings (birthGA inp) (birthWeight inp))
           (table ls) (points ls) (zones ls).

(** ** The abstract classifier *)

(** The tiers of a result; [treatmentZone.exceeds] computes them
    independently of its flags. *)
Definition tiersOf (birthGA : num) (birthDateTime : option Z) (r : result) : TreatmentZone.result :=
  fst (TreatmentZone.exceeds TreatmentZone.initial
         (hoursValue (hoursTenths birthDateTime (drawtime r))) (level r) birthGA).

(** The row of one result, with a given row class. *)
(** The chart point of a result. *)
Definition pointOf (birthGA : num) (birthDateTime : option Z) (r : result) : dataPoint :=
  fst (classify birthGA (hoursTenths birthDateTime (drawtime r)) r (tiersOf birthGA birthDateTime r)).

Definition rowOf (birthGA : num) (birthDateTime : option Z) (cls : string) (r : result) : row :=
  let hours := hoursTenths birthDateTime (drawtime r) in
  mkRow cls (drawtime r) hours (level r) (method r)
        (snd (classify birthGA hours r (tiersOf birthGA birthDateTime r))).

(** The rows of a list of results in that order: the first has class
    [cls], the others ["result-row"]. *)
Fixpoint rowsOf (birthGA : num) (birthDateTime : option Z) (cls : string) (ms : list result) : list row :=
  match ms with
  | [] => []
  | m :: ms' => rowOf birthGA birthDateTime cls m :: rowsOf birthGA birthDateTime "result-row" ms'
  end.

(** Whether a result reaches a phototherapy / transfusion line. *)
Definition photoExceeded (birthGA : num) (birthDateTime : option Z) (r : result) : bool :=
  (0 <=? TreatmentZone.phototherapy (tiersOf birthGA birthDateTime r))%Z.
Definition transfusionExceeded (birthGA : num) (birthDateTime : option Z) (r : result) : bool :=
  (0 <=? TreatmentZone.transfusion (tiersOf birthGA birthDateTime r))%Z.

(** What a draw-time-ordered result list is for the sort's theorems. *)
Definition byDrawtime (a b : result) : Prop := (drawtime a <= drawtime b)%Z.

(** ** Sorting *)

Lemma compareDrawtime_le (a b : result) :
  (compareDrawtime a b <=? 0)%Z = (drawtime a <=? drawtime b)%Z.
Proof.
  unfold compareDrawtime.
  destruct (Z.ltb_spec (drawtime a) (drawtime b)); [symmetry; apply Z.leb_le; lia|].
  destruct (Z.ltb_spec (drawtime b) (drawtime a)).
  - symmetry. apply Z.leb_gt. lia.
  - symmetry. apply Z.leb_le. lia.
Qed.

Lemma insertBy_perm (cmp : result -> result -> Z) (x : result) (l : list result) :
  Permutation (x :: l) (insertBy cmp x l).
Proof.
  induction l as [|y l IH]; simpl; [reflexivity|].
  destruct (cmp y x <=? 0)%Z; [|reflexivity].
  rewrite perm_swap. now apply perm_skip.
Qed.

Lemma insertBy_sorted (x : result) (l : list result) :
  Sorted byDrawtime l -> Sorted byDrawtime (insertBy compareDrawtime x l).
Proof.
  induction l as [|y l IH]; intros H; simpl; [repeat constructor|].
  rewrite compareDrawtime_le. destruct (Z.leb_spec (drawtime y) (drawtime x)) as [Hyx|Hxy].
  - inversion H as [|? ? Hl Hhd]; subst. constructor; [now apply IH|].
    destruct l as [|z l]; simpl; [constructor; exact Hyx|].
    rewrite compareDrawtime_le. inversion Hhd; subst.
    destruct (Z.leb_spec (drawtime z) (drawtime x)); constructor; assumption.
  - constructor; [exact H | constructor; unfold byDrawtime; lia].
Qed.

Lemma arraySort_perm (cmp : result -> result -> Z) (l : list result) :
  Permutation l (arraySort cmp l).
Proof.
  unfold arraySort. change l with ([] ++ l) at 1. generalize (@nil result) as acc.
  induction l as [|x l IH]; intros acc; simpl; [now rewrite app_nil_r|].
  rewrite <- IH. rewrite <- (insertBy_perm cmp x acc).
  apply Permutation_sym, Permutation_middle.
Qed.

Lemma arraySort_sorted (l : list result) : Sorted byDrawtime (arraySort compareDrawtime l).
Proof.
  unfold arraySort. assert (H : Sorted byDrawtime (@nil result)) by constructor.
  revert H. generalize (@nil result) as acc.
  induction l as [|x l IH]; intros acc H; simpl; [exact H|].
  apply IH. now apply insertBy_sorted.
Qed.

(** ** The loop *)

Lemma resultsLoop_firstn (birthGA : num) (birthDateTime : option Z) (l : list result)
    (i : nat) (ls : loopState) :
  (i <= List.length l)%nat ->
  resultsLoop birthGA birthDateTime l i ls =
    fold_left (fun acc r => processResult birthGA birthDateTime r acc) (rev (firstn i l)) ls.
Proof.
  revert ls. induction i as [|i IH]; intros ls Hi; cbn [resultsLoop]; [reflexivity|].
  rewrite (firstn_snoc l i dummyResult) by lia. rewrite rev_app_distr. simpl.
  apply IH. lia.
Qed.

(** The index loop, from the last index down, is a left fold over the
    reversed list. *)
Lemma resultsLoop_fold (birthGA : num) (birthDateTime : option Z) (l : list result) (ls : loopState) :
  resultsLoop birthGA birthDateTime l (List.length l) ls =
    fold_left (fun acc r => processResult birthGA birthDateTime r acc) (rev l) ls.
Proof. rewrite resultsLoop_firstn, firstn_all; [reflexivity | lia]. Qed.

(** One iteration appends the result's row and moves to ["result-row"]. *)
Lemma processResult_eq (birthGA : num) (birthDateTime : option Z) (r : result) (ls : loopState) :
  processResult birthGA birthDateTime r ls =
    mkLoop (table ls ++ [rowOf birthGA birthDateTime (nextRowClass ls) r])
           (points ls ++ [fst (classify birthGA (hoursTenths birthDateTime (drawtime r)) r
                                 (tiersOf birthGA birthDateTime r))])
           (snd (TreatmentZone.exceeds (zones ls)
                   (hoursValue (hoursTenths birthDateTime (drawtime r))) (level r) birthGA))
           "result-row".
Proof.
  unfold processResult, rowOf, tiersOf.
  rewrite (TreatmentZone.tiers_state_independent TreatmentZone.initial (zones ls)).
  destruct (TreatmentZone.exceeds (zones ls) _ _ _) as [tz z'].
  destruct (classify _ _ _ _). reflexivity.
Qed.

Lemma fold_table (birthGA : num) (birthDateTime : option Z) (ms : list result) (ls : loopState) :
  table (fold_left (fun acc r => processResult birthGA birthDateTime r acc) ms ls) =
    table ls ++ rowsOf birthGA birthDateTime (nextRowClass ls) ms.
Proof.
  revert ls. induction ms as [|m ms IH]; intros ls; simpl; [now rewrite app_nil_r|].
  rewrite IH, processResult_eq. simpl. now rewrite <- app_assoc.
Qed.

Lemma fold_points (birthGA : num) (birthDateTime : option Z) (ms : list result) (ls : loopState) :
  points (fold_left (fun acc r => processResult birthGA birthDateTime r acc) ms ls) =
    points ls ++ map (pointOf birthGA birthDateTime) ms.
Proof.
  revert ls. induction ms as [|m ms IH]; intros ls; simpl; [now rewrite app_nil_r|].
  rewrite IH, processResult_eq. simpl. now rewrite <- app_assoc.
Qed.

Lemma fold_zones (birthGA : num) (birthDateTime : option Z) (ms : list result) (ls : loopState) :
  zones (fold_left (fun acc r => processResult birthGA birthDateTime r acc) ms ls) =
    TreatmentZone.mkState
      (TreatmentZone.phototherapyVisible (zones ls) || existsb (photoExceeded birthGA birthDateTime) ms)
      (TreatmentZone.transfusiontherapyVisible (zones ls) ||
         existsb (transfusionExceeded birthGA birthDateTime) ms).
Proof.
  revert ls. induction ms as [|m ms IH]; intros ls; simpl.
  - rewrite !orb_false_r. now destruct (zones ls).
  - rewrite IH, processResult_eq. simpl.
    destruct (TreatmentZone.tiers_flags (zones ls) (hoursValue (hoursTenths birthDateTime (drawtime m)))
                (level m) birthGA) as [Hp Ht].
    rewrite Hp, Ht. unfold photoExceeded, transfusionExceeded, tiersOf.
    rewrite !(TreatmentZone.tiers_state_independent (zones ls) TreatmentZone.initial).
    now rewrite !orb_assoc.
Qed.

Lemma rowsOf_drawtimes (birthGA : num) (birthDateTime : option Z) (cls : string) (ms : list result) :
  map rowDrawtime (rowsOf birthGA birthDateTime cls ms) = map drawtime ms.
Proof. revert cls. induction ms as [|m ms IH]; intros cls; simpl; [reflexivity|]. now rewrite IH. Qed.

(** The result a row was made from. *)
Definition rowResult (w : row) : result := mkResult (rowDrawtime w) (rowLevel w) (rowMethod w).

Lemma rowsOf_results (birthGA : num) (birthDateTime : option Z) (cls : string) (ms : list result) :
  map rowResult (rowsOf birthGA birthDateTime cls ms) = ms.
Proof.
  revert cls. induction ms as [|[t l m] ms IH]; intros cls; simpl; [reflexivity|]. now rewrite IH.
Qed.

Lemma rowsOf_classes (birthGA : num) (birthDateTime : option Z) (cls : string)
    (ms : list result) (k : nat) (w : row) :
  nth_error (rowsOf birthGA birthDateTime cls ms) k = Some w ->
  rowClass w = (if (k =? 0)%nat then cls else "result-row").
Proof.
  revert cls k. induction ms as [|m ms IH]; intros cls [|k] H; simpl in H; try discriminate.
  - now injection H as <-.
  - rewrite (IH _ _ H). now destruct k.
Qed.

(** The input as [getBiliResults] merges it, before the sort. *)
Definition merged (inp : input) : list result :=
  addMethod2 (serum inp) Serum ++ addMethod2 (poc inp) POC ++ addMethod2 (tclab inp) Transcut.

(** ** Properties of [getBiliResults] *)

(** C9 (refinement): the index loop that threads the treatment flags
    produces exactly the pure classification of the merged results
    newest first: one row per result, the first of class
    ["result-row-first"], each row's cells computed from that result alone. *)
Theorem getBiliResults_rows (zones0 : TreatmentZone.state) (inp : input) :
  rows (getBiliResults zones0 inp) =
    rowsOf (birthGA inp) (birthDateTime inp) "result-row-first"
      (rev (sortedResults (serum inp) (poc inp) (tclab inp))).
Proof.
  unfold getBiliResults. cbn [rows]. rewrite resultsLoop_fold, fold_table. reflexivity.
Qed.

(** C7 (order): the rows are in descending draw-time order, the most
    recent result first, whatever the order of the input lists. *)
Theorem getBiliResults_descending (zones0 : TreatmentZone.state) (inp : input) :
  Sorted (fun a b => (rowDrawtime b <= rowDrawtime a)%Z) (rows (getBiliResults zones0 inp)).
Proof.
  rewrite getBiliResults_rows. apply StronglySorted_Sorted.
  apply (StronglySorted_map_inv (fun a b => (b <= a)%Z) rowDrawtime).
  rewrite rowsOf_drawtimes, map_rev.
  apply (StronglySorted_rev (fun a b => (a <= b)%Z)).
  apply (StronglySorted_map (fun a b => (a <= b)%Z) drawtime).
  apply Sorted_StronglySorted; [intros a b c; unfold byDrawtime; lia|].
  apply arraySort_sorted.
Qed.

(** C8 (no result lost or invented): the rows, read back as results, are
    a permutation of the serum, point-of-care and transcutaneous readings
    tagged with their method. *)
Theorem getBiliResults_permutation (zones0 : TreatmentZone.state) (inp : input) :
  Permutation (map rowResult (rows (getBiliResults zones0 inp))) (merged inp).
Proof.
  rewrite getBiliResults_rows, rowsOf_results. unfold merged, sortedResults.
  rewrite <- Permutation_rev. apply Permutation_sym, arraySort_perm.
Qed.

(** A point sits at the age it was classified at. *)
Lemma classify_x (birthGA : num) (hours : Z) (r : result) (t : TreatmentZone.result) :
  x (fst (classify birthGA hours r t)) = hours.
Proof.
  unfold classify.
  destruct (zoneDecoration _) as [[c d]|]; destruct (photoTexts _ _) as [[n u]|];
    destruct (transfusionTexts _ _) as [[n' u']|]; reflexivity.
Qed.

(** [toFixed(1)] keeps the order of its arguments. *)
Lemma toFixed1_mono (n n' d : Z) : (0 < d)%Z -> (n <= n')%Z -> (toFixed1 n d <= toFixed1 n' d)%Z.
Proof.
  intros Hd H. unfold toFixed1.
  destruct (Z.leb_spec 0 n), (Z.leb_spec 0 n').
  - apply Z.div_le_mono; lia.
  - lia.
  - assert (0 <= (20 * n' + d) / (2 * d))%Z by (apply Z.div_pos; lia).
    assert (0 <= (20 * - n + d) / (2 * d))%Z by (apply Z.div_pos; lia). lia.
  - assert ((20 * - n' + d) / (2 * d) <= (20 * - n + d) / (2 * d))%Z by (apply Z.div_le_mono; lia).
    lia.
Qed.

(** C12 (chart series order): the results series handed to Highcharts is
    in descending order of age, the most recent result first, as the rows
    are; the comment at line 549 notes that Highcharts wants it ascending
    and reports its error 15. *)
Theorem getBiliResults_series_descending (zones0 : TreatmentZone.state) (inp : input) :
  Sorted (fun a b => (x b <= x a)%Z) (series (getBiliResults zones0 inp)).
Proof.
  unfold getBiliResults. cbn [series]. rewrite resultsLoop_fold, fold_points. cbn [points app].
  apply StronglySorted_Sorted. apply (StronglySorted_map_inv (fun a b => (b <= a)%Z) x).
  rewrite map_map.
  rewrite (map_ext _ (fun r => hoursTenths (birthDateTime inp) (drawtime r)))
    by (intros r; apply classify_x).
  rewrite map_rev. apply (StronglySorted_rev (fun a b => (a <= b)%Z)).
  apply (StronglySorted_map (fun a b => (a <= b)%Z) (fun r => hoursTenths (birthDateTime inp) (drawtime r))).
  apply (StronglySorted_weaken byDrawtime).
  - intros a b H. apply toFixed1_mono; [lia | unfold byDrawtime in H; lia].
  - apply Sorted_StronglySorted; [intros a b c; unfold byDrawtime; lia|]. apply arraySort_sorted.
Qed.

Lemma forDown_resultsLoop (birthGA : num) (birthDateTime : option Z) (sorted : list result)
    (k fuel : nat) (ls : loopState) :
  (k < fuel)%nat ->
  forDown fuel birthGA birthDateTime sorted (Z.of_nat k - 1) ls =
    Some (resultsLoop birthGA birthDateTime sorted k ls).
Proof.
  revert fuel ls. induction k as [|k IH]; intros fuel ls Hf;
    (destruct fuel as [|fuel]; [lia|]); cbn [forDown resultsLoop].
  - reflexivity.
  - replace (Z.of_nat (S k) - 1)%Z with (Z.of_nat k) by lia.
    replace (0 <=? Z.of_nat k)%Z with true by (symmetry; apply Z.leb_le; lia). rewrite Nat2Z.id.
    apply IH. lia.
Qed.

Lemma forDown_short (birthGA : num) (birthDateTime : option Z) (sorted : list result)
    (k : nat) (ls : loopState) :
  forDown k birthGA birthDateTime sorted (Z.of_nat k - 1) ls = None.
Proof.
  revert ls. induction k as [|k IH]; intros ls; cbn [forDown]; [reflexivity|].
  replace (Z.of_nat (S k) - 1)%Z with (Z.of_nat k) by lia.
  replace (0 <=? Z.of_nat k)%Z with true by (symmetry; apply Z.leb_le; lia). apply IH.
Qed.

(** C37 (termination of the results loop): the loop of line 555, run as
    written on an integer index, stops after exactly [length + 1] tests of
    its guard ([length] iterations), and leaves what [resultsLoop]
    computes; with fewer tests it would not have finished. *)
Theorem forDown_terminates (birthGA : num) (birthDateTime : option Z) (sorted : list result)
    (fuel : nat) (ls : loopState) :
  (List.length sorted < fuel)%nat ->
  forDown fuel birthGA birthDateTime sorted (Z.of_nat (List.length sorted) - 1) ls =
    Some (resultsLoop birthGA birthDateTime sorted (List.length sorted) ls) /\
  forDown (List.length sorted) birthGA birthDateTime sorted (Z.of_nat (List.length sorted) - 1) ls = None.
Proof.
  intros H. split; [now apply forDown_resultsLoop | apply forDown_short].
Qed.

Lemma forDown_terminates_witness :
  (List.length [mkResult 0 (Fin 5) Serum; mkResult 1 (Fin 7) POC] < 3)%nat /\
  forDown 3 (Fin 39) (Some 0%Z) [mkResult 0 (Fin 5) Serum; mkResult 1 (Fin 7) POC]
    (Z.of_nat (List.length [mkResult 0 (Fin 5) Serum; mkResult 1 (Fin 7) POC]) - 1)
    (mkLoop [] [] TreatmentZone.initial "result-row-first") =
  Some (resultsLoop (Fin 39) (Some 0%Z) [mkResult 0 (Fin 5) Serum; mkResult 1 (Fin 7) POC]
          (List.length [mkResult 0 (Fin 5) Serum; mkResult 1 (Fin 7) POC])
          (mkLoop [] [] TreatmentZone.initial "result-row-first")).
Proof.
  assert (H : (List.length [mkResult 0 (Fin 5) Serum; mkResult 1 (Fin 7) POC] < 3)%nat) by (simpl; lia).
  split; [exact H | exact (proj1 (forDown_terminates _ _ _ 3 _ H))].
Defined.

(** Row classes: the first row of the table has class
    ["result-row-first"] (the one "Latest" shows), every other row
    ["result-row"]. *)
Theorem getBiliResults_row_classes (zones0 : TreatmentZone.state) (inp : input) (k : nat) (w : row) :
  nth_error (rows (getBiliResults zones0 inp)) k = Some w ->
  rowClass w = (if (k =? 0)%nat then "result-row-first" else "result-row").
Proof. rewrite getBiliResults_rows. apply rowsOf_classes. Qed.

Definition sampleInput : input :=
  mkInput [mkReading 86400000 (Fin 4); mkReading 259200000 (Fin 16)]
          [mkReading 21600000 (Fin 10)] [] (Some 0%Z) (Fin 36) (Fin 2.63).

Lemma getBiliResults_row_classes_witness :
  nth_error (rows (getBiliResults TreatmentZone.initial sampleInput)) 1 =
    Some (rowOf (Fin 36) (Some 0%Z) "result-row" (mkResult 86400000 (Fin 4) Serum)) /\
  rowClass (rowOf (Fin 36) (Some 0%Z) "result-row" (mkResult 86400000 (Fin 4) Serum)) =
    (if (1 =? 0)%nat then "result-row-first" else "result-row").
Proof.
  assert (H : nth_error (rows (getBiliResults TreatmentZone.initial sampleInput)) 1 =
    Some (rowOf (Fin 36) (Some 0%Z) "result-row" (mkResult 86400000 (Fin 4) Serum)))
    by (vm_compute; reflexivity).
  split; [exact H | exact (getBiliResults_row_classes _ _ _ _ H)].
Defined.

(** C19 (flags over a page): after
    [getBiliResults] the phototherapy (transfusion) series are shown
    exactly when they were shown before or some result reaches one of
    their lines. *)
Theorem getBiliResults_flags (zones0 : TreatmentZone.state) (inp : input) :
  flags (getBiliResults zones0 inp) =
    TreatmentZone.mkState
      (TreatmentZone.phototherapyVisible zones0 ||
         existsb (photoExceeded (birthGA inp) (birthDateTime inp)) (merged inp))
      (TreatmentZone.transfusiontherapyVisible zones0 ||
         existsb (transfusionExceeded (birthGA inp) (birthDateTime inp)) (merged inp)).
Proof.
  unfold getBiliResults. cbn [flags]. rewrite resultsLoop_fold, fold_zones. cbn [zones].
  assert (P : Permutation (rev (sortedResults (serum inp) (poc inp) (tclab inp))) (merged inp)).
  { rewrite <- Permutation_rev. apply Permutation_sym, arraySort_perm. }
  now rewrite !(existsb_perm _ _ _ P).
Qed.

(** Below 35 weeks the first condition of [validityWarnings] has already
    failed, so its second branch is never taken. *)
Lemma validityWarnings_no_under35 (ga w : num) :
  ~ In UndefinedUnder35Weeks (validityWarnings ga w).
Proof.
  assert (G : forall t, js_ge ga (Fin t) = true -> (35 <= t)%Q -> js_lt ga (Fin 35) = false).
  { intros t E Ht. apply not_true_iff_false. intros L. apply js_lt_ge in L.
    rewrite (js_ge_num_le ga (Fin t) (Fin 35)) in L; [discriminate | simpl; lra | exact E]. }
  unfold validityWarnings.
  destruct (js_ge ga (Fin 35) && js_lt (Fin 2.5) w) eqn:E2.
  - apply andb_prop in E2 as [E2 _]. rewrite (G 35 E2) by lra.
    destruct (_ && _); simpl; intuition discriminate.
  - destruct (js_ge ga (Fin 36) && js_lt (Fin 2) w) eqn:E1.
    + apply andb_prop in E1 as [E1 _]. rewrite (G 36 E1) by lra. simpl; intuition discriminate.
    + simpl; intuition discriminate.
Qed.

(** C18 (dead warning): the banner "the Bhutani nomogram does not define
    risk for infants with a birth gestational age under 35 weeks" is never
    shown: below 35 weeks the first condition already fails and shows the
    other banner. *)
Theorem getBiliResults_no_under35_warning (zones0 : TreatmentZone.state) (inp : input) :
  ~ In UndefinedUnder35Weeks (warnings (getBiliResults zones0 inp)).
Proof.
  unfold getBiliResults. cbn [warnings]. rewrite in_app_iff. intros [H|H].
  - unfold inputWarnings in H. rewrite in_app_iff in H.
    destruct (birthDateTime inp), (js_lt (birthWeight inp) (Fin 0.5)); simpl in H; intuition discriminate.
  - revert H. apply validityWarnings_no_under35.
Qed.

Lemma getBiliResults_no_under35_warning_witness :
  ~ In UndefinedUnder35Weeks (warnings (getBiliResults TreatmentZone.initial sampleInput)).
Proof. apply getBiliResults_no_under35_warning. Defined.

(** [toFixed(1)] is within half a tenth of its argument. *)
Lemma toFixed1_error (n d : Z) :
  (0 < d)%Z -> (Z.abs (20 * n - 2 * d * toFixed1 n d) <= d)%Z.
Proof.
  intros Hd. unfold toFixed1.
  destruct (Z.leb_spec 0 n).
  - pose proof (Z.div_mod (20 * n + d) (2 * d) ltac:(lia)).
    pose proof (Z.mod_pos_bound (20 * n + d) (2 * d) ltac:(lia)). lia.
  - pose proof (Z.div_mod (20 * - n + d) (2 * d) ltac:(lia)).
    pose proof (Z.mod_pos_bound (20 * - n + d) (2 * d) ltac:(lia)). lia.
Qed.

(** C36 (rounding): the age a row shows, in tenths of hours, is within
    half a tenth (three minutes) of the exact age
    [(drawtime - birthDateTime) / 3600000]: [|10 * age - tenths| <= 1/2]. *)
Theorem hoursTenths_error (birthDateTime : option Z) (t : Z) :
  (Z.abs (20 * (t - birthValue birthDateTime) - 7200000 * hoursTenths birthDateTime t) <= 3600000)%Z.
Proof. apply (toFixed1_error _ 3600000). reflexivity. Qed.

(** C32 (tooltip before 12 h, a defect): a result drawn before 12 h of
    life has no risk zone, so [decorateDataPoint] never sets the tooltip;
    when it reaches a phototherapy line, [customTooltip += ...] appends to
    [undefined] and the tooltip starts with the text "undefined". *)
Theorem classify_tooltip_undefined (birthGA : num) (hours : Z) (r : result)
    (tz : TreatmentZone.result) :
  hoursValue hours < RiskZone.startsAt ->
  (0 <= TreatmentZone.phototherapy tz <= 2)%Z ->
  exists rest, customTooltip (fst (classify birthGA hours r tz)) = Some (UndefinedText :: rest).
Proof.
  intros Hh Ht. unfold classify.
  rewrite (RiskZone.zone_undefined _ _ Hh). cbv zeta. simpl zoneDecoration. cbv iota.
  assert (E : exists note text, photoTexts (TreatmentZone.phototherapy tz) birthGA = Some (note, text)).
  { unfold photoTexts. cbv zeta.
    destruct (Z.eqb_spec (TreatmentZone.phototherapy tz) TreatmentZone.high); [eauto|].
    destruct (Z.eqb_spec (TreatmentZone.phototherapy tz) TreatmentZone.medium); [eauto|].
    destruct (Z.eqb_spec (TreatmentZone.phototherapy tz) TreatmentZone.low); [eauto|].
    unfold TreatmentZone.high, TreatmentZone.medium, TreatmentZone.low in *. lia. }
  destruct E as (note & text & ->).
  destruct (transfusionTexts _ _) as [[note' text']|]; simpl; eauto.
Qed.

Lemma classify_tooltip_undefined_witness :
  hoursValue 60 < RiskZone.startsAt /\
  (0 <= TreatmentZone.phototherapy (tiersOf (Fin 36) (Some 0%Z) (mkResult 21600000 (Fin 10) POC)) <= 2)%Z /\
  exists rest, customTooltip (fst (classify (Fin 36) 60 (mkResult 21600000 (Fin 10) POC)
                 (tiersOf (Fin 36) (Some 0%Z) (mkResult 21600000 (Fin 10) POC)))) =
               Some (UndefinedText :: rest).
Proof.
  split; [reflexivity |]. split; [vm_compute; split; discriminate |].
  apply classify_tooltip_undefined; [reflexivity | vm_compute; split; discriminate].
Defined.

End Results.
