(* ===== verification/Chart.v ===== *)
(** * Chart: the series [renderChart] draws (src/biligram.js 776-1005)

    Module [Chart] models [addXCoordinatesWithRange] and [addXCoordinates]
    (loops that pair each tabulated value with an x coordinate that they
    accumulate by [x += interval]) and the list of series of
    [chartOptions]: the four risk-zone areas, the three phototherapy and
    three transfusion lines (shown only when [treatmentZone]'s flags are
    raised) and the results series.  The theorems: the accumulated x
    coordinates are the sample ages [startsAt + i * interval], the range
    loop is the line loop of both bounds paired point by point, every
    risk-zone band has its lower edge below its upper edge at every sample,
    and on a page the treatment lines are shown exactly when some result
    reaches one of them. *)

From S2P Require Import Prelude Curves RiskZone TreatmentZone Followup Results.
From Stdlib Require Import String.

Module Chart.

Local Open Scope string_scope.
Local Open Scope list_scope.

(** [{x: x, low: yCoordinatesLow[i], high: yCoordinatesHigh[i]}] *)
Record rangePoint : Type := mkRangePoint { rx : Q; low : num; high : num }.

(** [{x: x, y: yCoordinates[i]}] *)
Record linePoint : Type := mkLinePoint { lx : Q; ly : num }.

(** The loop of [addXCoordinatesWithRange]: [n] iterations left, index
    [i], current [x]. *)
Fixpoint rangeLoop (yLow yHigh : list Q) (interval : Q) (n i : nat) (x : Q) : list rangePoint :=
  match n with
  | O => []
  | S n' => mkRangePoint x (js_get yLow (Z.of_nat i)) (js_get yHigh (Z.of_nat i))
              :: rangeLoop yLow yHigh interval n' (S i) (x + interval)
  end.

(** [addXCoordinatesWithRange(yCoordinatesLow, yCoordinatesHigh, interval, startsAt)] *)
Definition addXCoordinatesWithRange (yLow yHigh : list Q) (interval startsAt : Q) : list rangePoint :=
  rangeLoop yLow yHigh interval (List.length yHigh) 0 startsAt.

(** The loop of [addXCoordinates]. *)
Fixpoint lineLoop (ys : list Q) (interval : Q) (n i : nat) (x : Q) : list linePoint :=
  match n with
  | O => []
  | S n' => mkLinePoint x (js_get ys (Z.of_nat i)) :: lineLoop ys interval n' (S i) (x + interval)
  end.

(** [addXCoordinates(yCoordinates, interval, startsAt)] *)
Definition addXCoordinates (ys : list Q) (interval startsAt : Q) : list linePoint :=
  lineLoop ys interval (List.length ys) 0 startsAt.

(** The data of a series. *)
Inductive seriesData : Type :=
| AreaRange (d : list rangePoint)
| Spline (d : list linePoint)
| Points (d : list Results.dataPoint).

(** A series of [chartOptions.series]: its [id] (the results series has
    none), [visible] (absent means shown) and [data]. *)
Record chartSeries : Type := mkSeries {
  seriesId : option string;
  visible : bool;
  data : seriesData
}.

Definition riskSeries (i : Z) : list Q := nth (Z.to_nat i) RiskZone.series [].
Definition photoSeries (i : Z) : list Q := nth (Z.to_nat i) TreatmentZone.phototherapySeries [].
Definition transfusionSeries (i : Z) : list Q := nth (Z.to_nat i) TreatmentZone.transfusionSeries [].

(** [chartOptions.series] of lines 900-1004, from the flags and
    [resultsSeries] that [getBiliResults] left. *)
Definition chartSeriesList (zones : TreatmentZone.state) (resultsSeries : list Results.dataPoint)
    : list chartSeries :=
  let area lo hi := AreaRange (addXCoordinatesWithRange (riskSeries lo) (riskSeries hi)
                                 RiskZone.interval RiskZone.startsAt) in
  let photo i := Spline (addXCoordinates (photoSeries i) TreatmentZone.interval TreatmentZone.startsAt) in
  let transf i := Spline (addXCoordinates (transfusionSeries i) TreatmentZone.interval
                                          TreatmentZone.startsAt) in
  let pv := TreatmentZone.phototherapyVisible zones in
  let tv := TreatmentZone.transfusiontherapyVisible zones in
  [mkSeries (Some "HRZ") true (area RiskZone.highIntermediate RiskZone.high);
   mkSeries (Some "HIRZ") true (area RiskZone.lowIntermediate RiskZone.highIntermediate);
   mkSeries (Some "LIRZ") true (area RiskZone.low RiskZone.lowIntermediate);
   mkSeries (Some "LRZ") true (area RiskZone.zero RiskZone.low);
   mkSeries (Some "photoHighRisk") pv (photo TreatmentZone.high);
   mkSeries (Some "photoMediumRisk") pv (photo TreatmentZone.medium);
   mkSeries (Some "photoLowRisk") pv (photo TreatmentZone.low);
   mkSeries (Some "transfusionHighRisk") tv (transf TreatmentZone.high);
   mkSeries (Some "transfusionMediumRisk") tv (transf TreatmentZone.medium);
   mkSeries (Some "transfusionLowRisk") tv (transf TreatmentZone.low);
   mkSeries None true (Points resultsSeries)].

(** The page: [getBiliResults()] on the literal's flags, then [renderChart()]. *)
Definition page (inp : Results.input) : list chartSeries :=
  let out := Results.getBiliResults TreatmentZone.initial inp in
  chartSeriesList (Results.flags out) (Results.series out).

(** The label [formatter] of the secondary x axis (lines 845-847):
    [this.value / 24], the age in days. *)
Definition daysLabel (value : Q) : Q := value / 24.

(** The [tooltip.formatter] (lines 879-882): [this.point.customTooltip]
    of the point under the mouse. *)
Definition tooltipFormatter (point : Results.dataPoint) : option (list Results.tooltipPart) :=
  Results.customTooltip point.

(** A band whose lower edge is at or below its upper edge at every point. *)
Definition band_ok (d : list rangePoint) : bool :=
  forallb (fun p => match low p, high p with Fin a, Fin b => Qle_bool a b | _, _ => false end) d.

(** ** Properties *)

Lemma lineLoop_length (ys : list Q) (interval : Q) (n i : nat) (x : Q) :
  List.length (lineLoop ys interval n i x) = n.
Proof. revert i x. induction n as [|n IH]; intros i x; simpl; [reflexivity | now rewrite IH]. Qed.

Lemma lineLoop_nth (ys : list Q) (interval : Q) (n i : nat) (x : Q) (k : nat) (p : linePoint) :
  nth_error (lineLoop ys interval n i x) k = Some p ->
  (lx p == x + inject_Z (Z.of_nat k) * interval)%Q /\ ly p = js_get ys (Z.of_nat (i + k)).
Proof.
  revert i x k. induction n as [|n IH]; intros i x [|k] H; simpl in H; try discriminate.
  - injection H as <-. simpl. rewrite Nat.add_0_r. split; [ring | reflexivity].
  - destruct (IH _ _ _ H) as [Hx Hy]. split.
    + rewrite Hx, Nat2Z.inj_succ, <- Z.add_1_r, inject_Z_plus. ring.
    + rewrite Hy. f_equal. lia.
Qed.

(** Coordinates: [addXCoordinates] keeps every tabulated value, in
    order, and the x it accumulates by [x += interval] is the sample age
    [startsAt + k * interval] of the [k]-th value. *)
Theorem addXCoordinates_spec (ys : list Q) (interval startsAt : Q) :
  List.length (addXCoordinates ys interval startsAt) = List.length ys /\
  forall k p, nth_error (addXCoordinates ys interval startsAt) k = Some p ->
    (lx p == startsAt + inject_Z (Z.of_nat k) * interval)%Q /\ ly p = Fin (nth k ys 0%Q).
Proof.
  unfold addXCoordinates. split; [apply lineLoop_length|].
  intros k p H. pose proof (nth_error_Some (lineLoop ys interval (List.length ys) 0 startsAt) k) as L.
  rewrite lineLoop_length in L. assert (Hk : (k < List.length ys)%nat) by (apply L; congruence).
  destruct (lineLoop_nth _ _ _ _ _ _ _ H) as [Hx Hy]. split; [exact Hx|].
  rewrite Hy. simpl. destruct (js_get_in_range ys (Z.of_nat k) ltac:(lia)) as (q & Hq & Hn).
  rewrite Hq. rewrite Nat2Z.id in Hn. f_equal. symmetry. now apply nth_error_nth.
Qed.

Lemma addXCoordinates_spec_witness :
  nth_error (addXCoordinates [6.7; 9] 12 0) 1 = Some (mkLinePoint (0 + 12) (Fin 9)) /\
  (lx (mkLinePoint (0 + 12) (Fin 9)) == 0 + inject_Z (Z.of_nat 1) * 12)%Q /\
  ly (mkLinePoint (0 + 12) (Fin 9)) = Fin (nth 1 [6.7; 9] 0%Q).
Proof.
  assert (H : nth_error (addXCoordinates [6.7; 9] 12 0) 1 = Some (mkLinePoint (0 + 12) (Fin 9)))
    by reflexivity.
  split; [exact H | exact (proj2 (addXCoordinates_spec [6.7; 9] 12 0) 1%nat _ H)].
Defined.

(** A point of a range series from two points of line series. *)
Definition pairPoints (pq : linePoint * linePoint) : rangePoint :=
  mkRangePoint (lx (fst pq)) (ly (fst pq)) (ly (snd pq)).

Lemma rangeLoop_lineLoop (yLow yHigh : list Q) (interval : Q) (n i : nat) (x : Q) :
  rangeLoop yLow yHigh interval n i x =
    map pairPoints (combine (lineLoop yLow interval n i x) (lineLoop yHigh interval n i x)).
Proof.
  revert i x. induction n as [|n IH]; intros i x; simpl; [reflexivity|]. now rewrite IH.
Qed.

(** C39 (two loops, one computation): for bounds of equal length,
    [addXCoordinatesWithRange] computes exactly what [addXCoordinates]
    computes for the lower and for the upper bound, point by point: the
    same x coordinates, the lower bound's value as [low] and the upper
    bound's as [high]. *)
Theorem addXCoordinatesWithRange_pairs (yLow yHigh : list Q) (interval startsAt : Q) :
  List.length yLow = List.length yHigh ->
  addXCoordinatesWithRange yLow yHigh interval startsAt =
    map pairPoints (combine (addXCoordinates yLow interval startsAt)
                            (addXCoordinates yHigh interval startsAt)).
Proof.
  intros H. unfold addXCoordinatesWithRange, addXCoordinates. rewrite H.
  apply rangeLoop_lineLoop.
Qed.

Lemma addXCoordinatesWithRange_pairs_witness :
  List.length (riskSeries RiskZone.low) = List.length (riskSeries RiskZone.lowIntermediate) /\
  addXCoordinatesWithRange (riskSeries RiskZone.low) (riskSeries RiskZone.lowIntermediate)
    RiskZone.interval RiskZone.startsAt =
  map pairPoints (combine (addXCoordinates (riskSeries RiskZone.low) RiskZone.interval RiskZone.startsAt)
                          (addXCoordinates (riskSeries RiskZone.lowIntermediate)
                             RiskZone.interval RiskZone.startsAt)).
Proof.
  assert (H : List.length (riskSeries RiskZone.low) = List.length (riskSeries RiskZone.lowIntermediate))
    by reflexivity.
  split; [exact H | exact (addXCoordinatesWithRange_pairs _ _ _ _ H)].
Defined.

(** Risk-zone bands: in every area series of the chart the lower
    edge is at or below the upper edge at every sample, so the four zones
    tile the nomogram without overlap. *)
Theorem chart_bands_ordered (zones : TreatmentZone.state) (resultsSeries : list Results.dataPoint)
    (s : chartSeries) (d : list rangePoint) (p : rangePoint) :
  In s (chartSeriesList zones resultsSeries) -> data s = AreaRange d -> In p d ->
  num_le (low p) (high p).
Proof.
  intros Hs Hd Hp.
  assert (B : band_ok d = true).
  { simpl in Hs. repeat destruct Hs as [<-|Hs]; try contradiction; simpl in Hd;
      try discriminate; injection Hd as <-; vm_compute; reflexivity. }
  unfold band_ok in B. rewrite forallb_forall in B. specialize (B p Hp).
  destruct (low p), (high p); try discriminate. now apply Qle_bool_iff.
Qed.

Definition hrzData : list rangePoint :=
  addXCoordinatesWithRange (riskSeries RiskZone.highIntermediate) (riskSeries RiskZone.high)
    RiskZone.interval RiskZone.startsAt.

Lemma chart_bands_ordered_witness :
  In (mkSeries (Some "HRZ") true (AreaRange hrzData)) (chartSeriesList TreatmentZone.initial []) /\
  data (mkSeries (Some "HRZ") true (AreaRange hrzData)) = AreaRange hrzData /\
  In (mkRangePoint 12 (Fin 7.1) (Fin 25)) hrzData /\
  num_le (low (mkRangePoint 12 (Fin 7.1) (Fin 25))) (high (mkRangePoint 12 (Fin 7.1) (Fin 25))).
Proof.
  assert (H1 : In (mkSeries (Some "HRZ") true (AreaRange hrzData))
                  (chartSeriesList TreatmentZone.initial [])) by (left; reflexivity).
  assert (H3 : In (mkRangePoint 12 (Fin 7.1) (Fin 25)) hrzData) by (vm_compute; left; reflexivity).
  split; [exact H1 | split; [reflexivity | split; [exact H3 |]]].
  exact (chart_bands_ordered _ _ _ _ _ H1 eq_refl H3).
Defined.

(** C20 (visibility over a page): after [getBiliResults] and
    [renderChart], the phototherapy lines are shown exactly when some
    result reaches a phototherapy line, and the transfusion lines exactly
    when some result reaches a transfusion line. *)
Theorem page_visibility (inp : Results.input) :
  map visible (page inp) =
    let pv := existsb (Results.photoExceeded (Results.birthGA inp) (Results.birthDateTime inp))
                      (Results.merged inp) in
    let tv := existsb (Results.transfusionExceeded (Results.birthGA inp) (Results.birthDateTime inp))
                      (Results.merged inp) in
    [true; true; true; true; pv; pv; pv; tv; tv; tv; true].
Proof. unfold page. rewrite Results.getBiliResults_flags. reflexivity. Qed.

End Chart.
