(* ===== verification/ChartOptions.v ===== *)
(** * ChartOptions: the options object of [renderChart]
      (src/biligram.js 808-1007)

    Module [ChartOptions] models the rest of [chartOptions], next to the
    series data of [Chart]: the chart, axes, legend and tooltip sections,
    the defaults of [plotOptions.series], and each series' own options
    (name, colour, type, dash style, line width, [linkedTo], mouse
    tracking, marker).  Highcharts reads an option of a series from the
    series if it sets it, else from [plotOptions.series], else (for the
    type) from [chart.type]; [linkedTo: ':previous'] links a series to
    the one before it, and a linked series has no legend item of its own
    and is shown and hidden with the series it is linked to.  These rules
    are the library's documented ones, written here as [effType],
    [effMouseTracking], [effMarker] and [masterOf].  The theorems: every
    series' effective type fits the shape of its data, only the results
    series tracks the mouse (so the tooltip formatter only ever reads a
    result point's [customTooltip]) and shows markers, and every linked
    treatment line has the colour and the visibility of the line its
    legend item stands for. *)

From S2P Require Import Prelude Curves RiskZone TreatmentZone Followup Results Chart.
From Stdlib Require Import String Ascii.

Module ChartOptions.

Local Open Scope string_scope.

(** A double quote, for the HTML of the results series' name. *)
Definition dq : string := String (ascii_of_nat 34) EmptyString.

(** [treatmentZone.lineWidth] (line 130). *)
Definition lineWidth : Q := 3 # 2.

(** ** The sections of [chartOptions] *)

Record chartSection : Type := mkChart {
  chartType : string; zoomType : string; panning : bool; panKey : string;
  chartAnimation : bool; renderTo : string
}.

Record xAxisOptions : Type := mkXAxis {
  xTitle : string; tickInterval : option Q; minorTickInterval : option Q;
  labelFormatter : option (Q -> Q); xLinkedTo : option nat; opposite : bool
}.

Record yAxisOptions : Type := mkYAxis {
  yTitle : string; plotLineValue : Q; plotLineWidth : Q; plotLineColor : string; floor : Q
}.

Record legendOptions : Type := mkLegend {
  layout : string; align : string; verticalAlign : string; borderWidth : Q;
  legendUseHTML : bool; itemHoverColor : string
}.

Record tooltipOptions : Type := mkTooltip {
  tooltipUseHTML : bool; opacity : Q;
  formatter : Results.dataPoint -> option (list Results.tooltipPart)
}.

(** [plotOptions.series]: the defaults of every series. *)
Record plotSeriesOptions : Type := mkPlotSeries {
  pAllowPointSelect : bool; pEnableMouseTracking : bool; pFillOpacity : Q;
  pLineWidth : Q; pMarkerEnabled : bool; pAnimation : bool
}.

(** The options a series sets itself; [None] where it sets nothing. *)
Record seriesOptions : Type := mkSeriesOptions {
  name : string;
  color : string;
  sType : option string;
  dashStyle : option string;
  sLineWidth : option Q;
  linkedTo : option string;
  sAnimation : option bool;
  sAllowPointSelect : option bool;
  sEnableMouseTracking : option bool;
  sFillOpacity : option Q;
  sMarkerEnabled : option bool;
  legendItemClick : option bool
}.

Definition chart : chartSection := mkChart "arearange" "xy" true "shift" false "container".

Definition xAxis : list xAxisOptions :=
  [mkXAxis "Age <i>(hours)</i>" (Some 24) (Some 12) None None false;
   mkXAxis "Age <i>(days)</i>" None None (Some Chart.daysLabel) (Some 0%nat) true].

Definition yAxis : yAxisOptions := mkYAxis "Total serum bilirubin (mg/dL)" 0 1 "gray" 0.

Definition legend : legendOptions := mkLegend "vertical" "right" "middle" 0 true "DarkGray".

Definition tooltip : tooltipOptions := mkTooltip true (9 # 10) Chart.tooltipFormatter.

Definition plotOptions : plotSeriesOptions := mkPlotSeries false false (6 # 10) 0 false false.

(** A series that sets only its name, colour and type. *)
Definition plain (n c : string) (t : option string) : seriesOptions :=
  mkSeriesOptions n c t None None None None None None None None None.

(** A treatment line: a spline of [treatmentZone.lineWidth]. *)
Definition line (n c : string) (dash link : option string) : seriesOptions :=
  mkSeriesOptions n c (Some "spline") dash (Some lineWidth) link None None None None None None.

Definition resultsName : string :=
  "Bilirubin level<br>(serum: &#9679;, POC: &diams;, transcut: &#9632;)<br><br>" ++
  "<button type=" ++ dq ++ "button" ++ dq ++ " class=" ++ dq ++ "btn btn-info btn-sm" ++ dq ++
  " onclick=" ++ dq ++ "copyGraphToPNG()" ++ dq ++ ">Click to copy graph</button>".

Definition mediumRiskName : string :=
  "Infants at medium risk (38+ weeks and risk factors, or 35-37w6d and well)".

(** The options of the eleven series of lines 900-1003, in order. *)
Definition seriesOptionsList : list seriesOptions :=
  [plain "High risk zone" "red" (Some "arearange");
   plain "High-intermediate risk zone" "orange" None;
   plain "Low-intermediate risk zone" "yellow" None;
   plain "Low risk zone" "green" None;
   line "Phototherapy thresholds" Results.phototherapylineColor None None;
   line mediumRiskName Results.phototherapylineColor (Some "dash") (Some ":previous");
   line "Phototherapy thresholds" Results.phototherapylineColor (Some "dot") (Some ":previous");
   line "Transfusion thresholds<br>(low risk &#8943;, medium --, high risk &#8213;)"
        Results.transfusionLineColor None None;
   line mediumRiskName Results.transfusionLineColor (Some "dash") (Some ":previous");
   line "Infants at lower risk (38+ weeks and well)" Results.transfusionLineColor (Some "dot")
        (Some ":previous");
   mkSeriesOptions resultsName "black" (Some "line") None (Some lineWidth) None (Some true)
                   (Some false) (Some true) (Some 1) (Some true) (Some false)].

(** [chartOptions] (lines 808-1004) for the flags and [resultsSeries]
    that [getBiliResults] left; the title is empty, the credits off. *)
Record chartOptions : Type := mkChartOptions {
  title : string; titleX : Z; credits : bool; chartSec : chartSection; subtitleX : Z;
  xAxes : list xAxisOptions; yAxisSec : yAxisOptions; legendSec : legendOptions;
  tooltipSec : tooltipOptions; plotOptionsSec : plotSeriesOptions;
  series : list (Chart.chartSeries * seriesOptions)
}.

Definition makeChartOptions (zones : TreatmentZone.state) (resultsSeries : list Results.dataPoint)
    : chartOptions :=
  mkChartOptions "" (-120) false chart (-20) xAxis yAxis legend tooltip plotOptions
    (combine (Chart.chartSeriesList zones resultsSeries) seriesOptionsList).

(** ** What Highcharts makes of them *)

Definition orDefault {A : Type} (o : option A) (d : A) : A :=
  match o with Some a => a | None => d end.

Definition effType (o : seriesOptions) : string := orDefault (sType o) (chartType chart).
Definition effMouseTracking (o : seriesOptions) : bool :=
  orDefault (sEnableMouseTracking o) (pEnableMouseTracking plotOptions).
Definition effMarker (o : seriesOptions) : bool :=
  orDefault (sMarkerEnabled o) (pMarkerEnabled plotOptions).

(** The data a type draws: [arearange] points [{x, low, high}], [spline]
    and [line] points [{x, y}] or result points. *)
Definition fitsType (t : string) (d : Chart.seriesData) : bool :=
  match d with
  | Chart.AreaRange _ => String.eqb t "arearange"
  | Chart.Spline _ => String.eqb t "spline" || String.eqb t "line"
  | Chart.Points _ => String.eqb t "line" || String.eqb t "spline"
  end.

(** The series a series is linked to: [':previous'] is the one before
    it (none for the first), another text the series with that id. *)
Definition linkTarget (ids : list (option string)) (k : nat) (target : string) : option nat :=
  if String.eqb target ":previous" then (match k with O => None | S k' => Some k' end)
  else find (fun i => match nth i ids None with Some s => String.eqb s target | None => false end)
            (seq 0 (List.length ids)).

(** The series whose legend item shows and hides series [k]: follow the
    links, at most [fuel] of them. *)
Fixpoint masterOf (fuel : nat) (ids : list (option string)) (opts : list seriesOptions) (k : nat) : nat :=
  match fuel with
  | O => k
  | S f =>
      match linkedTo (nth k opts (plain "" "" None)) with
      | Some target =>
          match linkTarget ids k target with
          | Some j => masterOf f ids opts j
          | None => k
          end
      | None => k
      end
  end.

(** The names the legend shows: those of the series that are their own
    master. *)
Definition legendNames (ids : list (option string)) : list string :=
  map (fun k => name (nth k seriesOptionsList (plain "" "" None)))
      (filter (fun k => Nat.eqb (masterOf 11 ids seriesOptionsList k) k) (seq 0 11)).

(** ** Properties *)

(** Types fit the data: in the chart [renderChart] builds, for any
    flags and results, the type Highcharts gives each series (its own, or
    [chart.type] ['arearange'] when it sets none) fits its data: the four
    risk bands are ranges [{x, low, high}], the treatment lines and the
    results points [{x, y}]. *)
Theorem series_types_fit (zones : TreatmentZone.state) (resultsSeries : list Results.dataPoint) :
  forallb (fun so => fitsType (effType (snd so)) (Chart.data (fst so)))
          (series (makeChartOptions zones resultsSeries)) = true.
Proof. reflexivity. Qed.

(** Tooltips on results only: [plotOptions.series] turns mouse
    tracking and markers off and only the results series turns them on,
    so a series tracks the mouse, and so calls the tooltip formatter on
    its points, exactly when it is the results series; it shows markers
    exactly then. *)
Theorem mouseTracking_results_only (zones : TreatmentZone.state) (resultsSeries : list Results.dataPoint)
    (s : Chart.chartSeries) (o : seriesOptions) :
  In (s, o) (series (makeChartOptions zones resultsSeries)) ->
  (effMouseTracking o = true <-> Chart.data s = Chart.Points resultsSeries) /\
  effMarker o = effMouseTracking o.
Proof.
  cbn [series makeChartOptions Chart.chartSeriesList seriesOptionsList combine In].
  intros H. repeat (destruct H as [H|H]; [injection H as <- <-; cbn; intuition congruence|]).
  destruct H.
Qed.

Lemma mouseTracking_results_only_witness :
  In (Chart.mkSeries None true (Chart.Points []), nth 10 seriesOptionsList (plain "" "" None))
     (series (makeChartOptions TreatmentZone.initial [])) /\
  ((effMouseTracking (nth 10 seriesOptionsList (plain "" "" None)) = true <->
    Chart.data (Chart.mkSeries None true (Chart.Points [])) = Chart.Points []) /\
   effMarker (nth 10 seriesOptionsList (plain "" "" None)) =
     effMouseTracking (nth 10 seriesOptionsList (plain "" "" None))).
Proof.
  assert (H : In (Chart.mkSeries None true (Chart.Points []), nth 10 seriesOptionsList (plain "" "" None))
                 (series (makeChartOptions TreatmentZone.initial [])))
    by (cbn; do 10 right; left; reflexivity).
  split; [exact H | exact (mouseTracking_results_only TreatmentZone.initial [] _ _ H)].
Defined.

(** Linked treatment lines: the medium- and low-risk lines of each
    treatment family are linked ([':previous']) to that family's
    high-risk line, whose legend item shows and hides them; they have its
    colour and, for every state of [treatmentZone]'s flags, its
    visibility.  The legend shows the four bands, one item per treatment
    family and the results. *)
Theorem linked_lines (zones : TreatmentZone.state) (resultsSeries : list Results.dataPoint) :
  let S := Chart.chartSeriesList zones resultsSeries in
  let ids := map Chart.seriesId S in
  map (masterOf 11 ids seriesOptionsList) (seq 0 11) = [0; 1; 2; 3; 4; 4; 4; 7; 7; 7; 10]%nat /\
  legendNames ids = ["High risk zone"; "High-intermediate risk zone"; "Low-intermediate risk zone";
                     "Low risk zone"; "Phototherapy thresholds";
                     "Transfusion thresholds<br>(low risk &#8943;, medium --, high risk &#8213;)";
                     resultsName] /\
  (forall k, (k < 11)%nat ->
     let m := masterOf 11 ids seriesOptionsList k in
     Chart.visible (nth k S (Chart.mkSeries None true (Chart.Points []))) =
       Chart.visible (nth m S (Chart.mkSeries None true (Chart.Points []))) /\
     color (nth k seriesOptionsList (plain "" "" None)) =
       color (nth m seriesOptionsList (plain "" "" None))).
Proof.
  cbv zeta. split; [reflexivity | split; [reflexivity|]].
  intros k Hk. do 11 (destruct k as [|k]; [split; reflexivity|]). lia.
Qed.

End ChartOptions.
