(* ===== verification/Input.v ===== *)
(** * Input: what [getBiliResults] reads from the page
      ([translateData], [translatePhotoTherapy], [convertDateTime],
      [stickAColonInIt], [convertWholePlusFrac] and lines 400-432,
      src/biligram.js 273-432)

    Module [Input] models the helpers that turn the EMR's text into the
    engine's input and their composition [readPage]: [translateData] walks
    the rows of a lab table (skipping the rows of index 0 and 1) and reads
    the draw-time text and the level of each; [stickAColonInIt] turns a
    birth time such as ["0923"] into ["09:23"]; [convertWholePlusFrac]
    turns a gestational age such as ["36 6/7"] into a number with
    [split], [parseInt] and [/] (modelled in [JsString]) and returns any
    text without a space unchanged, which the comparisons later convert by
    StringToNumber ([gaNumber]).  [parseFloat] is a variable of the Section
    [Translate] (the theorems on [translateData] hold whatever it does) and
    [JsString.parseFloat] in [readPage]; Date.js's [Date.parse] is a
    variable of the Section [Page].  A row with fewer than two cells makes
    [cells[0].innerText] or [cells[1].innerText] throw, and a draw time
    Date.js cannot read makes the results loop throw: the model returns
    [None] there.  The theorems: [translateData] drops exactly the first
    two rows; [readPage] throws exactly on a short row or an unreadable
    draw time; [convertWholePlusFrac] computes [w + n/d], keeps a text
    without a space, and gives [NaN] or [Infinity] on a leading space, a
    unit ("37 weeks") or a zero denominator, with the consequences on the
    page; [stickAColonInIt] always yields a time with a colon, is
    idempotent, and deleting the colon it inserts gives back a three- or
    four-digit time. *)

From S2P Require Import Prelude JsString Followup Results.
From Stdlib Require Import String Ascii.

Module Input.

Local Open Scope string_scope.

(** [{ drawtime: cells[0].innerText, level: parseFloat(cells[1].innerText) }] *)
Record rawReading : Type := mkRawReading {
drawtimeText : string;
levelValue : num
}.

Section Translate.
(** The library's [parseFloat]. *)
Variable parseFloat : string -> num.

(** The body of [.each(function(index) { ... })] for one row; [None]
  when a cell it reads is missing (a [TypeError]). *)
Definition translateRow (cells : list string) : option rawReading :=
match cells with
| c0 :: c1 :: _ => Some (mkRawReading c0 (parseFloat c1))
| _ => None
end.

(** [$("#" + component + " tr").each(...)] from row [index] on. *)
Fixpoint translateRows (index : nat) (rows : list (list string)) : option (list rawReading) :=
match rows with
| [] => Some []
| cells :: rows' =>
    if (1 <? index)%nat then
      match translateRow cells, translateRows (S index) rows' with
      | Some r, Some rs => Some (r :: rs)
      | _, _ => None
      end
    else translateRows (S index) rows'
end.

(** [translateData(component)] on the rows of the component's table. *)
Definition translateData (rows : list (list string)) : option (list rawReading) :=
translateRows 0 rows.
End Translate.

(** [translatePhotoTherapy(component)]: [undefined] when the textarea is
  absent, else [data], which stays empty: the rewrites of the text (lines
  300-314) go to a local variable that is never read again. *)
Definition translatePhotoTherapy (phototherapyOutput : option string) : option (list string) :=
match phototherapyOutput with
| None => None
| Some _ => Some []
end.

(** The character [':']. *)
Definition colon : string := ":".

(** [time.indexOf(':') >= 0] *)
Definition hasColon (time : string) : bool :=
match String.index 0 colon time with Some _ => true | None => false end.

(** [time.slice(a, b)] for [0 <= a <= b]. *)
Definition slice (time : string) (a b : nat) : string := substring a (b - a) time.

(** [stickAColonInIt(time)] *)
Definition stickAColonInIt (time : string) : string :=
if hasColon time then time
else
  let len := String.length time in
  if (len =? 4)%nat then slice time 0 2 ++ colon ++ slice time 2 4
  else slice time 0 1 ++ colon ++ slice time 1 3.

(** Deleting the character at [k]. *)
Definition deleteAt (s : string) (k : nat) : string :=
slice s 0 k ++ slice s (S k) (String.length s).

(** The row [translateData] reads, once it has two cells. *)
Definition readRow (parseFloat : string -> num) (cells : list string) : rawReading :=
mkRawReading (nth 0 cells EmptyString) (parseFloat (nth 1 cells EmptyString)).

(** What [convertWholePlusFrac] returns: a number, or its argument itself
    when it has no space. *)
Inductive gaValue : Type :=
| GANumber (n : num)
| GAText (s : string).

(** An element of a string array passed to [parseInt]: [undefined] past
    the end, which [parseInt] converts to the text "undefined". *)
Definition argOf (o : option string) : string :=
match o with Some s => s | None => "undefined" end.

(** [convertWholePlusFrac(birthGA)]: [wholePlusFrac[1]] exists under the
  guard [wholePlusFrac.length > 1]; [frac[1]] may not. *)
Definition convertWholePlusFrac (birthGA : string) : gaValue :=
let wholePlusFrac := JsString.splitOn " "%char birthGA in
if (1 <? List.length wholePlusFrac)%nat then
  let frac := JsString.splitOn "/"%char (argOf (nth_error wholePlusFrac 1)) in
  let whole := JsString.parseInt (argOf (nth_error wholePlusFrac 0)) in
  GANumber (whole + JsString.parseInt (argOf (nth_error frac 0)) /
                    JsString.parseInt (argOf (nth_error frac 1)))%js
else GAText birthGA.

(** The number every use of [results.birthGA] sees: all of them
  ([< 38], [>= 36], [>= 35], [< 35] and those of [exceeds] and
  [addRiskToTableRow]) compare it with a number, which converts a text by
  StringToNumber. *)
Definition gaNumber (v : gaValue) : num :=
match v with GANumber n => n | GAText s => JsString.stringToNumber s end.

(** [f] applied to every element, [None] as soon as one gives [None]. *)
Fixpoint mapOption {A B : Type} (f : A -> option B) (l : list A) : option (list B) :=
match l with
| [] => Some []
| x :: l' =>
    match f x, mapOption f l' with
    | Some y, Some ys => Some (y :: ys)
    | _, _ => None
    end
end.

Section Page.
(** Date.js's [Date.parse]: milliseconds, or [null] for a text it cannot
  read. *)
Variable dateParse : string -> option Z.

(** [convertDateTime(element)]; [None] for a [null] draw time, on which
  [drawtime.getMonth()] (line 562) throws when the results loop reaches
  it. *)
Definition convertDateTime (r : rawReading) : option Results.reading :=
match dateParse (drawtimeText r) with
| Some t => Some (Results.mkReading t (levelValue r))
| None => None
end.

(** [translateData(component)] then [$.map(..., convertDateTime)]. *)
Definition readTable (rows : list (list string)) : option (list Results.reading) :=
match translateData JsString.parseFloat rows with
| Some rs => mapOption convertDateTime rs
| None => None
end.

(** Lines 400-419 and 426-431: the three tables, the birth date and time
  ([Date.parse(birthDay + ' ' + stickAColonInIt(birthTime))]), the
  gestational age and [parseFloat] of the weight, as the input of the rest
  of [getBiliResults]; [None] where the call throws. *)
Definition readPage (serumRows pocRows tclabRows : list (list string))
  (birthDay birthTime birthGAText birthWeightText : string) : option Results.input :=
match readTable serumRows, readTable pocRows, readTable tclabRows with
| Some s, Some p, Some t =>
    Some (Results.mkInput s p t
            (dateParse (birthDay ++ " " ++ stickAColonInIt birthTime))
            (gaNumber (convertWholePlusFrac birthGAText))
            (JsString.parseFloat birthWeightText))
| _, _, _ => None
end.

(** A table row past the header rows that the page reads without
  throwing: two cells and a draw time Date.js reads. *)
Definition rowOk (cells : list string) : bool :=
(2 <=? List.length cells)%nat && is_some (dateParse (nth 0 cells EmptyString)).
End Page.

(** ** Properties *)

Lemma translateRows_from2 (parseFloat : string -> num) (rows : list (list string)) (i : nat) :
(2 <= i)%nat ->
translateRows parseFloat i rows =
  if forallb (fun cells => 2 <=? List.length cells)%nat rows
  then Some (map (readRow parseFloat) rows) else None.
Proof.
revert i. induction rows as [|cells rows IH]; intros i Hi; [reflexivity|].
cbn [translateRows forallb map]. replace (1 <? i)%nat with true by (symmetry; apply Nat.ltb_lt; lia).
rewrite (IH (S i)) by lia.
destruct cells as [|c0 [|c1 cs]]; simpl; [reflexivity | reflexivity |].
destruct (forallb _ rows); reflexivity.
Qed.

(** C40 (table reading): [translateData] skips the rows of index 0 and 1
  ([index > 1]; the comment speaks of one header row), reads every
  further row as its first cell's text and [parseFloat] of its second,
  and throws (here [None]) exactly when such a row has fewer than two
  cells. *)
Theorem translateData_spec (parseFloat : string -> num) (rows : list (list string)) :
translateData parseFloat rows =
  if forallb (fun cells => 2 <=? List.length cells)%nat (skipn 2 rows)
  then Some (map (readRow parseFloat) (skipn 2 rows)) else None.
Proof.
unfold translateData.
destruct rows as [|r0 [|r1 rows]]; [reflexivity | reflexivity |].
cbn [translateRows skipn]. simpl Nat.ltb. cbv iota. now apply translateRows_from2.
Qed.

Lemma index0_cons (pat : string) (c : ascii) (t : string) :
String.index 0 pat (String c t) =
  if prefix pat (String c t) then Some 0%nat
  else match String.index 0 pat t with Some n => Some (S n) | None => None end.
Proof. reflexivity. Qed.

Lemma index_colon_app (a b : string) : String.index 0 colon (a ++ colon ++ b) <> None.
Proof.
induction a as [|c a IH]; cbn [append].
- unfold colon. cbn [append]. rewrite index0_cons. destruct b; reflexivity || discriminate.
- rewrite index0_cons. destruct (prefix _ _); [discriminate|].
  destruct (String.index 0 colon (a ++ colon ++ b)); [discriminate | contradiction].
Qed.

(** Colon: [stickAColonInIt] always returns a time containing a
  colon, so a second call changes nothing. *)
Theorem stickAColonInIt_colon (time : string) :
hasColon (stickAColonInIt time) = true /\
stickAColonInIt (stickAColonInIt time) = stickAColonInIt time.
Proof.
assert (H : hasColon (stickAColonInIt time) = true).
{ unfold stickAColonInIt. destruct (hasColon time) eqn:E; [exact E|].
  unfold hasColon. cbv zeta.
  destruct (String.length time =? 4)%nat;
    destruct (String.index 0 colon _) eqn:I; try reflexivity;
    exfalso; exact (index_colon_app _ _ I). }
split; [exact H|]. unfold stickAColonInIt at 1. now rewrite H.
Qed.

(** Round trip: for a four-digit (three-digit) time without a colon,
  [stickAColonInIt] puts the colon at index 2 (1), and deleting it gives
  the time back. *)
Theorem stickAColonInIt_roundtrip (time : string) :
hasColon time = false ->
(String.length time = 4%nat ->
   String.get 2 (stickAColonInIt time) = Some ":"%char /\ deleteAt (stickAColonInIt time) 2 = time) /\
(String.length time = 3%nat ->
   String.get 1 (stickAColonInIt time) = Some ":"%char /\ deleteAt (stickAColonInIt time) 1 = time).
Proof.
intros H. unfold stickAColonInIt. rewrite H.
split; intros L;
  destruct time as [|c1 [|c2 [|c3 [|c4 [|c5 t]]]]]; simpl in L; try discriminate;
  split; reflexivity.
Qed.

Lemma stickAColonInIt_roundtrip_witness :
hasColon "0923" = false /\
String.get 2 (stickAColonInIt "0923") = Some ":"%char /\ deleteAt (stickAColonInIt "0923") 2 = "0923".
Proof.
assert (H : hasColon "0923" = false) by reflexivity.
split; [exact H |]. exact (proj1 (stickAColonInIt_roundtrip "0923" H) eq_refl).
Defined.

(** The number branch of [convertWholePlusFrac] on [w ++ " " ++ f]. *)
Lemma convertWholePlusFrac_split (w f : string) :
JsString.hasChar " " w = false -> JsString.hasChar " " f = false ->
convertWholePlusFrac (w ++ " " ++ f) =
  let frac := JsString.splitOn "/"%char f in
  GANumber (JsString.parseInt w + JsString.parseInt (argOf (nth_error frac 0)) /
            JsString.parseInt (argOf (nth_error frac 1)))%js.
Proof.
intros Hw Hf. unfold convertWholePlusFrac. change (" " ++ f) with (String " " f).
rewrite JsString.splitOn_app by exact Hw. rewrite (JsString.splitOn_nosep _ f) by exact Hf.
reflexivity.
Qed.

(** [w n/d], with no further space or slash. *)
Lemma convertWholePlusFrac_frac (w n d : string) :
JsString.hasChar " " w = false -> JsString.hasChar " " n = false -> JsString.hasChar "/" n = false ->
JsString.hasChar " " d = false -> JsString.hasChar "/" d = false ->
convertWholePlusFrac (w ++ " " ++ n ++ "/" ++ d) =
  GANumber (JsString.parseInt w + JsString.parseInt n / JsString.parseInt d)%js.
Proof.
intros Hw Hn Hn' Hd Hd'.
rewrite convertWholePlusFrac_split by (rewrite ?JsString.hasChar_app, ?Hw, ?Hn, ?Hd; reflexivity).
change ("/" ++ d) with (String "/" d).
cbv zeta. rewrite JsString.splitOn_app, (JsString.splitOn_nosep _ d) by assumption. reflexivity.
Qed.

(** [w n/d] with decimal [w], [n], [d]. *)
Lemma convertWholePlusFrac_digits (w n d : string) :
JsString.isDecimal w = true -> JsString.isDecimal n = true -> JsString.isDecimal d = true ->
w <> EmptyString -> n <> EmptyString -> d <> EmptyString ->
convertWholePlusFrac (w ++ " " ++ n ++ "/" ++ d) =
  GANumber (Fin (inject_Z (JsString.decimalValue w)) +
            Fin (inject_Z (JsString.decimalValue n)) / Fin (inject_Z (JsString.decimalValue d)))%js.
Proof.
intros Hw Hn Hd Ew En Ed.
destruct (JsString.isDecimal_noChar w Hw), (JsString.isDecimal_noChar n Hn),
  (JsString.isDecimal_noChar d Hd).
rewrite convertWholePlusFrac_frac by assumption.
now rewrite !JsString.parseInt_decimal by assumption.
Qed.

(** The sign of [inject_Z z] as [js_div] reads it. *)
Lemma inject_Z_compare_pos (z : Z) : (0 < z)%Z -> (inject_Z z ?= 0)%Q = Gt.
Proof. intros H. apply Qgt_alt. unfold Qlt. simpl. lia. Qed.

(** Mixed-number parsing: a gestational age with no space is returned
  unchanged (a text), and one of the form [w n/d] (a space, then a slash in
  the second part) is [parseInt(w) + parseInt(n) / parseInt(d)]. *)
Theorem convertWholePlusFrac_spec (s w n d : string) :
(JsString.hasChar " " s = false -> convertWholePlusFrac s = GAText s) /\
(JsString.hasChar " " w = false -> JsString.hasChar " " n = false -> JsString.hasChar "/" n = false ->
 JsString.hasChar " " d = false -> JsString.hasChar "/" d = false ->
 convertWholePlusFrac (w ++ " " ++ n ++ "/" ++ d) =
   GANumber (JsString.parseInt w + JsString.parseInt n / JsString.parseInt d)%js).
Proof.
split; [|exact (convertWholePlusFrac_frac w n d)].
intros H. unfold convertWholePlusFrac. now rewrite JsString.splitOn_nosep.
Qed.

Lemma convertWholePlusFrac_spec_witness :
JsString.hasChar " " "36" = false /\ JsString.hasChar " " "6" = false /\ JsString.hasChar "/" "6" = false /\
JsString.hasChar " " "7" = false /\ JsString.hasChar "/" "7" = false /\
convertWholePlusFrac ("36" ++ " " ++ "6" ++ "/" ++ "7") =
  GANumber (JsString.parseInt "36" + JsString.parseInt "6" / JsString.parseInt "7")%js.
Proof.
do 5 (split; [reflexivity|]).
exact (proj2 (convertWholePlusFrac_spec "" "36" "6" "7") eq_refl eq_refl eq_refl eq_refl eq_refl).
Defined.

(** C23 (weeks and days): a gestational age written [w n/d] in decimal
  digits with [d > 0], such as "36 6/7", is the number [w + n/d]. *)
Theorem convertWholePlusFrac_decimal (w n d : string) :
JsString.isDecimal w = true -> JsString.isDecimal n = true -> JsString.isDecimal d = true ->
w <> EmptyString -> n <> EmptyString -> d <> EmptyString ->
(0 < JsString.decimalValue d)%Z ->
gaNumber (convertWholePlusFrac (w ++ " " ++ n ++ "/" ++ d)) =
  Fin (inject_Z (JsString.decimalValue w) +
       inject_Z (JsString.decimalValue n) / inject_Z (JsString.decimalValue d)).
Proof.
intros Hw Hn Hd Ew En Ed Hpos. rewrite convertWholePlusFrac_digits by assumption.
cbn [gaNumber js_add js_div]. now rewrite inject_Z_compare_pos.
Qed.

Lemma convertWholePlusFrac_decimal_witness :
gaNumber (convertWholePlusFrac ("36" ++ " " ++ "6" ++ "/" ++ "7")) = Fin (36 + 6 / 7).
Proof.
exact (convertWholePlusFrac_decimal "36" "6" "7" eq_refl eq_refl eq_refl
         ltac:(discriminate) ltac:(discriminate) ltac:(discriminate) eq_refl).
Defined.

(** [w f] where [f] has no slash: [frac[1]] is [undefined]. *)
Lemma convertWholePlusFrac_noslash (w f : string) :
JsString.hasChar " " w = false -> JsString.hasChar " " f = false -> JsString.hasChar "/" f = false ->
convertWholePlusFrac (w ++ " " ++ f) = GANumber NaN.
Proof.
intros Hw Hf Hf'. rewrite convertWholePlusFrac_split by assumption.
cbv zeta. rewrite (JsString.splitOn_nosep _ f) by exact Hf'. cbn [nth_error argOf].
change (JsString.parseInt "undefined") with NaN. now rewrite js_div_NaN_r, js_add_NaN_r.
Qed.

(** C25 (texts that are not a number, a defect): a leading space, or a
  second part without a slash (as in "37 weeks"), makes the gestational
  age [NaN]; a zero denominator makes it [Infinity]. *)
Theorem convertWholePlusFrac_nonfinite (s w f n d : string) :
gaNumber (convertWholePlusFrac (" " ++ s)) = NaN /\
(JsString.hasChar " " w = false -> JsString.hasChar " " f = false -> JsString.hasChar "/" f = false ->
 gaNumber (convertWholePlusFrac (w ++ " " ++ f)) = NaN) /\
(JsString.isDecimal w = true -> JsString.isDecimal n = true -> JsString.isDecimal d = true ->
 w <> EmptyString -> n <> EmptyString -> d <> EmptyString ->
 JsString.decimalValue d = 0%Z -> (0 < JsString.decimalValue n)%Z ->
 gaNumber (convertWholePlusFrac (w ++ " " ++ n ++ "/" ++ d)) = PosInf).
Proof.
split; [|split].
- unfold convertWholePlusFrac. cbn [append JsString.splitOn Ascii.eqb Bool.eqb].
  destruct (JsString.splitOn " " s) eqn:E; [now apply JsString.splitOn_nonempty in E|].
  reflexivity.
- intros Hw Hf Hf'. now rewrite convertWholePlusFrac_noslash.
- intros Hw Hn Hd Ew En Ed H0 Hpos. rewrite convertWholePlusFrac_digits by assumption.
  rewrite H0. cbn [gaNumber js_add js_div]. rewrite (inject_Z_compare_pos _ Hpos). reflexivity.
Qed.

Lemma convertWholePlusFrac_nonfinite_witness :
gaNumber (convertWholePlusFrac ("37" ++ " " ++ "weeks")) = NaN.
Proof.
exact (proj1 (proj2 (convertWholePlusFrac_nonfinite "" "37" "weeks" "" "")) eq_refl eq_refl eq_refl).
Defined.

Lemma mapOption_None {A B : Type} (f : A -> option B) (l : list A) :
mapOption f l = None <-> existsb (fun x => negb (is_some (f x))) l = true.
Proof.
induction l as [|x l IH]; simpl; [split; discriminate|].
destruct (f x); simpl; [|split; reflexivity].
rewrite <- IH. destruct (mapOption f l); split; congruence.
Qed.

(** A table is read exactly when every row past the first two is. *)
Lemma readTable_ok (dateParse : string -> option Z) (rows : list (list string)) :
is_some (readTable dateParse rows) = forallb (rowOk dateParse) (skipn 2 rows).
Proof.
unfold readTable, translateData.
destruct rows as [|r0 [|r1 rows]]; [reflexivity | reflexivity |].
change (translateRows JsString.parseFloat 0 (r0 :: r1 :: rows)) with (translateRows JsString.parseFloat 2 rows).
cbn [skipn]. rewrite translateRows_from2 by lia.
induction rows as [|cells rows IH]; [reflexivity|].
cbn [forallb map]. unfold rowOk at 1.
destruct (2 <=? List.length cells)%nat; [|reflexivity].
destruct (forallb _ rows); cbn [andb] in *.
- cbn [mapOption]. unfold convertDateTime at 1. cbn [readRow drawtimeText].
  destruct (dateParse (nth 0 cells EmptyString)); [|reflexivity].
  destruct (mapOption _ _); rewrite <- IH; reflexivity.
- rewrite <- IH. symmetry. apply andb_false_r.
Qed.

(** What [readPage] passes on of the birth data. *)
Lemma readPage_fields (dateParse : string -> option Z) (sr pr tr : list (list string))
  (birthDay birthTime birthGAText birthWeightText : string) (inp : Results.input) :
readPage dateParse sr pr tr birthDay birthTime birthGAText birthWeightText = Some inp ->
Results.birthDateTime inp = dateParse (birthDay ++ " " ++ stickAColonInIt birthTime) /\
Results.birthGA inp = gaNumber (convertWholePlusFrac birthGAText) /\
Results.birthWeight inp = JsString.parseFloat birthWeightText.
Proof.
unfold readPage.
destruct (readTable dateParse sr), (readTable dateParse pr), (readTable dateParse tr);
  try discriminate.
intros H. injection H as <-. repeat split.
Qed.

(** Where reading the page throws: [getBiliResults] stops with an
  exception exactly when one of the three lab tables has, past its first
  two rows, a row with fewer than two cells or a draw time Date.js cannot
  read. *)
Theorem readPage_throws (dateParse : string -> option Z) (serumRows pocRows tclabRows : list (list string))
  (birthDay birthTime birthGAText birthWeightText : string) :
readPage dateParse serumRows pocRows tclabRows birthDay birthTime birthGAText birthWeightText = None <->
existsb (fun rows => negb (forallb (rowOk dateParse) (skipn 2 rows))) [serumRows; pocRows; tclabRows] = true.
Proof.
unfold readPage. cbn [existsb]. rewrite <- !readTable_ok.
destruct (readTable dateParse serumRows), (readTable dateParse pocRows), (readTable dateParse tclabRows);
  simpl; split; congruence.
Qed.

(** C24 (a gestational age written with its unit, a defect): when the
  gestational age text is a number, a space and a word without a slash
  (as in "37 weeks"), the page reads it as [NaN]: it shows the banner
  that the risk zones are not validated, whatever the weight, and every
  follow-up cell reads "(Not applicable under 35 weeks)". *)
Theorem readPage_ga_with_unit (dateParse : string -> option Z) (sr pr tr : list (list string))
  (birthDay birthTime w f birthWeightText : string) (inp : Results.input) :
JsString.hasChar " " w = false -> JsString.hasChar " " f = false -> JsString.hasChar "/" f = false ->
readPage dateParse sr pr tr birthDay birthTime (w ++ " " ++ f) birthWeightText = Some inp ->
Results.validityWarnings (Results.birthGA inp) (Results.birthWeight inp) = [Results.RiskZonesNotValidated] /\
(forall color description, In description Followup.descriptions ->
   Followup.addRiskToTableRow color description (Results.birthGA inp) =
     [Followup.TdBackground color description; Followup.TdSpan2 Followup.notApplicable]).
Proof.
intros Hw Hf Hf' H. destruct (readPage_fields _ _ _ _ _ _ _ _ _ H) as (_ & -> & _).
rewrite convertWholePlusFrac_noslash by assumption. cbn [gaNumber]. split; [reflexivity|].
intros color description Hd. rewrite Followup.addRiskToTableRow_known by exact Hd. reflexivity.
Qed.

Definition sampleRows : list (list string) :=
[["Serum bilirubin"]; ["Date"; "Value"]; ["6/4/16 12:02"; "12.2"]].

Lemma readPage_ga_with_unit_witness :
JsString.hasChar " " "37" = false /\ JsString.hasChar " " "weeks" = false /\
JsString.hasChar "/" "weeks" = false /\
readPage (fun _ => Some 0%Z) sampleRows [] [] "6/2/16" "0923" ("37" ++ " " ++ "weeks") "2.930 kg" =
  Some (Results.mkInput [Results.mkReading 0 (Fin 12.2)] [] [] (Some 0%Z) NaN (Fin 2.930)) /\
Results.validityWarnings NaN (Fin 2.930) = [Results.RiskZonesNotValidated].
Proof.
assert (H : readPage (fun _ => Some 0%Z) sampleRows [] [] "6/2/16" "0923" ("37" ++ " " ++ "weeks") "2.930 kg" =
  Some (Results.mkInput [Results.mkReading 0 (Fin 12.2)] [] [] (Some 0%Z) NaN (Fin 2.930))) by (vm_compute; reflexivity).
do 3 (split; [reflexivity|]). split; [exact H|].
exact (proj1 (readPage_ga_with_unit _ _ _ _ _ _ "37" "weeks" _ _ eq_refl eq_refl eq_refl H)).
Defined.

End Input.
