(* ===== verification/Display.v ===== *)
(** * Display: the show/hide controls of the result table
      (src/biligram.js 700-767)

    After building the table, [getBiliResults] appends a radio form
    ("Rows to show": [#all], [#latest] and [#none], with [#latest]
    checked) and a
    "Show table" checkbox, shows the elements of class
    [result-row-first] (the latest row, the second header row and the
    radios' own div), hides those of class [result-row] (the older rows)
    and the checkbox, and installs two [change] handlers.  The page's entry
    point then calls [getBiliResults()] and, unless the page is
    [table-only.html], [renderChart()].

    Module [Display] models what is shown as a [state] record, the
    handlers as functions on it ([checkboxChange], [radioChange]), a user
    click as [click] (the browser updates the control and fires [change]
    only when its state changes), what the user can click as [enabled] (a
    hidden control cannot be clicked), and the states a page can reach as
    the inductive [reachable].  [slideDown]/[slideUp] are [show]/[hide]
    with an animation, which is not modelled: the model records where it
    ends.  The theorems: every reachable state shows the rows the checked
    radio names and shows the checkbox exactly when the radios are hidden
    (by rule induction on [reachable]); from every reachable state each of
    the three views is at most two clicks away; and the condition of the
    entry point is always true, so a [table-only.html] page also draws the
    chart and shows only the latest row. *)

From S2P Require Import Prelude.
From Stdlib Require Import String.

Module Display.

Local Open Scope string_scope.

(** The radio buttons [#all], [#latest] and [#none]. *)
Inductive radio : Type :=
| All
| Latest
| NoRows.

Definition radio_eqb (a b : radio) : bool :=
  match a, b with
  | All, All | Latest, Latest | NoRows, NoRows => true
  | _, _ => false
  end.

(** What the page shows: the elements of class [result-row-first] (which
    include [#resultTableRadioDiv]), those of class [result-row],
    [#resultTableCheckbox]; the radio that is checked; whether
    [#showTable] is ticked. *)
Record state : Type := mkState {
  firstVisible : bool;
  restVisible : bool;
  checkboxVisible : bool;
  checked : radio;
  showTableChecked : bool
}.

Definition setFirst (b : bool) (st : state) : state :=
  mkState b (restVisible st) (checkboxVisible st) (checked st) (showTableChecked st).
Definition setRest (b : bool) (st : state) : state :=
  mkState (firstVisible st) b (checkboxVisible st) (checked st) (showTableChecked st).
Definition setCheckbox (b : bool) (st : state) : state :=
  mkState (firstVisible st) (restVisible st) b (checked st) (showTableChecked st).
Definition setChecked (r : radio) (st : state) : state :=
  mkState (firstVisible st) (restVisible st) (checkboxVisible st) r (showTableChecked st).
Definition setShowTable (b : bool) (st : state) : state :=
  mkState (firstVisible st) (restVisible st) (checkboxVisible st) (checked st) b.

(** Lines 700-706: the table, the radio form with [#latest] checked and
    the unticked checkbox are appended, all of them shown. *)
Definition appended : state := mkState true true true Latest false.

(** Lines 710-712. *)
Definition setup (st : state) : state :=
  setCheckbox false (setRest false (setFirst true st)).

(** [s.indexOf(pat)]: the first position of [pat] in [s], or -1. *)
Definition indexOf (pat s : string) : Z :=
  match String.index 0 pat s with
  | Some n => Z.of_nat n
  | None => (-1)%Z
  end.

(** [(location.pathname).indexOf('table-only.html') >= 0] *)
Definition tableOnly (pathname : string) : bool :=
  (0 <=? indexOf "table-only.html" pathname)%Z.

(** The checkbox handler (lines 715-728), for [this.id == 'showTable']. *)
Definition checkboxChange (pathname : string) (st : state) : state :=
  let st := setFirst true st in
  let st := if tableOnly pathname then setChecked All (setRest true st)
            else setChecked Latest (setRest false st) in
  setShowTable false (setCheckbox false st).

(** The radio handler (lines 734-748) for [this.id]. *)
Definition radioChange (id : radio) (st : state) : state :=
  match id with
  | All => setRest true (setFirst true st)
  | Latest => setCheckbox false (setRest false (setFirst true st))
  | NoRows => setCheckbox true (setRest false (setFirst false st))
  end.

(** What a user does: tick or untick "Show table", or pick a radio. *)
Inductive event : Type :=
| ClickShowTable
| ClickRadio (id : radio).

(** A control can be clicked while it is shown: the checkbox inside
    [#resultTableCheckbox], the radios inside a div of class
    [result-row-first] (line 467). *)
Definition enabled (st : state) (ev : event) : bool :=
  match ev with
  | ClickShowTable => checkboxVisible st
  | ClickRadio _ => firstVisible st
  end.

(** A click: the browser toggles the checkbox or checks the radio, and
    fires [change] when that changes the control (a radio that is already
    checked fires nothing). *)
Definition click (pathname : string) (st : state) (ev : event) : state :=
  match ev with
  | ClickShowTable => checkboxChange pathname (setShowTable (negb (showTableChecked st)) st)
  | ClickRadio id => if radio_eqb (checked st) id then st else radioChange id (setChecked id st)
  end.

(** [!n] for a number [n] that is not [NaN]. *)
Definition js_not_num (n : Z) : bool := (n =? 0)%Z.

(** The condition of line 760, [!(location.pathname).indexOf('table-only.html') >= 0]:
    [!] applies to the result of [indexOf], and [>=] compares the boolean
    with 0 as the number 0 or 1. *)
Definition rendersChart (pathname : string) : bool :=
  js_ge (Fin (inject_Z (bool_to_Z (js_not_num (indexOf "table-only.html" pathname))))) (Fin 0).

(** Lines 757-767: after [getBiliResults()] has appended and set up the
    table, whether [renderChart()] runs, and what is shown. *)
Definition mainEntry (pathname : string) : bool * state :=
  let st := setup appended in
  if rendersChart pathname then (true, st)
  else (false, setChecked All (setRest true (setFirst true st))).

(** The states a page can reach: the one the entry point leaves, and any
    click on a control that is shown. *)
Inductive reachable (pathname : string) : state -> Prop :=
| reachable_load : reachable pathname (snd (mainEntry pathname))
| reachable_click (st : state) (ev : event) :
    reachable pathname st -> enabled st ev = true -> reachable pathname (click pathname st ev).

(** A sequence of clicks, [None] as soon as one is on a hidden control. *)
Fixpoint run (pathname : string) (st : state) (evs : list event) : option state :=
  match evs with
  | [] => Some st
  | ev :: evs' => if enabled st ev then run pathname (click pathname st ev) evs' else None
  end.

(** The display is consistent: the rows shown are those the checked radio
    names, the checkbox is shown exactly when the radios are hidden, and
    it is unticked. *)
Definition consistent (st : state) : bool :=
  match checked st with
  | All => firstVisible st && restVisible st
  | Latest => firstVisible st && negb (restVisible st)
  | NoRows => negb (firstVisible st) && negb (restVisible st)
  end && Bool.eqb (checkboxVisible st) (negb (firstVisible st)) && negb (showTableChecked st).

(** ** Properties *)

Lemma radio_eqb_true (a b : radio) : radio_eqb a b = true -> a = b.
Proof. destruct a, b; simpl; congruence. Qed.

Lemma load_consistent (pathname : string) : consistent (snd (mainEntry pathname)) = true.
Proof. unfold mainEntry. destruct (rendersChart pathname); reflexivity. Qed.

Lemma click_consistent (pathname : string) (st : state) (ev : event) :
  consistent st = true -> enabled st ev = true -> consistent (click pathname st ev) = true.
Proof.
  destruct st as [[] [] [] [] []], ev as [|[]];
    unfold click, checkboxChange, radioChange, enabled; cbn [checked showTableChecked radio_eqb];
    try discriminate; destruct (tableOnly pathname); reflexivity.
Qed.

Lemma click_radio_checked (pathname : string) (st : state) (id : radio) :
  checked (click pathname st (ClickRadio id)) = id.
Proof.
  unfold click. destruct (radio_eqb (checked st) id) eqn:E.
  - now apply radio_eqb_true.
  - destruct id; reflexivity.
Qed.

Lemma click_show_table_first (pathname : string) (st : state) :
  firstVisible (click pathname st ClickShowTable) = true.
Proof. unfold click, checkboxChange. destruct (tableOnly pathname); reflexivity. Qed.

Lemma consistent_checkbox (st : state) :
  consistent st = true -> checkboxVisible st = negb (firstVisible st).
Proof. destruct st as [f r c k s]; destruct f, r, c, k, s; vm_compute; congruence. Qed.

(** C29 (consistent display): in every state a page can reach, the rows
    shown are those the checked radio names (all, the latest only, none),
    the "Show table" checkbox is shown exactly when the radios are hidden,
    and it is unticked. *)
Theorem reachable_consistent (pathname : string) (st : state) :
  reachable pathname st -> consistent st = true.
Proof.
  induction 1 as [|st ev _ IH E].
  - apply load_consistent.
  - now apply click_consistent.
Qed.

Lemma reachable_consistent_witness :
  reachable "/biligram/index.html" (click "/biligram/index.html" (snd (mainEntry "/biligram/index.html"))
                                      (ClickRadio NoRows)) /\
  consistent (click "/biligram/index.html" (snd (mainEntry "/biligram/index.html")) (ClickRadio NoRows))
    = true.
Proof.
  assert (R : reachable "/biligram/index.html"
                (click "/biligram/index.html" (snd (mainEntry "/biligram/index.html")) (ClickRadio NoRows)))
    by (apply reachable_click; [apply reachable_load | reflexivity]).
  split; [exact R | exact (reachable_consistent _ _ R)].
Defined.

(** C30 (every view stays reachable): from every state a page can reach,
    each of the three views (all rows, the latest row, none) is at most
    two clicks on shown controls away: the radio itself when the radios
    are shown, else "Show table" and then the radio. *)
Theorem reachable_views (pathname : string) (st : state) (target : radio) :
  reachable pathname st ->
  exists evs st', (List.length evs <= 2)%nat /\ run pathname st evs = Some st' /\
                  checked st' = target /\ consistent st' = true.
Proof.
  intros R. pose proof (reachable_consistent _ _ R) as C.
  destruct (firstVisible st) eqn:F.
  - exists [ClickRadio target], (click pathname st (ClickRadio target)).
    cbn [run enabled List.length]. rewrite F.
    split; [lia|]. split; [reflexivity|].
    split; [apply click_radio_checked | apply click_consistent; [exact C | exact F]].
  - assert (K : checkboxVisible st = true).
    { rewrite consistent_checkbox, F by exact C. reflexivity. }
    assert (F1 : firstVisible (click pathname st ClickShowTable) = true) by apply click_show_table_first.
    assert (C1 : consistent (click pathname st ClickShowTable) = true)
      by (apply click_consistent; [exact C | exact K]).
    exists [ClickShowTable; ClickRadio target],
      (click pathname (click pathname st ClickShowTable) (ClickRadio target)).
    cbn [run enabled List.length]. rewrite K, F1.
    split; [lia|]. split; [reflexivity|].
    split; [apply click_radio_checked | apply click_consistent; [exact C1 | exact F1]].
Qed.

Lemma reachable_views_witness :
  reachable "/biligram/index.html" (click "/biligram/index.html" (snd (mainEntry "/biligram/index.html"))
                                      (ClickRadio NoRows)) /\
  exists evs st', (List.length evs <= 2)%nat /\
    run "/biligram/index.html"
        (click "/biligram/index.html" (snd (mainEntry "/biligram/index.html")) (ClickRadio NoRows)) evs
      = Some st' /\ checked st' = All /\ consistent st' = true.
Proof.
  assert (R : reachable "/biligram/index.html"
                (click "/biligram/index.html" (snd (mainEntry "/biligram/index.html")) (ClickRadio NoRows)))
    by (apply reachable_click; [apply reachable_load | reflexivity]).
  split; [exact R | exact (reachable_views _ _ All R)].
Defined.

(** The entry point's condition holds for every path. *)
Lemma rendersChart_true (pathname : string) : rendersChart pathname = true.
Proof. unfold rendersChart. destruct (js_not_num _); reflexivity. Qed.

(** C28 (table-only pages, a defect): because [!] binds to the [indexOf]
    result, the entry point's condition is always true: on a
    [table-only.html] page the chart is drawn too, and the else branch
    that shows the whole table and checks [#all] never runs, so only the
    latest row is shown with [#latest] checked. *)
Theorem mainEntry_table_only (pathname : string) :
  tableOnly pathname = true ->
  fst (mainEntry pathname) = true /\
  restVisible (snd (mainEntry pathname)) = false /\ checked (snd (mainEntry pathname)) = Latest.
Proof.
  intros _. unfold mainEntry. rewrite rendersChart_true. repeat split.
Qed.

Lemma mainEntry_table_only_witness :
  tableOnly "/biligram/table-only.html" = true /\
  fst (mainEntry "/biligram/table-only.html") = true /\
  restVisible (snd (mainEntry "/biligram/table-only.html")) = false /\
  checked (snd (mainEntry "/biligram/table-only.html")) = Latest.
Proof.
  assert (T : tableOnly "/biligram/table-only.html" = true) by reflexivity.
  split; [exact T | exact (mainEntry_table_only _ T)].
Defined.

End Display.
