(* ===== verification/Table.v ===== *)
(** * Table: the layout of the result table and the draw-time text
      ([getBiliResults], src/biligram.js 465-471, 561-567, 694-697)

    Module [Table] models what [Results] keeps as structured rows in the
    form the page shows them: the two header rows of lines 465-471 as
    lists of header cells with their [colspan], the width of a result row
    (the three cells of line 567 and the cells the loop appends after
    them), and the draw-time text of line 562,
    [(1 + getMonth()) + '/' + getDate() + ' ' + getHours() + ':' +
    ('0' + getMinutes()).slice(-2)], with the [Date] getters of
    [JsDate] on the local time [t + LocalTZA(t)] (the zone offset is a
    variable of the Section [Drawtime]) and [Number]'s [toString] for the
    integers involved ([JsString.numberText]).  The theorems: a row has three
    columns for a known risk zone plus one per treatment family reached,
    so a result reaching both a phototherapy and a transfusion line gets
    eight cells under a seven-column header, and one before 12 h puts its
    treatment note under "Risk level"; the draw-time text reads back, with
    [split] and [parseInt], as the month, day, hour and minute of the local
    time, with the minutes on two digits. *)

From S2P Require Import Prelude JsString JsDate Curves RiskZone TreatmentZone Followup Results.
From Stdlib Require Import String Ascii.

Module Table.

Local Open Scope string_scope.

(** ** Header *)

(** A header cell [<th colspan=...>text</th>]. *)
Record th : Type := mkTh { thText : string; thSpan : nat }.

(** Lines 466-467. *)
Definition headerRow1 : list th :=
  [mkTh "Draw time" 1; mkTh "Age" 1; mkTh "Bilirubin level" 1; mkTh "Risk level" 1;
   mkTh "Follow-up recommendations" 2; mkTh "Rows to show: " 1].

(** Lines 468-470. *)
Definition headerRow2 : list th :=
  [mkTh "" 1; mkTh "" 1; mkTh "" 1; mkTh "" 1;
   mkTh "Without risk factors" 1; mkTh "With risk factors" 1; mkTh "" 1].

Definition thWidth (r : list th) : nat := fold_right (fun h n => (thSpan h + n)%nat) 0%nat r.

(** The columns a result row fills: the draw time, age and level cells of
    line 567, then the cells the loop appends. *)
Definition rowWidth (w : Results.row) : nat := (3 + Followup.width (Results.rowCells w))%nat.

(** ** The draw-time text *)

(** [s.slice(start)]: from [start], counted from the end when negative,
    to the end. *)
Definition sliceFrom (s : string) (start : Z) : string :=
  let len := Z.of_nat (String.length s) in
  let from := if (start <? 0)%Z then Z.max (len + start) 0 else Z.min start len in
  substring (Z.to_nat from) (Z.to_nat (len - from)) s.

Section Drawtime.
(** [LocalTZA(t, true)]: the offset of the local time zone at [t]. *)
Variable LocalTZA : Z -> Z.

Definition LocalTime (t : Z) : Z := (t + LocalTZA t)%Z.

Definition getMonth (t : Z) : Z := JsDate.MonthFromTime (LocalTime t).
Definition getDate (t : Z) : Z := JsDate.DateFromTime (LocalTime t).
Definition getHours (t : Z) : Z := JsDate.HourFromTime (LocalTime t).
Definition getMinutes (t : Z) : Z := JsDate.MinFromTime (LocalTime t).

(** [('0' + drawtime.getMinutes()).slice(-2)] *)
Definition minutesText (t : Z) : string := sliceFrom ("0" ++ JsString.numberText (getMinutes t)) (-2).

(** [drawtimeAbbreviated] (line 562). *)
Definition drawtimeAbbreviated (t : Z) : string :=
  JsString.numberText (1 + getMonth t) ++ "/" ++ JsString.numberText (getDate t) ++ " " ++
  JsString.numberText (getHours t) ++ ":" ++ minutesText t.
End Drawtime.

(** Reading a text [M/D H:MM] back with [split] and [parseInt]. *)
Definition readDrawtime (s : string) : option (num * num * num * num) :=
  match JsString.splitOn "/"%char s with
  | [m; rest] =>
      match JsString.splitOn " "%char rest with
      | [d; rest'] =>
          match JsString.splitOn ":"%char rest' with
          | [h; mi] => Some (JsString.parseInt m, JsString.parseInt d,
                             JsString.parseInt h, JsString.parseInt mi)
          | _ => None
          end
      | _ => None
      end
  | _ => None
  end.

(** ** Properties *)

(** The four zones get a colour and one of the four descriptions. *)
Lemma zoneDecoration_known (p : Z) :
  (RiskZone.high <= p <= RiskZone.low)%Z ->
  exists c d, Results.zoneDecoration p = Some (c, d) /\ In d Followup.descriptions.
Proof.
  unfold RiskZone.high, RiskZone.low. intros H.
  assert (p = 0 \/ p = 1 \/ p = 2 \/ p = 3)%Z as [-> | [-> | [-> | ->]]] by lia;
    do 2 eexists; split; try reflexivity; simpl; tauto.
Qed.

Lemma zoneDecoration_desc (p : Z) (c d : string) :
  Results.zoneDecoration p = Some (c, d) -> In d Followup.descriptions.
Proof.
  unfold Results.zoneDecoration.
  repeat (destruct (_ =? _)%Z; [intros [= <- <-]; simpl; tauto|]). discriminate.
Qed.

(** A tier in [none .. high] has a cell exactly when a line is reached. *)
Lemma photoTexts_some (t : Z) (birthGA : num) :
  (TreatmentZone.none <= t <= TreatmentZone.high)%Z ->
  is_some (Results.photoTexts t birthGA) = (0 <=? t)%Z.
Proof.
  unfold TreatmentZone.none, TreatmentZone.high. intros H.
  assert (t = -1 \/ t = 0 \/ t = 1 \/ t = 2)%Z as [-> | [-> | [-> | ->]]] by lia; reflexivity.
Qed.

Lemma transfusionTexts_some (t : Z) (birthGA : num) :
  (TreatmentZone.none <= t <= TreatmentZone.high)%Z ->
  is_some (Results.transfusionTexts t birthGA) = (0 <=? t)%Z.
Proof.
  unfold TreatmentZone.none, TreatmentZone.high. intros H.
  assert (t = -1 \/ t = 0 \/ t = 1 \/ t = 2)%Z as [-> | [-> | [-> | ->]]] by lia; reflexivity.
Qed.

(** The cells of one classified result: three for a zone, one per
    treatment family reached. *)
Lemma classify_width (birthGA : num) (hours : Z) (r : Results.result) (tz : TreatmentZone.result) :
  (TreatmentZone.none <= TreatmentZone.phototherapy tz <= TreatmentZone.high)%Z ->
  (TreatmentZone.none <= TreatmentZone.transfusion tz <= TreatmentZone.high)%Z ->
  Followup.width (snd (Results.classify birthGA hours r tz)) =
    ((if is_some (Results.zoneDecoration
                    (RiskZone.exceeds (Results.hoursValue hours) (Results.level r))) then 3 else 0) +
     Nat.b2n (0 <=? TreatmentZone.phototherapy tz)%Z +
     Nat.b2n (0 <=? TreatmentZone.transfusion tz)%Z)%nat.
Proof.
  intros Hp Ht. rewrite <- (photoTexts_some _ birthGA Hp), <- (transfusionTexts_some _ birthGA Ht).
  unfold Results.classify.
  destruct (Results.zoneDecoration _) as [[c d]|] eqn:Ez;
    destruct (Results.photoTexts _ _) as [[n1 t1]|];
    destruct (Results.transfusionTexts _ _) as [[n2 t2]|]; cbn [snd is_some Nat.b2n];
    rewrite ?Followup.width_app, ?Followup.addRiskToTableRow_width
      by (eapply zoneDecoration_desc; exact Ez);
    reflexivity.
Qed.

(** What the text of a small field must be: decimal, not empty, of the
    field's value. *)
Definition fieldTextOk (s : string) (n : Z) : bool :=
  JsString.isDecimal s && negb (String.eqb s EmptyString) && (JsString.decimalValue s =? n)%Z.

Lemma numberText_field (n : Z) : (0 <= n)%Z -> fieldTextOk (JsString.numberText n) n = true.
Proof.
  intros H. destruct (JsString.numberText_decimal n H) as (D & N & V).
  unfold fieldTextOk. rewrite D, V, Z.eqb_refl.
  destruct (JsString.numberText n); [contradiction | reflexivity].
Qed.

Lemma padded_small (n : Z) :
  (0 <= n < 60)%Z ->
  fieldTextOk (sliceFrom ("0" ++ JsString.numberText n) (-2)) n = true /\
  String.length (sliceFrom ("0" ++ JsString.numberText n) (-2)) = 2%nat.
Proof.
  intros H. pose proof (forallb_range
    (fun n => fieldTextOk (sliceFrom ("0" ++ JsString.numberText n) (-2)) n &&
              (String.length (sliceFrom ("0" ++ JsString.numberText n) (-2)) =? 2)%nat) 60
    ltac:(vm_compute; reflexivity) n H) as E.
  apply andb_prop in E as [E1 E2]. split; [exact E1 | now apply Nat.eqb_eq].
Qed.

Lemma fieldTextOk_spec (s : string) (n : Z) :
  fieldTextOk s n = true ->
  JsString.isDecimal s = true /\ s <> EmptyString /\ JsString.parseInt s = Fin (inject_Z n).
Proof.
  unfold fieldTextOk. intros H. apply andb_prop in H as [H H3]. apply andb_prop in H as [H1 H2].
  assert (N : s <> EmptyString) by (intros ->; discriminate H2).
  split; [exact H1 | split; [exact N|]].
  rewrite JsString.parseInt_decimal by assumption. apply Z.eqb_eq in H3. now rewrite H3.
Qed.

(** Splitting [a ++ sep ++ b] on [sep] when neither part contains it. *)
Lemma splitOn_two (sep : ascii) (a b : string) :
  JsString.hasChar sep a = false -> JsString.hasChar sep b = false ->
  JsString.splitOn sep (a ++ String sep EmptyString ++ b) = [a; b].
Proof.
  intros Ha Hb. cbn [append]. rewrite JsString.splitOn_app by exact Ha.
  now rewrite JsString.splitOn_nosep.
Qed.

Lemma decimal_no (c : ascii) (s : string) :
  is_some (JsString.digitValue 10 c) = false -> JsString.isDecimal s = true ->
  JsString.hasChar c s = false.
Proof. apply JsString.isDecimal_hasChar. Qed.

(** A separator is absent from a concatenation of decimal texts and
    literals without it. *)
Ltac no_sep :=
  rewrite ?JsString.hasChar_app;
  repeat match goal with
         | |- context [JsString.hasChar ?c ?s] =>
             is_var s; rewrite (decimal_no c s eq_refl) by assumption
         end;
  reflexivity.

(** Reading back a text [a/b c:e] of four decimal fields. *)
Lemma readDrawtime_fields (a b c e : string) (va vb vc ve : Z) :
  fieldTextOk a va = true -> fieldTextOk b vb = true ->
  fieldTextOk c vc = true -> fieldTextOk e ve = true ->
  readDrawtime (a ++ "/" ++ b ++ " " ++ c ++ ":" ++ e) =
    Some (Fin (inject_Z va), Fin (inject_Z vb), Fin (inject_Z vc), Fin (inject_Z ve)).
Proof.
  intros Ha Hb Hc He.
  apply fieldTextOk_spec in Ha as (Da & _ & Pa), Hb as (Db & _ & Pb),
                            Hc as (Dc & _ & Pc), He as (De & _ & Pe).
  unfold readDrawtime. rewrite !splitOn_two by no_sep.
  now rewrite Pa, Pb, Pc, Pe.
Qed.

(** C35 (draw-time text): the text line 562 makes of a draw time reads
    back, split at its [/], space and [:] and each part parsed with
    [parseInt], as the month (1-based), day, hour and minute of the local
    time; the minutes take exactly two characters. *)
Theorem drawtimeAbbreviated_roundtrip (LocalTZA : Z -> Z) (t : Z) :
  readDrawtime (drawtimeAbbreviated LocalTZA t) =
    Some (Fin (inject_Z (1 + getMonth LocalTZA t)), Fin (inject_Z (getDate LocalTZA t)),
          Fin (inject_Z (getHours LocalTZA t)), Fin (inject_Z (getMinutes LocalTZA t))) /\
  String.length (minutesText LocalTZA t) = 2%nat.
Proof.
  pose proof (JsDate.fields_range (LocalTime LocalTZA t)) as (M & D & H & Mi).
  pose proof (padded_small (getMinutes LocalTZA t) Mi) as [P L].
  split; [|exact L].
  apply readDrawtime_fields; [apply numberText_field.. | exact P];
    unfold getMonth, getDate, getHours; lia.
Qed.

(** C15 (table columns): both header rows span seven columns, while a
    result row has its three cells (draw time, age, level), then three for
    the risk zone from 12 h of life on, then one more for each treatment
    family whose line the level reaches: a result reaching a phototherapy
    and a transfusion line fills eight columns, and before 12 h a
    treatment note falls under "Risk level". *)
Theorem rowOf_width (birthGA : num) (birthDateTime : option Z) (cls : string) (r : Results.result) :
  thWidth headerRow1 = 7%nat /\ thWidth headerRow2 = 7%nat /\
  rowWidth (Results.rowOf birthGA birthDateTime cls r) =
    (3 + (if Qle_bool RiskZone.startsAt
               (Results.hoursValue (Results.hoursTenths birthDateTime (Results.drawtime r)))
          then 3 else 0) +
     Nat.b2n (Results.photoExceeded birthGA birthDateTime r) +
     Nat.b2n (Results.transfusionExceeded birthGA birthDateTime r))%nat.
Proof.
  split; [reflexivity | split; [reflexivity|]].
  unfold rowWidth, Results.rowOf, Results.photoExceeded, Results.transfusionExceeded.
  cbn [Results.rowCells].
  pose proof (TreatmentZone.tiers_range TreatmentZone.initial
    (Results.hoursValue (Results.hoursTenths birthDateTime (Results.drawtime r))) (Results.level r) birthGA)
    as [Hp Ht].
  rewrite classify_width by exact Hp || exact Ht.
  destruct (Qle_bool _ _) eqn:E.
  - apply Qle_bool_iff, (RiskZone.zone_known _ (Results.level r)) in E.
    destruct (zoneDecoration_known _ E) as (c & d & -> & _). reflexivity.
  - unfold RiskZone.exceeds. rewrite E. reflexivity.
Qed.

(** A result at 100 h with a level of 30 mg/dL, at 36 weeks: eight cells. *)
Example rowOf_width_eight :
  rowWidth (Results.rowOf (Fin 36) (Some 0%Z) "result-row" (Results.mkResult 360000000 (Fin 30) Results.Serum))
  = 8%nat.
Proof. vm_compute. reflexivity. Qed.

(** The same infant at 6 h with a level of 10 mg/dL: no zone, and the
    phototherapy note as fourth cell, under "Risk level". *)
Example rowOf_width_early :
  rowWidth (Results.rowOf (Fin 36) (Some 0%Z) "result-row" (Results.mkResult 21600000 (Fin 10) Results.Serum))
  = 4%nat.
Proof. vm_compute. reflexivity. Qed.

End Table.
