(* ===== verification/TableHtml.v ===== *)
(** * TableHtml: the markup of the result table
      ([getBiliResults], src/biligram.js 412-421, 465-480, 495-539,
      557, 567, 611-700)

    [Results] keeps the rows of the result table as records and [Table]
    keeps the header as cells; this file builds the text the code
    actually appends to [#resultTable]: the two alerts of lines 412 and
    421, the header literal of lines 465-471, the validity banners of
    lines 474-480, one row per result (line 567, the cells of
    [addRiskToTableRow] and of the treatment switches, line 694) and the
    closing tags of line 697.  The age cell is the string
    [((drawtime - birthDateTime) / 3600000).toFixed(1)] and the level
    cell is [Number::toString] of the level ([JsString]).

    Module [Html] reads markup back: the start and end tags of a text
    as the tokenizer of the HTML standard (WHATWG HTML 13.2.5) emits
    them, the width of each table row (the sum of its cells' [colspan],
    by the standard's rules for parsing non-negative integers) and
    whether the elements are properly nested.  It is a model of the
    browser, not of the repository.  Character references and comments
    other than bogus ones are not modelled; the texts the program writes
    contain none.

    Module [Html] also emits the characters between tags ([lex]; its
    tags are [scan]'s, [lex_scan]) and reads the text of each table cell
    ([cellTexts]).

    The theorems: on every row, the text of the age cell read with
    [parseFloat], the age string the code passes to [riskZone.exceeds]
    and [treatmentZone.exceeds] (which convert it with StringToNumber)
    and the number [Results.hoursValue] the classifier model uses are
    one count of tenths, within half a tenth of the exact age; every
    result row is
    one [<tr>] holding one [<td>] element per cell; the widths of the
    table's rows, read from its markup, are the two header rows of seven
    columns, five for each validity banner and [Table.rowWidth] for each
    result row; a row with a treatment note for infants with risk
    factors closes a [<span>] it never opened; on a page [readPage]
    reads, the text of each row's level cell reads back with
    [parseFloat] as the row's level. *)

From Stdlib Require Import String Ascii Qabs.
From S2P Require Import Prelude JsString JsDate Curves RiskZone TreatmentZone Followup Results Table ChartOptions Input.

Module Html.

Local Open Scope char_scope.

(** A start or end tag as the tokenizer emits it, with its attributes in
    order (a later duplicate is never looked up). *)
Record tag : Type := mkTag {
  endTag : bool;
  tagName : string;
  tagAttrs : list (string * string)
}.

(** The tokenizer states that a tag goes through; the names are the
    standard's.  Names are accumulated reversed. *)
Inductive state : Type :=
| Data
| TagOpen
| EndTagOpen
| BogusComment
| TagName (e : bool) (name : list ascii)
| BeforeAttrName (e : bool) (name : string) (attrs : list (string * string))
| AttrName (e : bool) (name : string) (attrs : list (string * string)) (an : list ascii)
| AfterAttrName (e : bool) (name : string) (attrs : list (string * string)) (an : string)
| BeforeAttrValue (e : bool) (name : string) (attrs : list (string * string)) (an : string)
| AttrValueQuoted (e : bool) (name : string) (attrs : list (string * string)) (an : string)
    (q : ascii) (av : list ascii)
| AttrValueUnquoted (e : bool) (name : string) (attrs : list (string * string)) (an : string)
    (av : list ascii)
| SelfClosing (e : bool) (name : string) (attrs : list (string * string)).

Definition isUpper (c : ascii) : bool := ((65 <=? nat_of_ascii c) && (nat_of_ascii c <=? 90))%nat.
Definition isAlpha (c : ascii) : bool :=
  isUpper c || ((97 <=? nat_of_ascii c) && (nat_of_ascii c <=? 122))%nat.
Definition lower (c : ascii) : ascii := if isUpper c then ascii_of_nat (nat_of_ascii c + 32) else c.
(** ASCII whitespace after newline normalisation: TAB, LF, FF, SPACE. *)
Definition isSpace (c : ascii) : bool :=
  ((nat_of_ascii c =? 9) || (nat_of_ascii c =? 10) || (nat_of_ascii c =? 12) ||
   (nat_of_ascii c =? 32))%nat.
Definition dqChar : ascii := ascii_of_nat 34.

Definition text (l : list ascii) : string := string_of_list_ascii (rev l).
Definition emit (e : bool) (n : string) (a : list (string * string)) : state * option tag :=
  (Data, Some (mkTag e n a)).

(** The data state: only [<] does anything. *)
Definition dataState (c : ascii) : state := if c =? "<" then TagOpen else Data.

(** Before attribute name, also the state after a quoted value (its
    only difference is a parse error). *)
Definition beforeAttrName (e : bool) (n : string) (a : list (string * string)) (c : ascii)
    : state * option tag :=
  if isSpace c then (BeforeAttrName e n a, None)
  else if c =? "/" then (SelfClosing e n a, None)
  else if c =? ">" then emit e n a
  else (AttrName e n a [lower c], None).

Definition step (st : state) (c : ascii) : state * option tag :=
  match st with
  | Data => (dataState c, None)
  | TagOpen =>
      if isAlpha c then (TagName false [lower c], None)
      else if c =? "/" then (EndTagOpen, None)
      else if (c =? "!") || (c =? "?") then (BogusComment, None)
      else (dataState c, None)
  | EndTagOpen =>
      if isAlpha c then (TagName true [lower c], None)
      else if c =? ">" then (Data, None)
      else (BogusComment, None)
  | BogusComment => (if c =? ">" then Data else BogusComment, None)
  | TagName e nm =>
      if isSpace c then (BeforeAttrName e (text nm) [], None)
      else if c =? "/" then (SelfClosing e (text nm) [], None)
      else if c =? ">" then emit e (text nm) []
      else (TagName e (lower c :: nm), None)
  | BeforeAttrName e n a => beforeAttrName e n a c
  | AttrName e n a an =>
      if isSpace c then (AfterAttrName e n a (text an), None)
      else if c =? "/" then (SelfClosing e n (a ++ [(text an, EmptyString)]), None)
      else if c =? ">" then emit e n (a ++ [(text an, EmptyString)])
      else if c =? "=" then (BeforeAttrValue e n a (text an), None)
      else (AttrName e n a (lower c :: an), None)
  | AfterAttrName e n a an =>
      if isSpace c then (AfterAttrName e n a an, None)
      else if c =? "=" then (BeforeAttrValue e n a an, None)
      else beforeAttrName e n (a ++ [(an, EmptyString)]) c
  | BeforeAttrValue e n a an =>
      if isSpace c then (BeforeAttrValue e n a an, None)
      else if (c =? dqChar) || (c =? "'") then (AttrValueQuoted e n a an c [], None)
      else if c =? ">" then emit e n (a ++ [(an, EmptyString)])
      else (AttrValueUnquoted e n a an [c], None)
  | AttrValueQuoted e n a an q av =>
      if c =? q then (BeforeAttrName e n (a ++ [(an, text av)]), None)
      else (AttrValueQuoted e n a an q (c :: av), None)
  | AttrValueUnquoted e n a an av =>
      if isSpace c then (BeforeAttrName e n (a ++ [(an, text av)]), None)
      else if c =? ">" then emit e n (a ++ [(an, text av)])
      else (AttrValueUnquoted e n a an (c :: av), None)
  | SelfClosing e n a => if c =? ">" then emit e n a else beforeAttrName e n a c
  end.

(** The tags of a text, from a state, and the state it ends in. *)
Fixpoint scan (st : state) (l : list ascii) : state * list tag :=
  match l with
  | [] => (st, [])
  | c :: l' =>
      let (st1, o) := step st c in
      let (st2, ts) := scan st1 l' in
      (st2, match o with Some t => t :: ts | None => ts end)
  end.

Definition tokens (s : string) : list tag := snd (scan Data (list_ascii_of_string s)).

(** ** Reading tables *)

Definition attr (n : string) (t : tag) : option string :=
  match find (fun p => String.eqb (fst p) n) (tagAttrs t) with
  | Some p => Some (snd p)
  | None => None
  end.

Fixpoint digitsPrefix (l : list ascii) : list ascii :=
  match l with
  | c :: l' => if ((48 <=? nat_of_ascii c) && (nat_of_ascii c <=? 57))%nat then c :: digitsPrefix l' else []
  | [] => []
  end.

Fixpoint skipSpaces (l : list ascii) : list ascii :=
  match l with
  | c :: l' => if isSpace c then skipSpaces l' else l
  | [] => []
  end.

(** The rules for parsing non-negative integers (HTML 2.3.4.1): spaces,
    an optional [+], then at least one digit. *)
Definition parseNonNegative (s : string) : option Z :=
  let l := skipSpaces (list_ascii_of_string s) in
  let l := match l with "+" :: l' => l' | _ => l end in
  match digitsPrefix l with
  | [] => None
  | ds => Some (JsString.digitsValue 10 (map JsString.digitOf ds))
  end.

(** A cell's [colspan]: 1 when absent, unreadable or zero, at most 1000. *)
Definition colspan (t : tag) : nat :=
  match match attr "colspan" t with Some s => parseNonNegative s | None => None end with
  | Some v => if (v =? 0)%Z then 1%nat else Z.to_nat (Z.min v 1000)
  | None => 1%nat
  end.

Definition isStart (n : string) (t : tag) : bool := negb (endTag t) && String.eqb (tagName t) n.
Definition isEnd (n : string) (t : tag) : bool := endTag t && String.eqb (tagName t) n.

Definition flush (cur : option nat) : list nat :=
  match cur with Some w => [w] | None => [] end.

(** Whether a tag ends the current row: [</tr>], or the end of a row
    group or of the table. *)
Definition closesRow (t : tag) : bool :=
  isEnd "tr" t || isEnd "thead" t || isEnd "tbody" t || isEnd "table" t.
Definition isCell (t : tag) : bool := isStart "td" t || isStart "th" t.

(** The widths of the rows a tag sequence completes, and the width of the
    row still open: [<tr>] opens a row, [closesRow] closes it, and each
    [<td>] or [<th>] adds its [colspan] (a cell outside a row opens one,
    as the tree builder's implied [<tr>] does).  Row spans are not
    counted. *)
Fixpoint rowsRun (cur : option nat) (ts : list tag) : list nat * option nat :=
  match ts with
  | [] => ([], cur)
  | t :: ts' =>
      if isStart "tr" t then let (ws, c) := rowsRun (Some 0%nat) ts' in (flush cur ++ ws, c)
      else if closesRow t then let (ws, c) := rowsRun None ts' in (flush cur ++ ws, c)
      else if isCell t then
        rowsRun (Some (colspan t + match cur with Some w => w | None => 0 end)%nat) ts'
      else rowsRun cur ts'
  end.

(** The width of each table row of a tag sequence, in order. *)
Definition columns (ts : list tag) : list nat := let (ws, c) := rowsRun None ts in ws ++ flush c.

(** The void elements, which have no end tag. *)
Definition voidElement (n : string) : bool :=
  existsb (String.eqb n) ["area"; "base"; "br"; "col"; "embed"; "hr"; "img"; "input";
                           "link"; "meta"; "source"; "track"; "wbr"]%string.

(** The open elements after a tag sequence, innermost first, or [None]
    when an end tag does not close the innermost open element. *)
Fixpoint nest (open : list string) (ts : list tag) : option (list string) :=
  match ts with
  | [] => Some open
  | t :: ts' =>
      if endTag t then
        match open with
        | n :: open' => if String.eqb n (tagName t) then nest open' ts' else None
        | [] => None
        end
      else if voidElement (tagName t) then nest open ts'
      else nest (tagName t :: open) ts'
  end.

(** Proper nesting: every end tag closes the innermost open element and
    none is left open. *)
Definition nested (ts : list tag) : bool :=
  match nest [] ts with Some [] => true | _ => false end.

(** The table elements, and a tag read as its kind and name. *)
Definition tableTag (t : tag) : bool :=
  existsb (String.eqb (tagName t)) ["table"; "thead"; "tbody"; "tr"; "td"; "th"]%string.
Definition shape (t : tag) : bool * string := (endTag t, tagName t).

(** ** Reading text

    The tokenizer also emits the characters of the text between tags:
    the data state emits every character but [<] (character references
    are not modelled), and the tag open state, on a character that
    starts no tag, emits the [<] and reconsumes the character in the
    data state. *)
Inductive token : Type :=
| TagTok (t : tag)
| CharTok (c : ascii).

Definition stepChars (st : state) (c : ascii) : list ascii :=
  match st with
  | Data => if c =? "<" then [] else [c]
  | TagOpen =>
      if isAlpha c || (c =? "/") || (c =? "!") || (c =? "?") then []
      else "<" :: (if c =? "<" then [] else [c])
  | _ => []
  end.

(** The tokens of a text, from a state, and the state it ends in. *)
Fixpoint lex (st : state) (l : list ascii) : state * list token :=
  match l with
  | [] => (st, [])
  | c :: l' =>
      let (st1, o) := step st c in
      let (st2, ts) := lex st1 l' in
      (st2, map CharTok (stepChars st c) ++ match o with Some t => TagTok t :: ts | None => ts end)
  end.

Definition lexTokens (s : string) : list token := snd (lex Data (list_ascii_of_string s)).

Definition closeText (cur : option (list ascii)) : list string :=
  match cur with Some a => [text a] | None => [] end.

(** The text of each table cell, in order: the characters from a [<td>]
    or [<th>] start tag to the next tag of a table element (the tags at
    which the tree builder closes the cell), the tags of other elements
    skipped, as the cell's [textContent] reads. *)
Fixpoint cellTextsFrom (cur : option (list ascii)) (ts : list token) : list string :=
  match ts with
  | [] => closeText cur
  | TagTok t :: ts' =>
      if tableTag t then closeText cur ++ cellTextsFrom (if isCell t then Some [] else None) ts'
      else cellTextsFrom cur ts'
  | CharTok c :: ts' => cellTextsFrom (option_map (cons c) cur) ts'
  end.

Definition cellTexts (s : string) : list string := cellTextsFrom None (lexTokens s).

(** ** Lemmas *)

Definition isData (st : state) : bool := match st with Data => true | _ => false end.

Lemma scan_app (st : state) (a b : list ascii) :
  scan st (a ++ b) =
    let (st1, t1) := scan st a in let (st2, t2) := scan st1 b in (st2, t1 ++ t2).
Proof.
  revert st. induction a as [|c a IH]; intros st; cbn [app scan].
  - now destruct (scan st b).
  - destruct (step st c) as [st1 o]. rewrite IH.
    destruct (scan st1 a) as [s2 t2]. destruct (scan s2 b) as [s3 t3]. now destruct o.
Qed.

(** Scanning a concatenation in two steps. *)
Lemma scan_app_eq (st st1 : state) (a b : list ascii) (t1 : list tag) :
  scan st a = (st1, t1) -> scan st (a ++ b) = (fst (scan st1 b), t1 ++ snd (scan st1 b)).
Proof. intros H. rewrite scan_app, H. now destruct (scan st1 b). Qed.

(** Text without [<] leaves the data state alone. *)
Lemma scan_data_plain (l : list ascii) :
  forallb (fun x => negb (x =? "<")) l = true -> scan Data l = (Data, []).
Proof.
  induction l as [|c l IH]; intros H; [reflexivity|]. cbn [forallb] in H.
  apply andb_prop in H as [H1 H2]. cbn [scan step]. unfold dataState.
  destruct (c =? "<"); [discriminate|]. now rewrite IH.
Qed.

(** Text without the quote only extends a quoted attribute value. *)
Lemma scan_quoted_plain (e : bool) (n : string) (a : list (string * string)) (an : string)
    (q : ascii) (av l : list ascii) :
  forallb (fun x => negb (x =? q)) l = true ->
  scan (AttrValueQuoted e n a an q av) l = (AttrValueQuoted e n a an q (rev l ++ av), []).
Proof.
  revert av. induction l as [|c l IH]; intros av H; [reflexivity|]. cbn [forallb] in H.
  apply andb_prop in H as [H1 H2]. cbn [scan step].
  destruct (c =? q); [discriminate|]. rewrite IH by exact H2. cbn. now rewrite <- app_assoc.
Qed.

Lemma text_rev (l : list ascii) : text (rev l ++ []) = string_of_list_ascii l.
Proof. unfold text. now rewrite app_nil_r, rev_involutive. Qed.

Lemma nest_app (open : list string) (a b : list tag) :
  nest open (a ++ b) = match nest open a with Some o => nest o b | None => None end.
Proof.
  revert open. induction a as [|t a IH]; intros open; [reflexivity|]. cbn [app nest].
  destruct (endTag t); [destruct open as [|n open]; [reflexivity|]; destruct (String.eqb n (tagName t))|];
    try destruct (voidElement (tagName t)); auto.
Qed.

Lemma rowsRun_app (cur : option nat) (a b : list tag) :
  rowsRun cur (a ++ b) =
    let (w1, c1) := rowsRun cur a in let (w2, c2) := rowsRun c1 b in (w1 ++ w2, c2).
Proof.
  revert cur. induction a as [|t a IH]; intros cur; cbn [app rowsRun].
  - now destruct (rowsRun cur b).
  - destruct (isStart "tr" t); [|destruct (closesRow t); [|destruct (isCell t)]];
      rewrite ?IH; try reflexivity;
      [destruct (rowsRun (Some 0%nat) a) as [w1 c1] | destruct (rowsRun None a) as [w1 c1]];
      destruct (rowsRun c1 b); now rewrite app_assoc.
Qed.

(** Tags inside a row that neither open nor close one. *)
Definition inRow (t : tag) : bool := negb (isStart "tr" t || closesRow t).

Fixpoint cellsWidth (ts : list tag) : nat :=
  match ts with
  | [] => 0%nat
  | t :: ts' => ((if isCell t then colspan t else 0) + cellsWidth ts')%nat
  end.

Lemma rowsRun_inRow (w : nat) (ts : list tag) :
  forallb inRow ts = true -> rowsRun (Some w) ts = ([], Some (cellsWidth ts + w)%nat).
Proof.
  revert w. induction ts as [|t ts IH]; intros w H; [reflexivity|]. cbn [forallb] in H.
  apply andb_prop in H as [H1 H2]. unfold inRow in H1. cbn [rowsRun cellsWidth].
  destruct (isStart "tr" t), (closesRow t); try discriminate.
  destruct (isCell t); rewrite IH by exact H2; f_equal; f_equal; lia.
Qed.

(** The tags among the tokens are what [scan] reads. *)
Definition tagsOf (ts : list token) : list tag :=
  flat_map (fun k => match k with TagTok t => [t] | CharTok _ => [] end) ts.

Lemma lex_scan (st : state) (l : list ascii) :
  fst (lex st l) = fst (scan st l) /\ tagsOf (snd (lex st l)) = snd (scan st l).
Proof.
  revert st. induction l as [|c l IH]; intros st; [split; reflexivity|]. cbn [lex scan].
  destruct (step st c) as [st1 o]. destruct (IH st1) as [A B].
  destruct (lex st1 l) as [s2 ts], (scan st1 l) as [s2' ts']. cbn [fst snd] in *.
  split; [exact A|]. unfold tagsOf in *. rewrite flat_map_app.
  replace (flat_map _ (map CharTok (stepChars st c))) with (@nil tag)
    by (now induction (stepChars st c)).
  destruct o; cbn; now rewrite B.
Qed.

Lemma lex_app_eq (st st1 : state) (a b : list ascii) (t1 : list token) :
  lex st a = (st1, t1) -> lex st (a ++ b) = (fst (lex st1 b), t1 ++ snd (lex st1 b)).
Proof.
  revert st t1. induction a as [|c a IH]; intros st t1 H; cbn [app lex] in *.
  - injection H as <- <-. now destruct (lex st b).
  - destruct (step st c) as [s1 o]. destruct (lex s1 a) as [s2 t2] eqn:E.
    injection H as <- <-. rewrite (IH _ _ E). cbn [fst snd].
    destruct o; now rewrite <- app_assoc.
Qed.

(** Text without [<] is emitted as it is. *)
Lemma lex_data_plain (l : list ascii) :
  forallb (fun x => negb (x =? "<")) l = true -> lex Data l = (Data, map CharTok l).
Proof.
  induction l as [|c l IH]; intros H; [reflexivity|]. cbn [forallb] in H.
  apply andb_prop in H as [H1 H2]. cbn [lex step stepChars]. unfold dataState.
  destruct (c =? "<"); [discriminate|]. now rewrite IH.
Qed.

Lemma lex_quoted_plain (e : bool) (n : string) (a : list (string * string)) (an : string)
    (q : ascii) (av l : list ascii) :
  forallb (fun x => negb (x =? q)) l = true ->
  lex (AttrValueQuoted e n a an q av) l = (AttrValueQuoted e n a an q (rev l ++ av), []).
Proof.
  revert av. induction l as [|c l IH]; intros av H; [reflexivity|]. cbn [forallb] in H.
  apply andb_prop in H as [H1 H2]. cbn [lex step stepChars].
  destruct (c =? q); [discriminate|]. rewrite IH by exact H2. cbn. now rewrite <- app_assoc.
Qed.

(** Characters extend the text being read, if any. *)
Lemma cellTexts_chars (cur : option (list ascii)) (l : list ascii) (ts : list token) :
  cellTextsFrom cur (map CharTok l ++ ts) = cellTextsFrom (option_map (fun a => rev l ++ a) cur) ts.
Proof.
  revert cur. induction l as [|c l IH]; intros cur; [now destruct cur|]. cbn [map app cellTextsFrom].
  rewrite IH. destruct cur; cbn; [now rewrite <- app_assoc | reflexivity].
Qed.

End Html.

Module TableHtml.

Local Open Scope string_scope.

(** The code's single-quoted literals hold double quotes; in a literal
    of this file a backtick stands for one (the source has none). *)
Definition qt (s : string) : string :=
  string_of_list_ascii
    (map (fun c => if (c =? "`")%char then Html.dqChar else c) (list_ascii_of_string s)).

(** ["\n"]. *)
Definition nl : string := String (ascii_of_nat 10) EmptyString.

Definition concatMap {A : Type} (f : A -> string) (l : list A) : string :=
  fold_right (fun x s => f x ++ s) EmptyString l.

(** Lines 412 and 421: the alerts appended to [#resultTable] while the
    page is read.  [birthDateTime] is [null] in the first, and the
    literal has no closing parenthesis. *)
Definition alertHtml (w : Results.warning) : string :=
  match w with
  | Results.BirthTimeUnreadable =>
      qt "<div class=`alert alert-danger`><b>Warning:</b> Could not figure out the birth date/time or it doesn't seem valid (" ++
      "null" ++ "</div>"
  | Results.BirthWeightUnreadable weight =>
      qt "<div class=`alert alert-danger`><b>Warning:</b> Could not figure out the birth weight or it doesn't seem valid (" ++
      JsString.numberToString weight ++ " kg)</div>"
  | _ => EmptyString
  end.

(** Lines 465-471: [resultTable] before any row. *)
Definition headerHtml : string :=
  qt ("<div class=`row`><div class=`col-md-10`><div class=`text-right` id=`resultTableCheckbox`> </div><table class=`table table-striped table-hover table-condensed`>" ++
      "<thead><tr><th class=`result-row-first`>Draw time</th><th class=`result-row-first`>Age</th><th class=`result-row-first`>Bilirubin level</th><th class=`result-row-first`>Risk level</th>" ++
      "<th colspan=`2` class=`result-row-first`>Follow-up recommendations</th><th><div class=`radio result-row-first` id=`resultTableRadioDiv`>Rows to show: </div></th></tr>" ++
      "<tr class=`result-row-first`><th></th><th></th><th></th><th></th>" ++
      "<th>Without <a href=`` class=`trigger`>risk factors</a>" ++
      "</th><th>With <a href=`` class=`trigger`>risk factors</a></th><th></tr>" ++
      "</thead><tbody>") ++ nl.

(** Lines 474-480: the validity banners, rows of the table. *)
Definition bannerHtml (w : Results.warning) : string :=
  match w with
  | Results.RiskZonesNotValidated =>
      qt ("<tr class=`danger`><td colspan=`5`><b>Warning</b>: the Bhutani risk zones are only valid for birth GA 36+ weeks and birth weight > 2 kg, " ++
          " or 35+ weeks and birth weight > 2.5 kg. See the UpToDate article on Hyperbilirubinemia in the Premature Infant to see alternative thresholds.</td></tr>")
  | Results.UndefinedUnder35Weeks =>
      qt ("<tr class=`danger`><td colspan=`5`><b>Warning</b>: the Bhutani nomogram does not define risk for infants with a birth gestational age under 35 weeks.<br>" ++
          "See the UpToDate article on Hyperbilirubinemia in the Premature Infant to see alternative thresholds.</td></tr>")
  | _ => EmptyString
  end.

(** The markup of a cell: [addRiskToTableRow] (lines 495-539) and the
    treatment switches (lines 645-690) append these four forms. *)
Definition cellHtml (c : Followup.cell) : string :=
  match c with
  | Followup.Td s => "<td>" ++ s ++ "</td>"
  | Followup.TdBackground color s => qt "<td style=`background-color:" ++ color ++ qt ";`>" ++ s ++ "</td>"
  | Followup.TdColor color s => qt "<td style=`color:" ++ color ++ qt ";`>" ++ s ++ "</td>"
  | Followup.TdSpan2 s => qt "<td colspan=`2`>" ++ s ++ "</td>"
  end.

(** Line 557: [hours = ((drawtime - birthDateTime) / 3600000).toFixed(1)],
    the string, on the exact quotient. *)
Definition hoursText (birthDateTime : option Z) (t : Z) : string :=
  JsString.toFixed1Text (t - Results.birthValue birthDateTime) 3600000.

(** The cells the switch on the risk zone appends through
    [addRiskToTableRow] (lines 611-631). *)
Definition riskCells (birthGA : num) (placement : Z) : list Followup.cell :=
  match Results.zoneDecoration placement with
  | Some (color, description) => Followup.addRiskToTableRow color description birthGA
  | None => []
  end.

(** The cell a treatment switch appends (lines 645-690). *)
Definition treatmentCell (color : string) (texts : option (string * string)) : list Followup.cell :=
  match texts with Some (_, s) => [Followup.TdColor color s] | None => [] end.

Section Markup.
(** The offset of the local time zone, as in [Table]. *)
Variable LocalTZA : Z -> Z.

(** Line 567, the cells appended after it, and line 694. *)
Definition rowHtml (birthDateTime : option Z) (w : Results.row) : string :=
  qt "<tr class=`" ++ Results.rowClass w ++ qt "`><td>" ++
  Table.drawtimeAbbreviated LocalTZA (Results.rowDrawtime w) ++ "</td><td>" ++
  hoursText birthDateTime (Results.rowDrawtime w) ++ " hours</td><td>" ++
  JsString.numberToString (Results.rowLevel w) ++ " (" ++ Results.methodName (Results.rowMethod w) ++
  ")</td>" ++ concatMap cellHtml (Results.rowCells w) ++ "</tr>" ++ nl.

(** [resultTable] at line 697: the header, the banners, the rows newest
    first, and the closing tags. *)
Definition resultTableHtml (zones0 : TreatmentZone.state) (inp : Results.input) : string :=
  headerHtml ++
  concatMap bannerHtml (Results.validityWarnings (Results.birthGA inp) (Results.birthWeight inp)) ++
  concatMap (rowHtml (Results.birthDateTime inp)) (Results.rows (Results.getBiliResults zones0 inp)) ++
  "</tbody></table>" ++ nl.

(** What [getBiliResults] appends to [#resultTable], one string per
    [append] (each is parsed on its own): the alerts, then the table. *)
Definition appended (zones0 : TreatmentZone.state) (inp : Results.input) : list string :=
  map alertHtml (Results.inputWarnings (Results.birthDateTime inp) (Results.birthWeight inp)) ++
  [resultTableHtml zones0 inp].

End Markup.

(** ** Lemmas *)

Lemma concatMap_scan {A : Type} (f : A -> string) (l : list A) :
  forallb (fun x => Html.isData (fst (Html.scan Html.Data (list_ascii_of_string (f x))))) l = true ->
  Html.scan Html.Data (list_ascii_of_string (concatMap f l)) =
    (Html.Data, flat_map (fun x => Html.tokens (f x)) l).
Proof.
  induction l as [|x l IH]; intros H; [reflexivity|]. cbn [forallb] in H.
  apply andb_prop in H as [H1 H2]. unfold concatMap. cbn [fold_right flat_map].
  fold (concatMap f l). rewrite JsString.list_ascii_app. unfold Html.tokens at 1.
  destruct (Html.scan Html.Data (list_ascii_of_string (f x))) as [st t] eqn:E.
  destruct st; try discriminate. now rewrite (Html.scan_app_eq _ _ _ _ _ E), IH.
Qed.

Lemma drawtime_noLt (L : Z -> Z) (t : Z) :
  JsString.noChar "<" (Table.drawtimeAbbreviated L t) = true.
Proof.
  unfold Table.drawtimeAbbreviated, Table.minutesText, Table.sliceFrom. cbv zeta. autorewrite with noLt.
  rewrite JsString.noChar_substring by (autorewrite with noLt; reflexivity). reflexivity.
Qed.

Definition tdTag : Html.tag := Html.mkTag false "td" [].
Definition tdEnd : Html.tag := Html.mkTag true "td" [].

(** One piece of a concatenation: a literal is scanned by computation,
    a text without [<] (in the data state) or without the quote (in a
    quoted attribute value) by the lemmas. *)
Ltac scan_piece :=
  erewrite Html.scan_app_eq
    by first [ apply Html.scan_data_plain; assumption
             | apply Html.scan_quoted_plain; assumption
             | eassumption
             | reflexivity ].

(** The tags of a result row: the [<tr>] with its class, the three
    cells of line 567, the tags of the appended cells and [</tr>]. *)
Lemma rowHtml_scan (L : Z -> Z) (bdt : option Z) (w : Results.row) :
  JsString.noChar Html.dqChar (Results.rowClass w) = true ->
  forallb (fun c => Html.isData (fst (Html.scan Html.Data (list_ascii_of_string (cellHtml c)))))
          (Results.rowCells w) = true ->
  Html.scan Html.Data (list_ascii_of_string (rowHtml L bdt w)) =
    (Html.Data, Html.mkTag false "tr" [("class", Results.rowClass w)] ::
       [tdTag; tdEnd; tdTag; tdEnd; tdTag; tdEnd] ++
       flat_map (fun c => Html.tokens (cellHtml c)) (Results.rowCells w) ++ [Html.mkTag true "tr" []]).
Proof.
  intros Hc Hcells. unfold rowHtml.
  pose proof (drawtime_noLt L (Results.rowDrawtime w)) as H1.
  assert (H2 : JsString.noChar "<" (hoursText bdt (Results.rowDrawtime w)) = true)
    by apply JsString.toFixed1Text_noLt.
  pose proof (JsString.numberToString_noLt (Results.rowLevel w)) as H3.
  assert (H4 : JsString.noChar "<" (Results.methodName (Results.rowMethod w)) = true)
    by (now destruct (Results.rowMethod w)).
  pose proof (concatMap_scan cellHtml _ Hcells) as H5.
  revert Hc H1 H2 H3 H4 H5.
  generalize (Results.rowClass w) (Table.drawtimeAbbreviated L (Results.rowDrawtime w))
    (hoursText bdt (Results.rowDrawtime w))
    (JsString.numberToString (Results.rowLevel w)) (Results.methodName (Results.rowMethod w))
    (concatMap cellHtml (Results.rowCells w)) (flat_map (fun c => Html.tokens (cellHtml c)) (Results.rowCells w)).
  intros cls dt hr lv mt cs ts Hc H1 H2 H3 H4 H5. unfold JsString.noChar in *.
  rewrite !JsString.list_ascii_app. do 12 scan_piece.
  cbn. now rewrite Html.text_rev, string_of_list_ascii_of_string.
Qed.

(** What the markup of a cell must be for its row to read as the model
    says: it ends in the data state, stays inside the row, spans
    [Followup.colspan c] columns, holds one [td] element and no other
    table tag, and inside a [<tr>] either leaves the [tr] the only open
    element or breaks the nesting. *)
Definition cellTags (c : Followup.cell) : Html.state * list Html.tag :=
  Html.scan Html.Data (list_ascii_of_string (cellHtml c)).

Definition tdShape (ts : list Html.tag) : bool :=
  match map Html.shape (filter Html.tableTag ts) with
  | [(false, a); (true, b)] => String.eqb a "td" && String.eqb b "td"
  | _ => false
  end.

Definition cellOk (c : Followup.cell) : bool :=
  let (st, ts) := cellTags c in
  Html.isData st && forallb Html.inRow ts && Nat.eqb (Html.cellsWidth ts) (Followup.colspan c) &&
  tdShape ts &&
  match Html.nest ["tr"] ts with Some [n] => String.eqb n "tr" | Some _ => false | None => true end.

(** Whether a cell's markup keeps the nesting. *)
Definition cellNest (c : Followup.cell) : bool :=
  match Html.nest ["tr"] (snd (cellTags c)) with Some _ => true | None => false end.

(** The treatment tiers whose notes end with [sickKidWarning]. *)
Definition sickTier (t : Z) : bool := (t =? TreatmentZone.high)%Z || (t =? TreatmentZone.medium)%Z.

Lemma classify_cells (g : num) (h : Z) (r : Results.result) (tz : TreatmentZone.result) :
  snd (Results.classify g h r tz) =
    (riskCells g (RiskZone.exceeds (Results.hoursValue h) (Results.level r)) ++
     treatmentCell Results.phototherapylineColor (Results.photoTexts (TreatmentZone.phototherapy tz) g) ++
     treatmentCell Results.transfusionLineColor (Results.transfusionTexts (TreatmentZone.transfusion tz) g))%list.
Proof.
  unfold Results.classify, riskCells, treatmentCell.
  destruct (Results.zoneDecoration _) as [[c d]|]; destruct (Results.photoTexts _ _) as [[n u]|];
    destruct (Results.transfusionTexts _ _) as [[n' u']|]; reflexivity.
Qed.

Lemma riskCells_ok (g : num) (p : Z) :
  forallb cellOk (riskCells g p) && forallb cellNest (riskCells g p) = true.
Proof.
  unfold riskCells, Results.zoneDecoration, Followup.addRiskToTableRow, Followup.followupCells.
  destruct (js_ge g (Fin 35) && js_lt g (Fin 38)), (js_lt (Fin 38) g);
    repeat destruct (_ =? _)%Z; vm_compute; reflexivity.
Qed.

Lemma photoCell_ok (g : num) (t : Z) :
  forallb cellOk (treatmentCell Results.phototherapylineColor (Results.photoTexts t g)) = true /\
  forallb cellNest (treatmentCell Results.phototherapylineColor (Results.photoTexts t g)) =
    negb (sickTier t).
Proof.
  unfold treatmentCell, Results.photoTexts, Results.youngKidWarning, sickTier.
  destruct (js_lt g (Fin 38)); destruct (Z.eqb t TreatmentZone.high);
    destruct (Z.eqb t TreatmentZone.medium); destruct (Z.eqb t TreatmentZone.low);
    vm_compute; split; reflexivity.
Qed.

Lemma transfusionCell_ok (g : num) (t : Z) :
  forallb cellOk (treatmentCell Results.transfusionLineColor (Results.transfusionTexts t g)) = true /\
  forallb cellNest (treatmentCell Results.transfusionLineColor (Results.transfusionTexts t g)) =
    negb (sickTier t).
Proof.
  unfold treatmentCell, Results.transfusionTexts, Results.youngKidWarning, sickTier.
  destruct (js_lt g (Fin 38)); destruct (Z.eqb t TreatmentZone.high);
    destruct (Z.eqb t TreatmentZone.medium); destruct (Z.eqb t TreatmentZone.low);
    vm_compute; split; reflexivity.
Qed.

(** Every cell of a classified result satisfies [cellOk]; the nesting
    breaks exactly for the notes of the sick-infant tiers. *)
Lemma classify_cells_ok (g : num) (h : Z) (r : Results.result) (tz : TreatmentZone.result) :
  forallb cellOk (snd (Results.classify g h r tz)) = true /\
  forallb cellNest (snd (Results.classify g h r tz)) =
    negb (sickTier (TreatmentZone.phototherapy tz) || sickTier (TreatmentZone.transfusion tz)).
Proof.
  rewrite classify_cells, !forallb_app.
  pose proof (riskCells_ok g (RiskZone.exceeds (Results.hoursValue h) (Results.level r))) as R.
  apply andb_prop in R as [R1 R2].
  destruct (photoCell_ok g (TreatmentZone.phototherapy tz)) as [P1 P2].
  destruct (transfusionCell_ok g (TreatmentZone.transfusion tz)) as [T1 T2].
  rewrite R1, R2, P1, P2, T1, T2. split; [reflexivity|]. now rewrite negb_orb.
Qed.

Lemma rowsOf_in (g : num) (bdt : option Z) (cls : string) (ms : list Results.result) (w : Results.row) :
  In w (Results.rowsOf g bdt cls ms) ->
  exists r cls', w = Results.rowOf g bdt cls' r /\ (cls' = cls \/ cls' = "result-row").
Proof.
  revert cls. induction ms as [|m ms IH]; intros cls H; [destruct H|].
  destruct H as [<-|H]; [exists m, cls; auto|].
  destruct (IH _ H) as (r & c & -> & Hc). exists r, c. split; [reflexivity|].
  right. now destruct Hc.
Qed.

(** The rows of [getBiliResults] are [rowsOf] the results newest first. *)
Lemma rows_in (zones0 : TreatmentZone.state) (inp : Results.input) (w : Results.row) :
  In w (Results.rows (Results.getBiliResults zones0 inp)) ->
  exists r cls, w = Results.rowOf (Results.birthGA inp) (Results.birthDateTime inp) cls r /\
    (cls = "result-row-first" \/ cls = "result-row").
Proof.
  unfold Results.getBiliResults. cbn [Results.rows].
  rewrite Results.resultsLoop_fold, Results.fold_table. apply rowsOf_in.
Qed.

Lemma cellOk_scan (c : Followup.cell) :
  cellOk c = true -> Html.isData (fst (cellTags c)) = true.
Proof.
  unfold cellOk. destruct (cellTags c) as [st ts]. cbn [fst].
  now destruct (Html.isData st).
Qed.

(** The tags of the row of a classified result, for a class without a
    double quote. *)
Lemma rowOf_scan (L : Z -> Z) (g : num) (bdt : option Z) (cls : string) (r : Results.result) :
  JsString.noChar Html.dqChar cls = true ->
  let w := Results.rowOf g bdt cls r in
  Html.scan Html.Data (list_ascii_of_string (rowHtml L bdt w)) =
    (Html.Data, Html.mkTag false "tr" [("class", cls)] ::
       [tdTag; tdEnd; tdTag; tdEnd; tdTag; tdEnd] ++
       flat_map (fun c => Html.tokens (cellHtml c)) (Results.rowCells w) ++ [Html.mkTag true "tr" []]).
Proof.
  intros Hc w. apply rowHtml_scan; [exact Hc|].
  destruct (classify_cells_ok g (Results.hoursTenths bdt (Results.drawtime r)) r
              (Results.tiersOf g bdt r)) as [H _].
  unfold w, Results.rowOf. cbn [Results.rowCells]. rewrite forallb_forall in *.
  intros c Hin. now apply cellOk_scan, H.
Qed.

Lemma flat_map_filter {A B : Type} (p : B -> bool) (f : A -> list B) (l : list A) :
  filter p (flat_map f l) = flat_map (fun x => filter p (f x)) l.
Proof. induction l as [|x l IH]; [reflexivity|]. cbn. now rewrite filter_app, IH. Qed.

(** Each cell contributes one [<td>] and one [</td>] to the table tags. *)
Lemma cells_shape (cs : list Followup.cell) :
  forallb cellOk cs = true ->
  map Html.shape (filter Html.tableTag (flat_map (fun c => Html.tokens (cellHtml c)) cs)) =
    List.concat (repeat [(false, "td"); (true, "td")] (List.length cs)).
Proof.
  induction cs as [|c cs IH]; intros H; [reflexivity|]. cbn [forallb] in H.
  apply andb_prop in H as [H1 H2]. cbn [flat_map List.length repeat concat].
  rewrite filter_app, map_app, IH by exact H2. f_equal.
  unfold cellOk, Html.tokens in *. fold (cellTags c) in *. destruct (cellTags c) as [st ts].
  cbn [snd]. apply andb_prop in H1 as [H1 _]. apply andb_prop in H1 as [_ H1].
  unfold tdShape in H1. destruct (map Html.shape (filter Html.tableTag ts)) as [|[[] a] [|[[] b] []]];
    try discriminate. apply andb_prop in H1 as [A B].
  apply String.eqb_eq in A, B. now subst.
Qed.

(** The cells stay inside the row and fill [Followup.width] columns. *)
Lemma cells_run (cs : list Followup.cell) (n : nat) :
  forallb cellOk cs = true ->
  Html.rowsRun (Some n) (flat_map (fun c => Html.tokens (cellHtml c)) cs) =
    ([], Some (Followup.width cs + n)%nat).
Proof.
  revert n. induction cs as [|c cs IH]; intros n H; [reflexivity|]. cbn [forallb] in H.
  apply andb_prop in H as [H1 H2]. cbn [flat_map Followup.width fold_right].
  fold (Followup.width cs). rewrite Html.rowsRun_app.
  unfold cellOk, Html.tokens in *. fold (cellTags c) in *. destruct (cellTags c) as [st ts].
  cbn [snd]. apply andb_prop in H1 as [H1 _]. apply andb_prop in H1 as [H1 _].
  apply andb_prop in H1 as [H1 W]. apply andb_prop in H1 as [_ R].
  rewrite (Html.rowsRun_inRow n ts R), IH by exact H2. apply Nat.eqb_eq in W. rewrite W.
  f_equal. f_equal. lia.
Qed.

(** Inside a [<tr>], the cells keep it the only open element exactly
    when each of them keeps the nesting. *)
Lemma cells_nest (cs : list Followup.cell) :
  forallb cellOk cs = true ->
  Html.nest ["tr"] (flat_map (fun c => Html.tokens (cellHtml c)) cs) =
    if forallb cellNest cs then Some ["tr"] else None.
Proof.
  induction cs as [|c cs IH]; intros H; [reflexivity|]. cbn [forallb] in H.
  apply andb_prop in H as [H1 H2]. cbn [flat_map forallb]. rewrite Html.nest_app.
  unfold cellOk, cellNest, Html.tokens in *. fold (cellTags c) in *. destruct (cellTags c) as [st ts].
  cbn [snd]. apply andb_prop in H1 as [_ N].
  destruct (Html.nest ["tr"] ts) as [[|n [|m o]]|]; try discriminate; [|reflexivity].
  apply String.eqb_eq in N. subst n. exact (IH H2).
Qed.

(** The tags of a row, read as widths: one row of [3 + width] columns. *)
Lemma row_run (a : list (string * string)) (cs : list Followup.cell) :
  forallb cellOk cs = true ->
  Html.rowsRun None (Html.mkTag false "tr" a :: [tdTag; tdEnd; tdTag; tdEnd; tdTag; tdEnd] ++
                     flat_map (fun c => Html.tokens (cellHtml c)) cs ++ [Html.mkTag true "tr" []]) =
    ([(3 + Followup.width cs)%nat], None).
Proof.
  intros H. simpl. rewrite Html.rowsRun_app, cells_run by exact H. simpl. do 3 f_equal. lia.
Qed.

Lemma row_nest (a : list (string * string)) (cs : list Followup.cell) :
  forallb cellOk cs = true ->
  Html.nested (Html.mkTag false "tr" a :: [tdTag; tdEnd; tdTag; tdEnd; tdTag; tdEnd] ++
               flat_map (fun c => Html.tokens (cellHtml c)) cs ++ [Html.mkTag true "tr" []]) =
    forallb cellNest cs.
Proof.
  intros H. unfold Html.nested. simpl. rewrite Html.nest_app, cells_nest by exact H.
  now destruct (forallb cellNest cs).
Qed.

Lemma flat_map_run {A : Type} (f : A -> list Html.tag) (k : A -> nat) (l : list A) :
  (forall x, In x l -> Html.rowsRun None (f x) = ([k x], None)) ->
  Html.rowsRun None (flat_map f l) = (map k l, None).
Proof.
  induction l as [|x l IH]; intros H; [reflexivity|]. cbn [flat_map map].
  rewrite Html.rowsRun_app, (H x (or_introl eq_refl)), IH by (intros y Hy; apply H; now right).
  reflexivity.
Qed.

Lemma banner_scan (w : Results.warning) :
  Html.isData (fst (Html.scan Html.Data (list_ascii_of_string (bannerHtml w)))) = true.
Proof. destruct w; vm_compute; reflexivity. Qed.

Lemma validity_run (g wt : num) (x : Results.warning) :
  In x (Results.validityWarnings g wt) -> Html.rowsRun None (Html.tokens (bannerHtml x)) = ([5%nat], None).
Proof.
  unfold Results.validityWarnings.
  destruct (negb _); [|destruct (js_lt g (Fin 35))]; cbn [In]; intros Hx; try contradiction;
    destruct Hx as [<- | []]; vm_compute; reflexivity.
Qed.

(** The exact quotient's tenths, read back, are [Results.hoursValue]. *)
Lemma toFixed1_tenths (n d : Z) :
  (0 < d)%Z ->
  (inject_Z (if (n <? 0)%Z then - ((20 * Z.abs n + d) / (2 * d)) else (20 * Z.abs n + d) / (2 * d))
     * 10 ^ (-1) == Results.hoursValue (Results.toFixed1 n d))%Q.
Proof.
  intros Hd. unfold Results.toFixed1, Results.hoursValue.
  destruct (Z.ltb_spec n 0) as [Hn|Hn].
  - replace (0 <=? n)%Z with false by (symmetry; apply Z.leb_gt; lia).
    rewrite Z.abs_neq by lia. unfold Qeq. cbn. lia.
  - replace (0 <=? n)%Z with true by (symmetry; apply Z.leb_le; lia).
    rewrite Z.abs_eq by lia. unfold Qeq. cbn. lia.
Qed.

Lemma hoursValue_tenths (k : Z) : (Results.hoursValue k == inject_Z k / 10)%Q.
Proof. unfold Results.hoursValue, Qeq. cbn. lia. Qed.

(** A [toFixed(1)] text reads back, by StringToNumber and as a whole
    literal, as the tenths [Results.toFixed1] counts. *)
Lemma toFixed1Text_denotes (n d : Z) :
  (0 < d)%Z -> (Z.abs n < 10 ^ 21 * d)%Z ->
  num_eq (JsString.stringToNumber (JsString.toFixed1Text n d)) (Fin (inject_Z (Results.toFixed1 n d) / 10)) /\
  JsString.readsAs (JsString.toFixed1Text n d) (Fin (inject_Z (Results.toFixed1 n d) / 10)).
Proof.
  intros Hd Hn. destruct (JsString.toFixed1Text_read n d Hd Hn) as [A B].
  assert (E : num_eq (Fin (inject_Z (if (n <? 0)%Z then - ((20 * Z.abs n + d) / (2 * d))
                                      else (20 * Z.abs n + d) / (2 * d)) * 10 ^ (-1)))
                     (Fin (inject_Z (Results.toFixed1 n d) / 10))).
  { unfold num_eq. rewrite (toFixed1_tenths n d Hd), hoursValue_tenths. reflexivity. }
  split; [now rewrite A | exact (JsString.readsAs_num_eq _ _ _ B E)].
Qed.

(** [toFixed(1)] of an age in milliseconds over 3600000 is within half a
    tenth of the exact age in hours. *)
Lemma tenths_error (n : Z) :
  (Qabs (inject_Z (Results.toFixed1 n 3600000) / 10 - inject_Z n / 3600000) <= 1 # 20)%Q.
Proof.
  pose proof (Results.toFixed1_error n 3600000 ltac:(lia)) as E.
  apply Qabs_Qle_condition. unfold Qle, Qminus, Qplus, Qopp, Qdiv, Qmult, Qinv. cbn. lia.
Qed.

Lemma string_app_assoc (a b c : string) : ((a ++ b) ++ c)%string = (a ++ b ++ c)%string.
Proof. induction a as [|x a IH]; [reflexivity | cbn; now rewrite IH]. Qed.

(** One piece of a concatenation, read with its character tokens. *)
Ltac lex_piece :=
  erewrite Html.lex_app_eq
    by first [ apply Html.lex_data_plain; assumption
             | apply Html.lex_quoted_plain; assumption
             | reflexivity ].

(** The texts of the first three cells of a row: the draw time, the age
    with [" hours"], and the level with its method (line 567). *)
Lemma rowHtml_cellTexts (L : Z -> Z) (bdt : option Z) (w : Results.row) :
  JsString.noChar Html.dqChar (Results.rowClass w) = true ->
  exists rest, Html.cellTexts (rowHtml L bdt w) =
    Table.drawtimeAbbreviated L (Results.rowDrawtime w) ::
    (hoursText bdt (Results.rowDrawtime w) ++ " hours")%string ::
    (JsString.numberToString (Results.rowLevel w) ++ " (" ++
     Results.methodName (Results.rowMethod w) ++ ")")%string :: rest.
Proof.
  intros Hc.
  assert (E : rowHtml L bdt w =
    (qt "<tr class=`" ++ Results.rowClass w ++ qt "`><td>" ++
     Table.drawtimeAbbreviated L (Results.rowDrawtime w) ++ "</td><td>" ++
     (hoursText bdt (Results.rowDrawtime w) ++ " hours") ++ "</td><td>" ++
     (JsString.numberToString (Results.rowLevel w) ++ " (" ++
      Results.methodName (Results.rowMethod w) ++ ")") ++ "</td>" ++
     concatMap cellHtml (Results.rowCells w) ++ "</tr>" ++ nl)%string)
    by (unfold rowHtml; now rewrite !string_app_assoc).
  pose proof (drawtime_noLt L (Results.rowDrawtime w)) as H1.
  assert (H2 : JsString.noChar "<" (hoursText bdt (Results.rowDrawtime w) ++ " hours") = true)
    by (unfold hoursText; rewrite JsString.noChar_append, JsString.toFixed1Text_noLt; reflexivity).
  assert (H3 : JsString.noChar "<" (JsString.numberToString (Results.rowLevel w) ++ " (" ++
                 Results.methodName (Results.rowMethod w) ++ ")") = true)
    by (rewrite !JsString.noChar_append, JsString.numberToString_noLt; now destruct (Results.rowMethod w)).
  rewrite E. unfold Html.cellTexts, Html.lexTokens. revert Hc H1 H2 H3.
  generalize (Results.rowClass w) (Table.drawtimeAbbreviated L (Results.rowDrawtime w))
    (hoursText bdt (Results.rowDrawtime w) ++ " hours")%string
    (JsString.numberToString (Results.rowLevel w) ++ " (" ++ Results.methodName (Results.rowMethod w) ++ ")")%string
    (concatMap cellHtml (Results.rowCells w) ++ "</tr>" ++ nl)%string.
  intros cls c1 c2 c3 R Hc H1 H2 H3. unfold JsString.noChar in *.
  rewrite !JsString.list_ascii_app. do 9 lex_piece. cbn [snd app].
  simpl. rewrite Html.cellTexts_chars. simpl. rewrite Html.cellTexts_chars. simpl.
  rewrite Html.cellTexts_chars. simpl. rewrite !Html.text_rev, !string_of_list_ascii_of_string.
  eexists. reflexivity.
Qed.

(** C10 (the age cell): on every row of the result table, the text of the
    age cell, read with [parseFloat] as Highcharts and a reader do, the
    string [hours] of line 557 that the code passes to
    [riskZone.exceeds] and [treatmentZone.exceeds] (which convert it
    with StringToNumber), and the age [Results.hoursValue] the
    classifier model compares are the same number of tenths of an hour,
    and it is within half a tenth (three minutes) of the exact age
    [(drawtime - birthDateTime) / 3600000], for any age below [10^21]
    hours. *)
Theorem table_age_cell (L : Z -> Z) (zones0 : TreatmentZone.state) (inp : Results.input) (w : Results.row) :
  In w (Results.rows (Results.getBiliResults zones0 inp)) ->
  (Z.abs (Results.rowDrawtime w - Results.birthValue (Results.birthDateTime inp)) < 10 ^ 21 * 3600000)%Z ->
  exists (s : string) (k : Z),
    nth_error (Html.cellTexts (rowHtml L (Results.birthDateTime inp) w)) 1 = Some s /\
    num_eq (JsString.parseFloat s) (Fin (inject_Z k / 10)) /\
    num_eq (JsString.stringToNumber (hoursText (Results.birthDateTime inp) (Results.rowDrawtime w)))
           (Fin (inject_Z k / 10)) /\
    (Results.hoursValue (Results.hoursTenths (Results.birthDateTime inp) (Results.rowDrawtime w))
       == inject_Z k / 10)%Q /\
    (Qabs (inject_Z k / 10 -
           inject_Z (Results.rowDrawtime w - Results.birthValue (Results.birthDateTime inp)) / 3600000)
       <= 1 # 20)%Q.
Proof.
  intros Hin Hb. destruct (rows_in _ _ _ Hin) as (r & cls & Ew & Hc).
  assert (Q : JsString.noChar Html.dqChar (Results.rowClass w) = true)
    by (rewrite Ew; destruct Hc as [-> | ->]; reflexivity).
  destruct (rowHtml_cellTexts L (Results.birthDateTime inp) w Q) as (rest & C). rewrite C.
  set (n := (Results.rowDrawtime w - Results.birthValue (Results.birthDateTime inp))%Z) in *.
  destruct (toFixed1Text_denotes n 3600000 ltac:(lia) Hb) as [A B].
  exists (hoursText (Results.birthDateTime inp) (Results.rowDrawtime w) ++ " hours")%string,
         (Results.toFixed1 n 3600000).
  unfold hoursText, Results.hoursTenths. fold n.
  split; [reflexivity|]. split; [apply (JsString.readsAs_parseFloat _ _ _ B); reflexivity|].
  split; [exact A|]. split; [apply hoursValue_tenths | apply tenths_error].
Qed.

Lemma table_age_cell_witness :
  let w := hd (Results.rowOf (Fin 36) None EmptyString Results.dummyResult)
              (Results.rows (Results.getBiliResults TreatmentZone.initial Results.sampleInput)) in
  In w (Results.rows (Results.getBiliResults TreatmentZone.initial Results.sampleInput)) /\
  (Z.abs (Results.rowDrawtime w - Results.birthValue (Results.birthDateTime Results.sampleInput))
     < 10 ^ 21 * 3600000)%Z /\
  exists (s : string) (k : Z),
    nth_error (Html.cellTexts (rowHtml (fun _ => 0%Z) (Results.birthDateTime Results.sampleInput) w)) 1 = Some s /\
    num_eq (JsString.parseFloat s) (Fin (inject_Z k / 10)) /\
    num_eq (JsString.stringToNumber (hoursText (Results.birthDateTime Results.sampleInput) (Results.rowDrawtime w)))
           (Fin (inject_Z k / 10)) /\
    (Results.hoursValue (Results.hoursTenths (Results.birthDateTime Results.sampleInput) (Results.rowDrawtime w))
       == inject_Z k / 10)%Q /\
    (Qabs (inject_Z k / 10 -
           inject_Z (Results.rowDrawtime w - Results.birthValue (Results.birthDateTime Results.sampleInput)) / 3600000)
       <= 1 # 20)%Q.
Proof.
  intros w.
  assert (H : In w (Results.rows (Results.getBiliResults TreatmentZone.initial Results.sampleInput)))
    by (vm_compute; left; reflexivity).
  assert (B : (Z.abs (Results.rowDrawtime w - Results.birthValue (Results.birthDateTime Results.sampleInput))
                 < 10 ^ 21 * 3600000)%Z) by (vm_compute; reflexivity).
  exact (conj H (conj B (table_age_cell (fun _ => 0%Z) TreatmentZone.initial Results.sampleInput w H B))).
Defined.

(** C17 (every result row is one table row): whatever the input, the
    markup of each row of the result table, read by the HTML tokenizer,
    holds exactly one [<tr>] ... [</tr>] and inside it one [<td>] ...
    [</td>] per cell, three for line 567 and one per appended cell; the
    texts of the recommendations and treatment notes add no table tag. *)
Theorem rowHtml_table_shape (L : Z -> Z) (zones0 : TreatmentZone.state) (inp : Results.input)
    (w : Results.row) :
  In w (Results.rows (Results.getBiliResults zones0 inp)) ->
  map Html.shape (filter Html.tableTag (Html.tokens (rowHtml L (Results.birthDateTime inp) w))) =
    ((false, "tr") :: List.concat (repeat [(false, "td"); (true, "td")]
                                    (3 + List.length (Results.rowCells w))) ++ [(true, "tr")])%list.
Proof.
  intros Hin. destruct (rows_in _ _ _ Hin) as (r & cls & -> & Hc).
  assert (Q : JsString.noChar Html.dqChar cls = true) by (destruct Hc as [-> | ->]; reflexivity).
  unfold Html.tokens. rewrite (rowOf_scan L _ _ _ r Q). cbn [snd].
  pose proof (proj1 (classify_cells_ok (Results.birthGA inp)
    (Results.hoursTenths (Results.birthDateTime inp) (Results.drawtime r)) r
    (Results.tiersOf (Results.birthGA inp) (Results.birthDateTime inp) r))) as H.
  change (forallb cellOk (Results.rowCells (Results.rowOf (Results.birthGA inp)
            (Results.birthDateTime inp) cls r)) = true) in H.
  revert H. generalize (Results.rowCells (Results.rowOf (Results.birthGA inp) (Results.birthDateTime inp) cls r)).
  intros cs H. simpl. rewrite filter_app, map_app, cells_shape by exact H. reflexivity.
Qed.

Lemma rowHtml_table_shape_witness :
  let w := hd (Results.rowOf (Fin 36) None EmptyString Results.dummyResult)
              (Results.rows (Results.getBiliResults TreatmentZone.initial Results.sampleInput)) in
  In w (Results.rows (Results.getBiliResults TreatmentZone.initial Results.sampleInput)) /\
  map Html.shape (filter Html.tableTag
    (Html.tokens (rowHtml (fun _ => 0%Z) (Results.birthDateTime Results.sampleInput) w))) =
    ((false, "tr") :: List.concat (repeat [(false, "td"); (true, "td")]
                                    (3 + List.length (Results.rowCells w))) ++ [(true, "tr")])%list.
Proof.
  intros w. assert (H : In w (Results.rows (Results.getBiliResults TreatmentZone.initial Results.sampleInput)))
    by (vm_compute; left; reflexivity).
  exact (conj H (rowHtml_table_shape (fun _ => 0%Z) TreatmentZone.initial Results.sampleInput w H)).
Defined.

(** C16 (the table's columns, read from its markup): the widths of the
    rows of [resultTable], as a browser lays them out from the text the
    code builds (the sum of each row's [colspan]s), are the two header
    rows of seven columns, five for each validity banner, and
    [Table.rowWidth] of each result row, newest first: the structured
    rows of [Results] and [Table] are what the page shows. *)
Theorem resultTable_columns (L : Z -> Z) (zones0 : TreatmentZone.state) (inp : Results.input) :
  Html.columns (Html.tokens (resultTableHtml L zones0 inp)) =
    ([7; 7] ++ map (fun _ => 5) (Results.validityWarnings (Results.birthGA inp) (Results.birthWeight inp)) ++
     map Table.rowWidth (Results.rows (Results.getBiliResults zones0 inp)))%nat%list.
Proof.
  set (bdt := Results.birthDateTime inp).
  set (rows := Results.rows (Results.getBiliResults zones0 inp)).
  assert (RowOk : forall w, In w rows ->
    exists a, Html.scan Html.Data (list_ascii_of_string (rowHtml L bdt w)) =
      (Html.Data, Html.mkTag false "tr" a :: [tdTag; tdEnd; tdTag; tdEnd; tdTag; tdEnd] ++
         flat_map (fun c => Html.tokens (cellHtml c)) (Results.rowCells w) ++ [Html.mkTag true "tr" []]) /\
      forallb cellOk (Results.rowCells w) = true).
  { intros w Hin. destruct (rows_in _ _ _ Hin) as (r & cls & -> & Hc). exists [("class", cls)]. split.
    - apply rowOf_scan. destruct Hc as [-> | ->]; reflexivity.
    - exact (proj1 (classify_cells_ok _ _ r _)). }
  assert (Hb : forallb (fun x => Html.isData (fst (Html.scan Html.Data (list_ascii_of_string (bannerHtml x)))))
                (Results.validityWarnings (Results.birthGA inp) (Results.birthWeight inp)) = true)
    by (apply forallb_forall; intros; apply banner_scan).
  assert (Hr : forallb (fun w => Html.isData (fst (Html.scan Html.Data (list_ascii_of_string (rowHtml L bdt w)))))
                rows = true).
  { apply forallb_forall. intros w Hin. destruct (RowOk w Hin) as (a & E & _). now rewrite E. }
  assert (Hh : Html.scan Html.Data (list_ascii_of_string headerHtml) =
               (Html.Data, snd (Html.scan Html.Data (list_ascii_of_string headerHtml))))
    by (vm_compute; reflexivity).
  assert (Rh : Html.rowsRun None (snd (Html.scan Html.Data (list_ascii_of_string headerHtml))) =
               ([7; 7]%nat, None)) by (vm_compute; reflexivity).
  assert (Rt : Html.rowsRun None (snd (Html.scan Html.Data (list_ascii_of_string ("</tbody></table>" ++ nl)))) =
               ([], None)) by (vm_compute; reflexivity).
  unfold resultTableHtml, Html.tokens, Html.columns. fold bdt rows.
  rewrite JsString.list_ascii_app, (Html.scan_app_eq _ _ _ _ _ Hh).
  rewrite JsString.list_ascii_app, (Html.scan_app_eq _ _ _ _ _ (concatMap_scan bannerHtml _ Hb)).
  rewrite JsString.list_ascii_app, (Html.scan_app_eq _ _ _ _ _ (concatMap_scan (rowHtml L bdt) _ Hr)).
  cbn [fst snd]. rewrite Html.rowsRun_app, Rh. cbn beta iota.
  rewrite Html.rowsRun_app, (flat_map_run _ (fun _ => 5%nat))
    by (intros x Hx; exact (validity_run _ _ x Hx)). cbn beta iota.
  rewrite Html.rowsRun_app, (flat_map_run _ Table.rowWidth).
  2:{ intros w Hin. destruct (RowOk w Hin) as (a & E & H). unfold Html.tokens. rewrite E.
      exact (row_run a _ H). }
  cbn beta iota. rewrite Rt. cbn. now rewrite !app_nil_r.
Qed.

(** C33 (stray [</span>] in the table): the note of a sick-infant
    treatment tier (phototherapy or transfusion, high or medium) ends
    with [sickKidWarning], whose last characters are [</span>]; in a
    table cell it closes an element that was never opened.  The markup
    of a result row is properly nested exactly when neither tier of the
    result is one of those. *)
Theorem rowOf_nested (L : Z -> Z) (g : num) (bdt : option Z) (cls : string) (r : Results.result) :
  JsString.noChar Html.dqChar cls = true ->
  Html.nested (Html.tokens (rowHtml L bdt (Results.rowOf g bdt cls r))) =
    negb (sickTier (TreatmentZone.phototherapy (Results.tiersOf g bdt r)) ||
          sickTier (TreatmentZone.transfusion (Results.tiersOf g bdt r))).
Proof.
  intros Hc. unfold Html.tokens. rewrite (rowOf_scan L _ _ _ r Hc). cbn [snd].
  destruct (classify_cells_ok g (Results.hoursTenths bdt (Results.drawtime r)) r (Results.tiersOf g bdt r))
    as [H N].
  exact (eq_trans (row_nest _ _ H) N).
Qed.

Lemma rowOf_nested_witness :
  JsString.noChar Html.dqChar "result-row-first" = true /\
  Html.nested (Html.tokens (rowHtml (fun _ => 0%Z) (Some 0%Z)
    (Results.rowOf (Fin 36) (Some 0%Z) "result-row-first"
       (Results.mkResult 259200000 (Fin 16) Results.Serum)))) = false.
Proof.
  assert (H : JsString.noChar Html.dqChar "result-row-first" = true) by reflexivity.
  split; [exact H|]. rewrite (rowOf_nested (fun _ => 0%Z) (Fin 36) (Some 0%Z) _ _ H).
  vm_compute. reflexivity.
Defined.

(** ** The level cell *)

Lemma translateRows_levels (i : nat) (rows : list (list string)) (raws : list Input.rawReading) :
  Input.translateRows JsString.parseFloat i rows = Some raws ->
  Forall (fun r => JsString.decimalNum (Input.levelValue r) = true) raws.
Proof.
  revert i raws. induction rows as [|cells rows IH]; intros i raws H; cbn [Input.translateRows] in H.
  - injection H as <-. constructor.
  - destruct (1 <? i)%nat; [|exact (IH _ _ H)].
    destruct (Input.translateRow JsString.parseFloat cells) as [r|] eqn:R; [|discriminate].
    destruct (Input.translateRows JsString.parseFloat (S i) rows) as [rs|] eqn:Rs; [|discriminate].
    injection H as <-. constructor; [|exact (IH _ _ Rs)].
    unfold Input.translateRow in R. destruct cells as [|c0 [|c1 cs]]; try discriminate.
    injection R as <-. apply JsString.parseFloat_decimal.
Qed.

Lemma readTable_levels (dateParse : string -> option Z) (rows : list (list string))
    (rs : list Results.reading) :
  Input.readTable dateParse rows = Some rs ->
  Forall (fun r => JsString.decimalNum (Results.readingLevel r) = true) rs.
Proof.
  unfold Input.readTable, Input.translateData.
  destruct (Input.translateRows JsString.parseFloat 0 rows) as [raws|] eqn:T; [|discriminate].
  apply translateRows_levels in T. revert rs. induction T as [|r raws Hr _ IH]; intros rs H.
  - injection H as <-. constructor.
  - cbn [Input.mapOption] in H. unfold Input.convertDateTime in H.
    destruct (dateParse (Input.drawtimeText r)) as [t|]; [|discriminate].
    destruct (Input.mapOption _ raws) as [ys|]; [|discriminate].
    injection H as <-. constructor; [exact Hr | now apply IH].
Qed.

(** The level of every row comes from a reading of the input. *)
Lemma rows_levels (zones0 : TreatmentZone.state) (inp : Results.input) (w : Results.row) :
  In w (Results.rows (Results.getBiliResults zones0 inp)) ->
  exists rd, (In rd (Results.serum inp) \/ In rd (Results.poc inp) \/ In rd (Results.tclab inp)) /\
             Results.rowLevel w = Results.readingLevel rd.
Proof.
  intros Hin. unfold Results.getBiliResults in Hin. cbn [Results.rows] in Hin.
  rewrite Results.resultsLoop_fold, Results.fold_table in Hin. cbn [app Results.table Results.nextRowClass] in Hin.
  apply (in_map Results.rowResult) in Hin. rewrite Results.rowsOf_results, <- in_rev in Hin.
  unfold Results.sortedResults in Hin.
  apply (Permutation_in _ (Permutation_sym (Results.arraySort_perm _ _))) in Hin.
  unfold Results.addMethod2 in Hin. rewrite !in_app_iff, !in_map_iff in Hin.
  destruct Hin as [(rd & E & H) | [(rd & E & H) | (rd & E & H)]];
    exists rd; (split; [tauto|]); unfold Results.rowResult in E; injection E as _ E _; exact (eq_sym E).
Qed.

(** The level of every row of a page [readPage] reads is a terminating
    decimal, or not finite. *)
Lemma page_levels (dateParse : string -> option Z) (serumRows pocRows tclabRows : list (list string))
    (birthDay birthTime birthGAText birthWeightText : string) (inp : Results.input)
    (zones0 : TreatmentZone.state) (w : Results.row) :
  Input.readPage dateParse serumRows pocRows tclabRows birthDay birthTime birthGAText birthWeightText = Some inp ->
  In w (Results.rows (Results.getBiliResults zones0 inp)) ->
  JsString.decimalNum (Results.rowLevel w) = true.
Proof.
  intros P Hin. destruct (rows_levels _ _ _ Hin) as (rd & Hrd & ->).
  unfold Input.readPage in P.
  destruct (Input.readTable dateParse serumRows) as [s|] eqn:S; [|discriminate].
  destruct (Input.readTable dateParse pocRows) as [p|] eqn:Pc; [|discriminate].
  destruct (Input.readTable dateParse tclabRows) as [t|] eqn:T; [|discriminate].
  injection P as <-. cbn [Results.serum Results.poc Results.tclab] in Hrd.
  apply readTable_levels in S, Pc, T. rewrite Forall_forall in S, Pc, T.
  destruct Hrd as [H | [H | H]]; auto.
Qed.

(** C11 (the level cell reads back): on every page that [readPage]
    reads, the text of the level cell of each row of the result table
    (line 567) is the level followed by its method in parentheses, and
    [parseFloat] of that text, as a reader of the table (or the lab
    cell the level came from) reads it, gives back the level the row
    was classified with, [NaN] and the infinities included: every level
    [parseFloat] produces is a terminating decimal, [Number::toString]
    of one is a decimal literal of it, and the space after it ends the
    literal. *)
Theorem page_level_cell (dateParse : string -> option Z) (serumRows pocRows tclabRows : list (list string))
    (birthDay birthTime birthGAText birthWeightText : string) (inp : Results.input)
    (zones0 : TreatmentZone.state) (L : Z -> Z) (w : Results.row) :
  Input.readPage dateParse serumRows pocRows tclabRows birthDay birthTime birthGAText birthWeightText = Some inp ->
  In w (Results.rows (Results.getBiliResults zones0 inp)) ->
  exists lv,
    nth_error (Html.cellTexts (rowHtml L (Results.birthDateTime inp) w)) 2 =
      Some (lv ++ " (" ++ Results.methodName (Results.rowMethod w) ++ ")")%string /\
    num_eq (JsString.parseFloat (lv ++ " (" ++ Results.methodName (Results.rowMethod w) ++ ")"))
           (Results.rowLevel w).
Proof.
  intros P Hin. pose proof (page_levels _ _ _ _ _ _ _ _ _ _ _ P Hin) as D.
  destruct (rows_in _ _ _ Hin) as (r & cls & Ew & Hc).
  assert (Q : JsString.noChar Html.dqChar (Results.rowClass w) = true)
    by (rewrite Ew; destruct Hc as [-> | ->]; reflexivity).
  destruct (rowHtml_cellTexts L (Results.birthDateTime inp) w Q) as (rest & C). rewrite C.
  exists (JsString.numberToString (Results.rowLevel w)). split; [reflexivity|].
  destruct (Results.rowLevel w) as [q| | |] eqn:Lv.
  - apply JsString.readsAs_parseFloat; [now apply JsString.numberToString_reads | reflexivity].
  - apply JsString.readsAs_parseFloat; [now apply JsString.numberToString_reads | reflexivity].
  - apply JsString.readsAs_parseFloat; [now apply JsString.numberToString_reads | reflexivity].
  - unfold JsString.parseFloat. rewrite JsString.list_ascii_app. reflexivity.
Qed.

Lemma page_level_cell_witness :
  let inp := Results.mkInput [Results.mkReading 0 (Fin 12.2)] [] [] (Some 0%Z) (Fin 37) (Fin 2.930) in
  let w := Results.rowOf (Fin 37) (Some 0%Z) "result-row-first" (Results.mkResult 0 (Fin 12.2) Results.Serum) in
  Input.readPage (fun _ => Some 0%Z) Input.sampleRows [] [] "6/2/16" "0923" "37" "2.930 kg" = Some inp /\
  In w (Results.rows (Results.getBiliResults TreatmentZone.initial inp)) /\
  exists lv,
    nth_error (Html.cellTexts (rowHtml (fun _ => 0%Z) (Results.birthDateTime inp) w)) 2 =
      Some (lv ++ " (" ++ Results.methodName (Results.rowMethod w) ++ ")")%string /\
    num_eq (JsString.parseFloat (lv ++ " (" ++ Results.methodName (Results.rowMethod w) ++ ")"))
           (Results.rowLevel w).
Proof.
  intros inp w.
  assert (P : Input.readPage (fun _ => Some 0%Z) Input.sampleRows [] [] "6/2/16" "0923" "37" "2.930 kg"
              = Some inp) by (vm_compute; reflexivity).
  assert (H : In w (Results.rows (Results.getBiliResults TreatmentZone.initial inp))) by (vm_compute; left; reflexivity).
  exact (conj P (conj H (page_level_cell _ _ _ _ _ _ _ _ _ _ (fun _ => 0%Z) _ P H))).
Defined.

End TableHtml.
