(* ===== verification/ImageCopy.v ===== *)
(** * ImageCopy: copying the drawn chart as an image
      ([convertSVGtoPNG2], [copyGraphToPNG3], [copyGraphToPNG],
      [copyGraphToPNG4], [$.fn.toImage]; src/biligram.js 1023-1220)

    The five functions move the chart's SVG through a canvas or a Blob
    into an image.  Module [ImageCopy] models each of them as a
    computation of a small state and exception monad [M] over a [world]:
    the canvases created so far (a store indexed by reference, so that a
    handler that captured a canvas draws on that same canvas), the
    canvases of the document, the [new Image] objects with their
    [onload] handler and [src], the [#copyImageDiv] and [body] images,
    the image [#copyImage] with its size, [src] and [load] handlers, the
    children of the chart's container, the queue of pending load events
    and the Blob URLs created.  A thrown [TypeError] is the [Throw]
    outcome, with the world as it was when the exception left the
    function.  The page's jQuery selections and the browser's features
    ([Blob], [MSBlobBuilder], [URL], [webkitURL]) are an [env] read by
    every function.  The library calls ([canvg], [toDataURL],
    [drawImage], [createObjectURL], [XMLSerializer], jQuery's [width],
    [on], [attr] and [replaceWith]) are modelled from their documented
    behaviour by what they do to the world; images are values ([PngOf]
    the layers of a canvas, a base64 [data:] URL of an SVG text, a Blob
    URL), not pixels.  A load event runs after the function that set the
    [src] has returned: [settle] runs the queued events in order. *)

From S2P Require Import Prelude.
From Stdlib Require Import String.

Module ImageCopy.

(** ** The page *)

(** An [<svg>] element: an id, its [innerHTML], its serialization by
    [XMLSerializer], and its size as jQuery's [width()] / [height()]. *)
Record svgElem : Type := mkSvg {
  svgId : nat;
  svgInner : string;
  svgMarkup : string;
  svgWidth : Q;
  svgHeight : Q
}.

(** What the functions read of the page and the browser. *)
Record env : Type := mkEnv {
  containerSvgs : list svgElem;   (* $('#container svg') *)
  highchartsSvgs : list svgElem;  (* $('#highcharts-container svg') *)
  hasBlob : bool;                 (* typeof Blob !== "undefined" *)
  hasMSBlobBuilder : bool;        (* window.MSBlobBuilder *)
  hasURL : bool;                  (* self.URL *)
  hasWebkitURL : bool             (* self.webkitURL *)
}.

(** A value handed to [XMLSerializer.serializeToString]: a DOM node, or
    a jQuery object wrapping a selection. *)
Inductive jsval : Type :=
| DomNode (e : svgElem)
| JQuery (sel : list svgElem).

(** What is drawn on a canvas, and the image sources the code builds. *)
Inductive layer : Type :=
| CanvgRender (svg : option string) (options : option (option Q * option Q * bool))
| DrawnImage (src : imgsrc) (width height : option Q)
with imgsrc : Type :=
| PngOf (content : list layer)
| SvgBase64 (svg : option string)
| BlobUrl (n : nat).

Inductive blob : Type := Blob (data : string) (type : string).

(** The [onload] handler of copyGraphToPNG's image: draw [this] on the
    captured canvas at [0, 0, width, height]. *)
Inductive imageHandler : Type := DrawInto (canvas : nat) (width height : option Q).

Record imageObj : Type := mkImage { onload : option imageHandler; imageSrc : option imgsrc }.

(** [#copyImage]: its size, [src], and the [load] handlers attached with
    [.on('load', ...)], each replacing a list of svg elements. *)
Record destImg : Type := mkDest {
  destWidth : option Q;
  destHeight : option Q;
  destSrc : option imgsrc;
  loadHandlers : list (list nat)
}.

(** A child of the chart's container. *)
Inductive node : Type :=
| SvgNode (id : nat)
| DestImg
| DestClone.

(** A pending load event. *)
Inductive task : Type :=
| ImageLoad (image : nat)
| DestLoad.

Record world : Type := mkWorld {
  onbeforeunload : bool;
  canvases : list (list layer);
  pageCanvases : list nat;
  images : list imageObj;
  copyImageDiv : list imgsrc;
  body : list imgsrc;
  dest : destImg;
  container : list node;
  tasks : list task;
  blobs : list blob
}.

Inductive error : Type := TypeError (message : string).

(** ** The monad *)

Inductive outcome (A : Type) : Type :=
| Ok (a : A) (w : world)
| Throw (e : error) (w : world).
Arguments Ok {A}. Arguments Throw {A}.

Definition M (A : Type) : Type := world -> outcome A.

Definition ret {A : Type} (a : A) : M A := fun w => Ok a w.

Definition bind {A B : Type} (m : M A) (k : A -> M B) : M B :=
  fun w => match m w with Ok a w' => k a w' | Throw e w' => Throw e w' end.

Definition throw {A : Type} (e : error) : M A := fun w => Throw e w.

Definition modify (f : world -> world) : M unit := fun w => Ok tt (f w).

Definition gets {A : Type} (f : world -> A) : M A := fun w => Ok (f w) w.

Declare Scope dom_scope.
Delimit Scope dom_scope with dom.
Notation "'do' x <- m ; k" := (bind m (fun x => k))
  (at level 60, x name, m at next level, right associativity) : dom_scope.
Local Open Scope dom_scope.

(** ** The world's fields, one update each *)

Definition setOnbeforeunload (b : bool) (w : world) : world :=
  mkWorld b (canvases w) (pageCanvases w) (images w) (copyImageDiv w) (body w) (dest w)
          (container w) (tasks w) (blobs w).
Definition setCanvases (cs : list (list layer)) (w : world) : world :=
  mkWorld (onbeforeunload w) cs (pageCanvases w) (images w) (copyImageDiv w) (body w) (dest w)
          (container w) (tasks w) (blobs w).
Definition setImages (imgs : list imageObj) (w : world) : world :=
  mkWorld (onbeforeunload w) (canvases w) (pageCanvases w) imgs (copyImageDiv w) (body w) (dest w)
          (container w) (tasks w) (blobs w).
Definition setCopyImageDiv (l : list imgsrc) (w : world) : world :=
  mkWorld (onbeforeunload w) (canvases w) (pageCanvases w) (images w) l (body w) (dest w)
          (container w) (tasks w) (blobs w).
Definition setBody (l : list imgsrc) (w : world) : world :=
  mkWorld (onbeforeunload w) (canvases w) (pageCanvases w) (images w) (copyImageDiv w) l (dest w)
          (container w) (tasks w) (blobs w).
Definition setDest (d : destImg) (w : world) : world :=
  mkWorld (onbeforeunload w) (canvases w) (pageCanvases w) (images w) (copyImageDiv w) (body w) d
          (container w) (tasks w) (blobs w).
Definition setContainer (c : list node) (w : world) : world :=
  mkWorld (onbeforeunload w) (canvases w) (pageCanvases w) (images w) (copyImageDiv w) (body w)
          (dest w) c (tasks w) (blobs w).
Definition setTasks (ts : list task) (w : world) : world :=
  mkWorld (onbeforeunload w) (canvases w) (pageCanvases w) (images w) (copyImageDiv w) (body w)
          (dest w) (container w) ts (blobs w).
Definition setBlobs (bs : list blob) (w : world) : world :=
  mkWorld (onbeforeunload w) (canvases w) (pageCanvases w) (images w) (copyImageDiv w) (body w)
          (dest w) (container w) (tasks w) bs.

(** [f] applied to the [i]-th element; nothing out of range. *)
Fixpoint updateAt {A : Type} (i : nat) (f : A -> A) (l : list A) : list A :=
  match l, i with
  | [], _ => []
  | x :: l', O => f x :: l'
  | x :: l', S i' => x :: updateAt i' f l'
  end.

(** ** The library calls *)

(** [window.onbeforeunload = null] *)
Definition clearOnbeforeunload : M unit := modify (setOnbeforeunload false).

(** [document.createElement('canvas')]: a new blank canvas, outside the
    document. *)
Definition createCanvas : M nat :=
  fun w => Ok (List.length (canvases w)) (setCanvases (canvases w ++ [[]]) w).

(** [canvg(canvas, svg, options)]: clears the canvas and renders the
    text on it; the options are [scaleWidth], [scaleHeight] and
    [ignoreDimensions]. *)
Definition canvg (c : nat) (svg : option string) (options : option (option Q * option Q * bool)) : M unit :=
  modify (fun w => setCanvases (updateAt c (fun _ => [CanvgRender svg options]) (canvases w)) w).

(** [canvas.toDataURL("image/png")]: what the canvas holds now. *)
Definition toDataURL (c : nat) : M imgsrc := gets (fun w => PngOf (nth c (canvases w) [])).

(** [.append("<image src='" + src + "'/>")] on [#copyImageDiv] and on [body]. *)
Definition appendCopyImageDiv (src : imgsrc) : M unit :=
  modify (fun w => setCopyImageDiv (copyImageDiv w ++ [src]) w).
Definition appendBody (src : imgsrc) : M unit := modify (fun w => setBody (body w ++ [src]) w).

(** [new Image], [image.onload = ...] and [image.src = ...]; the image
    loads after the running script, so setting [src] queues its load. *)
Definition newImage : M nat :=
  fun w => Ok (List.length (images w)) (setImages (images w ++ [mkImage None None]) w).
Definition setOnload (i : nat) (h : imageHandler) : M unit :=
  modify (fun w => setImages (updateAt i (fun im => mkImage (Some h) (imageSrc im)) (images w)) w).
Definition setImageSrc (i : nat) (src : imgsrc) : M unit :=
  modify (fun w => setTasks (tasks w ++ [ImageLoad i])
                     (setImages (updateAt i (fun im => mkImage (onload im) (Some src)) (images w)) w)).

(** [document.querySelector("canvas")]: the document's first canvas, or
    [null]. *)
Definition querySelectorCanvas : M (option nat) := gets (fun w => hd_error (pageCanvases w)).

(** jQuery's [.html()], [.width()], [.height()] read the first selected
    element; on an empty selection they give [undefined]. *)
Definition jqHtml (sel : list svgElem) : option string := option_map svgInner (hd_error sel).
Definition jqWidth (sel : list svgElem) : option Q := option_map svgWidth (hd_error sel).
Definition jqHeight (sel : list svgElem) : option Q := option_map svgHeight (hd_error sel).

(** [new XMLSerializer().serializeToString(v)]: a [TypeError] unless [v]
    is a DOM node. *)
Definition serializeToString (v : jsval) : M string :=
  match v with
  | DomNode e => ret (svgMarkup e)
  | JQuery _ => throw (TypeError "parameter 1 of serializeToString is not of type Node")
  end.

Definition svgType : string := "image/svg+xml;charset=utf-8".

Section Browser.
Variable E : env.

(** The [Blob] of lines 1163-1170 (and 1198-1205): [new Blob] when the
    browser has it, else [MSBlobBuilder]'s; otherwise the hoisted
    [var blob] is still [undefined]. *)
Definition makeBlob (svgData : string) : M (option blob) :=
  if hasBlob E then ret (Some (Blob svgData svgType))
  else if hasMSBlobBuilder E then ret (Some (Blob svgData svgType))
  else ret None.

(** [(self.URL || self.webkitURL || self).createObjectURL(blob)]: [self]
    has no [createObjectURL], and [undefined] is not a Blob. *)
Definition createObjectURL (b : option blob) : M imgsrc :=
  if hasURL E || hasWebkitURL E then
    match b with
    | Some bl => fun w => Ok (BlobUrl (List.length (blobs w))) (setBlobs (blobs w ++ [bl]) w)
    | None => throw (TypeError "createObjectURL: parameter 1 is not a Blob")
    end
  else throw (TypeError "createObjectURL is not a function").

End Browser.

(** [x.width(v)]: sets the width, or leaves it when [v] is [undefined]. *)
Definition setIfDefined (v old : option Q) : option Q :=
  match v with Some _ => v | None => old end.

(** [$(dest).width(width).height(height).on('load', ...).attr('src', url)]
    on [#copyImage]: the handler is added to those already attached; a
    new [src] cancels a load not yet done, so one load event is pending. *)
Definition loadInto (width height : option Q) (target : list nat) (url : imgsrc) : M unit :=
  modify (fun w =>
    let d := dest w in
    setTasks (filter (fun t => match t with DestLoad => false | _ => true end) (tasks w) ++ [DestLoad])
      (setDest (mkDest (setIfDefined width (destWidth d)) (setIfDefined height (destHeight d))
                       (Some url) (loadHandlers d ++ [target])) w)).

Definition isDest (n : node) : bool := match n with DestImg => true | _ => false end.

(** [$(sel).replaceWith(img)] in the container: the image leaves its
    place, every selected svg but the last gets a copy of it and the last
    gets the image itself. *)
Definition replaceWith (ids : list nat) (c : list node) : list node :=
  map (fun n => match n with
                | SvgNode i =>
                    if existsb (Nat.eqb i) ids then
                      (if Nat.eqb i (List.last ids 0%nat) then DestImg else DestClone)
                    else n
                | _ => n
                end)
      (filter (fun n => negb (isDest n)) c).

(** ** The event loop *)

(** One load event: the image's [onload] draws it on the captured
    canvas; [#copyImage]'s load runs its handlers in the order attached. *)
Definition runTask (t : task) (w : world) : world :=
  match t with
  | ImageLoad i =>
      match nth_error (images w) i with
      | Some (mkImage (Some (DrawInto c wd ht)) (Some src)) =>
          setCanvases (updateAt c (fun ls => ls ++ [DrawnImage src wd ht]) (canvases w)) w
      | _ => w
      end
  | DestLoad =>
      setContainer (fold_left (fun c ids => replaceWith ids c) (loadHandlers (dest w)) (container w)) w
  end.

(** After the script: the queued load events in order (no handler
    queues another). *)
Definition settle (w : world) : world :=
  fold_left (fun w t => runTask t w) (tasks w) (setTasks [] w).

(** ** The functions *)

Section Functions.
Variable E : env.

(** [convertSVGtoPNG2(dest)], lines 1023-1032; [dest] is read only by
    the commented-out code. *)
Definition convertSVGtoPNG2 (destSel : string) : M unit :=
  let svg := jqHtml (containerSvgs E) in
  do _ <- clearOnbeforeunload;
  do mycanvas <- createCanvas;
  do _ <- canvg mycanvas svg None;
  do png <- toDataURL mycanvas;
  appendCopyImageDiv png.

(** [copyGraphToPNG3()], lines 1054-1066. *)
Definition copyGraphToPNG3 : M unit :=
  let svg := jqHtml (containerSvgs E) in
  do _ <- clearOnbeforeunload;
  do mycanvas <- createCanvas;
  do canvas <- querySelectorCanvas;
  match canvas with
  | None => throw (TypeError "Cannot read property getContext of null")
  | Some c =>
      do png <- toDataURL c;
      appendCopyImageDiv png
  end.

(** [copyGraphToPNG()], lines 1088-1120. *)
Definition copyGraphToPNG : M unit :=
  let svghtml := jqHtml (containerSvgs E) in
  let svg := containerSvgs E in
  let width := jqWidth svg in
  let height := jqHeight svg in
  do _ <- clearOnbeforeunload;
  do canvas <- createCanvas;
  do _ <- canvg canvas svghtml (Some (width, height, true));
  do image <- newImage;
  do _ <- setOnload image (DrawInto canvas width height);
  do _ <- setImageSrc image (SvgBase64 svghtml);
  do png <- toDataURL canvas;
  do png' <- toDataURL canvas;
  appendBody png'.

(** [copyGraphToPNG4()], lines 1151-1184. *)
Definition copyGraphToPNG4 : M unit :=
  let svg := highchartsSvgs E in
  let svghtml := jqHtml svg in
  let width := jqWidth svg in
  let height := jqHeight svg in
  do svgData <- serializeToString (JQuery svg);
  do blob <- makeBlob E svgData;
  do blobUrl <- createObjectURL E blob;
  loadInto width height (map svgId svg) blobUrl.

(** The callback of [$(this).each] in [$.fn.toImage], lines 1190-1219. *)
Definition toImageEach (e : svgElem) : M unit :=
  let width := Some (svgWidth e / (9 # 5))%Q in
  let height := Some (svgHeight e / (9 # 5))%Q in
  do svgData <- serializeToString (DomNode e);
  do blob <- makeBlob E svgData;
  do blobUrl <- createObjectURL E blob;
  loadInto width height [svgId e] blobUrl.

(** [$(this).each(f)]: [f] on each selected element in order. *)
Fixpoint each (f : svgElem -> M unit) (sel : list svgElem) : M unit :=
  match sel with
  | [] => ret tt
  | e :: sel' => do _ <- f e; each f sel'
  end.

(** [$.fn.toImage(dest)] on the selection [sel]; [dest] is [#copyImage]. *)
Definition toImage (sel : list svgElem) : M unit := each toImageEach sel.

End Functions.

(** ** Well-formedness *)

(** Every [onload] handler draws on a canvas that exists, every queued
    image load names an image that exists, and the document's canvases
    exist. *)
Definition handlerOk (nc : nat) (im : imageObj) : bool :=
  match onload im with Some (DrawInto c _ _) => Nat.ltb c nc | None => true end.
Definition taskOk (ni : nat) (t : task) : bool :=
  match t with ImageLoad i => Nat.ltb i ni | DestLoad => true end.
Definition wf (w : world) : bool :=
  forallb (handlerOk (List.length (canvases w))) (images w) &&
  forallb (taskOk (List.length (images w))) (tasks w) &&
  forallb (fun c => Nat.ltb c (List.length (canvases w))) (pageCanvases w).

(** The world an outcome leaves, normal or exceptional. *)
Definition outWorld {A : Type} (o : outcome A) : world :=
  match o with Ok _ w | Throw _ w => w end.

(** ** Lemmas *)

Lemma length_updateAt {A : Type} (i : nat) (f : A -> A) (l : list A) :
  List.length (updateAt i f l) = List.length l.
Proof. revert i. induction l as [|x l IH]; intros [|i]; simpl; auto. Qed.

Lemma updateAt_last {A : Type} (f : A -> A) (l : list A) (x : A) :
  updateAt (List.length l) f (l ++ [x]) = l ++ [f x].
Proof. induction l as [|y l IH]; simpl; [reflexivity | now rewrite IH]. Qed.

Lemma nth_updateAt_ne {A : Type} (i n : nat) (f : A -> A) (l : list A) (d : A) :
  i <> n -> nth n (updateAt i f l) d = nth n l d.
Proof.
  revert i n. induction l as [|x l IH]; intros [|i] [|n] H; simpl; auto. congruence.
Qed.

Lemma forallb_ltb_mono {A : Type} (f : nat -> A -> bool) (n n' : nat) (l : list A) :
  (forall a m m', (m <= m')%nat -> f m a = true -> f m' a = true) ->
  (n <= n')%nat -> forallb (f n) l = true -> forallb (f n') l = true.
Proof.
  intros Hf Hn H. rewrite forallb_forall in *. intros a Ha. eapply Hf; [exact Hn | now apply H].
Qed.

Lemma handlerOk_mono (im : imageObj) (m m' : nat) :
  (m <= m')%nat -> handlerOk m im = true -> handlerOk m' im = true.
Proof.
  unfold handlerOk. destruct (onload im) as [[c ? ?]|]; [|auto].
  rewrite !Nat.ltb_lt. lia.
Qed.

Lemma taskOk_mono (t : task) (m m' : nat) :
  (m <= m')%nat -> taskOk m t = true -> taskOk m' t = true.
Proof. unfold taskOk. destruct t; [rewrite !Nat.ltb_lt; lia | auto]. Qed.

Lemma ltb_mono (c m m' : nat) : (m <= m')%nat -> Nat.ltb c m = true -> Nat.ltb c m' = true.
Proof. rewrite !Nat.ltb_lt. lia. Qed.

Create HintDb imagecopy.
#[export] Hint Resolve handlerOk_mono taskOk_mono ltb_mono : imagecopy.

(** A load event changes no length, no image, no queue and no
    document canvas. *)
Lemma runTask_shape (t : task) (w : world) :
  List.length (canvases (runTask t w)) = List.length (canvases w) /\
  images (runTask t w) = images w /\ tasks (runTask t w) = tasks w /\
  pageCanvases (runTask t w) = pageCanvases w /\ body (runTask t w) = body w.
Proof.
  destruct t as [i|]; [simpl | repeat split].
  all: destruct (nth_error (images w) i) as [[[[c wd ht]|] [src|]]|]; simpl;
    rewrite ?length_updateAt; repeat split.
Qed.

Lemma fold_runTask_shape (ts : list task) (w : world) :
  let w' := fold_left (fun w t => runTask t w) ts w in
  List.length (canvases w') = List.length (canvases w) /\
  images w' = images w /\ tasks w' = tasks w /\ pageCanvases w' = pageCanvases w /\ body w' = body w.
Proof.
  revert w. induction ts as [|t ts IH]; intros w; simpl; [repeat split|].
  destruct (IH (runTask t w)) as (H1 & H2 & H3 & H4 & H5).
  destruct (runTask_shape t w) as (G1 & G2 & G3 & G4 & G5).
  rewrite H1, H2, H3, H4, H5, G1, G2, G3, G4, G5. repeat split.
Qed.

(** ** Preservation of well-formedness, compositionally *)

(** [m] keeps the world well formed, whether it returns or throws. *)
Definition preserves {A : Type} (m : M A) : Prop :=
  forall w, wf w = true -> wf (outWorld (m w)) = true.

Lemma preserves_bind {A B : Type} (m : M A) (k : A -> M B) :
  preserves m -> (forall a, preserves (k a)) -> preserves (bind m k).
Proof.
  intros Hm Hk w Hw. specialize (Hm w Hw). unfold bind.
  destruct (m w); simpl in *; [now apply Hk | exact Hm].
Qed.

Lemma preserves_ret {A : Type} (a : A) : preserves (ret a).
Proof. intros w Hw. exact Hw. Qed.

Lemma preserves_throw {A : Type} (e : error) : preserves (@throw A e).
Proof. intros w Hw. exact Hw. Qed.

Lemma preserves_gets {A : Type} (f : world -> A) : preserves (gets f).
Proof. intros w Hw. exact Hw. Qed.

Lemma wf_split (w : world) :
  wf w = true <->
  forallb (handlerOk (List.length (canvases w))) (images w) = true /\
  forallb (taskOk (List.length (images w))) (tasks w) = true /\
  forallb (fun c => Nat.ltb c (List.length (canvases w))) (pageCanvases w) = true.
Proof. unfold wf. rewrite !andb_true_iff. tauto. Qed.

(** A new canvas only adds room. *)
Lemma preserves_createCanvas : preserves createCanvas.
Proof.
  intros w Hw. apply wf_split in Hw as (H1 & H2 & H3). apply wf_split.
  unfold createCanvas, outWorld, setCanvases. cbn [canvases images tasks pageCanvases].
  rewrite length_app. split; [|split]; [| exact H2 |].
  - apply (forallb_ltb_mono handlerOk (List.length (canvases w))); eauto with imagecopy; lia.
  - apply (forallb_ltb_mono (fun n c => Nat.ltb c n) (List.length (canvases w)));
      eauto with imagecopy; lia.
Qed.

Lemma preserves_canvg (c : nat) (svg : option string) (options : option (option Q * option Q * bool)) :
  preserves (canvg c svg options).
Proof.
  intros w Hw. unfold canvg, modify, outWorld, wf, setCanvases in *.
  cbn [canvases images tasks pageCanvases]. now rewrite length_updateAt.
Qed.

Lemma preserves_clear : preserves clearOnbeforeunload.
Proof. intros w Hw. exact Hw. Qed.

Lemma preserves_appendCopyImageDiv (src : imgsrc) : preserves (appendCopyImageDiv src).
Proof. intros w Hw. exact Hw. Qed.

Lemma preserves_appendBody (src : imgsrc) : preserves (appendBody src).
Proof. intros w Hw. exact Hw. Qed.

Lemma preserves_serialize (v : jsval) : preserves (serializeToString v).
Proof. intros w Hw. destruct v; exact Hw. Qed.

Lemma preserves_makeBlob (E : env) (data : string) : preserves (makeBlob E data).
Proof. intros w Hw. unfold makeBlob. destruct (hasBlob E), (hasMSBlobBuilder E); exact Hw. Qed.

Lemma preserves_createObjectURL (E : env) (b : option blob) : preserves (createObjectURL E b).
Proof.
  intros w Hw. unfold createObjectURL. destruct (hasURL E || hasWebkitURL E), b; exact Hw.
Qed.

Lemma forallb_filter {A : Type} (f g : A -> bool) (l : list A) :
  forallb f l = true -> forallb f (filter g l) = true.
Proof.
  rewrite !forallb_forall. intros H x Hx. apply filter_In in Hx. now apply H.
Qed.

Lemma preserves_loadInto (width height : option Q) (target : list nat) (url : imgsrc) :
  preserves (loadInto width height target url).
Proof.
  intros w Hw. apply wf_split in Hw as (H1 & H2 & H3). apply wf_split.
  unfold loadInto, modify, outWorld, setTasks, setDest.
  cbn [canvases images tasks pageCanvases].
  rewrite forallb_app, forallb_filter by exact H2. auto.
Qed.

Lemma preserves_querySelectorCanvas : preserves querySelectorCanvas.
Proof. apply preserves_gets. Qed.

Lemma preserves_toDataURL (c : nat) : preserves (toDataURL c).
Proof. apply preserves_gets. Qed.

#[export] Hint Resolve preserves_ret preserves_throw preserves_gets preserves_createCanvas
  preserves_canvg preserves_clear preserves_appendCopyImageDiv preserves_appendBody
  preserves_serialize preserves_makeBlob preserves_createObjectURL preserves_loadInto
  preserves_querySelectorCanvas preserves_toDataURL : imagecopy.

(** Split a computation at its binds and matches. *)
Ltac preserve :=
  repeat match goal with
         | |- preserves (bind _ _) => apply preserves_bind; [|intros ?]
         | |- preserves (match ?x with _ => _ end) => destruct x
         | |- preserves _ => solve [eauto with imagecopy]
         end.

(** What [copyGraphToPNG] does, step by step: a new canvas with the
    [canvg] rendering, a new image whose [onload] will draw on it and
    whose load is queued, and the PNG of the canvas appended to [body]. *)
Lemma copyGraphToPNG_run (E : env) (w : world) :
  let h := jqHtml (containerSvgs E) in
  let wd := jqWidth (containerSvgs E) in
  let ht := jqHeight (containerSvgs E) in
  let r := CanvgRender h (Some (wd, ht, true)) in
  copyGraphToPNG E w =
    Ok tt (mkWorld false (canvases w ++ [[r]]) (pageCanvases w)
             (images w ++ [mkImage (Some (DrawInto (List.length (canvases w)) wd ht)) (Some (SvgBase64 h))])
             (copyImageDiv w) (body w ++ [PngOf [r]]) (dest w) (container w)
             (tasks w ++ [ImageLoad (List.length (images w))]) (blobs w)).
Proof.
  intros. unfold copyGraphToPNG, bind, clearOnbeforeunload, createCanvas, canvg, newImage,
    setOnload, setImageSrc, toDataURL, appendBody, modify, gets, ret.
  cbn [canvases images tasks pageCanvases body copyImageDiv dest container blobs onbeforeunload
       setOnbeforeunload setCanvases setImages setTasks setBody onload imageSrc].
  rewrite !updateAt_last, nth_middle. reflexivity.
Qed.

Lemma preserves_copyGraphToPNG (E : env) : preserves (copyGraphToPNG E).
Proof.
  intros w Hw. rewrite copyGraphToPNG_run. apply wf_split in Hw as (H1 & H2 & H3).
  apply wf_split. cbn [outWorld canvases images tasks pageCanvases].
  rewrite !forallb_app, !length_app. cbn [forallb handlerOk taskOk onload List.length].
  rewrite !andb_true_r, !andb_true_iff. repeat split.
  - apply (forallb_ltb_mono handlerOk (List.length (canvases w))); eauto with imagecopy; lia.
  - apply Nat.ltb_lt. lia.
  - apply (forallb_ltb_mono taskOk (List.length (images w))); eauto with imagecopy; lia.
  - apply Nat.ltb_lt. lia.
  - apply (forallb_ltb_mono (fun n c => Nat.ltb c n) (List.length (canvases w)));
      eauto with imagecopy; lia.
Qed.

Lemma preserves_convertSVGtoPNG2 (E : env) (destSel : string) : preserves (convertSVGtoPNG2 E destSel).
Proof. unfold convertSVGtoPNG2. preserve. Qed.

Lemma preserves_copyGraphToPNG3 (E : env) : preserves (copyGraphToPNG3 E).
Proof. unfold copyGraphToPNG3. preserve. Qed.

Lemma preserves_copyGraphToPNG4 (E : env) : preserves (copyGraphToPNG4 E).
Proof. unfold copyGraphToPNG4. preserve. Qed.

Lemma preserves_toImage (E : env) (sel : list svgElem) : preserves (toImage E sel).
Proof.
  unfold toImage. induction sel as [|e sel IH]; cbn [each]; [preserve|].
  apply preserves_bind; [unfold toImageEach; preserve | intros _; exact IH].
Qed.

Lemma settle_shape (w : world) :
  List.length (canvases (settle w)) = List.length (canvases w) /\
  images (settle w) = images w /\ tasks (settle w) = [] /\
  pageCanvases (settle w) = pageCanvases w /\ body (settle w) = body w.
Proof.
  unfold settle. pose proof (fold_runTask_shape (tasks w) (setTasks [] w)) as P.
  cbv zeta in P. destruct P as (G1 & G2 & G3 & G4 & G5).
  rewrite G1, G2, G3, G4, G5. repeat split.
Qed.

Lemma settle_body (w : world) : body (settle w) = body w.
Proof. apply settle_shape. Qed.

Lemma preserves_settle (w : world) : wf w = true -> wf (settle w) = true.
Proof.
  intros Hw. apply wf_split in Hw as (H1 & H2 & H3).
  destruct (settle_shape w) as (G1 & G2 & G3 & G4 & _).
  apply wf_split. rewrite G1, G2, G3, G4. auto.
Qed.

Lemma nth_updateAt_eq {A : Type} (n : nat) (f : A -> A) (l : list A) (d : A) :
  (n < List.length l)%nat -> nth n (updateAt n f l) d = f (nth n l d).
Proof.
  revert n. induction l as [|x l IH]; intros [|n] H; simpl in *; try lia; auto.
  apply IH. lia.
Qed.

Lemma nth_error_last {A : Type} (l : list A) (x : A) : nth_error (l ++ [x]) (List.length l) = Some x.
Proof. rewrite nth_error_app2, Nat.sub_diag by lia. reflexivity. Qed.

(** A load event of an image whose handler draws elsewhere leaves canvas
    [n] as it is. *)
Lemma runTask_other (t : task) (x : world) (n : nat) :
  (forall i c a b s, t = ImageLoad i ->
     nth_error (images x) i = Some (mkImage (Some (DrawInto c a b)) s) -> c <> n) ->
  nth n (canvases (runTask t x)) [] = nth n (canvases x) [].
Proof.
  intros H. destruct t as [i|]; [|reflexivity]. cbn [runTask].
  destruct (nth_error (images x) i) as [[[[c a b]|] [src|]]|] eqn:E; try reflexivity.
  cbn [canvases setCanvases]. apply nth_updateAt_ne. eapply H; [reflexivity | exact E].
Qed.

Lemma fold_runTask_other (ts : list task) (x : world) (n : nat) :
  (forall i c a b s, In (ImageLoad i) ts ->
     nth_error (images x) i = Some (mkImage (Some (DrawInto c a b)) s) -> c <> n) ->
  nth n (canvases (fold_left (fun w t => runTask t w) ts x)) [] = nth n (canvases x) [].
Proof.
  revert x. induction ts as [|t ts IH]; intros x H; [reflexivity|]. cbn [fold_left].
  rewrite IH.
  - apply runTask_other. intros i c a b s -> E. eapply H; [left; reflexivity | exact E].
  - destruct (runTask_shape t x) as (_ & G & _). rewrite G.
    intros i c a b s Hi E. eapply H; [right; exact Hi | exact E].
Qed.

(** The last queued load is an image drawing on canvas [c], which no
    earlier queued load draws on: after the loads, [c] has gained the
    drawn image. *)
Lemma settle_draws (x : world) (ts : list task) (i c : nat) (a b : option Q) (src : imgsrc) :
  tasks x = ts ++ [ImageLoad i] ->
  nth_error (images x) i = Some (mkImage (Some (DrawInto c a b)) (Some src)) ->
  (c < List.length (canvases x))%nat ->
  (forall j c' a' b' s', In (ImageLoad j) ts ->
     nth_error (images x) j = Some (mkImage (Some (DrawInto c' a' b')) s') -> c' <> c) ->
  nth c (canvases (settle x)) [] = nth c (canvases x) [] ++ [DrawnImage src a b].
Proof.
  intros Ht Hi Hc Hother. unfold settle. rewrite Ht, fold_left_app. cbn [fold_left].
  pose proof (fold_runTask_shape ts (setTasks [] x)) as P. cbv zeta in P.
  destruct P as (G1 & G2 & _).
  set (y := fold_left (fun w t => runTask t w) ts (setTasks [] x)) in *.
  cbn [runTask]. rewrite G2. cbn [images setTasks]. rewrite Hi. cbn [canvases setCanvases].
  rewrite nth_updateAt_eq by (rewrite G1; exact Hc).
  unfold y. now rewrite fold_runTask_other.
Qed.

(** ** [toImage] in a browser with a Blob and a URL API *)

(** What one element does there: a Blob of its markup and its URL, the
    size and [src] of [#copyImage], one more load handler, one pending
    load of [#copyImage]. *)
Definition destStep (e : svgElem) (w : world) : world :=
  setTasks (filter (fun t => match t with DestLoad => false | _ => true end) (tasks w) ++ [DestLoad])
    (setDest (mkDest (Some (svgWidth e / (9 # 5))%Q) (Some (svgHeight e / (9 # 5))%Q)
                     (Some (BlobUrl (List.length (blobs w)))) (loadHandlers (dest w) ++ [[svgId e]]))
             (setBlobs (blobs w ++ [Blob (svgMarkup e) svgType]) w)).

(** Where [#copyImage] ends up: in the place of svg [k]; [notIn ids]
    holds of the nodes that are not one of the svgs [ids]. *)
Definition placeAt (k : nat) (n : node) : node :=
  match n with SvgNode i => if Nat.eqb i k then DestImg else n | _ => n end.
Definition notIn (ids : list nat) (n : node) : bool :=
  match n with SvgNode i => negb (existsb (Nat.eqb i) ids) | _ => true end.

Section WithBlob.
Variable E : env.
Hypothesis HB : hasBlob E || hasMSBlobBuilder E = true.
Hypothesis HU : hasURL E || hasWebkitURL E = true.

Lemma toImageEach_run (e : svgElem) (w : world) : toImageEach E e w = Ok tt (destStep e w).
Proof.
  unfold toImageEach, bind, serializeToString, ret, makeBlob, createObjectURL, loadInto, modify.
  rewrite HU. destruct (hasBlob E); [reflexivity|]. cbn in HB. now rewrite HB.
Qed.

Lemma toImage_run (sel : list svgElem) (w : world) :
  toImage E sel w = Ok tt (fold_left (fun w e => destStep e w) sel w).
Proof.
  unfold toImage. revert w. induction sel as [|e sel IH]; intros w; [reflexivity|].
  cbn [each fold_left]. unfold bind. now rewrite toImageEach_run.
Qed.

End WithBlob.

Lemma destSteps_shape (sel : list svgElem) (w : world) :
  let w' := fold_left (fun w e => destStep e w) sel w in
  loadHandlers (dest w') = loadHandlers (dest w) ++ map (fun e => [svgId e]) sel /\
  container w' = container w /\
  blobs w' = blobs w ++ map (fun e => Blob (svgMarkup e) svgType) sel.
Proof.
  revert w. induction sel as [|e sel IH]; intros w; cbn [fold_left map].
  - now rewrite !app_nil_r.
  - destruct (IH (destStep e w)) as (G1 & G2 & G3). rewrite G1, G2, G3. cbn.
    now rewrite <- !app_assoc.
Qed.

Lemma replaceWith_single (k : nat) (c : list node) :
  replaceWith [k] c = map (placeAt k) (filter (fun n => negb (isDest n)) c).
Proof.
  unfold replaceWith. apply map_ext. intros [i| |]; [|reflexivity..].
  cbn. rewrite orb_false_r. now destruct (Nat.eqb i k).
Qed.

Lemma filter_placeAt (i : nat) (l : list nat) (c : list node) :
  filter (fun n => negb (isDest n) && notIn l n) (map (placeAt i) (filter (fun n => negb (isDest n)) c))
  = filter (fun n => negb (isDest n) && notIn (i :: l) n) c.
Proof.
  induction c as [|[j| |] c IH]; cbn; [reflexivity | | exact IH | now rewrite IH].
  destruct (Nat.eqb j i); cbn; [exact IH|].
  destruct (existsb (Nat.eqb j) l); cbn; [exact IH | now rewrite IH].
Qed.

(** The load handlers of [toImage], one per svg, run in order: each takes
    [#copyImage] out of its place and puts it in place of its svg. *)
Lemma replace_chain (l : list nat) (c : list node) :
  filter (fun n => negb (isDest n))
         (fold_left (fun c ids => replaceWith ids c) (map (fun i => [i]) l) c)
  = filter (fun n => negb (isDest n) && notIn l n) c.
Proof.
  revert c. induction l as [|i l IH]; intros c; cbn [map fold_left].
  - apply filter_ext. intros n. destruct n; reflexivity.
  - rewrite IH, replaceWith_single. apply filter_placeAt.
Qed.

Lemma runTask_image (i : nat) (x : world) :
  container (runTask (ImageLoad i) x) = container x /\ dest (runTask (ImageLoad i) x) = dest x.
Proof.
  cbn [runTask]. destruct (nth_error (images x) i) as [[[[c a b]|] [src|]]|]; split; reflexivity.
Qed.

(** The queue ends with the only load of [#copyImage]: after the loads,
    its handlers have run once, in order, on the container. *)
Lemma settle_container (x : world) (ts : list task) :
  tasks x = ts ++ [DestLoad] -> (forall t, In t ts -> t <> DestLoad) ->
  container (settle x) = fold_left (fun c ids => replaceWith ids c) (loadHandlers (dest x)) (container x).
Proof.
  intros Ht Hts. unfold settle. rewrite Ht, fold_left_app. cbn [fold_left runTask container setContainer].
  assert (K : forall y, container (fold_left (fun w t => runTask t w) ts y) = container y /\
                        dest (fold_left (fun w t => runTask t w) ts y) = dest y).
  { clear Ht. induction ts as [|t ts IH]; intros y; [split; reflexivity|].
    cbn [fold_left]. destruct t as [i|]; [|exfalso; apply (Hts DestLoad); [left|]; reflexivity].
    destruct (IH (fun t H => Hts t (or_intror H)) (runTask (ImageLoad i) y)) as [-> ->].
    apply runTask_image. }
  destruct (K (setTasks [] x)) as [-> ->]. reflexivity.
Qed.

(** ** Properties *)

(** Well-formed page: each of the five functions, returning or
    throwing, and the load events run after them keep the page well
    formed: every [onload] handler draws on an existing canvas, every
    queued load names an existing image, the document's canvases exist. *)
Theorem imageCopy_wf (E : env) (destSel : string) (sel : list svgElem) (w : world) :
  wf w = true ->
  wf (outWorld (convertSVGtoPNG2 E destSel w)) = true /\
  wf (outWorld (copyGraphToPNG3 E w)) = true /\
  wf (outWorld (copyGraphToPNG E w)) = true /\
  wf (outWorld (copyGraphToPNG4 E w)) = true /\
  wf (outWorld (toImage E sel w)) = true /\
  wf (settle w) = true.
Proof.
  intros Hw. repeat split;
    [apply preserves_convertSVGtoPNG2 | apply preserves_copyGraphToPNG3 |
     apply preserves_copyGraphToPNG | apply preserves_copyGraphToPNG4 |
     apply preserves_toImage | apply preserves_settle]; exact Hw.
Qed.

(** A page with the chart's svg, nothing created yet. *)
Definition chartSvg : svgElem := mkSvg 1 "<g></g>" "<svg><g></g></svg>" 600 400.
Definition sampleEnv : env := mkEnv [chartSvg] [chartSvg] true false true false.
Definition otherSvg : svgElem := mkSvg 2 "<g></g>" "<svg><g></g></svg>" 300 200.
Definition sampleWorld : world :=
  mkWorld true [] [] [] [] [] (mkDest None None None []) [SvgNode 1; SvgNode 2] [] [].

Lemma imageCopy_wf_witness :
  wf sampleWorld = true /\
  wf (outWorld (copyGraphToPNG sampleEnv sampleWorld)) = true.
Proof.
  split; [reflexivity|].
  apply (imageCopy_wf sampleEnv "#copyImage" [chartSvg] sampleWorld); reflexivity.
Defined.

(** C26 (copied before drawn): [copyGraphToPNG] appends to the body the
    PNG of its canvas as [canvg] left it; the [onload] handler that draws
    the SVG image on that canvas runs only after the function has
    returned, so once the queued loads have run the canvas holds the
    drawn image but the copied PNG never does. *)
Theorem copyGraphToPNG_copies_before_draw (E : env) (w : world) :
  wf w = true ->
  match copyGraphToPNG E w with
  | Ok _ w' =>
      let h := jqHtml (containerSvgs E) in
      let wd := jqWidth (containerSvgs E) in
      let ht := jqHeight (containerSvgs E) in
      let r := CanvgRender h (Some (wd, ht, true)) in
      body (settle w') = body w ++ [PngOf [r]] /\
      nth (List.length (canvases w)) (canvases (settle w')) [] = [r; DrawnImage (SvgBase64 h) wd ht]
  | Throw _ _ => False
  end.
Proof.
  intros Hw. apply wf_split in Hw as (H1 & H2 & _).
  rewrite copyGraphToPNG_run. cbv zeta. split.
  - now rewrite settle_body.
  - erewrite settle_draws; [| reflexivity | apply nth_error_last | cbn [canvases]; rewrite length_app; cbn; lia |].
    + cbn [canvases]. now rewrite nth_middle.
    + cbn [images]. intros j c a b s Hj Ej.
      rewrite forallb_forall in H1, H2. specialize (H2 _ Hj). cbn in H2. apply Nat.ltb_lt in H2.
      rewrite nth_error_app1 in Ej by exact H2.
      specialize (H1 _ (nth_error_In _ _ Ej)). cbn in H1. apply Nat.ltb_lt in H1. lia.
Qed.

Lemma copyGraphToPNG_copies_before_draw_witness :
  wf sampleWorld = true /\
  match copyGraphToPNG sampleEnv sampleWorld with
  | Ok _ w' =>
      let h := jqHtml (containerSvgs sampleEnv) in
      let wd := jqWidth (containerSvgs sampleEnv) in
      let ht := jqHeight (containerSvgs sampleEnv) in
      let r := CanvgRender h (Some (wd, ht, true)) in
      body (settle w') = body sampleWorld ++ [PngOf [r]] /\
      nth (List.length (canvases sampleWorld)) (canvases (settle w')) [] =
        [r; DrawnImage (SvgBase64 h) wd ht]
  | Throw _ _ => False
  end.
Proof. split; [reflexivity | apply copyGraphToPNG_copies_before_draw; reflexivity]. Defined.

(** C27 (copyGraphToPNG4 always throws): [copyGraphToPNG4] hands the
    jQuery object [svg], not a DOM node, to
    [XMLSerializer.serializeToString], which throws a [TypeError]: on
    every page and in every browser the function stops there, having
    changed nothing. *)
Theorem copyGraphToPNG4_throws (E : env) (w : world) :
  copyGraphToPNG4 E w = Throw (TypeError "parameter 1 of serializeToString is not of type Node") w.
Proof. reflexivity. Qed.

(** [copyGraphToPNG3] copies the document's first canvas, not the one it
    creates (which is never attached), and throws on a page without a
    canvas. *)
Lemma copyGraphToPNG3_spec (E : env) (w : world) :
  wf w = true ->
  match pageCanvases w with
  | [] => copyGraphToPNG3 E w =
            Throw (TypeError "Cannot read property getContext of null")
                  (setCanvases (canvases w ++ [[]]) (setOnbeforeunload false w))
  | c :: _ => exists w', copyGraphToPNG3 E w = Ok tt w' /\
                copyImageDiv w' = copyImageDiv w ++ [PngOf (nth c (canvases w) [])]
  end.
Proof.
  intros Hw. apply wf_split in Hw as (_ & _ & H3).
  unfold copyGraphToPNG3, bind, clearOnbeforeunload, createCanvas, querySelectorCanvas, modify, gets.
  cbn [pageCanvases canvases setCanvases setOnbeforeunload].
  destruct (pageCanvases w) as [|c cs] eqn:P; [reflexivity|].
  eexists. split; [reflexivity|]. cbn.
  cbn in H3. apply andb_prop in H3 as [H3 _]. apply Nat.ltb_lt in H3.
  now rewrite app_nth1.
Qed.

(** C38 (one image for many svgs): in a browser with a Blob and a URL
    API, [toImage] on svgs [sel ++ [e]] leaves [#copyImage] with the size
    ([1/1.8] of it) and the Blob URL of the last svg [e], the Blob holding
    [e]'s markup; its load handlers, one per svg, all run on the one
    load of [#copyImage]: the image ends up in the place of [e] and every
    other selected svg is removed from the page without an image. *)
Theorem toImage_last_svg (E : env) (sel : list svgElem) (e : svgElem) (w : world) :
  hasBlob E || hasMSBlobBuilder E = true -> hasURL E || hasWebkitURL E = true ->
  loadHandlers (dest w) = [] ->
  match toImage E (sel ++ [e]) w with
  | Ok _ w' =>
      destWidth (dest w') = Some (svgWidth e / (9 # 5))%Q /\
      destHeight (dest w') = Some (svgHeight e / (9 # 5))%Q /\
      destSrc (dest w') = Some (BlobUrl (List.length (blobs w) + List.length sel)) /\
      nth_error (blobs w') (List.length (blobs w) + List.length sel) = Some (Blob (svgMarkup e) svgType) /\
      container (settle w') =
        map (placeAt (svgId e))
            (filter (fun n => negb (isDest n) && notIn (map svgId sel) n) (container w))
  | Throw _ _ => False
  end.
Proof.
  intros HB HU H0. rewrite toImage_run by assumption. rewrite fold_left_app. cbn [fold_left].
  set (y := fold_left (fun w e => destStep e w) sel w).
  pose proof (destSteps_shape sel w) as P. cbv zeta in P. fold y in P. destruct P as (G1 & G2 & G3).
  unfold destStep. cbn [dest destWidth destHeight destSrc blobs setTasks setDest setBlobs].
  rewrite G3, length_app, length_map. repeat split.
  - rewrite <- (length_map (fun e => Blob (svgMarkup e) svgType) sel), <- length_app.
    apply nth_error_last.
  - erewrite settle_container; [| reflexivity |].
    + cbn [dest loadHandlers container setTasks setDest setBlobs]. rewrite G1, G2, H0, fold_left_app.
      cbn [app fold_left]. rewrite replaceWith_single. f_equal.
      rewrite <- (map_map svgId (fun i => [i])). apply replace_chain.
    + intros t Ht. apply filter_In in Ht as [_ Ht]. now intros ->.
Qed.

Lemma toImage_last_svg_witness :
  (hasBlob sampleEnv || hasMSBlobBuilder sampleEnv = true /\
   hasURL sampleEnv || hasWebkitURL sampleEnv = true /\
   loadHandlers (dest sampleWorld) = []) /\
  match toImage sampleEnv ([chartSvg] ++ [otherSvg]) sampleWorld with
  | Ok _ w' =>
      destWidth (dest w') = Some (svgWidth otherSvg / (9 # 5))%Q /\
      destHeight (dest w') = Some (svgHeight otherSvg / (9 # 5))%Q /\
      destSrc (dest w') = Some (BlobUrl (List.length (blobs sampleWorld) + List.length [chartSvg])) /\
      nth_error (blobs w') (List.length (blobs sampleWorld) + List.length [chartSvg]) =
        Some (Blob (svgMarkup otherSvg) svgType) /\
      container (settle w') =
        map (placeAt (svgId otherSvg))
            (filter (fun n => negb (isDest n) && notIn (map svgId [chartSvg]) n) (container sampleWorld))
  | Throw _ _ => False
  end.
Proof. split; [repeat split | apply toImage_last_svg; reflexivity]. Defined.

End ImageCopy.
